(** * The classification / extraction decision pipeline

    A shallow embedding of the backend services that score, coerce,
    validate and locate the values an LLM extracts from OCR text:
    [ConfidenceCalculator], [TypeCoercionService], [ValidationService],
    [ToolRegistry], [OllamaClient.chatWithTools], [LearningService],
    [ClassificationService.classify] and [ExtractionService].

    Conventions of the embedding.
    - A JavaScript string is the list of its UTF-16 code units, so that
      [length], [lastIndexOf] and [substring] count what the source counts.
    - A JavaScript number is [NaN], a signed infinity or an exact rational:
      comparisons, [Math.min], [Math.max] and division by zero behave as in
      the source; the rounding of binary64 arithmetic and the sign of zero
      are not represented; [Spec.withinRounding] states how far the rounded
      result of the source may lie from the rational one.
    - A JavaScript object is the list of its own properties, in insertion
      order.  The object [coerceAllFields] fills key by key also carries
      its prototype, which an assignment to [__proto__] replaces; the
      members of the built-in prototypes are not represented, and the
      statements that read a property by a variable name exclude their
      names ([isBuiltinMember]).
    - Everything the services obtain from outside (the LLM, the correction
      store, the settings table, [JSON.parse], the zod schemas) is an oracle
      of an environment record; a service call is a computation in a state
      and exception monad over the history of those interactions. *)

From Stdlib Require Import ZArith NArith QArith Qabs Qminmax Qround Lia Lqa.
From Stdlib Require Qcanon.
From Stdlib Require Import List Ascii String Bool.
From stdpp Require Import gmap list.
Import ListNotations.

Set Warnings "-register-all".
Local Open Scope Z_scope.

(* ================================================================== *)
(** ** JavaScript strings, as lists of UTF-16 code units *)
(* ================================================================== *)

Module JsString.

Definition jschar := N.
Definition jsstring := list N.

(** String literals of the source that are plain ASCII. *)
Definition str (s : string) : jsstring :=
  List.map N_of_ascii (list_ascii_of_string s).

(** Literals that contain double quotes: in the argument of [strq] the
    back-quote stands for the double quote (a template literal cannot
    contain an unescaped back-quote, so no source text is lost). *)
Definition strq (s : string) : jsstring :=
  List.map (fun c => if N.eqb c 96 then 34%N else c) (str s).

Fixpoint eqb (a b : jsstring) : bool :=
  match a, b with
  | [], [] => true
  | x :: a', y :: b' => N.eqb x y && eqb a' b'
  | _, _ => false
  end.

Definition len (s : jsstring) : Z := Z.of_nat (List.length s).

(** [\s] of a regular expression, and the characters [trim] removes:
    WhiteSpace and LineTerminator of the language specification. *)
Definition isWhiteSpace (c : jschar) : bool :=
  ((9 <=? c) && (c <=? 13) || N.eqb c 32 || N.eqb c 160 || N.eqb c 5760
   || (8192 <=? c) && (c <=? 8202) || N.eqb c 8232 || N.eqb c 8233
   || N.eqb c 8239 || N.eqb c 8287 || N.eqb c 12288 || N.eqb c 65279)%N.

(** [\d] *)
Definition isDigit (c : jschar) : bool := ((48 <=? c) && (c <=? 57))%N.

Definition isLowerAlpha (c : jschar) : bool := ((97 <=? c) && (c <=? 122))%N.

Fixpoint trimStart (s : jsstring) : jsstring :=
  match s with
  | c :: s' => if isWhiteSpace c then trimStart s' else s
  | [] => []
  end.

Definition trimEnd (s : jsstring) : jsstring :=
  List.rev (trimStart (List.rev s)).

Definition trim (s : jsstring) : jsstring := trimEnd (trimStart s).

Fixpoint startsWith (s prefix : jsstring) : bool :=
  match prefix, s with
  | [], _ => true
  | p :: prefix', c :: s' => N.eqb p c && startsWith s' prefix'
  | _ :: _, [] => false
  end.

Definition endsWith (s suffix : jsstring) : bool :=
  startsWith (List.rev s) (List.rev suffix).

Fixpoint includes (s sub : jsstring) : bool :=
  startsWith s sub ||
  match s with
  | [] => false
  | _ :: s' => includes s' sub
  end.

Definition includesChar (s : jsstring) (c : jschar) : bool :=
  List.existsb (N.eqb c) s.

(** [s.lastIndexOf(c)] for a one-character needle: [-1] when absent. *)
Fixpoint lastIndexOfFrom (i : Z) (s : jsstring) (c : jschar) : Z :=
  match s with
  | [] => -1
  | x :: s' =>
      let later := lastIndexOfFrom (i + 1) s' c in
      if 0 <=? later then later else if N.eqb x c then i else -1
  end.

Definition lastIndexOf (s : jsstring) (c : jschar) : Z :=
  lastIndexOfFrom 0 s c.

Definition countChar (s : jsstring) (c : jschar) : Z :=
  Z.of_nat (List.length (List.filter (N.eqb c) s)).

(** [s.substring(a, b)]: both ends clamped to [0, length] and swapped
    when out of order. *)
Definition clampIndex (s : jsstring) (i : Z) : nat :=
  Z.to_nat (Z.min (Z.max 0 i) (len s)).

Definition substring (s : jsstring) (a b : Z) : jsstring :=
  let a' := clampIndex s a in
  let b' := clampIndex s b in
  let lo := Nat.min a' b' in
  let hi := Nat.max a' b' in
  List.firstn (hi - lo) (List.skipn lo s).

(** [s.substring(a)] *)
Definition substringFrom (s : jsstring) (a : Z) : jsstring :=
  substring s a (len s).

(** [s.replace(/[class]/g, '')] for a character class. *)
Definition removeAll (class : jschar -> bool) (s : jsstring) : jsstring :=
  List.filter (fun c => negb (class c)) s.

(** [s.replace(c, r)] with a one-character string pattern: only the
    first occurrence is replaced. *)
Fixpoint replaceFirst (s : jsstring) (c : jschar) (r : jsstring) : jsstring :=
  match s with
  | [] => []
  | x :: s' => if N.eqb x c then r ++ s' else x :: replaceFirst s' c r
  end.

(** [s.split(c)] with a one-character separator. *)
Fixpoint split (s : jsstring) (c : jschar) : list jsstring :=
  match s with
  | [] => [[]]
  | x :: s' =>
      match split s' c with
      | piece :: pieces =>
          if N.eqb x c then [] :: piece :: pieces else (x :: piece) :: pieces
      | [] => [[x]]
      end
  end.

(** [s.split(/\s+/).length]: one more than the number of maximal runs
    of white space. *)
Fixpoint whitespaceRuns (inRun : bool) (s : jsstring) : nat :=
  match s with
  | [] => 0
  | c :: s' =>
      if isWhiteSpace c
      then (if inRun then 0 else 1) + whitespaceRuns true s'
      else whitespaceRuns false s'
  end%nat.

Definition splitWhitespaceCount (s : jsstring) : Z :=
  Z.of_nat (S (whitespaceRuns false s)).

(** [toLowerCase]: exact on Basic Latin and Latin-1, and on the two code
    points outside them whose lower case is an ASCII letter (U+0130 and
    the Kelvin sign U+212A); other scripts are left as they are. *)
Definition lowerChar (c : jschar) : jsstring :=
  (if (65 <=? c) && (c <=? 90) then [c + 32]
   else if (192 <=? c) && (c <=? 222) && negb (N.eqb c 215) then [c + 32]
   else if N.eqb c 304 then [105; 775]
   else if N.eqb c 8490 then [107]
   else if N.eqb c 8491 then [229]
   else [c])%N.

Definition toLowerCase (s : jsstring) : jsstring :=
  List.concat (List.map lowerChar s).

Definition join (sep : jsstring) (l : list jsstring) : jsstring :=
  match l with
  | [] => []
  | x :: l' => x ++ List.concat (List.map (fun y => sep ++ y) l')
  end.

(** Decimal digits of a non-negative integer. *)
Fixpoint digitsFuel (fuel : nat) (n : N) (acc : jsstring) : jsstring :=
  match fuel with
  | O => acc
  | S fuel' =>
      let acc' := (48 + n mod 10)%N :: acc in
      if (n <? 10)%N then acc' else digitsFuel fuel' (n / 10)%N acc'
  end.

Definition natDigits (n : N) : jsstring :=
  digitsFuel (S (N.to_nat (N.log2 n))) n [].

Definition intDigits (z : Z) : jsstring :=
  if z <? 0 then 45%N :: natDigits (Z.to_N (- z)) else natDigits (Z.to_N z).

End JsString.
Export JsString.

(* ================================================================== *)
(** ** JavaScript numbers *)
(* ================================================================== *)

Module JsNumber.

Inductive number : Type :=
| NaN
| Inf (negative : bool)
| Fin (q : Q).

(** The order of the relational operators: undefined as soon as one
    operand is [NaN]. *)
Definition compare (a b : number) : option comparison :=
  match a, b with
  | NaN, _ | _, NaN => None
  | Inf na, Inf nb =>
      Some (match na, nb with
            | true, false => Lt
            | false, true => Gt
            | _, _ => Eq
            end)
  | Inf true, Fin _ => Some Lt
  | Inf false, Fin _ => Some Gt
  | Fin _, Inf true => Some Gt
  | Fin _, Inf false => Some Lt
  | Fin x, Fin y => Some (Qcompare x y)
  end.

Definition lt (a b : number) : bool :=
  match compare a b with Some Lt => true | _ => false end.
Definition gt (a b : number) : bool := lt b a.
Definition le (a b : number) : bool :=
  match compare a b with Some Lt | Some Eq => true | _ => false end.
Definition ge (a b : number) : bool := le b a.
(** [===] on numbers *)
Definition eqb (a b : number) : bool :=
  match compare a b with Some Eq => true | _ => false end.

Definition isNaN (a : number) : bool :=
  match a with NaN => true | _ => false end.

Definition isZero (a : number) : bool :=
  match a with Fin q => Qeq_bool q 0 | _ => false end.

Definition neg (a : number) : number :=
  match a with
  | NaN => NaN
  | Inf n => Inf (negb n)
  | Fin q => Fin (- q)
  end.

Definition isNegative (q : Q) : bool :=
  match Qcompare q 0 with Lt => true | _ => false end.

Definition mul (a b : number) : number :=
  match a, b with
  | NaN, _ | _, NaN => NaN
  | Inf na, Inf nb => Inf (xorb na nb)
  | Inf n, Fin q | Fin q, Inf n =>
      if Qeq_bool q 0 then NaN else Inf (xorb n (isNegative q))
  | Fin x, Fin y => Fin (x * y)
  end.

Definition add (a b : number) : number :=
  match a, b with
  | NaN, _ | _, NaN => NaN
  | Inf na, Inf nb => if Bool.eqb na nb then Inf na else NaN
  | Inf n, Fin _ | Fin _, Inf n => Inf n
  | Fin x, Fin y => Fin (x + y)
  end.

Definition sub (a b : number) : number := add a (neg b).

Definition div (a b : number) : number :=
  match a, b with
  | NaN, _ | _, NaN => NaN
  | Inf _, Inf _ => NaN
  | Inf n, Fin q => Inf (xorb n (isNegative q))
  | Fin _, Inf _ => Fin 0
  | Fin x, Fin y =>
      if Qeq_bool y 0
      then (if Qeq_bool x 0 then NaN else Inf (isNegative x))
      else Fin (x / y)
  end.

Definition Math_min (a b : number) : number :=
  match compare a b with
  | None => NaN
  | Some Gt => b
  | Some _ => a
  end.

Definition Math_max (a b : number) : number :=
  match compare a b with
  | None => NaN
  | Some Lt => b
  | Some _ => a
  end.

(** [Math.round]: the integer nearest to the argument, ties upwards. *)
Definition Math_round (a : number) : number :=
  match a with
  | Fin q => Fin (inject_Z (Qfloor (q + (1 # 2))))
  | _ => a
  end.

Definition ofZ (z : Z) : number := Fin (inject_Z z).

(** Equality of the values two numbers denote. *)
Definition sameValue (a b : number) : Prop :=
  match a, b with
  | NaN, NaN => True
  | Inf na, Inf nb => na = nb
  | Fin x, Fin y => Qeq x y
  | _, _ => False
  end.

(** [parseFloat]: optional leading white space and sign, then the
    longest prefix that is a decimal literal ([Infinity], or digits with
    an optional fraction and an optional exponent); [NaN] when there is
    no such prefix. *)
Fixpoint spanDigits (s : jsstring) : jsstring * jsstring :=
  match s with
  | c :: s' =>
      if isDigit c
      then let (d, r) := spanDigits s' in (c :: d, r)
      else ([], s)
  | [] => ([], [])
  end.

Definition digitsValue (d : jsstring) : Z :=
  List.fold_left (fun acc c => 10 * acc + (Z.of_N c - 48)) d 0.

Definition parseExponent (s : jsstring) : Z :=
  match s with
  | c :: s' =>
      if N.eqb c 101 || N.eqb c 69
      then
        let '(negative, s'') :=
          match s' with
          | 45%N :: t => (true, t)
          | 43%N :: t => (false, t)
          | _ => (false, s')
          end in
        let (d, _) := spanDigits s'' in
        match d with
        | [] => 0
        | _ => if negative then - digitsValue d else digitsValue d
        end
      else 0
  | [] => 0
  end.

Definition parseFloat (s : jsstring) : number :=
  let s0 := trimStart s in
  let '(negative, s1) :=
    match s0 with
    | 45%N :: t => (true, t)
    | 43%N :: t => (false, t)
    | _ => (false, s0)
    end in
  if startsWith s1 (str "Infinity") then Inf negative
  else
    let (ip, r1) := spanDigits s1 in
    let (fp, r2) :=
      match r1 with
      | 46%N :: t => spanDigits t
      | _ => ([], r1)
      end in
    match ip, fp with
    | [], [] => NaN
    | _, _ =>
        let mantissa := digitsValue (ip ++ fp) in
        let e := parseExponent r2 - len fp in
        let magnitude := Qred (inject_Z mantissa * Qpower 10 e) in
        Fin (if negative then Qred (- magnitude) else magnitude)
    end.

End JsNumber.
Export JsNumber.

(* ================================================================== *)
(** ** JavaScript values, errors and the runtime library *)
(* ================================================================== *)

Module JsValue.

(** What [JSON.parse] can produce, and [undefined]. *)
Inductive JsValue : Type :=
| VUndefined
| VNull
| VBool (b : bool)
| VNum (n : number)
| VStr (s : jsstring)
| VArr (items : list JsValue)
| VObj (props : list (jsstring * JsValue)).

Record JsError : Type := mkJsError {
  errName : jsstring;
  errMessage : jsstring
}.

Definition Error (message : jsstring) : JsError :=
  mkJsError (str "Error") message.
Definition TypeError (message : jsstring) : JsError :=
  mkJsError (str "TypeError") message.

(** [String(error)], that is [Error.prototype.toString]. *)
Definition errorToString (e : JsError) : jsstring :=
  match errName e, errMessage e with
  | name, [] => name
  | [], message => message
  | name, message => name ++ str ": " ++ message
  end.

(** A call either returns or throws. *)
Inductive result (A : Type) : Type :=
| Ok (a : A)
| Throw (e : JsError).
Arguments Ok {A} a.
Arguments Throw {A} e.

(** The parts of the runtime the services call and this development
    does not define: they are the same for every call. *)
Record Runtime : Type := {
  (** [Number.prototype.toString] on a finite number that is not an
      integer below 10^21 *)
  numberToString : Q -> jsstring;
  (** [ToNumber] on a value that is not a number *)
  toNumberOther : JsValue -> number;
  JSON_parse : jsstring -> result JsValue;
  (** [JSON.stringify(value, null, 2)] *)
  JSON_stringify_indented : JsValue -> jsstring;
  (** [new Date(string)], as local year, month (from 0) and day, or
      [None] for an invalid date *)
  Date_parse : jsstring -> option (Z * Z * Z)
}.

Fixpoint lookupProp (props : list (jsstring * JsValue)) (name : jsstring)
  : option JsValue :=
  match props with
  | [] => None
  | (k, v) :: props' =>
      if JsString.eqb k name then Some v else lookupProp props' name
  end.

(** [obj[name] = v] on the property list of an object *)
Fixpoint setProp (props : list (jsstring * JsValue)) (name : jsstring)
  (v : JsValue) : list (jsstring * JsValue) :=
  match props with
  | [] => [(name, v)]
  | (k, old) :: props' =>
      if JsString.eqb k name then (k, v) :: props'
      else (k, old) :: setProp props' name v
  end.

(** [v.name] for a property name that no prototype defines: reading a
    property of [null] or [undefined] throws, a missing property is
    [undefined]. *)
Definition getProp (v : JsValue) (name : jsstring) : result JsValue :=
  match v with
  | VUndefined =>
      Throw (TypeError (str "Cannot read properties of undefined (reading '"
                        ++ name ++ str "')"))
  | VNull =>
      Throw (TypeError (str "Cannot read properties of null (reading '"
                        ++ name ++ str "')"))
  | VObj props =>
      Ok (match lookupProp props name with Some x => x | None => VUndefined end)
  | _ => Ok VUndefined
  end.

Definition truthy (v : JsValue) : bool :=
  match v with
  | VUndefined | VNull => false
  | VBool b => b
  | VNum n => negb (isNaN n || isZero n)
  | VStr s => match s with [] => false | _ => true end
  | VArr _ | VObj _ => true
  end.

Definition numToString (rt : Runtime) (n : number) : jsstring :=
  match n with
  | NaN => str "NaN"
  | Inf false => str "Infinity"
  | Inf true => str "-Infinity"
  | Fin q =>
      let r := Qred q in
      if Pos.eqb (Qden r) 1 && (Z.abs (Qnum r) <? 10 ^ 21)
      then intDigits (Qnum r)
      else numberToString rt q
  end.

(** [String(v)] *)
Fixpoint toStr (rt : Runtime) (v : JsValue) : jsstring :=
  match v with
  | VUndefined => str "undefined"
  | VNull => str "null"
  | VBool true => str "true"
  | VBool false => str "false"
  | VNum n => numToString rt n
  | VStr s => s
  | VArr items =>
      join (str ",")
        (List.map (fun x => match x with
                            | VUndefined | VNull => []
                            | _ => toStr rt x
                            end) items)
  | VObj _ => str "[object Object]"
  end.

(** [ToNumber] *)
Definition toNumber (rt : Runtime) (v : JsValue) : number :=
  match v with
  | VNum n => n
  | VUndefined => NaN
  | VNull => Fin 0
  | VBool true => Fin 1
  | VBool false => Fin 0
  | _ => toNumberOther rt v
  end.

(** *** [JSON.stringify] without indentation *)

Definition hexDigit (n : N) : jschar :=
  (if n <? 10 then 48 + n else 87 + n)%N.

Definition unicodeEscape (c : jschar) : jsstring :=
  [92; 117; hexDigit (c / 4096 mod 16); hexDigit (c / 256 mod 16);
   hexDigit (c / 16 mod 16); hexDigit (c mod 16)]%N.

Definition isHighSurrogate (c : jschar) : bool :=
  ((55296 <=? c) && (c <=? 56319))%N.
Definition isLowSurrogate (c : jschar) : bool :=
  ((56320 <=? c) && (c <=? 57343))%N.

Definition escapeChar (c : jschar) : jsstring :=
  (if N.eqb c 8 then [92; 98]
   else if N.eqb c 9 then [92; 116]
   else if N.eqb c 10 then [92; 110]
   else if N.eqb c 12 then [92; 102]
   else if N.eqb c 13 then [92; 114]
   else if N.eqb c 34 then [92; 34]
   else if N.eqb c 92 then [92; 92]
   else if c <? 32 then unicodeEscape c
   else [c])%N.

Fixpoint quoteChars (s : jsstring) : jsstring :=
  match s with
  | [] => []
  | c :: s' =>
      if isHighSurrogate c then
        match s' with
        | d :: s'' =>
            if isLowSurrogate d then c :: d :: quoteChars s''
            else unicodeEscape c ++ quoteChars s'
        | [] => unicodeEscape c
        end
      else if isLowSurrogate c then unicodeEscape c ++ quoteChars s'
      else escapeChar c ++ quoteChars s'
  end.

Definition JSON_quote (s : jsstring) : jsstring :=
  [34%N] ++ quoteChars s ++ [34%N].

(** [None] is the [undefined] that [JSON.stringify(undefined)] returns. *)
Fixpoint JSON_stringify (rt : Runtime) (v : JsValue) : option jsstring :=
  match v with
  | VUndefined => None
  | VNull => Some (str "null")
  | VBool true => Some (str "true")
  | VBool false => Some (str "false")
  | VNum (Fin q) => Some (numToString rt (Fin q))
  | VNum _ => Some (str "null")
  | VStr s => Some (JSON_quote s)
  | VArr items =>
      Some (str "[" ++
            join (str ",")
              (List.map (fun x => match JSON_stringify rt x with
                                  | Some t => t
                                  | None => str "null"
                                  end) items)
            ++ str "]")
  | VObj props =>
      Some (str "{" ++
            join (str ",")
              (List.concat
                 (List.map (fun kv => match JSON_stringify rt (snd kv) with
                                      | Some t => [JSON_quote (fst kv) ++ str ":" ++ t]
                                      | None => []
                                      end) props))
            ++ str "}")
  end.

(** [JSON.stringify] of a value that is not [undefined] *)
Definition JSON_stringify_value (rt : Runtime) (v : JsValue) : jsstring :=
  match JSON_stringify rt v with
  | Some t => t
  | None => str "undefined"
  end.

(** The names of the members of [Object.prototype], which every object
    literal and every object built by [JSON.parse] inherits: functions,
    and the accessor [__proto__]. *)
Definition OBJECT_PROTOTYPE_MEMBERS : list jsstring :=
  List.map str
    ["constructor"; "__defineGetter__"; "__defineSetter__"; "hasOwnProperty";
     "__lookupGetter__"; "__lookupSetter__"; "isPrototypeOf";
     "propertyIsEnumerable"; "toString"; "valueOf"; "__proto__";
     "toLocaleString"]%string.

(** The names of the members of [Array.prototype] (ECMAScript 2023) *)
Definition ARRAY_PROTOTYPE_MEMBERS : list jsstring :=
  List.map str
    ["at"; "concat"; "copyWithin"; "entries"; "every"; "fill"; "filter";
     "find"; "findIndex"; "findLast"; "findLastIndex"; "flat"; "flatMap";
     "forEach"; "includes"; "indexOf"; "join"; "keys"; "lastIndexOf"; "map";
     "pop"; "push"; "reduce"; "reduceRight"; "reverse"; "shift"; "slice";
     "some"; "sort"; "splice"; "toReversed"; "toSorted"; "toSpliced";
     "unshift"; "values"; "with"]%string.

(** A name that a built-in prototype defines: read on an object that
    has no such property of its own, it gives a function (or runs the
    accessor), which [JsValue] does not represent. *)
Definition isBuiltinMember (name : jsstring) : bool :=
  List.existsb (JsString.eqb name)
    (OBJECT_PROTOTYPE_MEMBERS ++ ARRAY_PROTOTYPE_MEMBERS).

End JsValue.
Export JsValue.

(* ================================================================== *)
(** ** ConfidenceCalculator *)
(* ================================================================== *)

Module ConfidenceCalculator.

Definition CONFIDENCE_MIN : number := Fin 0.
Definition CONFIDENCE_MAX : number := Fin 1.
Definition DEFAULT_LLM_CONFIDENCE : number := Fin 0.8.
Definition VALIDATION_CONFIDENCE_PASS : number := Fin 1.0.
Definition VALIDATION_CONFIDENCE_FAIL : number := Fin 0.3.
Definition CLARITY_CONFIDENCE_NO_TEXT : number := Fin 0.4.
Definition CLARITY_CONFIDENCE_NO_KEYWORDS : number := Fin 1.0.
Definition CLARITY_CONFIDENCE_ALL_KEYWORDS : number := Fin 1.0.
Definition CLARITY_CONFIDENCE_MOST_KEYWORDS : number := Fin 0.7.
Definition CLARITY_CONFIDENCE_FEW_KEYWORDS : number := Fin 0.4.
Definition KEYWORD_MATCH_RATIO_FULL : number := Fin 1.0.
Definition KEYWORD_MATCH_RATIO_PARTIAL : number := Fin 0.5.
Definition LLM_CONFIDENCE_LOW_THRESHOLD : number := Fin 0.7.
Definition CLARITY_CONFIDENCE_LOW_THRESHOLD : number := Fin 0.7.
Definition VALIDATION_CONFIDENCE_CRITICAL_THRESHOLD : number := Fin 0.3.
Definition CLARITY_CONFIDENCE_POOR_THRESHOLD : number := Fin 0.4.
Definition DEFAULT_CONFIDENCE_THRESHOLD : number := Fin 0.7.
Definition FIELD_CLARITY_CONFIDENCE : number := Fin 0.8.
Definition CLASSIFICATION_VALIDATION_CONFIDENCE : number := Fin 1.0.

Definition EXPECTED_KEYWORDS_MAP : gmap jsstring (list jsstring) :=
  list_to_map
    [ (str "Bank Statement",
        List.map str ["account"; "balance"; "statement"; "bank"; "transaction"]%string);
      (str "Government ID",
        List.map str ["license"; "identification"; "id"; "expires";
                      "date of birth"; "dob"]%string);
      (str "W-9",
        List.map str ["w-9"; "tax"; "ein"; "ssn"; "irs"; "taxpayer"]%string);
      (str "Certificate of Insurance",
        List.map str ["insurance"; "policy"; "certificate"; "coverage";
                      "insured"]%string);
      (str "Articles of Incorporation",
        List.map str ["articles"; "incorporation"; "state"; "corporation";
                      "entity"; "filed"]%string) ].

Record ConfidenceBreakdown : Type := mkBreakdown {
  llm_confidence : number;
  validation_confidence : number;
  clarity_confidence : number;
  final_confidence : number;
  reasons : option (list jsstring)
}.

(** [Omit<ConfidenceBreakdown, 'final_confidence'>] *)
Record ConfidenceFactors : Type := mkFactors {
  llm : number;
  validation : number;
  clarity : number;
  priorReasons : option (list jsstring)
}.

Definition clampConfidence (value : number) : number :=
  Math_max CONFIDENCE_MIN (Math_min CONFIDENCE_MAX value).

Definition calculateMatchRatio (foundKeywords totalKeywords : Z) : number :=
  div (ofZ foundKeywords) (ofZ totalKeywords).

Definition mapMatchRatioToClarityConfidence (matchRatio : number) : number :=
  if ge matchRatio KEYWORD_MATCH_RATIO_FULL then CLARITY_CONFIDENCE_ALL_KEYWORDS
  else if ge matchRatio KEYWORD_MATCH_RATIO_PARTIAL then CLARITY_CONFIDENCE_MOST_KEYWORDS
  else CLARITY_CONFIDENCE_FEW_KEYWORDS.

Definition calculateLLMConfidence (modelOutput : JsValue) : number :=
  match modelOutput with
  | VNum n => clampConfidence n
  | _ =>
      if truthy modelOutput then
        match getProp modelOutput (str "confidence") with
        | Ok (VNum n) => clampConfidence n
        | _ => DEFAULT_LLM_CONFIDENCE
        end
      else DEFAULT_LLM_CONFIDENCE
  end.

Definition calculateValidationConfidence (isValid : bool)
  (validationErrors : option (list jsstring)) : number :=
  if isValid then VALIDATION_CONFIDENCE_PASS
  else
    match validationErrors with
    | Some (_ :: _) => VALIDATION_CONFIDENCE_FAIL
    | _ => VALIDATION_CONFIDENCE_FAIL
    end.

Definition calculateClarityConfidence (text : jsstring)
  (expectedKeywords : list jsstring) : number :=
  match trim text with
  | [] => CLARITY_CONFIDENCE_NO_TEXT
  | _ =>
      match expectedKeywords with
      | [] => CLARITY_CONFIDENCE_NO_KEYWORDS
      | _ =>
          let lowerText := toLowerCase text in
          let foundKeywords :=
            List.filter (fun keyword => includes lowerText (toLowerCase keyword))
              expectedKeywords in
          let matchRatio :=
            calculateMatchRatio (Z.of_nat (List.length foundKeywords))
              (Z.of_nat (List.length expectedKeywords)) in
          mapMatchRatioToClarityConfidence matchRatio
      end
  end.

Definition calculateFinalConfidence (breakdown : ConfidenceFactors)
  : ConfidenceBreakdown :=
  let final_confidence :=
    mul (mul (llm breakdown) (validation breakdown)) (clarity breakdown) in
  {| llm_confidence := llm breakdown;
     validation_confidence := validation breakdown;
     clarity_confidence := clarity breakdown;
     final_confidence := clampConfidence final_confidence;
     reasons := priorReasons breakdown |}.

Definition REASON_MODEL_UNCERTAINTY (rt : Runtime) (llm_confidence : number)
  : jsstring :=
  str "Model uncertainty: The AI model was not confident in its prediction ("
  ++ numToString rt (Math_round (mul llm_confidence (Fin 100))) ++ str "%)".
Definition REASON_VALIDATION_FAILED : jsstring :=
  str "Validation failed: Extracted data does not match expected format or contains errors".
Definition REASON_PARTIAL_VALIDATION : jsstring :=
  str "Partial validation: Some extracted fields have format issues".
Definition REASON_POOR_QUALITY : jsstring :=
  str "Poor document quality: Document may be unclear, missing expected text, or heavily degraded".
Definition REASON_MISSING_KEYWORDS : jsstring :=
  str "Missing keywords: Document does not contain all expected identifying information".
Definition REASON_COMBINED_FACTORS : jsstring :=
  str "Combined factors: Multiple confidence components are slightly below optimal levels".

(** The array [reasons] of the source is built by [push]: each step
    below appends to what the previous ones produced. *)
Definition generateLowConfidenceReasons (rt : Runtime)
  (breakdown : ConfidenceBreakdown) (threshold : option number)
  : list jsstring :=
  let threshold :=
    match threshold with
    | Some t => t
    | None => DEFAULT_CONFIDENCE_THRESHOLD
    end in
  let reasons : list jsstring := [] in
  if ge (final_confidence breakdown) threshold then reasons
  else
    let reasons :=
      if lt (llm_confidence breakdown) LLM_CONFIDENCE_LOW_THRESHOLD
      then reasons ++ [REASON_MODEL_UNCERTAINTY rt (llm_confidence breakdown)]
      else reasons in
    let reasons :=
      if lt (validation_confidence breakdown) VALIDATION_CONFIDENCE_PASS
      then
        if le (validation_confidence breakdown)
              VALIDATION_CONFIDENCE_CRITICAL_THRESHOLD
        then reasons ++ [REASON_VALIDATION_FAILED]
        else reasons ++ [REASON_PARTIAL_VALIDATION]
      else reasons in
    let reasons :=
      if lt (clarity_confidence breakdown) CLARITY_CONFIDENCE_LOW_THRESHOLD
      then
        if le (clarity_confidence breakdown) CLARITY_CONFIDENCE_POOR_THRESHOLD
        then reasons ++ [REASON_POOR_QUALITY]
        else reasons ++ [REASON_MISSING_KEYWORDS]
      else reasons in
    match reasons with
    | [] => reasons ++ [REASON_COMBINED_FACTORS]
    | _ => reasons
    end.

Definition getExpectedKeywords (documentType : jsstring) : list jsstring :=
  match EXPECTED_KEYWORDS_MAP !! documentType with
  | Some keywords => keywords
  | None => []
  end.

Definition nonEmpty (reasons : list jsstring) : option (list jsstring) :=
  match reasons with
  | [] => None
  | _ => Some reasons
  end.

Definition withReasons (breakdown : ConfidenceBreakdown)
  (rs : option (list jsstring)) : ConfidenceBreakdown :=
  {| llm_confidence := llm_confidence breakdown;
     validation_confidence := validation_confidence breakdown;
     clarity_confidence := clarity_confidence breakdown;
     final_confidence := final_confidence breakdown;
     reasons := rs |}.

Definition calculateClassificationConfidence (rt : Runtime)
  (modelOutput : JsValue) (ocrText : jsstring) (predictedType : jsstring)
  (threshold : option number) : ConfidenceBreakdown :=
  let llm_confidence := calculateLLMConfidence modelOutput in
  let validation_confidence := CLASSIFICATION_VALIDATION_CONFIDENCE in
  let keywords := getExpectedKeywords predictedType in
  let clarity_confidence := calculateClarityConfidence ocrText keywords in
  let breakdown :=
    calculateFinalConfidence
      (mkFactors llm_confidence validation_confidence clarity_confidence None) in
  let reasons := generateLowConfidenceReasons rt breakdown threshold in
  withReasons breakdown (nonEmpty reasons).

Definition calculateFieldConfidence (rt : Runtime)
  (modelOutput : JsValue) (isValid : bool) (ocrText fieldName : jsstring)
  (validationErrors : option (list jsstring)) (threshold : option number)
  : ConfidenceBreakdown :=
  let llm_confidence := calculateLLMConfidence modelOutput in
  let validation_confidence :=
    calculateValidationConfidence isValid validationErrors in
  let clarity_confidence := FIELD_CLARITY_CONFIDENCE in
  let breakdown :=
    calculateFinalConfidence
      (mkFactors llm_confidence validation_confidence clarity_confidence None) in
  let reasons := generateLowConfidenceReasons rt breakdown threshold in
  withReasons breakdown (nonEmpty reasons).

End ConfidenceCalculator.

(* ================================================================== *)
(** ** The zod schemas of the document types, and SchemaStore *)
(* ================================================================== *)

Module Zod.

(** The [_def] of a schema object: its [typeName] and what it wraps.
    A string schema carries the source text of its [regex] check. *)
Inductive ZodDef : Type :=
| ZodString (pattern : option jsstring)
| ZodNumber
| ZodBoolean
| ZodArray (item : ZodDef)
| ZodEnum (values : list jsstring)
| ZodOptional (innerType : ZodDef)
| ZodNullable (innerType : ZodDef)
| ZodUnion (options : list ZodDef).

(** [z.object({...})]: the [shape], in the order the keys are written. *)
Definition ZodObject : Type := list (jsstring * ZodDef).

(** [safeParse] succeeds or reports issues, the first of which may
    carry a message. *)
Inductive SafeParseResult : Type :=
| ParseSuccess
| ParseFailure (firstMessage : option jsstring).

Definition shapeLookup (shape : ZodObject) (fieldName : jsstring)
  : option ZodDef :=
  snd <$> List.find (fun kv => JsString.eqb (fst kv) fieldName) shape.

Definition DocumentTypeEnum : list jsstring :=
  List.map str ["Bank Statement"; "Government ID"; "W-9";
                "Certificate of Insurance"; "Articles of Incorporation";
                "Unknown"]%string.

(** [DocumentTypeEnum.safeParse(v).success]: the value is one of the
    six strings. *)
Definition isDocumentType (v : JsValue) : bool :=
  match v with
  | VStr s => List.existsb (JsString.eqb s) DocumentTypeEnum
  | _ => false
  end.

Definition isoDate : option jsstring := Some (str "^\d{4}-\d{2}-\d{2}$").

Definition BankStatementSchema : ZodObject :=
  [ (str "account_holder_name", ZodString (Some (str "^[A-Za-z\s]{2,}$")));
    (str "account_number_masked", ZodString (Some (str "^\*{4,}\d{4}$")));
    (str "statement_start_date", ZodString isoDate);
    (str "statement_end_date", ZodString isoDate);
    (str "starting_balance", ZodNumber);
    (str "ending_balance", ZodNumber) ].

Definition GovernmentIDSchema : ZodObject :=
  [ (str "full_name", ZodString (Some (str "^[A-Za-z\s]{2,}$")));
    (str "date_of_birth", ZodString isoDate);
    (str "id_number", ZodString None);
    (str "address", ZodString None);
    (str "expiration_date", ZodString isoDate) ].

Definition W9Schema : ZodObject :=
  [ (str "legal_name", ZodString None);
    (str "ein_or_ssn", ZodString (Some (str "^\d{2}-\d{7}$|^\d{3}-\d{2}-\d{4}$")));
    (str "business_address", ZodString None);
    (str "tax_classification",
      ZodEnum (List.map str ["Individual"; "C-Corp"; "S-Corp"; "Partnership";
                             "LLC"]%string));
    (str "signature_present", ZodBoolean) ].

Definition CertificateOfInsuranceSchema : ZodObject :=
  [ (str "insured_name", ZodString None);
    (str "policy_number", ZodString None);
    (str "policy_effective_date", ZodString isoDate);
    (str "policy_expiration_date", ZodString isoDate);
    (str "coverage_types", ZodArray (ZodString None)) ].

Definition ArticlesOfIncorporationSchema : ZodObject :=
  [ (str "entity_legal_name", ZodString None);
    (str "state", ZodString (Some (str "^[A-Z]{2}$")));
    (str "file_number", ZodString None);
    (str "filing_date", ZodString isoDate) ].

Definition UnknownDocumentSchema : ZodObject :=
  [ (str "notes", ZodOptional (ZodString None)) ].

End Zod.
Export Zod.

Module SchemaStore.

Record SchemaStore : Type := {
  schemas : gmap jsstring ZodObject;
  fieldKeywords : gmap jsstring (list (jsstring * list jsstring))
}.

Definition keywordsOf (l : list (string * list string))
  : list (jsstring * list jsstring) :=
  List.map (fun kv => (str (fst kv), List.map str (snd kv))) l.

Definition initializeSchemas : gmap jsstring ZodObject :=
  <[str "Unknown" := UnknownDocumentSchema]>
  (<[str "Articles of Incorporation" := ArticlesOfIncorporationSchema]>
  (<[str "Certificate of Insurance" := CertificateOfInsuranceSchema]>
  (<[str "W-9" := W9Schema]>
  (<[str "Government ID" := GovernmentIDSchema]>
  (<[str "Bank Statement" := BankStatementSchema]> ∅))))).

Definition initializeKeywords
  : gmap jsstring (list (jsstring * list jsstring)) :=
  <[str "Unknown" := keywordsOf
      [("notes", ["notes"; "comments"; "remarks"; "description"])]%string]>
  (<[str "Articles of Incorporation" := keywordsOf
      [("entity_legal_name",
         ["corporation"; "company name"; "name"; "entity name"; "legal name"]);
       ("state",
         ["state"; "jurisdiction"; "incorporated in"; "state of incorporation"]);
       ("file_number",
         ["filing"; "document number"; "file number"; "certificate number";
          "file #"]);
       ("filing_date",
         ["date"; "filed"; "filing date"; "effective date"; "date filed"])]%string]>
  (<[str "Certificate of Insurance" := keywordsOf
      [("insured_name",
         ["insured"; "name of insured"; "policyholder"; "named insured"]);
       ("policy_number",
         ["policy"; "policy number"; "certificate number"; "policy #"]);
       ("policy_effective_date",
         ["effective"; "effective date"; "from"; "start date"; "eff"]);
       ("policy_expiration_date",
         ["expiration"; "expires"; "expiry"; "to"; "end date"; "exp"]);
       ("coverage_types",
         ["coverage"; "type"; "liability"; "insurance type"; "coverages"])]%string]>
  (<[str "W-9" := keywordsOf
      [("legal_name", ["name"; "taxpayer name"; "business name"; "legal name"]);
       ("ein_or_ssn",
         ["ssn"; "ein"; "taxpayer identification"; "tin"; "tax id";
          "social security"]);
       ("business_address",
         ["address"; "street"; "business address"; "mailing address"]);
       ("tax_classification",
         ["classification"; "entity type"; "individual"; "corporation"; "llc";
          "partnership"]);
       ("signature_present",
         ["signature"; "signed"; "sign here"; "taxpayer signature"])]%string]>
  (<[str "Government ID" := keywordsOf
      [("full_name", ["name"; "full name"; "given name"; "legal name"]);
       ("date_of_birth",
         ["date of birth"; "dob"; "birth date"; "born"; "birthdate"]);
       ("id_number",
         ["number"; "id number"; "license number"; "passport number";
          "document number"]);
       ("address",
         ["address"; "residence"; "street"; "home address"; "residential"]);
       ("expiration_date",
         ["expiration"; "expires"; "exp"; "valid until"; "expiry date"])]%string]>
  (<[str "Bank Statement" := keywordsOf
      [("account_holder_name",
         ["account holder"; "name"; "customer"; "account name"]);
       ("account_number_masked",
         ["account number"; "account #"; "acct"; "account no"]);
       ("statement_start_date",
         ["period"; "from"; "beginning"; "start date"; "statement period"]);
       ("statement_end_date",
         ["period"; "to"; "ending"; "end date"; "through"]);
       ("starting_balance",
         ["opening"; "previous balance"; "beginning balance"; "prior balance"]);
       ("ending_balance",
         ["closing"; "current balance"; "ending balance"; "total";
          "final balance"])]%string]> ∅))))).

(** [new SchemaStore()] *)
Definition create : SchemaStore :=
  {| schemas := initializeSchemas; fieldKeywords := initializeKeywords |}.

Definition getSchema (store : SchemaStore) (documentType : jsstring)
  : option ZodObject :=
  schemas store !! documentType.

Definition getFieldKeywords (store : SchemaStore) (documentType : jsstring)
  : option (list (jsstring * list jsstring)) :=
  fieldKeywords store !! documentType.

Definition getFieldNames (store : SchemaStore) (documentType : jsstring)
  : list jsstring :=
  match getSchema store documentType with
  | None => []
  | Some schema => List.map fst schema
  end.

(** [fieldNames.includes(fieldName)] *)
Definition hasField (store : SchemaStore) (documentType fieldName : jsstring)
  : bool :=
  let fieldNames := getFieldNames store documentType in
  List.existsb (JsString.eqb fieldName) fieldNames.

(** [Array.from(this.schemas.keys())], in the order of the keys of the
    map. *)
Definition getSupportedTypes (store : SchemaStore) : list jsstring :=
  List.map fst (map_to_list (schemas store)).

End SchemaStore.

(* ================================================================== *)
(** ** TypeCoercionService *)
(* ================================================================== *)

Module TypeCoercionService.

Definition MAX_DECIMAL_SEPARATOR_LENGTH : Z := 2.
Definition MIN_DECIMAL_SEPARATOR_LENGTH : Z := 1.
Definition EUROPEAN_THOUSANDS_DIGITS : Z := 3.

Definition COMMA : jschar := 44%N.
Definition PERIOD : jschar := 46%N.

(** The class [[$€£¥\s]] *)
Definition isCurrencyOrSpace (c : jschar) : bool :=
  N.eqb c 36 || N.eqb c 8364 || N.eqb c 163 || N.eqb c 165 || isWhiteSpace c.

(** [parts.slice(1, -1)] *)
Definition sliceInner {A : Type} (parts : list A) : list A :=
  List.removelast (List.tl parts).

Definition coerceToNumber (value : JsValue) : JsValue :=
  match value with
  | VNum n => if isNaN n then VNull else VNum n
  | VStr s =>
      let cleaned := trim s in
      match cleaned with
      | [] => VNull
      | _ =>
          let hasComma := includesChar cleaned COMMA in
          let hasPeriod := includesChar cleaned PERIOD in
          let lastCommaIndex := lastIndexOf cleaned COMMA in
          let lastPeriodIndex := lastIndexOf cleaned PERIOD in
          let cleaned := removeAll isCurrencyOrSpace cleaned in
          let cleaned :=
            if hasComma && hasPeriod then
              if lastCommaIndex >? lastPeriodIndex
              then replaceFirst (removeAll (N.eqb PERIOD) cleaned) COMMA [PERIOD]
              else removeAll (N.eqb COMMA) cleaned
            else if hasComma && negb hasPeriod then
              let afterComma := substringFrom cleaned (lastCommaIndex + 1) in
              if len afterComma <=? MAX_DECIMAL_SEPARATOR_LENGTH
              then replaceFirst cleaned COMMA [PERIOD]
              else removeAll (N.eqb COMMA) cleaned
            else if hasPeriod && negb hasComma then
              let afterLastPeriod :=
                substringFrom cleaned (lastPeriodIndex + 1) in
              let periodCount := countChar cleaned PERIOD in
              if periodCount >? 1 then
                let parts := split cleaned PERIOD in
                let allPartsThreeDigits :=
                  List.forallb
                    (fun part => len part =? EUROPEAN_THOUSANDS_DIGITS)
                    (sliceInner parts) in
                let lastPartThreeDigits :=
                  len afterLastPeriod =? EUROPEAN_THOUSANDS_DIGITS in
                let first := List.hd [] parts in
                if allPartsThreeDigits && lastPartThreeDigits
                   && (len first >=? MIN_DECIMAL_SEPARATOR_LENGTH)
                   && (len first <=? EUROPEAN_THOUSANDS_DIGITS)
                then removeAll (N.eqb PERIOD) cleaned
                else if (len afterLastPeriod >=? MIN_DECIMAL_SEPARATOR_LENGTH)
                        && (len afterLastPeriod <=? EUROPEAN_THOUSANDS_DIGITS)
                then
                  let lastPeriodPos := lastIndexOf cleaned PERIOD in
                  removeAll (N.eqb PERIOD) (substring cleaned 0 lastPeriodPos)
                  ++ [PERIOD] ++ substringFrom cleaned (lastPeriodPos + 1)
                else removeAll (N.eqb PERIOD) cleaned
              else cleaned
            else cleaned in
          let isNegative :=
            startsWith cleaned (str "-") || startsWith cleaned (str "(") in
          let cleaned :=
            if startsWith cleaned (str "(") && endsWith cleaned (str ")")
            then substring cleaned 1 (len cleaned - 1)
            else cleaned in
          let cleaned :=
            match cleaned with
            | 45%N :: rest => rest
            | _ => cleaned
            end in
          let parsed := parseFloat cleaned in
          if isNaN parsed then VNull
          else VNum (if isNegative then neg parsed else parsed)
      end
  | _ => VNull
  end.

Definition coerceToBoolean (value : JsValue) : JsValue :=
  match value with
  | VBool b => VBool b
  | VStr s =>
      let lower := trim (toLowerCase s) in
      if JsString.eqb lower (str "true") || JsString.eqb lower (str "yes")
         || JsString.eqb lower (str "1")
      then VBool true
      else if JsString.eqb lower (str "false") || JsString.eqb lower (str "no")
              || JsString.eqb lower (str "0")
      then VBool false
      else VNull
  | VNum n => VBool (negb (eqb n (Fin 0)))
  | _ => VNull
  end.

Definition separators : list jschar := [44; 59; 124; 10]%N.

Definition coerceToArray (rt : Runtime) (value : JsValue) : JsValue :=
  match value with
  | VArr items => VArr items
  | VStr s =>
      let cleaned := trim s in
      match cleaned with
      | [] => VArr []
      | _ =>
          let parsedArray :=
            if startsWith cleaned (str "[") then
              match JSON_parse rt cleaned with
              | Ok (VArr parsed) => Some parsed
              | _ => None
              end
            else None in
          match parsedArray with
          | Some parsed => VArr parsed
          | None =>
              match List.find (includesChar cleaned) separators with
              | Some sep =>
                  VArr (List.map VStr
                          (List.filter
                             (fun piece => 0 <? len piece)
                             (List.map trim (split cleaned sep))))
              | None => VArr [VStr cleaned]
              end
          end
      end
  | _ => VNull
  end.

Fixpoint isNumberSchema (schema : ZodDef) : bool :=
  match schema with
  | ZodNumber => true
  | ZodOptional inner | ZodNullable inner => isNumberSchema inner
  | ZodUnion options => List.existsb isNumberSchema options
  | _ => false
  end.

Fixpoint isBooleanSchema (schema : ZodDef) : bool :=
  match schema with
  | ZodBoolean => true
  | ZodOptional inner | ZodNullable inner => isBooleanSchema inner
  | ZodUnion options => List.existsb isBooleanSchema options
  | _ => false
  end.

Fixpoint isArraySchema (schema : ZodDef) : bool :=
  match schema with
  | ZodArray _ => true
  | ZodOptional inner | ZodNullable inner => isArraySchema inner
  | ZodUnion options => List.existsb isArraySchema options
  | _ => false
  end.

Fixpoint isStringSchema (schema : ZodDef) : bool :=
  match schema with
  | ZodString _ => true
  | ZodOptional inner | ZodNullable inner => isStringSchema inner
  | ZodUnion options => List.existsb isStringSchema options
  | _ => false
  end.

Definition dateFieldPatterns : list jsstring :=
  List.map str ["date"; "time"; "timestamp"; "deadline"; "created";
                "updated"; "start"; "end"; "due"]%string.

Definition isDateField (fieldName : jsstring) : bool :=
  let lowerFieldName := toLowerCase fieldName in
  List.existsb (includes lowerFieldName) dateFieldPatterns.

(** [/^\d{4}-\d{2}-\d{2}$/.test(s)] *)
Definition isIsoDate (s : jsstring) : bool :=
  match s with
  | [y1; y2; y3; y4; h1; m1; m2; h2; d1; d2] =>
      List.forallb isDigit [y1; y2; y3; y4; m1; m2; d1; d2]
      && N.eqb h1 45 && N.eqb h2 45
  | _ => false
  end.

(** [String(n).padStart(2, '0')] *)
Definition pad2 (n : Z) : jsstring :=
  let digits := intDigits n in
  if len digits <? 2 then str "0" ++ digits else digits.

Definition coerceToDate (rt : Runtime) (value : JsValue) : JsValue :=
  match value with
  | VStr s =>
      let trimmed := trim s in
      if isIsoDate trimmed then VStr trimmed
      else
        match Date_parse rt trimmed with
        | Some (year, month, day) =>
            VStr (intDigits year ++ str "-" ++ pad2 (month + 1)
                  ++ str "-" ++ pad2 day)
        | None => value
        end
  | _ => value
  end.

Definition coerceFieldValue (rt : Runtime) (store : SchemaStore.SchemaStore)
  (documentType fieldName : jsstring) (value : JsValue) : JsValue :=
  match value with
  | VNull | VUndefined => value
  | _ =>
      match SchemaStore.getSchema store documentType with
      | None => value
      | Some schema =>
          match shapeLookup schema fieldName with
          | None => value
          | Some fieldSchema =>
              if isNumberSchema fieldSchema then coerceToNumber value
              else if isBooleanSchema fieldSchema then coerceToBoolean value
              else if isArraySchema fieldSchema then coerceToArray rt value
              else if isDateField fieldName && isStringSchema fieldSchema
              then coerceToDate rt value
              else value
          end
      end
  end.

(** [Object.entries(extractedData)]: the own properties of an object or
    the indexed elements of an array or string; every other value that
    is not [null] or [undefined] has none. *)
Definition indexed {A : Type} (f : A -> JsValue) (l : list A)
  : list (jsstring * JsValue) :=
  List.map (fun iv => (natDigits (N.of_nat (fst iv)), f (snd iv)))
    (List.combine (List.seq 0 (List.length l)) l).

Definition Object_entries (v : JsValue) : result (list (jsstring * JsValue)) :=
  match v with
  | VUndefined | VNull =>
      Throw (TypeError (str "Cannot convert undefined or null to object"))
  | VObj props => Ok props
  | VArr items => Ok (indexed (fun x => x) items)
  | VStr s => Ok (indexed (fun c => VStr [c]) s)
  | _ => Ok []
  end.

(** What an object inherits from.  The object literal [{}] inherits
    from [Object.prototype]; an assignment to its key [__proto__] runs
    the accessor of [Object.prototype], which replaces the prototype by
    the value assigned when that is an object or [null]. *)
Inductive Prototype : Type :=
| ObjectPrototype
| NullPrototype
| ValuePrototype (object : JsValue).

(** The object [coercedData]: its own properties in insertion order,
    and its prototype. *)
Record CoercedData : Type := mkCoercedData {
  ownProperties : list (jsstring * JsValue);
  prototype : Prototype
}.

Definition PROTO_KEY : jsstring := str "__proto__".

(** Whether the key [__proto__], looked up from this prototype on,
    reaches the accessor of [Object.prototype]: not after the prototype
    was set to [null], and not through an object that has a property
    [__proto__] of its own, as [JSON.parse] gives one for that key. *)
Definition reachesProtoAccessor (p : Prototype) : bool :=
  match p with
  | ObjectPrototype => true
  | NullPrototype => false
  | ValuePrototype (VObj props) =>
      match lookupProp props PROTO_KEY with
      | Some _ => false
      | None => true
      end
  | ValuePrototype _ => true
  end.

(** [coercedData[fieldName] = v].  Every key but [__proto__] becomes or
    updates an own property.  The key [__proto__] does so only when the
    object already has it as an own property or no longer reaches the
    accessor; otherwise the accessor replaces the prototype when [v] is
    an object, an array or [null], and does nothing for another [v]. *)
Definition assignField (data : CoercedData) (fieldName : jsstring)
  (v : JsValue) : CoercedData :=
  let own := ownProperties data in
  let ordinary :=
    {| ownProperties := setProp own fieldName v;
       prototype := prototype data |} in
  if JsString.eqb fieldName PROTO_KEY then
    match lookupProp own PROTO_KEY with
    | Some _ => ordinary
    | None =>
        if reachesProtoAccessor (prototype data) then
          match v with
          | VObj _ | VArr _ =>
              {| ownProperties := own; prototype := ValuePrototype v |}
          | VNull => {| ownProperties := own; prototype := NullPrototype |}
          | _ => data
          end
        else ordinary
    end
  else ordinary.

(** [data[name]], for a name that is not a member of a built-in
    prototype ([isBuiltinMember]): an own property, or else what the
    replaced prototype holds as its own: the properties of an object,
    the elements and the [length] of an array. *)
Definition readField (data : CoercedData) (name : jsstring) : JsValue :=
  match lookupProp (ownProperties data) name with
  | Some v => v
  | None =>
      match prototype data with
      | ValuePrototype (VObj props) =>
          match lookupProp props name with
          | Some v => v
          | None => VUndefined
          end
      | ValuePrototype (VArr items) =>
          match lookupProp (indexed (fun x => x) items) name with
          | Some v => v
          | None =>
              if JsString.eqb name (str "length")
              then VNum (ofZ (Z.of_nat (List.length items)))
              else VUndefined
          end
      | _ => VUndefined
      end
  end.

Definition EMPTY_OBJECT : CoercedData :=
  {| ownProperties := []; prototype := ObjectPrototype |}.

Definition coerceAllFields (rt : Runtime) (store : SchemaStore.SchemaStore)
  (documentType : jsstring) (extractedData : JsValue)
  : result CoercedData :=
  match Object_entries extractedData with
  | Throw e => Throw e
  | Ok entries =>
      Ok (List.fold_left
            (fun coercedData kv =>
               assignField coercedData (fst kv)
                 (coerceFieldValue rt store documentType (fst kv) (snd kv)))
            entries EMPTY_OBJECT)
  end.

End TypeCoercionService.

(* ================================================================== *)
(** ** The outside world: LLM, database and clock *)
(* ================================================================== *)

Module Effects.

Inductive Role : Type := system | user | assistant | tool.

(** One entry of [tool_calls]; [arguments] is a string or an object. *)
Record ToolCall : Type := mkToolCall {
  functionName : jsstring;
  functionArguments : JsValue
}.

Record OllamaMessage : Type := mkMessage {
  role : Role;
  content : jsstring;
  tool_calls : option (list ToolCall)
}.

Record OllamaTool : Type := mkTool {
  toolName : jsstring;
  toolDescription : jsstring;
  toolParameters : JsValue
}.

(** [Omit<OllamaChatRequest, 'model'>], as [chatWithTools] and
    [extract] fill it. *)
Record ChatRequest : Type := mkRequest {
  messages : list OllamaMessage;
  tools : option (list OllamaTool);
  format : option jsstring
}.

(** What a call does to the outside, in the order it happens. *)
Inductive Event : Type :=
| EvChat (request : ChatRequest)
| EvDbGet (sql : jsstring) (params : list JsValue)
| EvDbAll (sql : jsstring) (params : list JsValue)
| EvDbRun (sql : jsstring) (params : list JsValue)
| EvNow.

Definition World : Type := list Event.

(** The collaborators of the services.  Each answers from the history
    of what happened so far, so that an LLM or a [RANDOM()] query may
    answer the same question differently the second time. *)
Record Env : Type := {
  rt : Runtime;
  (** [fieldSchema.safeParse(value)] of zod *)
  safeParse : ZodDef -> JsValue -> result SafeParseResult;
  (** [OllamaClient.chat]: the reply message, or the error it throws *)
  chat : World -> ChatRequest -> result OllamaMessage;
  (** sqlite [get]: a row or nothing *)
  db_get : World -> jsstring -> list JsValue -> result (option JsValue);
  (** sqlite [all] *)
  db_all : World -> jsstring -> list JsValue -> result (list JsValue);
  (** sqlite [run] *)
  db_run : World -> jsstring -> list JsValue -> result unit;
  (** [Date.now()] *)
  Date_now : World -> Z
}.

(** A computation reads and extends the history, and returns or throws. *)
Definition M (A : Type) : Type := World -> result A * World.

Definition ret {A : Type} (a : A) : M A := fun w => (Ok a, w).

Definition throw {A : Type} (e : JsError) : M A := fun w => (Throw e, w).

Definition bind {A B : Type} (m : M A) (k : A -> M B) : M B :=
  fun w =>
    match m w with
    | (Ok a, w') => k a w'
    | (Throw e, w') => (Throw e, w')
    end.

(** [try { m } catch (e) { handler e }] *)
Definition tryCatch {A : Type} (m : M A) (handler : JsError -> M A) : M A :=
  fun w =>
    match m w with
    | (Ok a, w') => (Ok a, w')
    | (Throw e, w') => handler e w'
    end.

Definition lift {A : Type} (r : result A) : M A := fun w => (r, w).

Definition emit (ev : Event) : M unit := fun w => (Ok tt, w ++ [ev]).

Definition doChat (env : Env) (request : ChatRequest) : M OllamaMessage :=
  fun w => (chat env w request, w ++ [EvChat request]).

Definition dbGet (env : Env) (sql : jsstring) (params : list JsValue)
  : M (option JsValue) :=
  fun w => (db_get env w sql params, w ++ [EvDbGet sql params]).

Definition dbAll (env : Env) (sql : jsstring) (params : list JsValue)
  : M (list JsValue) :=
  fun w => (db_all env w sql params, w ++ [EvDbAll sql params]).

Definition dbRun (env : Env) (sql : jsstring) (params : list JsValue)
  : M unit :=
  fun w => (db_run env w sql params, w ++ [EvDbRun sql params]).

Definition now (env : Env) : M Z :=
  fun w => (Ok (Date_now env w), w ++ [EvNow]).

Declare Scope effect_scope.
Delimit Scope effect_scope with effect.
Notation "'let*' x ':=' m 'in' k" := (bind m (fun x => k))
  (at level 10, x name, m at level 100, k at level 200) : effect_scope.
Notation "'let*' ' p ':=' m 'in' k" :=
  (bind m (fun x => match x with p => k end))
  (at level 10, p pattern, m at level 100, k at level 200) : effect_scope.

(** [for (const x of xs) { body }] with a loop-carried state *)
Fixpoint forEach {A S : Type} (xs : list A) (body : S -> A -> M S) (s : S)
  : M S :=
  match xs with
  | [] => ret s
  | x :: xs' => bind (body s x) (forEach xs' body)
  end.

End Effects.
Export Effects.
Local Open Scope effect_scope.

(* ================================================================== *)
(** ** ValidationService *)
(* ================================================================== *)

Module ValidationService.

Definition VALIDATION_CONFIDENCE_ZERO : number := Fin 0.
Definition VALIDATION_CONFIDENCE_MODERATE : number := Fin 0.5.
Definition VALIDATION_CONFIDENCE_GOOD : number := Fin 0.7.
Definition VALIDATION_CONFIDENCE_STRING : number := Fin 0.8.
Definition VALIDATION_CONFIDENCE_NUMBER : number := Fin 0.9.
Definition VALIDATION_CONFIDENCE_PERFECT : number := Fin 1.0.
Definition HIGH_CONFIDENCE_THRESHOLD : number := Fin 0.9.

Inductive ValidationStatus : Type := passed_status | failed_status | skipped_status.

Record ValidationResult : Type := mkValidation {
  passed : bool;
  error : option jsstring;
  confidence : number
}.

Definition allDigits (s : jsstring) : bool := List.forallb isDigit s.

(** [/^\d{1,2}\/\d{1,2}\/\d{4}$/.test(value)] *)
Definition isUsDate (value : jsstring) : bool :=
  match split value 47%N with
  | [month; day; year] =>
      allDigits month && allDigits day && allDigits year
      && (1 <=? len month) && (len month <=? 2)
      && (1 <=? len day) && (len day <=? 2) && (len year =? 4)
  | _ => false
  end.

Definition validateDateFormat (rt : Runtime) (value : JsValue) : bool :=
  match value with
  | VStr s =>
      if TypeCoercionService.isIsoDate s then
        match Date_parse rt s with Some _ => true | None => false end
      else if isUsDate s then true
      else match Date_parse rt s with Some _ => true | None => false end
  | _ => false
  end.

(** The hyphen-separated groups of digits a tax id pattern asks for. *)
Definition digitGroups (sizes : list Z) (value : jsstring) : bool :=
  let parts := split value 45%N in
  (List.length parts =? List.length sizes)%nat
  && List.forallb (fun ps => allDigits (fst ps) && (len (fst ps) =? snd ps))
       (List.combine parts sizes).

Definition validateTaxId (value : JsValue) : bool :=
  match value with
  | VStr s =>
      if digitGroups [3; 2; 4] s then true
      else if digitGroups [2; 7] s then true
      else digitGroups [9] s
  | _ => false
  end.

(** The class [[\s-]] *)
Definition isSpaceOrHyphen (c : jschar) : bool :=
  isWhiteSpace c || N.eqb c 45.

Fixpoint dropStars (s : jsstring) : jsstring :=
  match s with
  | 42%N :: s' => dropStars s'
  | _ => s
  end.

Definition validateAccountNumber (value : JsValue) : bool :=
  match value with
  | VStr s =>
      let cleaned := removeAll isSpaceOrHyphen s in
      let rest := dropStars cleaned in
      if (4 <=? len cleaned - len rest) && (len rest =? 4) && allDigits rest
      then true
      else allDigits cleaned && (8 <=? len cleaned) && (len cleaned <=? 17)
  | _ => false
  end.

(** [cleaned.split('').map(Number)] on a string of digits *)
Definition digitsOf (cleaned : jsstring) : list Z :=
  List.map (fun c => Z.of_N c - 48) cleaned.

Definition validateRoutingNumber (value : JsValue) : bool :=
  match value with
  | VStr s =>
      let cleaned := removeAll isSpaceOrHyphen s in
      if negb (allDigits cleaned && (len cleaned =? 9)) then false
      else
        let digits := digitsOf cleaned in
        let d (i : nat) := List.nth i digits 0 in
        let checksum :=
          3 * (d 0%nat + d 3%nat + d 6%nat) +
          7 * (d 1%nat + d 4%nat + d 7%nat) +
          (d 2%nat + d 5%nat + d 8%nat) in
        checksum mod 10 =? 0
  | _ => false
  end.

(** [/^[^\s@]+@[^\s@]+\.[^\s@]+$/.test(value)]: no white space, one [@]
    with text before it, and after it a period that has text on both
    sides. *)
Definition validateEmail (value : JsValue) : bool :=
  match value with
  | VStr s =>
      negb (List.existsb isWhiteSpace s) &&
      match split s 64%N with
      | [localPart; domain] =>
          (0 <? len localPart) &&
          List.existsb (N.eqb 46)
            (List.removelast (List.tl domain))
      | _ => false
      end
  | _ => false
  end.

(** The class [[\s().-]] *)
Definition isPhonePunctuation (c : jschar) : bool :=
  isWhiteSpace c || N.eqb c 40 || N.eqb c 41 || N.eqb c 46 || N.eqb c 45.

Definition validatePhone (value : JsValue) : bool :=
  match value with
  | VStr s =>
      let cleaned := removeAll isPhonePunctuation s in
      allDigits cleaned && (10 <=? len cleaned) && (len cleaned <=? 11)
  | _ => false
  end.

Definition isMissing (value : JsValue) : bool :=
  match value with
  | VNull | VUndefined | VStr [] => true
  | _ => false
  end.

Definition calculateValidationConfidence (rt : Runtime)
  (fieldName : jsstring) (value : JsValue) : number :=
  if isMissing value then VALIDATION_CONFIDENCE_ZERO
  else if includes fieldName (str "date") then
    if validateDateFormat rt value
    then VALIDATION_CONFIDENCE_PERFECT else VALIDATION_CONFIDENCE_MODERATE
  else if includes fieldName (str "ssn") || includes fieldName (str "ein") then
    if validateTaxId value
    then VALIDATION_CONFIDENCE_PERFECT else VALIDATION_CONFIDENCE_MODERATE
  else if includes fieldName (str "account_number") then
    if validateAccountNumber value
    then VALIDATION_CONFIDENCE_PERFECT else VALIDATION_CONFIDENCE_GOOD
  else if includes fieldName (str "routing_number") then
    if validateRoutingNumber value
    then VALIDATION_CONFIDENCE_PERFECT else VALIDATION_CONFIDENCE_MODERATE
  else if includes fieldName (str "email") then
    if validateEmail value
    then VALIDATION_CONFIDENCE_PERFECT else VALIDATION_CONFIDENCE_MODERATE
  else if includes fieldName (str "phone") then
    if validatePhone value
    then VALIDATION_CONFIDENCE_PERFECT else VALIDATION_CONFIDENCE_GOOD
  else
    match value with
    | VStr (_ :: _) => VALIDATION_CONFIDENCE_STRING
    | VNum _ | VBool _ => VALIDATION_CONFIDENCE_NUMBER
    | _ => VALIDATION_CONFIDENCE_MODERATE
    end.

Definition validateField (env : Env) (store : SchemaStore.SchemaStore)
  (documentType fieldName : jsstring) (value : JsValue) : ValidationResult :=
  match SchemaStore.getSchema store documentType with
  | None =>
      mkValidation false
        (Some (str "Unknown document type: " ++ documentType))
        VALIDATION_CONFIDENCE_ZERO
  | Some schema =>
      match shapeLookup schema fieldName with
      | None =>
          mkValidation false (Some (str "Unknown field: " ++ fieldName))
            VALIDATION_CONFIDENCE_ZERO
      | Some fieldSchema =>
          match safeParse env fieldSchema value with
          | Ok ParseSuccess =>
              mkValidation true None
                (calculateValidationConfidence (rt env) fieldName value)
          | Ok (ParseFailure firstMessage) =>
              mkValidation false
                (Some (match firstMessage with
                       | Some (c :: message) => c :: message
                       | _ => str "Validation failed"
                       end))
                VALIDATION_CONFIDENCE_ZERO
          | Throw e =>
              mkValidation false (Some (errMessage e))
                VALIDATION_CONFIDENCE_ZERO
          end
      end
  end.

Record DocumentValidation : Type := mkDocumentValidation {
  valid : bool;
  errors : list jsstring;
  fieldResults : list (jsstring * ValidationResult)
}.

(** [fieldResults[fieldName] = result] *)
Fixpoint setResult (results : list (jsstring * ValidationResult))
  (name : jsstring) (r : ValidationResult)
  : list (jsstring * ValidationResult) :=
  match results with
  | [] => [(name, r)]
  | (k, old) :: results' =>
      if JsString.eqb k name then (k, r) :: results'
      else (k, old) :: setResult results' name r
  end.

Definition validateDocument (env : Env) (store : SchemaStore.SchemaStore)
  (documentType : jsstring) (fields : JsValue) : result DocumentValidation :=
  match SchemaStore.getSchema store documentType with
  | None =>
      Ok {| valid := false;
            errors := [str "Unknown document type: " ++ documentType];
            fieldResults := [] |}
  | Some _ =>
      match TypeCoercionService.Object_entries fields with
      | Throw e => Throw e
      | Ok entries =>
          let '(errors, fieldResults) :=
            List.fold_left
              (fun state kv =>
                 let fieldName := fst kv in
                 let result :=
                   validateField env store documentType fieldName (snd kv) in
                 let fieldResults := setResult (snd state) fieldName result in
                 if negb (passed result)
                 then (fst state
                       ++ [fieldName ++ str ": "
                           ++ match error result with
                              | Some message => message
                              | None => str "undefined"
                              end],
                       fieldResults)
                 else (fst state, fieldResults))
              entries ([], []) in
          Ok {| valid := match errors with [] => true | _ => false end;
                errors := errors;
                fieldResults := fieldResults |}
      end
  end.

Definition getValidationStatus (result : ValidationResult) : ValidationStatus :=
  if passed result && ge (confidence result) HIGH_CONFIDENCE_THRESHOLD
  then passed_status
  else if negb (passed result) then failed_status
  else passed_status.

End ValidationService.

(* ================================================================== *)
(** ** ExampleStore *)
(* ================================================================== *)

Module ExampleStore.

Definition IS_GOLD_FLAG : JsValue := VNum (Fin 1).
Definition DEFAULT_KEYWORDS : list JsValue := [].
Definition DEFAULT_EXAMPLE_LIMIT : JsValue := VNum (Fin 1).
Definition EMPTY_JSON_STRING : JsValue := VStr [].
Definition EMPTY_JSON_OBJECT : JsValue := VObj [].

Definition BASE_GOLD_EXAMPLE_QUERY : jsstring := str "
  SELECT
    c.id,
    c.doc_id as docId,
    d.type as docType,
    d.ocr_json as ocrText,
    d.extraction,
    c.corrected_value as correctedValue,
    c.field_name as fieldName,
    c.created_at as createdAt
  FROM corrections c
  JOIN docs d ON c.doc_id = d.id
  WHERE d.type = ?
    AND c.is_gold = ?
".

Definition GOLD_EXAMPLE_COUNTS_QUERY : jsstring := str "
  SELECT d.type as docType, COUNT(*) as count
  FROM corrections c
  JOIN docs d ON c.doc_id = d.id
  WHERE c.is_gold = ?
  GROUP BY d.type
".

Record GoldExample : Type := mkGoldExample {
  docId : JsValue;
  docType : JsValue;
  ocrText : JsValue;
  extraction : JsValue;
  correctedValue : JsValue;
  fieldName : JsValue;
  createdAt : JsValue
}.

Record ExampleQuery : Type := mkExampleQuery {
  queryDocType : JsValue;
  queryKeywords : option (list JsValue);
  queryLimit : option JsValue
}.

(** A property of a row or of another object known not to be [null] *)
Definition prop (v : JsValue) (name : string) : JsValue :=
  match getProp v (str name) with
  | Ok x => x
  | Throw _ => VUndefined
  end.

Definition buildKeywordFilter (rt : Runtime) (keywords : list JsValue)
  : jsstring * list JsValue :=
  match keywords with
  | [] => ([], [])
  | _ =>
      let keywordConditions :=
        join (str " OR ") (List.map (fun _ => str "d.ocr_json LIKE ?") keywords) in
      let params :=
        List.map (fun keyword => VStr (str "%" ++ toStr rt keyword ++ str "%"))
          keywords in
      (str " AND (" ++ keywordConditions ++ str ")", params)
  end.

(** [JSON.parse(v)] of a value that is converted to a string first *)
Definition parseColumn (rt : Runtime) (v : JsValue) (empty : JsValue)
  : result JsValue :=
  if truthy v then JSON_parse rt (toStr rt v) else Ok empty.

Definition parseGoldExampleFromRow (rt : Runtime) (row : JsValue)
  : result GoldExample :=
  match parseColumn rt (prop row "ocrText") EMPTY_JSON_STRING with
  | Throw e => Throw e
  | Ok ocr =>
      match parseColumn rt (prop row "extraction") EMPTY_JSON_OBJECT with
      | Throw e => Throw e
      | Ok extracted =>
          Ok {| docId := prop row "docId";
                docType := prop row "docType";
                ocrText := ocr;
                extraction := extracted;
                correctedValue := prop row "correctedValue";
                fieldName := prop row "fieldName";
                createdAt := prop row "createdAt" |}
      end
  end.

Definition getGoldExample (env : Env) (query : ExampleQuery)
  : M (option GoldExample) :=
  let keywords :=
    match queryKeywords query with Some k => k | None => DEFAULT_KEYWORDS end in
  let limit :=
    match queryLimit query with Some l => l | None => DEFAULT_EXAMPLE_LIMIT end in
  let keywordFilter := buildKeywordFilter (rt env) keywords in
  let sql :=
    BASE_GOLD_EXAMPLE_QUERY ++ fst keywordFilter
    ++ str " ORDER BY RANDOM() LIMIT ?" in
  let params :=
    [queryDocType query; IS_GOLD_FLAG] ++ snd keywordFilter ++ [limit] in
  let* row :=
    tryCatch (dbGet env sql params)
      (fun err =>
         throw (Error (str "Failed to retrieve gold example: " ++ errMessage err))) in
  match row with
  | None => ret None
  | Some r =>
      if negb (truthy r) then ret None
      else
        match parseGoldExampleFromRow (rt env) r with
        | Ok example => ret (Some example)
        | Throw parseError =>
            throw (Error (str "Failed to parse gold example: "
                          ++ errMessage parseError))
        end
  end.

(** [counts[row.docType] = row.count] for every row *)
Definition buildCountsRecord (rt : Runtime) (rows : list JsValue)
  : list (jsstring * JsValue) :=
  List.fold_left
    (fun counts row =>
       setProp counts (toStr rt (prop row "docType")) (prop row "count"))
    rows [].

Definition getGoldExampleCounts (env : Env) : M (list (jsstring * JsValue)) :=
  let* rows :=
    tryCatch (dbAll env GOLD_EXAMPLE_COUNTS_QUERY [IS_GOLD_FLAG])
      (fun err =>
         throw (Error (str "Failed to get gold example counts: "
                       ++ errMessage err))) in
  ret (buildCountsRecord (rt env) rows).

End ExampleStore.

(* ================================================================== *)
(** ** ToolRegistry and ToolUsageLogger *)
(* ================================================================== *)

Module ToolRegistry.

Import ExampleStore.

Definition OCR_TEXT_EXCERPT_LENGTH : Z := 500.

Definition DOCUMENT_TYPES_ENUM : list jsstring :=
  List.map str ["Bank Statement"; "Government ID"; "W-9";
                "Certificate of Insurance"; "Articles of Incorporation"]%string.

Record ToolDefinition : Type := mkToolDefinition {
  tool : OllamaTool;
  handler : JsValue -> M jsstring
}.

Definition sanitizeKeywords (rt : Runtime) (keywords : JsValue) : list JsValue :=
  if negb (truthy keywords) then DEFAULT_KEYWORDS
  else
    match keywords with
    | VArr items => items
    | VStr s =>
        match JSON_parse rt s with
        | Ok (VArr parsed) => parsed
        | _ => DEFAULT_KEYWORDS
        end
    | _ => DEFAULT_KEYWORDS
    end.

(** An element of an array as [join] converts it *)
Definition joinItem (rt : Runtime) (v : JsValue) : jsstring :=
  match v with
  | VUndefined | VNull => []
  | _ => toStr rt v
  end.

(** [pages.map((page) => page.text)]: fails on a [null] page *)
Fixpoint pageTexts (pages : list JsValue) : result (list JsValue) :=
  match pages with
  | [] => Ok []
  | page :: pages' =>
      match getProp page (str "text") with
      | Throw e => Throw e
      | Ok text =>
          match pageTexts pages' with
          | Throw e => Throw e
          | Ok texts => Ok (text :: texts)
          end
      end
  end.

Definition extractOcrTextFromExample (rt : Runtime) (example : GoldExample)
  : JsValue :=
  match ocrText example with
  | VStr s =>
      match JSON_parse rt s with
      | Ok (VArr pages) =>
          match pageTexts pages with
          | Ok texts => VStr (join [10%N] (List.map (joinItem rt) texts))
          | Throw _ => VStr s
          end
      | _ => VStr s
      end
  | other => other
  end.

(** [v.substring(0, n)]: only a string has the method *)
Definition substringOf (v : JsValue) (n : Z) : result JsValue :=
  match v with
  | VStr s => Ok (VStr (substring s 0 n))
  | VUndefined | VNull =>
      Throw (TypeError (str "Cannot read properties of "
                        ++ (match v with VNull => str "null" | _ => str "undefined" end)
                        ++ str " (reading 'substring')"))
  | _ => Throw (TypeError (str "ocrText.substring is not a function"))
  end.

Definition buildGoldExampleResponse (rt : Runtime) (example : GoldExample)
  : result jsstring :=
  let text := extractOcrTextFromExample rt example in
  match substringOf text OCR_TEXT_EXCERPT_LENGTH with
  | Throw e => Throw e
  | Ok excerpt =>
      Ok (JSON_stringify_value rt
            (VObj [ (str "found", VBool true);
                    (str "document_type", docType example);
                    (str "ocr_text_excerpt", excerpt);
                    (str "corrected_extraction", extraction example);
                    (str "corrected_field",
                      if truthy (fieldName example)
                      then VObj [ (str "field_name", fieldName example);
                                  (str "corrected_value", correctedValue example) ]
                      else VNull);
                    (str "note",
                      VStr (str "This is a corrected example. Use it to improve your extraction accuracy.")) ]))
  end.

Definition buildNoExampleResponse (rt : Runtime) (docType : JsValue) : jsstring :=
  JSON_stringify_value rt
    (VObj [ (str "found", VBool false);
            (str "message",
              VStr (str "No gold examples found for document type: "
                    ++ toStr rt docType)) ]).

Definition buildErrorResponse (rt : Runtime) : jsstring :=
  JSON_stringify_value rt
    (VObj [ (str "found", VBool false);
            (str "error", VStr (str "Failed to retrieve example")) ]).

Definition handleGetGoldExample (env : Env) (args : JsValue) : M jsstring :=
  tryCatch
    (let* keywordsArg := lift (getProp args (str "keywords")) in
     let keywords := sanitizeKeywords (rt env) keywordsArg in
     let* doc_type := lift (getProp args (str "doc_type")) in
     let* example :=
       getGoldExample env
         {| queryDocType := doc_type;
            queryKeywords := Some keywords;
            queryLimit := Some DEFAULT_EXAMPLE_LIMIT |} in
     match example with
     | None => ret (buildNoExampleResponse (rt env) doc_type)
     | Some ex => lift (buildGoldExampleResponse (rt env) ex)
     end)
    (fun _ => ret (buildErrorResponse (rt env))).

Definition GET_GOLD_EXAMPLE_TOOL : OllamaTool :=
  {| toolName := str "get_gold_example";
     toolDescription :=
       str "Retrieve a corrected example document for few-shot learning. Use this when confidence is low or the document type is ambiguous.";
     toolParameters :=
       VObj [ (str "type", VStr (str "object"));
              (str "properties",
                VObj [ (str "doc_type",
                         VObj [ (str "type", VStr (str "string"));
                                (str "enum", VArr (List.map VStr DOCUMENT_TYPES_ENUM));
                                (str "description",
                                  VStr (str "The document type to retrieve an example for")) ]);
                       (str "keywords",
                         VObj [ (str "type", VStr (str "array"));
                                (str "items", VObj [ (str "type", VStr (str "string")) ]);
                                (str "description",
                                  VStr (strq "Optional keywords to find similar documents (e.g., [`bank`, `statement`])")) ]) ]);
              (str "required", VArr [VStr (str "doc_type")]) ] |}.

(** The registry is its [tools] map.  [getTools] lists the values in the
    order of the keys of the map, which for the one registered tool is
    the order of insertion. *)
Definition register (tools : gmap jsstring ToolDefinition)
  (definition : ToolDefinition) : gmap jsstring ToolDefinition :=
  <[toolName (tool definition) := definition]> tools.

Definition registerDefaultTools (env : Env)
  (tools : gmap jsstring ToolDefinition) : gmap jsstring ToolDefinition :=
  register tools
    {| tool := GET_GOLD_EXAMPLE_TOOL; handler := handleGetGoldExample env |}.

(** [new ToolRegistry()] *)
Definition create (env : Env) : gmap jsstring ToolDefinition :=
  registerDefaultTools env ∅.

Definition getTools (tools : gmap jsstring ToolDefinition) : list OllamaTool :=
  List.map (fun kv => tool (snd kv)) (map_to_list tools).

Definition executeTool (tools : gmap jsstring ToolDefinition)
  (name : jsstring) (args : JsValue) : M jsstring :=
  match tools !! name with
  | None => throw (Error (str "Tool not found: " ++ name))
  | Some definition => handler definition args
  end.

Definition createToolHandler (tools : gmap jsstring ToolDefinition)
  : jsstring -> JsValue -> M jsstring :=
  fun name args => executeTool tools name args.

End ToolRegistry.

Module ToolUsageLogger.

Definition SUCCESS_FLAG : JsValue := VNum (Fin 1).

Definition INSERT_TOOL_USAGE_LOG_QUERY : jsstring := str "
  INSERT INTO tool_usage_logs (
    document_id,
    tool_name,
    tool_args,
    tool_result,
    success,
    duration,
    timestamp
  ) VALUES (?, ?, ?, ?, ?, ?, datetime('now'))
".

Record ToolUsageLog : Type := mkToolUsageLog {
  documentId : Z;
  loggedToolName : jsstring;
  toolArgs : JsValue;
  toolResult : jsstring;
  success : bool;
  duration : Z
}.

Definition log (env : Env) (entry : ToolUsageLog) : M unit :=
  dbRun env INSERT_TOOL_USAGE_LOG_QUERY
    [ VNum (ofZ (documentId entry));
      VStr (loggedToolName entry);
      toolArgs entry;
      VStr (toolResult entry);
      (if success entry then SUCCESS_FLAG else VNum (Fin 0));
      (if duration entry =? 0 then VNull else VNum (ofZ (duration entry))) ].

End ToolUsageLogger.

(* ================================================================== *)
(** ** OllamaClient: the bounded tool-calling loop *)
(* ================================================================== *)

Module OllamaClient.

Definition DEFAULT_MAX_ITERATIONS : Z := 3.

Record OllamaClient : Type := mkClient {
  baseUrl : jsstring;
  model : jsstring;
  currentDocumentId : option Z
}.

Record ChatOptions : Type := mkOptions {
  maxIterations : option Z;
  optFormat : option jsstring
}.

Record ChatWithToolsResult : Type := mkChatResult {
  response : OllamaMessage;
  toolUsed : bool;
  iterations : Z
}.

Definition parseToolArguments (rt : Runtime) (args : JsValue) : result JsValue :=
  match args with
  | VStr s => JSON_parse rt s
  | _ => Ok args
  end.

Definition createErrorResponse (rt : Runtime) (error : JsError) : jsstring :=
  JSON_stringify_value rt (VObj [ (str "error", VStr (errorToString error)) ]).

Definition MAX_ITERATIONS_ERROR (maxIterations : Z) : JsError :=
  Error (str "Max tool iterations (" ++ intDigits maxIterations ++ str ") exceeded").

(** The body of [for (const toolCall of assistantMessage.tool_calls)]:
    it returns [currentMessages] after its two [push]es. *)
Definition runToolCall (env : Env) (client : OllamaClient)
  (toolHandler : jsstring -> JsValue -> M jsstring)
  (assistantMessage : OllamaMessage)
  (currentMessages : list OllamaMessage) (toolCall : ToolCall)
  : M (list OllamaMessage) :=
  let name := functionName toolCall in
  let* toolArgs := lift (parseToolArguments (rt env) (functionArguments toolCall)) in
  let* toolStartTime := now env in
  let* '(toolResult, success) :=
    tryCatch
      (let* r := toolHandler name toolArgs in ret (r, true))
      (fun error => ret (createErrorResponse (rt env) error, false)) in
  let* toolEndTime := now env in
  let toolDuration := toolEndTime - toolStartTime in
  let* _ :=
    match currentDocumentId client with
    | Some documentId =>
        if documentId =? 0 then ret tt
        else
          tryCatch
            (ToolUsageLogger.log env
               {| ToolUsageLogger.documentId := documentId;
                  ToolUsageLogger.loggedToolName := name;
                  ToolUsageLogger.toolArgs :=
                    match JSON_stringify (rt env) toolArgs with
                    | Some text => VStr text
                    | None => VUndefined
                    end;
                  ToolUsageLogger.toolResult := toolResult;
                  ToolUsageLogger.success := success;
                  ToolUsageLogger.duration := toolDuration |})
            (fun _ => ret tt)
    | None => ret tt
    end in
  ret (currentMessages
       ++ [assistantMessage;
           {| role := tool; content := toolResult; tool_calls := None |}]).

(** [while (iterations < maxIterations)], by recursion on the number of
    iterations that remain, [maxIterations - iterations]. *)
Fixpoint chatLoop (env : Env) (client : OllamaClient)
  (requestTools : list OllamaTool)
  (toolHandler : jsstring -> JsValue -> M jsstring)
  (options : option ChatOptions) (cap : Z)
  (remaining : nat) (iterations : Z) (toolUsed : bool)
  (currentMessages : list OllamaMessage) : M ChatWithToolsResult :=
  match remaining with
  | O => throw (MAX_ITERATIONS_ERROR cap)
  | S remaining' =>
      let iterations := iterations + 1 in
      let* assistantMessage :=
        doChat env
          {| messages := currentMessages;
             tools := Some requestTools;
             format := match options with Some o => optFormat o | None => None end |} in
      match tool_calls assistantMessage with
      | Some (toolCall :: toolCalls) =>
          let* currentMessages :=
            forEach (toolCall :: toolCalls)
              (runToolCall env client toolHandler assistantMessage)
              currentMessages in
          chatLoop env client requestTools toolHandler options cap
            remaining' iterations true currentMessages
      | _ =>
          ret {| response := assistantMessage;
                 toolUsed := toolUsed;
                 iterations := iterations |}
      end
  end.

(** [maxIterations] is an integer count, as in every call of the
    repository. *)
Definition chatWithTools (env : Env) (client : OllamaClient)
  (initialMessages : list OllamaMessage) (requestTools : list OllamaTool)
  (toolHandler : jsstring -> JsValue -> M jsstring)
  (options : option ChatOptions) : M ChatWithToolsResult :=
  let cap :=
    match options with
    | Some {| maxIterations := Some n |} => n
    | _ => DEFAULT_MAX_ITERATIONS
    end in
  chatLoop env client requestTools toolHandler options cap
    (Z.to_nat cap) 0 false initialMessages.

End OllamaClient.

(* ================================================================== *)
(** ** LearningService and the threshold utility *)
(* ================================================================== *)

Module LearningService.

Import ExampleStore.

Definition DEFAULT_CONFIDENCE_THRESHOLD : number := Fin 0.7.
Definition DEFAULT_CONFIDENCE : number := Fin 0.
Definition DEFAULT_USE_TOOL_CALLING : bool := true.
Definition OCR_TEXT_EXCERPT_LENGTH : Z := 500.

Record LearningContext : Type := mkLearningContext {
  ctxDocType : option jsstring;
  ctxKeywords : option (list JsValue);
  ctxConfidence : option number;
  useToolCalling : option bool
}.

Record LearningResult : Type := mkLearningResult {
  exampleFound : bool;
  example : option GoldExample;
  toolUsed : bool;
  improvementSuggestion : option jsstring
}.

Definition DEFAULT_LEARNING_RESULT : LearningResult :=
  {| exampleFound := false; example := None; toolUsed := false;
     improvementSuggestion := None |}.

Definition extractOcrTextFromExample (rt : Runtime) (example : GoldExample)
  : jsstring :=
  let fallback :=
    substring (toStr rt (ocrText example)) 0 OCR_TEXT_EXCERPT_LENGTH in
  match ocrText example with
  | VStr s =>
      match JSON_parse rt s with
      | Ok (VArr pages) =>
          match ToolRegistry.pageTexts pages with
          | Ok texts =>
              substring
                (join [10%N] (List.map (ToolRegistry.joinItem rt) texts))
                0 OCR_TEXT_EXCERPT_LENGTH
          | Throw _ => fallback
          end
      | _ => fallback
      end
  | _ => fallback
  end.

Definition shouldUseLearning (env : Env) (confidence : number)
  (docType : jsstring) (threshold : option number) : M bool :=
  let threshold :=
    match threshold with Some t => t | None => DEFAULT_CONFIDENCE_THRESHOLD end in
  if ge confidence threshold then ret false
  else
    let* counts := getGoldExampleCounts env in
    let count :=
      match lookupProp counts docType with
      | Some v => if truthy v then v else VNum (Fin 0)
      | None => VNum (Fin 0)
      end in
    ret (gt (toNumber (rt env) count) (Fin 0)).

Definition generateImprovementSuggestion (rt : Runtime) (example : GoldExample)
  : jsstring :=
  if truthy (fieldName example) then
    str "Field '" ++ toStr rt (fieldName example) ++ str "' was corrected to '"
    ++ toStr rt (correctedValue example)
    ++ str "'. Use this as a reference for similar extractions."
  else
    str "Document type was corrected to '" ++ toStr rt (docType example)
    ++ str "'. Use the extraction pattern from this example.".

Definition retrieveLearningExample (env : Env) (context : LearningContext)
  : M LearningResult :=
  let keywords :=
    match ctxKeywords context with Some k => k | None => DEFAULT_KEYWORDS end in
  let confidence :=
    match ctxConfidence context with Some c => c | None => DEFAULT_CONFIDENCE end in
  let useToolCalling :=
    match useToolCalling context with
    | Some b => b
    | None => DEFAULT_USE_TOOL_CALLING
    end in
  match ctxDocType context with
  | None | Some [] => ret DEFAULT_LEARNING_RESULT
  | Some docType =>
      let* shouldLearn := shouldUseLearning env confidence docType None in
      if negb shouldLearn then ret DEFAULT_LEARNING_RESULT
      else
        tryCatch
          (let* example :=
             getGoldExample env
               {| queryDocType := VStr docType;
                  queryKeywords := Some keywords;
                  queryLimit := Some DEFAULT_EXAMPLE_LIMIT |} in
           match example with
           | None =>
               ret {| exampleFound := false; example := None;
                      toolUsed := useToolCalling;
                      improvementSuggestion := None |}
           | Some ex =>
               ret {| exampleFound := true; example := Some ex;
                      toolUsed := useToolCalling;
                      improvementSuggestion :=
                        Some (generateImprovementSuggestion (rt env) ex) |}
           end)
          (fun _ =>
             ret {| exampleFound := false; example := None;
                    toolUsed := useToolCalling;
                    improvementSuggestion := None |})
  end.

Definition prepareLearningPrompt (rt : Runtime) (example : GoldExample)
  : jsstring :=
  let text := extractOcrTextFromExample rt example in
  str "
Here is a corrected example of a " ++ toStr rt (docType example) ++ str ":

OCR Text Excerpt:
" ++ text ++ str "

Corrected Extraction:
" ++ JSON_stringify_indented rt (extraction example) ++ str "

Use this example as a reference to improve your extraction accuracy.
".

End LearningService.

Module Threshold.

Definition DEFAULT_THRESHOLD : number := Fin 0.7.

Definition DOCUMENT_TYPE_TO_KEY : gmap jsstring jsstring :=
  list_to_map
    [ (str "Bank Statement", str "threshold_bank_statement");
      (str "Government ID", str "threshold_government_id");
      (str "W-9", str "threshold_w9");
      (str "Certificate of Insurance", str "threshold_coi");
      (str "Articles of Incorporation", str "threshold_articles");
      (str "Unknown", str "threshold_unknown") ].

(** [s.replace(/\s+/g, '_')] *)
Fixpoint underscoreRuns (inRun : bool) (s : jsstring) : jsstring :=
  match s with
  | [] => []
  | c :: s' =>
      if isWhiteSpace c
      then (if inRun then [] else [95%N]) ++ underscoreRuns true s'
      else c :: underscoreRuns false s'
  end.

Definition buildThresholdKey (type : jsstring) : jsstring :=
  match DOCUMENT_TYPE_TO_KEY !! type with
  | Some (c :: key) => c :: key
  | _ =>
      str "threshold_"
      ++ toLowerCase (removeAll (N.eqb 45) (underscoreRuns false type))
  end.

Definition getThreshold (env : Env) (type : jsstring) : M number :=
  tryCatch
    (let key := buildThresholdKey type in
     let* row :=
       dbGet env (str "SELECT value FROM settings WHERE key = ?") [VStr key] in
     match row with
     | Some r =>
         if truthy r
         then
           let* value := lift (getProp r (str "value")) in
           ret (parseFloat (toStr (rt env) value))
         else ret DEFAULT_THRESHOLD
     | None => ret DEFAULT_THRESHOLD
     end)
    (fun _ => ret DEFAULT_THRESHOLD).

End Threshold.

(* ================================================================== *)
(** ** ClassificationService *)
(* ================================================================== *)

Module ClassificationService.

Import ConfidenceCalculator OllamaClient LearningService.

Definition LOW_CONFIDENCE_THRESHOLD : number := Fin 0.7.
Definition MAPPED_TYPE_CONFIDENCE_CAP : number := Fin 0.6.
Definition OCR_TEXT_SUBSTRING_LENGTH : Z := 2000.
Definition DEFAULT_MAPPED_CONFIDENCE : JsValue := VNum (Fin 0.5).

Definition DOCUMENT_TYPE_MAPPING : gmap jsstring jsstring :=
  list_to_map
    [ (str "conditional sales contract", str "Certificate of Insurance");
      (str "sales contract", str "Certificate of Insurance");
      (str "contract", str "Certificate of Insurance");
      (str "driver license", str "Government ID");
      (str "drivers license", str "Government ID");
      (str "passport", str "Government ID");
      (str "tax form", str "W-9");
      (str "w9", str "W-9") ].

Definition SYSTEM_PROMPT : jsstring := strq
"You are a document classification expert. Your task is to classify documents into EXACTLY ONE of these types:

1. Bank Statement
2. Government ID
3. W-9
4. Certificate of Insurance
5. Articles of Incorporation
6. Unknown

CRITICAL: You MUST choose one of the six types above. Do NOT create new types or variations.

If you are uncertain which type it is, use the get_gold_example tool to retrieve a corrected example document for comparison.

Use `Unknown` ONLY when the document clearly does not match any of the five known types. If you have ANY indicators that suggest one of the known types, choose that type even with lower confidence rather than `Unknown`.

You MUST respond with a valid JSON object in EXACTLY this format:
{
  `document_type`: `Bank Statement`,
  `confidence`: 0.95,
  `evidence`: [`Found 'account balance'`, `Contains transaction history`, `Bank letterhead present`]
}

The `document_type` field MUST be one of: `Bank Statement`, `Government ID`, `W-9`, `Certificate of Insurance`, `Articles of Incorporation`, or `Unknown`.".

Definition buildUserPrompt (ocrText : jsstring) : jsstring :=
  str "Classify this document:" ++ [10; 10]%N
  ++ substring ocrText 0 OCR_TEXT_SUBSTRING_LENGTH.

Definition buildLearningUserPrompt (learningPrompt ocrText : jsstring)
  : jsstring :=
  learningPrompt ++ [10; 10]%N ++ str "Now classify this document:"
  ++ [10; 10]%N ++ substring ocrText 0 OCR_TEXT_SUBSTRING_LENGTH.

Definition parseLLMResponse (rt : Runtime) (responseContent : jsstring)
  : result JsValue :=
  match JSON_parse rt responseContent with
  | Ok v => Ok v
  | Throw _ => Throw (Error (str "Failed to parse classification result"))
  end.

(** [predictedType.toLowerCase()] exists on strings only. *)
Definition mapDocumentTypeVariation (predictedType : JsValue)
  : result (option jsstring) :=
  match predictedType with
  | VStr s =>
      match DOCUMENT_TYPE_MAPPING !! toLowerCase s with
      | Some (c :: mapped) => Ok (Some (c :: mapped))
      | _ => Ok None
      end
  | VUndefined =>
      Throw (TypeError (str "Cannot read properties of undefined (reading 'toLowerCase')"))
  | VNull =>
      Throw (TypeError (str "Cannot read properties of null (reading 'toLowerCase')"))
  | _ => Throw (TypeError (str "predictedType.toLowerCase is not a function"))
  end.

Definition adjustConfidenceAfterMapping (rt : Runtime)
  (currentConfidence : JsValue) : number :=
  Math_min
    (toNumber rt (if truthy currentConfidence then currentConfidence
                  else DEFAULT_MAPPED_CONFIDENCE))
    MAPPED_TYPE_CONFIDENCE_CAP.

Record ClassificationModel : Type := mkClassification {
  predicted_type : JsValue;
  confidence : number;
  threshold : number;
  requires_review : bool;
  evidence : JsValue;
  tool_used : bool;
  llm_confidence : number;
  clarity_confidence : number;
  final_confidence : number;
  reasons : option (list jsstring)
}.

Record ClassificationService : Type := mkService {
  ollamaClient : OllamaClient;
  toolRegistry : gmap jsstring ToolRegistry.ToolDefinition
}.

(** [parsed.name = v] *)
Definition assignProp (target : JsValue) (name : string) (v : JsValue)
  : JsValue :=
  match target with
  | VObj props => VObj (setProp props (str name) v)
  | _ => target
  end.

Definition JSON_FORMAT : option ChatOptions :=
  Some {| maxIterations := None; optFormat := Some (str "json") |}.

(** Steps A and A-B: the first request, and the validation of the type
    it answers, with the lexical remapping of an invalid one.  The
    result is the reply of [chatWithTools], [parsed] after the remapping
    and the validated [predictedType]. *)
Definition firstPass (env : Env) (service : ClassificationService)
  (ocrText : jsstring) : M (ChatWithToolsResult * JsValue * jsstring) :=
  let userPrompt := buildUserPrompt ocrText in
  let* result :=
    chatWithTools env (ollamaClient service)
      [ mkMessage system SYSTEM_PROMPT None; mkMessage user userPrompt None ]
      (ToolRegistry.getTools (toolRegistry service))
      (ToolRegistry.createToolHandler (toolRegistry service))
      JSON_FORMAT in
  let* parsed := lift (parseLLMResponse (rt env) (content (response result))) in
  let* predictedType := lift (getProp parsed (str "document_type")) in
  if isDocumentType predictedType then
    ret (result, parsed, toStr (rt env) predictedType)
  else
    let* mappedType := lift (mapDocumentTypeVariation predictedType) in
    match mappedType with
    | Some mapped =>
        let parsed := assignProp parsed "document_type" (VStr mapped) in
        let parsed :=
          assignProp parsed "confidence"
            (VNum (adjustConfidenceAfterMapping (rt env)
                     (ExampleStore.prop parsed "confidence"))) in
        if isDocumentType (VStr mapped) then ret (result, parsed, mapped)
        else
          throw (Error (str "Invalid document type: " ++ mapped
                        ++ str ". Must be one of: "
                        ++ join (str ", ") DocumentTypeEnum))
    | None =>
        throw (Error (str "Invalid document type: "
                      ++ toStr (rt env) predictedType
                      ++ str ". Must be one of: "
                      ++ join (str ", ") DocumentTypeEnum))
    end.

(** The [try] block that scores the reply of the retry: [Some] when the
    retry is adopted, [None] when it is discarded or cannot be read. *)
Definition scoreRetry (rt : Runtime) (retryContent ocrText : jsstring)
  (threshold : number) (confidenceBreakdown : ConfidenceBreakdown)
  : option (JsValue * ConfidenceBreakdown) :=
  match JSON_parse rt retryContent with
  | Throw _ => None
  | Ok retryParsed =>
      match getProp retryParsed (str "document_type") with
      | Throw _ => None
      | Ok retryType =>
          let retryConfidence :=
            calculateClassificationConfidence rt retryParsed ocrText
              (toStr rt retryType) (Some threshold) in
          if gt (ConfidenceCalculator.final_confidence retryConfidence)
                (ConfidenceCalculator.final_confidence confidenceBreakdown)
          then Some (retryParsed, retryConfidence)
          else None
      end
  end.

Definition classifyBody (env : Env) (service : ClassificationService)
  (ocrText : jsstring) (documentId : Z) : M ClassificationModel :=
  let* '(result, parsed, predictedType) := firstPass env service ocrText in
  let* threshold := Threshold.getThreshold env predictedType in
  let confidenceBreakdown :=
    calculateClassificationConfidence (rt env) parsed ocrText predictedType
      (Some threshold) in
  let finalResult := parsed in
  let finalConfidenceBreakdown := confidenceBreakdown in
  let finalToolUsed := OllamaClient.toolUsed result in
  let* '(finalResult, finalConfidenceBreakdown, finalToolUsed) :=
    if lt (ConfidenceCalculator.final_confidence confidenceBreakdown)
          LOW_CONFIDENCE_THRESHOLD
       && negb (OllamaClient.toolUsed result)
    then
      let* learningResult :=
        retrieveLearningExample env
          {| ctxDocType := Some predictedType;
             ctxKeywords := None;
             ctxConfidence :=
               Some (ConfidenceCalculator.final_confidence confidenceBreakdown);
             useToolCalling := Some true |} in
      match exampleFound learningResult, example learningResult with
      | true, Some ex =>
          let learningPrompt := prepareLearningPrompt (rt env) ex in
          let* retryResult :=
            chatWithTools env (ollamaClient service)
              [ mkMessage system SYSTEM_PROMPT None;
                mkMessage user (buildLearningUserPrompt learningPrompt ocrText)
                  None ]
              (ToolRegistry.getTools (toolRegistry service))
              (ToolRegistry.createToolHandler (toolRegistry service))
              JSON_FORMAT in
          match scoreRetry (rt env) (content (response retryResult)) ocrText
                  threshold confidenceBreakdown with
          | Some (retryParsed, retryConfidence) =>
              ret (retryParsed, retryConfidence, true)
          | None =>
              ret (finalResult, finalConfidenceBreakdown, finalToolUsed)
          end
      | _, _ => ret (finalResult, finalConfidenceBreakdown, finalToolUsed)
      end
    else ret (finalResult, finalConfidenceBreakdown, finalToolUsed) in
  let requires_review :=
    lt (ConfidenceCalculator.final_confidence finalConfidenceBreakdown)
       threshold in
  let finalEvidence := ExampleStore.prop finalResult "evidence" in
  ret {| predicted_type := ExampleStore.prop finalResult "document_type";
         confidence :=
           ConfidenceCalculator.final_confidence finalConfidenceBreakdown;
         threshold := threshold;
         requires_review := requires_review;
         evidence := if truthy finalEvidence then finalEvidence else VArr [];
         tool_used := finalToolUsed;
         llm_confidence :=
           ConfidenceCalculator.llm_confidence finalConfidenceBreakdown;
         clarity_confidence :=
           ConfidenceCalculator.clarity_confidence finalConfidenceBreakdown;
         final_confidence :=
           ConfidenceCalculator.final_confidence finalConfidenceBreakdown;
         reasons := ConfidenceCalculator.reasons finalConfidenceBreakdown |}.

Definition classify (env : Env) (service : ClassificationService)
  (ocrText : jsstring) (documentId : Z) : M ClassificationModel :=
  tryCatch (classifyBody env service ocrText documentId)
    (fun error =>
       throw (Error (str "Classification failed: " ++ errMessage error))).

Definition MIN_THRESHOLD : number := Fin 0.5.
Definition MAX_THRESHOLD : number := Fin 1.0.

(** The table [setThreshold] declares for itself *)
Definition SET_DOCUMENT_TYPE_TO_KEY : gmap jsstring jsstring :=
  list_to_map
    [ (str "Bank Statement", str "threshold_bank_statement");
      (str "Government ID", str "threshold_government_id");
      (str "W-9", str "threshold_w9");
      (str "Certificate of Insurance", str "threshold_coi");
      (str "Articles of Incorporation", str "threshold_articles");
      (str "Unknown", str "threshold_unknown") ].

Definition INSERT_SETTING_QUERY : jsstring :=
  str "INSERT OR REPLACE INTO settings (key, value) VALUES (?, ?)".

Definition setThreshold (env : Env) (type : jsstring) (threshold : number)
  : M unit :=
  if lt threshold MIN_THRESHOLD || gt threshold MAX_THRESHOLD
  then throw (Error (str "Threshold must be between 0.5 and 1.0"))
  else
    let key :=
      match SET_DOCUMENT_TYPE_TO_KEY !! type with
      | Some (c :: key) => c :: key
      | _ =>
          str "threshold_"
          ++ toLowerCase
               (removeAll (N.eqb 45) (Threshold.underscoreRuns false type))
      end in
    dbRun env INSERT_SETTING_QUERY
      [VStr key; VStr (numToString (rt env) threshold)].

End ClassificationService.

(* ================================================================== *)
(** ** ExtractionService *)
(* ================================================================== *)

Module ExtractionService.

Import ConfidenceCalculator ValidationService LearningService.

Definition LEARNING_EXAMPLE_MIN_CONFIDENCE : number := Fin 0.5.
Definition OCR_TEXT_MAX_LENGTH : Z := 4000.

Definition LLM_CONFIDENCE_EMPTY_STRING : number := Fin 0.1.
Definition LLM_CONFIDENCE_SHORT_STRING : number := Fin 0.3.
Definition LLM_CONFIDENCE_MEDIUM_STRING : number := Fin 0.6.
Definition LLM_CONFIDENCE_LONG_STRING : number := Fin 0.85.
Definition LLM_CONFIDENCE_NUMBER : number := Fin 0.9.
Definition LLM_CONFIDENCE_BOOLEAN : number := Fin 0.95.
Definition LLM_CONFIDENCE_EMPTY_ARRAY : number := Fin 0.2.
Definition LLM_CONFIDENCE_FILLED_ARRAY : number := Fin 0.8.
Definition LLM_CONFIDENCE_DEFAULT : number := Fin 0.7.

Definition CLARITY_CONFIDENCE_NO_KEYWORDS : number := Fin 0.3.
Definition CLARITY_CONFIDENCE_FEW_KEYWORDS : number := Fin 0.5.
Definition CLARITY_CONFIDENCE_SOME_KEYWORDS : number := Fin 0.7.
Definition CLARITY_CONFIDENCE_MOST_KEYWORDS : number := Fin 0.95.
Definition CLARITY_CONFIDENCE_DEFAULT : number := Fin 0.5.

Definition MIN_SEARCHABLE_TEXT_LENGTH : Z := 2.
Definition MIN_PARTIAL_MATCH_LENGTH : Z := 6.
Definition MIN_CONTAINED_MATCH_LENGTH_SHORT : Z := 4.
Definition MIN_CONTAINED_MATCH_LENGTH_LONG : Z := 8.
Definition LONG_PHRASE_THRESHOLD : Z := 15.

Definition BBox : Type := (number * number * number * number)%type.

Record OcrWord : Type := mkWord {
  text : jsstring;
  bbox : BBox;
  wordConfidence : number
}.

Record OcrPage : Type := mkPage {
  page : number;
  pageText : jsstring;
  words : list OcrWord
}.

Record Location : Type := mkLocation {
  pageNumber : option number;
  locationBbox : option BBox
}.

Definition NO_LOCATION : Location :=
  {| pageNumber := None; locationBbox := None |}.

Record Field : Type := mkField {
  name : jsstring;
  value : JsValue;
  llm_confidence : number;
  validation_confidence : number;
  clarity_confidence : number;
  final_confidence : number;
  page_number : option number;
  field_bbox : option BBox;
  validation_status : ValidationStatus;
  validation_error : option jsstring;
  reasons : option (list jsstring)
}.

Record ExtractionModel : Type := mkExtraction {
  document_id : Z;
  fields : list Field;
  (** the instant [new Date()] reads, which the source prints in ISO form *)
  extraction_timestamp : Z;
  overall_confidence : number;
  schema_type : jsstring;
  extraction_reasons : option (list jsstring)
}.

Record ExtractionService : Type := mkService {
  schemaStore : SchemaStore.SchemaStore
}.

Definition buildExtractionPrompt (rt : Runtime) (documentType : jsstring)
  (fieldNames : list jsstring) (ocrText : jsstring)
  (learningExample : option ExampleStore.GoldExample) : jsstring :=
  let fieldsDescription :=
    join [10%N] (List.map (fun name => str "  - " ++ name) fieldNames) in
  let prompt :=
    str "Extract the following fields from this " ++ documentType
    ++ str " document:

" ++ fieldsDescription ++ str "

Return a JSON object with these exact field names as keys. If a field is not found, use null.

" in
  let prompt :=
    match learningExample with
    | Some ex =>
        prompt ++ prepareLearningPrompt rt ex ++ [10; 10]%N
        ++ str "Now extract from this document:" ++ [10; 10]%N
    | None => prompt
    end in
  prompt ++ str "OCR Text:
" ++ substring ocrText 0 OCR_TEXT_MAX_LENGTH ++ str "

Return only valid JSON, no explanations.".

Definition calculateLLMConfidence (value : JsValue) : number :=
  match value with
  | VNull | VUndefined => Fin 0
  | VStr s =>
      let length := len (trim s) in
      if length =? 0 then LLM_CONFIDENCE_EMPTY_STRING
      else if length <? 2 then LLM_CONFIDENCE_SHORT_STRING
      else if length <? 5 then LLM_CONFIDENCE_MEDIUM_STRING
      else LLM_CONFIDENCE_LONG_STRING
  | VNum _ => LLM_CONFIDENCE_NUMBER
  | VBool _ => LLM_CONFIDENCE_BOOLEAN
  | VArr [] => LLM_CONFIDENCE_EMPTY_ARRAY
  | VArr (_ :: _) => LLM_CONFIDENCE_FILLED_ARRAY
  | VObj _ => LLM_CONFIDENCE_DEFAULT
  end.

Definition calculateClarityConfidence (ocrText : jsstring)
  (keywords : list jsstring) : number :=
  match keywords with
  | [] => CLARITY_CONFIDENCE_DEFAULT
  | _ =>
      let lowerText := toLowerCase ocrText in
      let matchCount :=
        List.fold_left
          (fun count keyword =>
             if includes lowerText (toLowerCase keyword) then count + 1 else count)
          keywords 0 in
      let matchRate := div (ofZ matchCount) (ofZ (Z.of_nat (List.length keywords))) in
      if eqb matchRate (Fin 0) then CLARITY_CONFIDENCE_NO_KEYWORDS
      else if lt matchRate (Fin 0.3) then CLARITY_CONFIDENCE_FEW_KEYWORDS
      else if lt matchRate (Fin 0.6) then CLARITY_CONFIDENCE_SOME_KEYWORDS
      else CLARITY_CONFIDENCE_MOST_KEYWORDS
  end.

(** [s.toLowerCase().replace(/[^a-z0-9\s]/g, '')] *)
Definition normalize (s : jsstring) : jsstring :=
  List.filter (fun c => isLowerAlpha c || isDigit c || isWhiteSpace c)
    (toLowerCase s).

(** The inner loop over [j]: [following] are the words after [words[i]]
    that the lookahead reaches, and the state is [combinedText] with the
    corners [minX], [minY], [maxX], [maxY] of the box so far. *)
Fixpoint spanSearch (searchText normalizedSearch : jsstring)
  (following : list OcrWord) (combinedText : jsstring)
  (minX minY maxX maxY : number) : option BBox :=
  match following with
  | [] => None
  | nextWord :: following' =>
      let '(bx, by_, bw, bh) := bbox nextWord in
      let combinedText := combinedText ++ str " " ++ text nextWord in
      let normalizedCombined := normalize combinedText in
      let minX := Math_min minX bx in
      let minY := Math_min minY by_ in
      let maxX := Math_max maxX (add bx bw) in
      let maxY := Math_max maxY (add by_ bh) in
      let span := (minX, minY, sub maxX minX, sub maxY minY) in
      if JsString.eqb normalizedCombined normalizedSearch then Some span
      else
        let compactCombined := removeAll isWhiteSpace normalizedCombined in
        let compactSearch := removeAll isWhiteSpace normalizedSearch in
        if JsString.eqb compactCombined compactSearch then Some span
        else
          let minLength :=
            if len searchText >? LONG_PHRASE_THRESHOLD
            then MIN_CONTAINED_MATCH_LENGTH_LONG
            else MIN_CONTAINED_MATCH_LENGTH_SHORT in
          if includes normalizedCombined normalizedSearch
             && (len normalizedSearch >? minLength)
          then Some span
          else spanSearch searchText normalizedSearch following' combinedText
                 minX minY maxX maxY
  end.

(** The loop over [i]: [rest] is [page.words] from index [i] on. *)
Fixpoint wordSearch (searchText normalizedSearch : jsstring)
  (rest : list OcrWord) : option BBox :=
  match rest with
  | [] => None
  | word :: rest' =>
      let normalizedWord := normalize (text word) in
      if JsString.eqb normalizedWord normalizedSearch then Some (bbox word)
      else
        let wordCount := splitWhitespaceCount searchText in
        let maxLookahead := Z.min (Z.max (wordCount + 3) 10) 20 in
        let '(bx, by_, bw, bh) := bbox word in
        match spanSearch searchText normalizedSearch
                (List.firstn (Z.to_nat (maxLookahead - 1)) rest')
                (text word) bx by_ (add bx bw) (add by_ bh) with
        | Some span => Some span
        | None => wordSearch searchText normalizedSearch rest'
        end
  end.

(** The fallback loop of a page *)
Definition partialSearch (normalizedSearch : jsstring) (pageWords : list OcrWord)
  : option BBox :=
  bbox <$>
    List.find (fun word => includes (normalize (text word)) normalizedSearch)
      pageWords.

Fixpoint pageSearch (searchText normalizedSearch : jsstring)
  (ocrPages : list OcrPage) : Location :=
  match ocrPages with
  | [] => NO_LOCATION
  | p :: ocrPages' =>
      match wordSearch searchText normalizedSearch (words p) with
      | Some box => {| pageNumber := Some (page p); locationBbox := Some box |}
      | None =>
          let fallback :=
            if len normalizedSearch >? MIN_PARTIAL_MATCH_LENGTH
            then partialSearch normalizedSearch (words p)
            else None in
          match fallback with
          | Some box => {| pageNumber := Some (page p); locationBbox := Some box |}
          | None => pageSearch searchText normalizedSearch ocrPages'
          end
      end
  end.

(** The text that is searched for, when there is one *)
Definition searchTextOf (rt : Runtime) (value : JsValue) : option jsstring :=
  match value with
  | VStr s => Some (trim s)
  | VNum _ | VBool _ => Some (toStr rt value)
  | VArr (first :: _) => Some (toStr rt first)
  | _ => None
  end.

Definition findFieldLocation (rt : Runtime) (value : JsValue)
  (ocrPages : list OcrPage) : Location :=
  match ocrPages with
  | [] => NO_LOCATION
  | _ =>
      match searchTextOf rt value with
      | None => NO_LOCATION
      | Some searchText =>
          if len searchText <? MIN_SEARCHABLE_TEXT_LENGTH then NO_LOCATION
          else pageSearch searchText (normalize searchText) ocrPages
      end
  end.

(** The body of the loop over [fieldNames], for a field name that is
    not a member of a built-in prototype *)
Definition extractField (env : Env) (service : ExtractionService)
  (ocrText documentType : jsstring) (threshold : number)
  (fieldKeywords : option (list (jsstring * list jsstring)))
  (extractedData : TypeCoercionService.CoercedData) (ocrPages : list OcrPage)
  (fieldName : jsstring) : Field :=
  let value := TypeCoercionService.readField extractedData fieldName in
  let llmConfidence := calculateLLMConfidence value in
  let validationResult :=
    validateField env (schemaStore service) documentType fieldName value in
  let validationConfidence := ValidationService.confidence validationResult in
  let keywords :=
    match fieldKeywords with
    | Some table =>
        match List.find (fun kv => JsString.eqb (fst kv) fieldName) table with
        | Some kv => snd kv
        | None => []
        end
    | None => []
    end in
  let clarityConfidence := calculateClarityConfidence ocrText keywords in
  let finalConfidence :=
    mul (mul llmConfidence validationConfidence) clarityConfidence in
  let confidenceBreakdown :=
    {| ConfidenceCalculator.llm_confidence := llmConfidence;
       ConfidenceCalculator.validation_confidence := validationConfidence;
       ConfidenceCalculator.clarity_confidence := clarityConfidence;
       ConfidenceCalculator.final_confidence := finalConfidence;
       ConfidenceCalculator.reasons := None |} in
  let reasons :=
    generateLowConfidenceReasons (rt env) confidenceBreakdown (Some threshold) in
  let locationInfo := findFieldLocation (rt env) value ocrPages in
  {| name := fieldName;
     value := match value with VUndefined => VNull | _ => value end;
     llm_confidence := llmConfidence;
     validation_confidence := validationConfidence;
     clarity_confidence := clarityConfidence;
     final_confidence := finalConfidence;
     page_number := pageNumber locationInfo;
     field_bbox := locationBbox locationInfo;
     validation_status := getValidationStatus validationResult;
     validation_error :=
       match ValidationService.error validationResult with
       | Some (c :: message) => Some (c :: message)
       | _ => None
       end;
     reasons := nonEmpty reasons |}.

(** [fields.reduce((sum, f) => sum + get(f), 0) / fields.length] *)
Definition average (get : Field -> number) (fields : list Field) : number :=
  div (List.fold_left (fun sum f => add sum (get f)) fields (Fin 0))
      (ofZ (Z.of_nat (List.length fields))).

Definition extract (env : Env) (service : ExtractionService)
  (ocrText documentType : jsstring) (documentId : Z)
  (ocrPages : list OcrPage) : M ExtractionModel :=
  match SchemaStore.getSchema (schemaStore service) documentType with
  | None =>
      throw (Error (str "No schema found for document type: " ++ documentType))
  | Some _ =>
      let* threshold := Threshold.getThreshold env documentType in
      let fieldNames :=
        SchemaStore.getFieldNames (schemaStore service) documentType in
      let fieldKeywords :=
        SchemaStore.getFieldKeywords (schemaStore service) documentType in
      let* learningResult :=
        retrieveLearningExample env
          {| ctxDocType := Some documentType;
             ctxKeywords := None;
             ctxConfidence := Some LEARNING_EXAMPLE_MIN_CONFIDENCE;
             useToolCalling := Some false |} in
      let prompt :=
        buildExtractionPrompt (rt env) documentType fieldNames ocrText
          (if exampleFound learningResult then example learningResult else None) in
      let* startTime := now env in
      let* response :=
        doChat env
          {| messages :=
               [ mkMessage system
                   (str "You are a document extraction assistant. Extract structured data from OCR text and return valid JSON only. Do not include any explanations or markdown.")
                   None;
                 mkMessage user prompt None ];
             tools := None;
             format := Some (str "json") |} in
      let* endTime := now env in
      let* parsedData :=
        match JSON_parse (rt env) (content response) with
        | Ok v => ret v
        | Throw _ => throw (Error (str "Invalid JSON response from LLM"))
        end in
      let* extractedData :=
        lift (TypeCoercionService.coerceAllFields (rt env) (schemaStore service)
                documentType parsedData) in
      let '(fields, totalConfidence) :=
        List.fold_left
          (fun state fieldName =>
             let f :=
               extractField env service ocrText documentType threshold
                 fieldKeywords extractedData ocrPages fieldName in
             (fst state ++ [f], add (snd state) (final_confidence f)))
          fieldNames ([], Fin 0) in
      let overallConfidence :=
        div totalConfidence (ofZ (Z.of_nat (List.length fieldNames))) in
      let overallConfidenceBreakdown :=
        {| ConfidenceCalculator.llm_confidence := average llm_confidence fields;
           ConfidenceCalculator.validation_confidence :=
             average validation_confidence fields;
           ConfidenceCalculator.clarity_confidence :=
             average clarity_confidence fields;
           ConfidenceCalculator.final_confidence := overallConfidence;
           ConfidenceCalculator.reasons := None |} in
      let overallReasons :=
        generateLowConfidenceReasons (rt env) overallConfidenceBreakdown
          (Some threshold) in
      let* timestamp := now env in
      ret {| document_id := documentId;
             fields := fields;
             extraction_timestamp := timestamp;
             overall_confidence := overallConfidence;
             schema_type := documentType;
             extraction_reasons := nonEmpty overallReasons |}
  end.

Definition reExtract (env : Env) (service : ExtractionService)
  (documentId : Z) (newType ocrText : jsstring) : M ExtractionModel :=
  extract env service ocrText newType documentId [].

End ExtractionService.

(* ================================================================== *)
(** ** Vocabulary of the specification *)
(* ================================================================== *)

Module Spec.

Import ConfidenceCalculator.

(** A sub-score in [0,1], as the source would test it. *)
Definition inUnitInterval (n : number) : Prop :=
  ge n (Fin 0) = true /\ le n (Fin 1) = true.

(** Clamping a rational to [0,1]. *)
Definition clampToUnit (q : Q) : Q :=
  if Qlt_le_dec q 0 then 0%Q else if Qlt_le_dec 1 q then 1%Q else q.

(** The code computes on binary64 numbers, this development on exact
    rationals: where the code rounds the result of an operation, the
    number it holds is near the rational one, not equal to it.  Each
    rounded operation on operands of one sign adds a relative error of
    at most 2^-53, or an absolute one of at most 2^-1075 when the result
    is subnormal.  [withinRounding n exact computed] is a distance that
    [computed] keeps to [exact] after [n] such operations, in binary64
    and a fortiori here. *)
Definition BINARY64_EPSILON : Q := 1 # (2 ^ 52).
Definition BINARY64_TINY : Q := 1 # (2 ^ 1074).

Definition withinRounding (roundings : Z) (exact computed : Q) : Prop :=
  (Qabs (computed - exact)
   <= inject_Z roundings * (Qabs exact * BINARY64_EPSILON + BINARY64_TINY))%Q.

(** The threshold a call of [generateLowConfidenceReasons] compares with *)
Definition thresholdOrDefault (threshold : option number) : number :=
  match threshold with
  | Some t => t
  | None => DEFAULT_CONFIDENCE_THRESHOLD
  end.

(** The reason each sub-score contributes on its own. *)
Definition llmReasons (rt : Runtime) (llm_confidence : number) : list jsstring :=
  if lt llm_confidence (Fin 0.7)
  then [REASON_MODEL_UNCERTAINTY rt llm_confidence] else [].

Definition validationReasons (validation_confidence : number) : list jsstring :=
  if lt validation_confidence (Fin 1.0)
  then [if le validation_confidence (Fin 0.3)
        then REASON_VALIDATION_FAILED else REASON_PARTIAL_VALIDATION]
  else [].

Definition clarityReasons (clarity_confidence : number) : list jsstring :=
  if lt clarity_confidence (Fin 0.7)
  then [if le clarity_confidence (Fin 0.4)
        then REASON_POOR_QUALITY else REASON_MISSING_KEYWORDS]
  else [].

End Spec.

Module RoutingSpec.

(** The character of a decimal digit *)
Definition digitChar (d : Z) : jschar := Z.to_N (48 + d).

Definition isDecimalDigit (d : Z) : Prop := 0 <= d <= 9.

(** Nine digits whose ABA weighted sum is divisible by 10 *)
Definition abaValid (cleaned : jsstring) : Prop :=
  exists d1 d2 d3 d4 d5 d6 d7 d8 d9 : Z,
    cleaned = List.map digitChar [d1; d2; d3; d4; d5; d6; d7; d8; d9]
    /\ List.Forall isDecimalDigit [d1; d2; d3; d4; d5; d6; d7; d8; d9]
    /\ (3 * (d1 + d4 + d7) + 7 * (d2 + d5 + d8) + (d3 + d6 + d9)) mod 10 = 0.

(** What [validateRoutingNumber] computes on the cleaned string *)
Definition checksumOk (cleaned : jsstring) : bool :=
  let d (i : nat) := List.nth i (ValidationService.digitsOf cleaned) 0 in
  (3 * (d 0%nat + d 3%nat + d 6%nat) + 7 * (d 1%nat + d 4%nat + d 7%nat)
   + (d 2%nat + d 5%nat + d 8%nat)) mod 10 =? 0.

(** The field names that [calculateValidationConfidence] dispatches to
    the routing-number check: they contain [routing_number] and none of
    the patterns that are tried before it. *)
Definition isRoutingNumberField (fieldName : jsstring) : Prop :=
  includes fieldName (str "routing_number") = true
  /\ includes fieldName (str "date") = false
  /\ includes fieldName (str "ssn") = false
  /\ includes fieldName (str "ein") = false
  /\ includes fieldName (str "account_number") = false.

End RoutingSpec.

Module LoopSpec.

Import OllamaClient.

Definition hasToolCalls (m : OllamaMessage) : bool :=
  match tool_calls m with
  | Some (_ :: _) => true
  | _ => false
  end.

(** The LLM answers every request. *)
Definition llmAlwaysReplies (env : Env) : Prop :=
  forall (w : World) (request : ChatRequest),
    exists m, chat env w request = Ok m.

(** The arguments of every tool call the LLM makes are an object or a
    string that [JSON.parse] accepts. *)
Definition toolArgumentsParse (env : Env) : Prop :=
  forall (w : World) (request : ChatRequest) (m : OllamaMessage)
         (calls : list ToolCall),
    chat env w request = Ok m -> tool_calls m = Some calls ->
    List.Forall
      (fun call => exists args,
         parseToolArguments (rt env) (functionArguments call) = Ok args)
      calls.

(** The synthetic turn that carries the result of a tool call *)
Definition toolResultTurn (toolResult : jsstring) : OllamaMessage :=
  {| role := tool; content := toolResult; tool_calls := None |}.

(** The request an iteration of the loop sends *)
Definition request (requestTools : list OllamaTool) (options : option ChatOptions)
  (msgs : list OllamaMessage) : ChatRequest :=
  {| messages := msgs;
     tools := Some requestTools;
     format := match options with Some o => optFormat o | None => None end |}.

(** No iteration cap is passed, so that the default of 3 applies. *)
Definition defaultCap (options : option ChatOptions) : Prop :=
  match options with
  | Some o => maxIterations o = None
  | None => True
  end.

Definition isChat (ev : Event) : bool :=
  match ev with
  | EvChat _ => true
  | _ => false
  end.

(** The first request of a call of [chatWithTools] by [classify]: the
    system prompt and one user prompt. *)
Definition isPassStart (ev : Event) : bool :=
  match ev with
  | EvChat {| messages := [_; m] |} =>
      match role m with
      | user => true
      | _ => false
      end
  | _ => false
  end.

(** A request that feeds the result of an executed tool call back to
    the LLM *)
Definition carriesToolResult (ev : Event) : bool :=
  match ev with
  | EvChat request =>
      List.existsb
        (fun m => match role m with tool => true | _ => false end)
        (messages request)
  | _ => false
  end.

Definition passCount (events : list Event) : nat :=
  List.length (List.filter isPassStart events).

(** The tool calls of one reply [m], run in order from the messages
    [msgs] in the world [w]: the arguments of each call are read, the
    handler is called, and the call appends the assistant message and a
    tool-result turn whose content is what the handler returned, or the
    error envelope of what it threw. *)
Inductive callsRun (env : Env) (client : OllamaClient.OllamaClient)
  (toolHandler : jsstring -> JsValue -> M jsstring) (m : OllamaMessage)
  : list ToolCall -> list OllamaMessage -> World
    -> list OllamaMessage -> World -> Prop :=
| callsRun_done (msgs : list OllamaMessage) (w : World) :
    callsRun env client toolHandler m [] msgs w msgs w
| callsRun_call (call : ToolCall) (calls : list ToolCall) (args : JsValue)
    (toolResult : jsstring) (msgs msgs' : list OllamaMessage)
    (w w1 w' : World) :
    parseToolArguments (rt env) (functionArguments call) = Ok args ->
    toolResult
      = match fst (toolHandler (functionName call) args (w ++ [EvNow])) with
        | Ok r => r
        | Throw error => createErrorResponse (rt env) error
        end ->
    runToolCall env client toolHandler m msgs call w
      = (Ok (msgs ++ [m; toolResultTurn toolResult]), w1) ->
    callsRun env client toolHandler m calls
      (msgs ++ [m; toolResultTurn toolResult]) w1 msgs' w' ->
    callsRun env client toolHandler m (call :: calls) msgs w msgs' w'.

(** One iteration that goes on to the next: the reply to the request
    for [msgs] carries tool calls, and they are all run. *)
Inductive toolRound (env : Env) (client : OllamaClient.OllamaClient)
  (requestTools : list OllamaTool)
  (toolHandler : jsstring -> JsValue -> M jsstring)
  (options : option ChatOptions)
  : list OllamaMessage -> World -> list OllamaMessage -> World -> Prop :=
| toolRound_intro (m : OllamaMessage) (call : ToolCall)
    (calls : list ToolCall) (msgs msgs' : list OllamaMessage) (w w' : World) :
    chat env w (request requestTools options msgs) = Ok m ->
    tool_calls m = Some (call :: calls) ->
    callsRun env client toolHandler m (call :: calls) msgs
      (w ++ [EvChat (request requestTools options msgs)]) msgs' w' ->
    toolRound env client requestTools toolHandler options msgs w msgs' w'.

(** [n] such iterations in a row *)
Inductive toolRounds (env : Env) (client : OllamaClient.OllamaClient)
  (requestTools : list OllamaTool)
  (toolHandler : jsstring -> JsValue -> M jsstring)
  (options : option ChatOptions)
  : nat -> list OllamaMessage -> World -> list OllamaMessage -> World -> Prop :=
| toolRounds_none (msgs : list OllamaMessage) (w : World) :
    toolRounds env client requestTools toolHandler options 0 msgs w msgs w
| toolRounds_more (n : nat) (msgs msgs1 msgs' : list OllamaMessage)
    (w w1 w' : World) :
    toolRound env client requestTools toolHandler options msgs w msgs1 w1 ->
    toolRounds env client requestTools toolHandler options n msgs1 w1 msgs' w' ->
    toolRounds env client requestTools toolHandler options (S n) msgs w msgs' w'.

(** How a call of the loop ends after [n] iterations that ran tool
    calls, from the messages [msgs] and the world [w] they leave, when
    [spare] tells whether the cap allows another iteration. *)
Definition loopEnd (env : Env) (client : OllamaClient.OllamaClient)
  (requestTools : list OllamaTool)
  (toolHandler : jsstring -> JsValue -> M jsstring)
  (options : option ChatOptions) (cap : Z) (spare : bool)
  (iterations : Z) (used : bool)
  (msgs : list OllamaMessage) (w : World)
  (out : result OllamaClient.ChatWithToolsResult * World) : Prop :=
  let sent := w ++ [EvChat (request requestTools options msgs)] in
  if spare then
    (* the reply has no tool calls: it is returned *)
    (exists m,
       chat env w (request requestTools options msgs) = Ok m
       /\ hasToolCalls m = false
       /\ out = (Ok {| OllamaClient.response := m;
                       OllamaClient.toolUsed := used;
                       OllamaClient.iterations := iterations |}, sent))
    (* the request fails *)
    \/ (exists e,
          chat env w (request requestTools options msgs) = Throw e
          /\ out = (Throw e, sent))
    (* the arguments of a tool call of the reply cannot be read *)
    \/ (exists m before call after msgs' w' e,
          chat env w (request requestTools options msgs) = Ok m
          /\ tool_calls m = Some (before ++ call :: after)
          /\ callsRun env client toolHandler m before msgs sent msgs' w'
          /\ parseToolArguments (rt env) (functionArguments call) = Throw e
          /\ out = (Throw e, w'))
  else out = (Throw (OllamaClient.MAX_ITERATIONS_ERROR cap), w).

End LoopSpec.

Module LocationSpec.

Import ExtractionService.

(** The text of a run of consecutive words, joined by single spaces *)
Definition spanText (span : list OcrWord) : jsstring :=
  join (str " ") (List.map text span).

(** The longest run of words that is tried for a search text *)
Definition maxLookahead (searchText : jsstring) : Z :=
  Z.min (Z.max (splitWhitespaceCount searchText + 3) 10) 20.

(** (a) one word equals the search text, both normalized *)
Definition exactMatch (normalizedSearch : jsstring) (p : OcrPage) : Prop :=
  exists word, List.In word (words p)
    /\ normalize (text word) = normalizedSearch.

(** The three tests on the text of a run of words *)
Definition spanAccepted (searchText normalizedSearch combined : jsstring)
  : bool :=
  JsString.eqb (normalize combined) normalizedSearch
  || JsString.eqb (removeAll isWhiteSpace (normalize combined))
       (removeAll isWhiteSpace normalizedSearch)
  || includes (normalize combined) normalizedSearch
     && (len normalizedSearch >?
         (if len searchText >? LONG_PHRASE_THRESHOLD
          then MIN_CONTAINED_MATCH_LENGTH_LONG
          else MIN_CONTAINED_MATCH_LENGTH_SHORT)).

(** (b) a run of at least two and at most [maxLookahead] consecutive
    words passes one of the three tests *)
Definition spanMatch (searchText normalizedSearch : jsstring) (p : OcrPage)
  : Prop :=
  exists before span after,
    words p = before ++ span ++ after
    /\ (2 <= List.length span)%nat
    /\ Z.of_nat (List.length span) <= maxLookahead searchText
    /\ spanAccepted searchText normalizedSearch (spanText span) = true.

(** (c) the search text is longer than six characters and part of a word *)
Definition substringMatch (normalizedSearch : jsstring) (p : OcrPage) : Prop :=
  len normalizedSearch > MIN_PARTIAL_MATCH_LENGTH
  /\ exists word, List.In word (words p)
       /\ includes (normalize (text word)) normalizedSearch = true.

(** No run of consecutive words of [ws] is accepted. *)
Definition noSpan (searchText ns : jsstring) (ws : list OcrWord) : Prop :=
  forall before span after,
    ws = before ++ span ++ after ->
    (2 <= List.length span)%nat ->
    Z.of_nat (List.length span) <= maxLookahead searchText ->
    spanAccepted searchText ns (spanText span) = false.

Definition pageMatches (searchText : jsstring) (p : OcrPage) : Prop :=
  exactMatch (normalize searchText) p
  \/ spanMatch searchText (normalize searchText) p
  \/ substringMatch (normalize searchText) p.

End LocationSpec.

Module WorldSpec.

(** A computation only appends to the history, and only events that
    satisfy [P]. *)
Definition appends {A : Type} (P : Event -> Prop) (m : M A) : Prop :=
  forall w, exists added, snd (m w) = w ++ added /\ List.Forall P added.

(** An event that is not the first request of a pass *)
Definition notPassStart (ev : Event) : Prop := LoopSpec.isPassStart ev = false.

(** A computation appends events of which exactly [n] start a pass. *)
Definition passes {A : Type} (n : nat) (m : M A) : Prop :=
  forall w, exists added,
    snd (m w) = w ++ added /\ LoopSpec.passCount added = n.

(** The sum of a list of numbers, as a loop accumulates it from 0 *)
Definition total (l : list number) : number :=
  List.fold_left add l (Fin 0).

(** The arithmetic mean *)
Definition mean (l : list number) : number :=
  div (total l) (ofZ (Z.of_nat (List.length l))).

End WorldSpec.

(* ================================================================== *)
(** ** Sample environments *)
(* ================================================================== *)

(** Concrete collaborators for the examples: a runtime that is right on
    the texts and numbers the examples give it, a database that holds at
    most one gold correction, and scripted LLMs. *)
Module Samples.

Import OllamaClient.

Fixpoint fractionDigits (fuel : nat) (numerator denominator : Z) : jsstring :=
  match fuel with
  | O => []
  | S fuel' =>
      if numerator =? 0 then []
      else
        let scaled := 10 * numerator in
        Z.to_N (48 + scaled / denominator)
        :: fractionDigits fuel' (scaled mod denominator) denominator
  end.

(** A decimal with at most twenty places after the point *)
Definition decimalText (q : Q) : jsstring :=
  let r := Qred q in
  let n := Z.abs (Qnum r) in
  let d := Z.pos (Qden r) in
  (if Qnum r <? 0 then str "-" else [])
  ++ natDigits (Z.to_N (n / d))
  ++ match fractionDigits 20 (n mod d) d with
     | [] => []
     | digits => str "." ++ digits
     end.

Definition syntaxError : JsError :=
  mkJsError (str "SyntaxError") (str "Unexpected token in JSON").

Definition classificationReply (documentType : string) (confidence : Q)
  : JsValue :=
  VObj [ (str "document_type", VStr (str documentType));
         (str "confidence", VNum (Fin confidence)) ].

Definition DRIVER_LICENSE_TEXT : jsstring :=
  strq "{`document_type`:`Driver License`,`confidence`:0.9}".
Definition GOVERNMENT_ID_095_TEXT : jsstring :=
  strq "{`document_type`:`Government ID`,`confidence`:0.95}".
Definition GOVERNMENT_ID_05_TEXT : jsstring :=
  strq "{`document_type`:`Government ID`,`confidence`:0.5}".
Definition GOVERNMENT_ID_04_TEXT : jsstring :=
  strq "{`document_type`:`Government ID`,`confidence`:0.4}".
Definition W9_TEXT : jsstring :=
  strq "{`document_type`:`W-9`,`confidence`:0.9}".
Definition W9_FIELDS_TEXT : jsstring :=
  strq "{`legal_name`:`Acme LLC`,`signature_present`:`yes`}".
Definition MALFORMED_TEXT : jsstring := str "{oops".

(** The JSON texts the sample parser knows; it rejects every other text. *)
Definition jsonTable : list (jsstring * JsValue) :=
  [ (DRIVER_LICENSE_TEXT, classificationReply "Driver License" 0.9);
    (GOVERNMENT_ID_095_TEXT, classificationReply "Government ID" 0.95);
    (GOVERNMENT_ID_05_TEXT, classificationReply "Government ID" 0.5);
    (GOVERNMENT_ID_04_TEXT, classificationReply "Government ID" 0.4);
    (W9_TEXT, classificationReply "W-9" 0.9);
    (W9_FIELDS_TEXT,
      VObj [ (str "legal_name", VStr (str "Acme LLC"));
             (str "signature_present", VStr (str "yes")) ]) ].

Definition parse (text : jsstring) : result JsValue :=
  match List.find (fun kv => JsString.eqb (fst kv) text) jsonTable with
  | Some kv => Ok (snd kv)
  | None => Throw syntaxError
  end.

Definition plainRuntime : Runtime :=
  {| numberToString := decimalText;
     toNumberOther := fun _ => NaN;
     JSON_parse := parse;
     JSON_stringify_indented := fun _ => str "{}";
     Date_parse := fun _ => None |}.

(** Indentation is not reproduced: the one object the examples print
    this way is empty. *)
Definition runtime : Runtime :=
  {| numberToString := decimalText;
     toNumberOther := fun _ => NaN;
     JSON_parse := parse;
     JSON_stringify_indented := JSON_stringify_value plainRuntime;
     Date_parse := fun _ => None |}.

Definition chatCount (w : World) : nat :=
  List.length (List.filter LoopSpec.isChat w).

Definition answer (text : jsstring) : OllamaMessage :=
  {| role := assistant; content := text; tool_calls := None |}.

Definition callTool (name : string) (arguments : JsValue) : OllamaMessage :=
  {| role := assistant;
     content := [];
     tool_calls := Some [ mkToolCall (str name) arguments ] |}.

(** The one gold correction of the sample database, for Government ID;
    its document has no stored OCR text and no stored extraction. *)
Definition goldRow : JsValue :=
  VObj [ (str "id", VNum (Fin 1));
         (str "docId", VNum (Fin 7));
         (str "docType", VStr (str "Government ID"));
         (str "ocrText", VNull);
         (str "extraction", VNull);
         (str "correctedValue", VStr (str "Government ID"));
         (str "fieldName", VNull);
         (str "createdAt", VStr (str "2025-01-01 00:00:00")) ].

Definition goldCounts : list JsValue :=
  [ VObj [ (str "docType", VStr (str "Government ID"));
           (str "count", VNum (Fin 1)) ] ].

(** A world with the sample database (no stored threshold, so that the
    default 0.7 applies) and the given LLM. *)
Definition envWith (llm : World -> ChatRequest -> result OllamaMessage)
  (hasGold : bool) : Env :=
  {| rt := runtime;
     safeParse := fun _ _ => Ok ParseSuccess;
     chat := llm;
     db_get := fun _ sql _ =>
       if startsWith sql (str "SELECT value FROM settings") then Ok None
       else Ok (if hasGold then Some goldRow else None);
     db_all := fun _ _ _ => Ok (if hasGold then goldCounts else []);
     db_run := fun _ _ _ => Ok tt;
     Date_now := fun w => Z.of_nat (List.length w) |}.

(** An LLM that first asks for a tool nobody registered, then answers. *)
Definition envToolThenAnswer : Env :=
  envWith (fun w _ =>
             Ok (if (chatCount w =? 0)%nat
                 then callTool "lookup_weather" (VObj [])
                 else answer W9_TEXT))
    false.

Definition toolThenAnswerHandler : jsstring -> JsValue -> M jsstring :=
  ToolRegistry.createToolHandler (ToolRegistry.create envToolThenAnswer).

(** An LLM whose tool calls carry arguments that are not JSON. *)
Definition envMalformed : Env :=
  envWith (fun _ _ => Ok (callTool "get_gold_example" (VStr MALFORMED_TEXT)))
    false.

(** An LLM that answers an invalid type first, and a confident valid
    one when it is asked again with the gold example. *)
Definition envRetryAdopted : Env :=
  envWith (fun w _ =>
             Ok (if (chatCount w =? 0)%nat
                 then answer DRIVER_LICENSE_TEXT
                 else answer GOVERNMENT_ID_095_TEXT))
    true.

(** An LLM that gives the same invalid type whenever it is asked. *)
Definition envRetryRepeated : Env :=
  envWith (fun _ _ => Ok (answer DRIVER_LICENSE_TEXT)) true.

(** An LLM that is unsure, and when asked again first calls the tool and
    then answers with less confidence than before. *)
Definition envRetryDiscarded : Env :=
  envWith (fun w _ =>
             Ok (match chatCount w with
                 | O => answer GOVERNMENT_ID_05_TEXT
                 | S O =>
                     callTool "get_gold_example"
                       (VObj [ (str "doc_type", VStr (str "Government ID")) ])
                 | _ => answer GOVERNMENT_ID_04_TEXT
                 end))
    true.

(** An LLM that extracts two of the five fields of a W-9. *)
Definition envExtraction : Env :=
  envWith (fun _ _ => Ok (answer W9_FIELDS_TEXT)) false.

Definition client : OllamaClient :=
  {| baseUrl := str "http://localhost:11434";
     model := str "llama3.2:3b";
     currentDocumentId := Some 7 |}.

Definition GOVERNMENT_ID_OCR : jsstring :=
  str "DRIVER LICENSE identification card expires 2030 date of birth DOB 1990".

Definition W9_OCR : jsstring :=
  str "Form W-9 Request for Taxpayer Identification Name Acme LLC signature".

End Samples.

Module ClassifySpec.

Import ClassificationService.

(** The service as the repository builds it: the registry holds the
    retrieval tool only. *)
Definition defaultService (env : Env) (client : OllamaClient.OllamaClient)
  : ClassificationService :=
  {| ollamaClient := client; toolRegistry := ToolRegistry.create env |}.

(** The result [classify] builds from a parsed reply and its score *)
Definition resultOf (source : JsValue)
  (score : ConfidenceCalculator.ConfidenceBreakdown) (threshold : number)
  (toolUsed : bool) : ClassificationModel :=
  let finalEvidence := ExampleStore.prop source "evidence" in
  {| predicted_type := ExampleStore.prop source "document_type";
     confidence := ConfidenceCalculator.final_confidence score;
     threshold := threshold;
     requires_review :=
       lt (ConfidenceCalculator.final_confidence score) threshold;
     evidence := if truthy finalEvidence then finalEvidence else VArr [];
     tool_used := toolUsed;
     llm_confidence := ConfidenceCalculator.llm_confidence score;
     clarity_confidence := ConfidenceCalculator.clarity_confidence score;
     final_confidence := ConfidenceCalculator.final_confidence score;
     reasons := ConfidenceCalculator.reasons score |}.

(** The score of a parsed reply for the type it names *)
Definition scoreOf (rt : Runtime) (parsed : JsValue) (ocrText : jsstring)
  (threshold : number) : ConfidenceCalculator.ConfidenceBreakdown :=
  ConfidenceCalculator.calculateClassificationConfidence rt parsed ocrText
    (toStr rt (ExampleStore.prop parsed "document_type")) (Some threshold).

(** The messages of the first request of a call *)
Definition firstRequestMessages (ocrText : jsstring) : list OllamaMessage :=
  [ mkMessage system SYSTEM_PROMPT None;
    mkMessage user (buildUserPrompt ocrText) None ].

(** A reply of the retry that the service reads as [retryParsed] *)
Definition retryReply (env : Env) (service : ClassificationService)
  (retryParsed : JsValue) : Prop :=
  exists msgs w3 retry w4,
    OllamaClient.chatWithTools env (ollamaClient service) msgs
      (ToolRegistry.getTools (toolRegistry service))
      (ToolRegistry.createToolHandler (toolRegistry service))
      JSON_FORMAT w3 = (Ok retry, w4)
    /\ JSON_parse (rt env) (content (OllamaClient.response retry))
       = Ok retryParsed.

(** The result [r] is the one of an adopted retry: a reply of the retry
    that scores strictly higher than the first pass's [score]. *)
Definition adoptedRetry (env : Env) (service : ClassificationService)
  (ocrText : jsstring) (threshold : number)
  (score : ConfidenceCalculator.ConfidenceBreakdown) (r : ClassificationModel)
  : Prop :=
  exists retryParsed,
    retryReply env service retryParsed
    /\ gt (ConfidenceCalculator.final_confidence
             (scoreOf (rt env) retryParsed ocrText threshold))
          (ConfidenceCalculator.final_confidence score) = true
    /\ r = resultOf retryParsed (scoreOf (rt env) retryParsed ocrText threshold)
             threshold true.

End ClassifySpec.

Module SampleDocuments.

Import ExtractionService Samples.

Definition word (t : string) (x y width height : Q) : OcrWord :=
  {| text := str t;
     bbox := (Fin x, Fin y, Fin width, Fin height);
     wordConfidence := Fin 0.9 |}.

(** A page that shows a colon and nothing else *)
Definition colonPage : OcrPage :=
  {| page := Fin 1; pageText := str ":"; words := [ word ":" 10 20 5 12 ] |}.

(** The page of the last scenario of the specification *)
Definition balancePage : OcrPage :=
  {| page := Fin 1;
     pageText := str "Final Balance : $1,234.56";
     words := [ word "Final" 10 100 40 12;
                word "Balance" 55 100 60 12;
                word ":" 118 100 4 12;
                word "$1,234.56" 126 98 70 14 ] |}.

Definition extractionService : ExtractionService :=
  {| schemaStore := SchemaStore.create |}.

(** A reply whose one key is [__proto__] *)
Definition PROTOTYPE_REPLY_TEXT : jsstring :=
  strq "{`__proto__`:{`legal_name`:`Acme LLC`}}".

(** What [JSON.parse] makes of it: [__proto__] is an own property. *)
Definition prototypeReply : JsValue :=
  VObj [ (str "__proto__",
           VObj [ (str "legal_name", VStr (str "Acme LLC")) ]) ].

Definition prototypeRuntime : Runtime :=
  {| numberToString := numberToString runtime;
     toNumberOther := toNumberOther runtime;
     JSON_parse := fun text =>
       if JsString.eqb text PROTOTYPE_REPLY_TEXT then Ok prototypeReply
       else JSON_parse runtime text;
     JSON_stringify_indented := JSON_stringify_indented runtime;
     Date_parse := Date_parse runtime |}.

(** The sample world, with an LLM that gives this reply *)
Definition envPrototypeReply : Env :=
  {| rt := prototypeRuntime;
     safeParse := safeParse envExtraction;
     chat := fun _ _ => Ok (answer PROTOTYPE_REPLY_TEXT);
     db_get := db_get envExtraction;
     db_all := db_all envExtraction;
     db_run := db_run envExtraction;
     Date_now := Date_now envExtraction |}.

End SampleDocuments.

(** Vocabulary of the properties of the code around the claims *)
Module CoverageSpec.

(** The number a list of decimal digits writes *)
Definition decimalValue (digits : list Z) : Z :=
  List.fold_left (fun acc d => 10 * acc + d) digits 0.

Definition digitsText (digits : list Z) : jsstring :=
  List.map RoutingSpec.digitChar digits.

(** A string of decimal digits *)
Definition digitString (s : jsstring) : Prop :=
  List.Forall (fun c => isDigit c = true) s.

(** The three shapes of a tax id: [ddd-dd-dddd], [dd-ddddddd] and nine
    digits *)
Definition taxIdText (s : jsstring) : Prop :=
  (exists a b c,
     s = a ++ str "-" ++ b ++ str "-" ++ c
     /\ digitString a /\ len a = 3 /\ digitString b /\ len b = 2
     /\ digitString c /\ len c = 4)
  \/ (exists a b,
        s = a ++ str "-" ++ b
        /\ digitString a /\ len a = 2 /\ digitString b /\ len b = 7)
  \/ (digitString s /\ len s = 9).

(** A character of an e-mail address: neither white space nor [@] *)
Definition addressChar (c : jschar) : Prop :=
  isWhiteSpace c = false /\ c <> 64%N.

(** [local@domain.tld]: three non-empty runs of address characters *)
Definition emailText (s : jsstring) : Prop :=
  exists localPart domain tld,
    s = localPart ++ str "@" ++ domain ++ str "." ++ tld
    /\ localPart <> [] /\ domain <> [] /\ tld <> []
    /\ List.Forall addressChar (localPart ++ domain ++ tld).

(** A masked account number (four or more asterisks, then four digits)
    or 8 to 17 digits *)
Definition accountNumberText (cleaned : jsstring) : Prop :=
  (exists stars digits,
     cleaned = List.repeat 42%N stars ++ digits
     /\ (4 <= stars)%nat /\ digitString digits /\ len digits = 4)
  \/ (digitString cleaned /\ 8 <= len cleaned <= 17).

(** A string of the Basic Latin and Latin-1 blocks, on which the
    [toLowerCase] of this development is that of the language *)
Definition latin1 (s : jsstring) : Prop :=
  List.Forall (fun c => (c < 256)%N) s.

(** A character that [coerceToNumber] neither strips nor reads as a
    separator *)
Definition plainChar (c : jschar) : Prop :=
  TypeCoercionService.isCurrencyOrSpace c = false
  /\ c <> TypeCoercionService.COMMA /\ c <> TypeCoercionService.PERIOD.


(** The count of the last row of a counts query for a document type *)
Fixpoint lastCount (rt : Runtime) (rows : list JsValue) (docType : jsstring)
  : option JsValue :=
  match rows with
  | [] => None
  | row :: rows' =>
      match lastCount rt rows' docType with
      | Some count => Some count
      | None =>
          if JsString.eqb (toStr rt (ExampleStore.prop row "docType")) docType
          then Some (ExampleStore.prop row "count")
          else None
      end
  end.

End CoverageSpec.


(* ================================================================== *)
(** ** Properties of ConfidenceCalculator *)
(* ================================================================== *)

Section ConfidenceCalculatorProperties.

Import ConfidenceCalculator Spec.

Lemma compare_Fin (x y : Q) : compare (Fin x) (Fin y) = Some (Qcompare x y).
Proof. reflexivity. Qed.

Lemma ge_Fin (x y : Q) : ge (Fin x) (Fin y) = true <-> (y <= x)%Q.
Proof.
  unfold ge, le. rewrite compare_Fin.
  destruct (Qcompare_spec y x) as [E | L | G].
  - split; [intros _; rewrite E; apply Qle_refl | reflexivity].
  - split; [intros _; apply Qlt_le_weak, L | reflexivity].
  - split; [discriminate | intros H; exfalso; apply (Qlt_not_le _ _ G H)].
Qed.

Lemma le_Fin (x y : Q) : le (Fin x) (Fin y) = true <-> (x <= y)%Q.
Proof. exact (ge_Fin y x). Qed.

Lemma lt_Fin (x y : Q) : lt (Fin x) (Fin y) = true <-> (x < y)%Q.
Proof.
  unfold lt. rewrite compare_Fin.
  destruct (Qcompare_spec x y) as [E | L | G].
  - split; [discriminate | intros H; rewrite E in H; exfalso; apply (Qlt_irrefl _ H)].
  - split; [intros _; exact L | reflexivity].
  - split; [discriminate | intros H; exfalso; apply (Qlt_irrefl x); apply (Qlt_trans _ _ _ H G)].
Qed.

Lemma inUnitInterval_Fin (q : Q) : inUnitInterval (Fin q) <-> (0 <= q <= 1)%Q.
Proof. unfold inUnitInterval. rewrite ge_Fin, le_Fin. reflexivity. Qed.

(** A number that passes the test [0 <= n && n <= 1] is finite. *)
Lemma inUnitInterval_finite (n : number) :
  inUnitInterval n -> exists q, n = Fin q /\ (0 <= q <= 1)%Q.
Proof.
  destruct n as [| [|] | q]; intros [H0 H1]; try discriminate.
  exists q. split; [reflexivity | apply inUnitInterval_Fin; split; assumption].
Qed.

Lemma clampConfidence_Fin (q : Q) :
  exists r, clampConfidence (Fin q) = Fin r /\ (r == clampToUnit q)%Q.
Proof.
  unfold clampConfidence, CONFIDENCE_MIN, CONFIDENCE_MAX, Math_min, Math_max, clampToUnit.
  rewrite compare_Fin.
  destruct (Qcompare_spec 1 q) as [E | L | G].
  - rewrite compare_Fin. simpl Qcompare. exists 1%Q. split; [reflexivity |].
    destruct (Qlt_le_dec q 0) as [H | H]; [exfalso; lra |].
    destruct (Qlt_le_dec 1 q); lra.
  - rewrite compare_Fin. simpl Qcompare. exists 1%Q. split; [reflexivity |].
    destruct (Qlt_le_dec q 0) as [H | H]; [exfalso; lra |].
    destruct (Qlt_le_dec 1 q); lra.
  - rewrite compare_Fin.
    destruct (Qcompare_spec 0 q) as [E' | L' | G'].
    + exists 0%Q. split; [reflexivity |].
      destruct (Qlt_le_dec q 0) as [H | H]; [lra |].
      destruct (Qlt_le_dec 1 q); lra.
    + exists q. split; [reflexivity |].
      destruct (Qlt_le_dec q 0) as [H | H]; [exfalso; lra |].
      destruct (Qlt_le_dec 1 q); [exfalso; lra | reflexivity].
    + exists 0%Q. split; [reflexivity |].
      destruct (Qlt_le_dec q 0) as [H | H]; [reflexivity | exfalso; lra].
Qed.

Lemma clampToUnit_range (q : Q) : (0 <= clampToUnit q <= 1)%Q.
Proof.
  unfold clampToUnit.
  destruct (Qlt_le_dec q 0); [lra |]. destruct (Qlt_le_dec 1 q); lra.
Qed.

Lemma clampToUnit_id (q : Q) : (0 <= q <= 1)%Q -> clampToUnit q = q.
Proof.
  intros H. unfold clampToUnit.
  destruct (Qlt_le_dec q 0); [exfalso; lra |].
  destruct (Qlt_le_dec 1 q) as [H1 | H1]; [exfalso; lra | reflexivity].
Qed.

Lemma unit_product (a b c : Q) :
  (0 <= a <= 1)%Q -> (0 <= b <= 1)%Q -> (0 <= c <= 1)%Q ->
  (0 <= a * b * c <= 1)%Q.
Proof.
  intros Ha Hb Hc.
  assert (Hab : (0 <= a * b <= 1)%Q) by nra.
  nra.
Qed.

(** The final confidence of three rational sub-scores of [0,1] *)
Lemma final_confidence_of_unit_scores
  (l v c : Q) (rs : option (list jsstring)) :
  (0 <= l <= 1)%Q -> (0 <= v <= 1)%Q -> (0 <= c <= 1)%Q ->
  let b := calculateFinalConfidence (mkFactors (Fin l) (Fin v) (Fin c) rs) in
  sameValue (final_confidence b) (Fin (clampToUnit (l * v * c)))
  /\ sameValue (final_confidence b) (Fin (l * v * c))
  /\ inUnitInterval (final_confidence b).
Proof.
  intros Hl Hv Hc b. subst b.
  unfold calculateFinalConfidence. cbn [final_confidence llm validation clarity mul].
  destruct (clampConfidence_Fin (l * v * c)) as [r [Er Hr]].
  rewrite Er. cbn [sameValue].
  pose proof (unit_product l v c Hl Hv Hc) as Hp.
  pose proof (clampToUnit_range (l * v * c)) as Hrange.
  split; [exact Hr |]. split.
  - rewrite Hr, (clampToUnit_id _ Hp). reflexivity.
  - split; [apply ge_Fin | apply le_Fin]; rewrite Hr; apply Hrange.
Qed.

Lemma withinRounding_exact (n : Z) (exact computed : Q) :
  0 <= n -> (computed == exact)%Q -> withinRounding n exact computed.
Proof.
  intros Hn E. unfold withinRounding, BINARY64_EPSILON, BINARY64_TINY.
  assert (Hzero : (Qabs (computed - exact) == 0)%Q).
  { assert (Hd : (computed - exact == 0)%Q) by (rewrite E; ring).
    rewrite Hd. reflexivity. }
  rewrite Hzero.
  assert (Hn' : (0 <= inject_Z n)%Q).
  { change 0%Q with (inject_Z 0). rewrite <- Zle_Qle. exact Hn. }
  pose proof (Qabs_nonneg exact) as Habs.
  apply Qmult_le_0_compat; [exact Hn' |].
  apply Qle_trans with (Qabs exact * (1 # 2 ^ 52) + 0)%Q.
  - rewrite Qplus_0_r. apply Qmult_le_0_compat; [exact Habs | discriminate].
  - apply Qplus_le_r. discriminate.
Qed.

(** C1. For sub-scores in [0,1], [calculateFinalConfidence] returns as
    final confidence the product of the three sub-scores clamped to
    [0,1], and passes the sub-scores through.  The product is that of
    the code's two multiplications: the final confidence is a number
    [qf] within the rounding of two operations of the rational product
    [ql * qv * qc] clamped to [0,1], which for such sub-scores is the
    product itself; [qf] lies in [0,1] and exceeds none of the three
    sub-scores. *)
Theorem calculateFinalConfidence_is_clamped_product
  (l v c : number) (rs : option (list jsstring)) :
  inUnitInterval l -> inUnitInterval v -> inUnitInterval c ->
  let b := calculateFinalConfidence (mkFactors l v c rs) in
  exists ql qv qc qf : Q,
    l = Fin ql /\ v = Fin qv /\ c = Fin qc
    /\ final_confidence b = Fin qf
    /\ withinRounding 2 (clampToUnit (ql * qv * qc)) qf
    /\ (clampToUnit (ql * qv * qc) == ql * qv * qc)%Q
    /\ (0 <= qf <= 1)%Q
    /\ (qf <= ql)%Q /\ (qf <= qv)%Q /\ (qf <= qc)%Q
    /\ inUnitInterval (final_confidence b)
    /\ llm_confidence b = l
    /\ validation_confidence b = v
    /\ clarity_confidence b = c.
Proof.
  intros Hl Hv Hc b.
  apply inUnitInterval_finite in Hl as (ql & -> & Hl).
  apply inUnitInterval_finite in Hv as (qv & -> & Hv).
  apply inUnitInterval_finite in Hc as (qc & -> & Hc).
  destruct (final_confidence_of_unit_scores ql qv qc rs Hl Hv Hc)
    as (Hclamped & Hproduct & Hrange).
  fold b in Hclamped, Hproduct, Hrange.
  pose proof (unit_product ql qv qc Hl Hv Hc) as Hp.
  destruct (final_confidence b) as [| sign | qf] eqn:Hfinal;
    cbn [sameValue] in Hproduct; try contradiction.
  cbn [sameValue] in Hclamped.
  assert (Hab : (0 <= ql * qv <= 1)%Q) by nra.
  exists ql, qv, qc, qf.
  split; [reflexivity |]. split; [reflexivity |]. split; [reflexivity |].
  split; [reflexivity |].
  split; [apply withinRounding_exact; [lia | exact Hclamped] |].
  split; [rewrite (clampToUnit_id _ Hp); reflexivity |].
  split; [rewrite Hproduct; exact Hp |].
  split; [rewrite Hproduct; nra |].
  split; [rewrite Hproduct; nra |].
  split; [rewrite Hproduct; nra |].
  split; [exact Hrange |].
  subst b. repeat split.
Qed.

Lemma calculateFinalConfidence_is_clamped_product_witness :
  let b := calculateFinalConfidence
             (mkFactors (Fin 0.9) (Fin 0.3) (Fin 1.0) None) in
  exists ql qv qc qf : Q,
    Fin 0.9 = Fin ql /\ Fin 0.3 = Fin qv /\ Fin 1.0 = Fin qc
    /\ final_confidence b = Fin qf
    /\ withinRounding 2 (clampToUnit (ql * qv * qc)) qf
    /\ (clampToUnit (ql * qv * qc) == ql * qv * qc)%Q
    /\ (0 <= qf <= 1)%Q
    /\ (qf <= ql)%Q /\ (qf <= qv)%Q /\ (qf <= qc)%Q
    /\ inUnitInterval (final_confidence b)
    /\ llm_confidence b = Fin 0.9
    /\ validation_confidence b = Fin 0.3
    /\ clarity_confidence b = Fin 1.0.
Proof.
  apply (calculateFinalConfidence_is_clamped_product
           (Fin 0.9) (Fin 0.3) (Fin 1.0) None);
    split; reflexivity.
Defined.

End ConfidenceCalculatorProperties.


Section LowConfidenceReasons.

Import ConfidenceCalculator Spec.

Variable rt : Runtime.

Lemma lt_not_ge (a b : number) : lt a b = true -> ge a b = false.
Proof.
  unfold lt, ge, le.
  destruct a as [| [|] | x], b as [| [|] | y]; simpl; try discriminate;
    try reflexivity.
  rewrite <- (Qcompare_antisym x y).
  destruct (Qcompare x y); simpl; intros H; try discriminate; reflexivity.
Qed.

Lemma reasons_at_or_above (b : ConfidenceBreakdown) (threshold : option number) :
  ge (final_confidence b) (thresholdOrDefault threshold) = true ->
  generateLowConfidenceReasons rt b threshold = [].
Proof.
  intros H. unfold generateLowConfidenceReasons.
  fold (thresholdOrDefault threshold). rewrite H. reflexivity.
Qed.

Lemma reasons_below (b : ConfidenceBreakdown) (threshold : option number) :
  ge (final_confidence b) (thresholdOrDefault threshold) = false ->
  generateLowConfidenceReasons rt b threshold =
    match llmReasons rt (llm_confidence b)
          ++ validationReasons (validation_confidence b)
          ++ clarityReasons (clarity_confidence b) with
    | [] => [REASON_COMBINED_FACTORS]
    | tripped => tripped
    end.
Proof.
  intros H. unfold generateLowConfidenceReasons.
  fold (thresholdOrDefault threshold). rewrite H.
  unfold llmReasons, validationReasons, clarityReasons,
    LLM_CONFIDENCE_LOW_THRESHOLD, VALIDATION_CONFIDENCE_PASS,
    VALIDATION_CONFIDENCE_CRITICAL_THRESHOLD, CLARITY_CONFIDENCE_LOW_THRESHOLD,
    CLARITY_CONFIDENCE_POOR_THRESHOLD.
  destruct (lt (llm_confidence b) (Fin 0.7));
    destruct (lt (validation_confidence b) (Fin 1.0));
    destruct (le (validation_confidence b) (Fin 0.3));
    destruct (lt (clarity_confidence b) (Fin 0.7));
    destruct (le (clarity_confidence b) (Fin 0.4)); reflexivity.
Qed.

Lemma tripped_or_combined_nonempty (tripped : list jsstring) :
  match tripped with
  | [] => [REASON_COMBINED_FACTORS]
  | reason :: others => reason :: others
  end <> [].
Proof. destruct tripped; discriminate. Qed.

(** C2. [generateLowConfidenceReasons] returns no reason when the final
    confidence is at or above the threshold (the given one, or 0.7 when
    none is given).  When the final confidence is below the threshold the
    list is not empty: it holds, in this order, what each sub-score
    contributes on its own (a model-uncertainty reason iff llm < 0.7; a
    validation reason iff validation < 1.0, the critical one iff
    validation <= 0.3; a clarity reason iff clarity < 0.7, the
    poor-quality one iff clarity <= 0.4), and the single combined-factors
    reason when no sub-score contributes. *)
Theorem generateLowConfidenceReasons_spec
  (b : ConfidenceBreakdown) (threshold : option number) :
  (ge (final_confidence b) (thresholdOrDefault threshold) = true ->
   generateLowConfidenceReasons rt b threshold = [])
  /\
  (lt (final_confidence b) (thresholdOrDefault threshold) = true ->
   generateLowConfidenceReasons rt b threshold <> []
   /\ generateLowConfidenceReasons rt b threshold =
        match llmReasons rt (llm_confidence b)
              ++ validationReasons (validation_confidence b)
              ++ clarityReasons (clarity_confidence b) with
        | [] => [REASON_COMBINED_FACTORS]
        | tripped => tripped
        end).
Proof.
  split.
  - apply reasons_at_or_above.
  - intros H. apply lt_not_ge in H.
    rewrite (reasons_below b threshold H).
    split; [apply tripped_or_combined_nonempty | reflexivity].
Qed.

End LowConfidenceReasons.

(** The second scenario of the specification: a failed validation (0.3)
    with llm 0.9 and clarity 1.0 gives 0.27, below 0.7, and the reasons
    are exactly the validation failure. *)
Example reasons_validation_failure (rt : Runtime) :
  let b := ConfidenceCalculator.calculateFinalConfidence
             (ConfidenceCalculator.mkFactors (Fin 0.9) (Fin 0.3) (Fin 1.0) None) in
  ConfidenceCalculator.final_confidence b = Fin (0.9 * 0.3 * 1.0)
  /\ ConfidenceCalculator.generateLowConfidenceReasons rt b (Some (Fin 0.7))
     = [ConfidenceCalculator.REASON_VALIDATION_FAILED].
Proof. split; reflexivity. Qed.


(* ================================================================== *)
(** ** Properties of TypeCoercionService.coerceToNumber *)
(* ================================================================== *)

Section CoerceToNumber.

Import TypeCoercionService.

(** The values the specification lists for [coerceToNumber]. *)
Lemma coerceToNumber_examples :
  coerceToNumber (VStr (str "5.3620.787")) = VNum (Fin (Qred 53620.787))
  /\ coerceToNumber (VStr (str "1,234.56")) = VNum (Fin (Qred 1234.56))
  /\ coerceToNumber (VStr (str "1.234,56")) = VNum (Fin (Qred 1234.56))
  /\ coerceToNumber (VStr (str "($1,234.56)")) = VNum (Fin (Qred (-1234.56)))
  /\ coerceToNumber (VStr (str "")) = VNull
  /\ coerceToNumber (VStr (str "abc")) = VNull.
Proof. repeat split; vm_compute; reflexivity. Qed.

(** The tests of the repository on currency symbols: the dollar sign and
    the euro sign (U+20AC) in front of an amount with both separators. *)
Lemma coerceToNumber_currency_tests :
  coerceToNumber (VStr (str "$1,234.56")) = VNum (Fin (Qred 1234.56))
  /\ coerceToNumber (VStr (8364%N :: str "1.234,56")) = VNum (Fin (Qred 1234.56)).
Proof. split; vm_compute; reflexivity. Qed.

(** C3. With commas only, the index of the last comma is taken before
    the currency symbols are removed and used after: in [$1,234] three
    digits follow the comma, yet the one character the dollar sign
    shifts the index by leaves two, the comma becomes the decimal point
    and the result is 1.234; without the symbol the same amount is 1234. *)
Theorem coerceToNumber_stale_comma_index :
  coerceToNumber (VStr (str "$1,234")) = VNum (Fin (Qred 1.234))
  /\ coerceToNumber (VStr (str "1,234")) = VNum (Fin 1234).
Proof. split; vm_compute; reflexivity. Qed.

End CoerceToNumber.

(* ================================================================== *)
(** ** Properties of ValidationService: routing numbers *)
(* ================================================================== *)

Section RoutingNumbers.

Import ValidationService RoutingSpec.

Lemma isDigit_value (c : jschar) :
  isDigit c = true -> 0 <= Z.of_N c - 48 <= 9 /\ digitChar (Z.of_N c - 48) = c.
Proof.
  unfold isDigit, digitChar. intros H.
  apply andb_prop in H as [H1 H2].
  apply N.leb_le in H1. apply N.leb_le in H2. split; lia.
Qed.

Lemma digitChar_isDigit (d : Z) :
  isDecimalDigit d -> isDigit (digitChar d) = true /\ Z.of_N (digitChar d) - 48 = d.
Proof.
  unfold isDecimalDigit, isDigit, digitChar. intros H. split.
  - apply andb_true_intro. split; apply N.leb_le; lia.
  - lia.
Qed.

Lemma isDigit_not_stripped (c : jschar) :
  isDigit c = true -> isSpaceOrHyphen c = false.
Proof.
  unfold isDigit, isSpaceOrHyphen, isWhiteSpace. intros H.
  apply andb_prop in H as [H1 H2].
  apply N.leb_le in H1. apply N.leb_le in H2.
  repeat match goal with
  | |- context [N.eqb c ?k] =>
      replace (N.eqb c k) with false by (symmetry; apply N.eqb_neq; lia)
  | |- context [N.leb ?k c] =>
      first [ replace (N.leb k c) with false by (symmetry; apply N.leb_gt; lia)
            | replace (N.leb k c) with true by (symmetry; apply N.leb_le; lia) ]
  | |- context [N.leb c ?k] =>
      first [ replace (N.leb c k) with false by (symmetry; apply N.leb_gt; lia)
            | replace (N.leb c k) with true by (symmetry; apply N.leb_le; lia) ]
  end.
  reflexivity.
Qed.

Lemma validateRoutingNumber_unfold (s : jsstring) :
  validateRoutingNumber (VStr s) =
    let cleaned := removeAll isSpaceOrHyphen s in
    allDigits cleaned && (len cleaned =? 9) && checksumOk cleaned.
Proof.
  unfold validateRoutingNumber, checksumOk. cbv zeta.
  destruct (allDigits (removeAll isSpaceOrHyphen s)
            && (len (removeAll isSpaceOrHyphen s) =? 9)); reflexivity.
Qed.

Lemma nine_chars (cleaned : jsstring) :
  len cleaned = 9 ->
  exists c1 c2 c3 c4 c5 c6 c7 c8 c9, cleaned = [c1; c2; c3; c4; c5; c6; c7; c8; c9].
Proof.
  unfold len. intros H.
  do 9 (destruct cleaned as [| ? cleaned]; [simpl in H; lia |]).
  destruct cleaned; [| simpl in H; lia].
  repeat eexists.
Qed.

Lemma validateRoutingNumber_abaValid (s : jsstring) :
  validateRoutingNumber (VStr s) = true <->
  abaValid (removeAll isSpaceOrHyphen s).
Proof.
  rewrite validateRoutingNumber_unfold. cbv zeta.
  set (cleaned := removeAll isSpaceOrHyphen s). split.
  - intros H. apply andb_prop in H as [H Hsum]. apply andb_prop in H as [Hd Hl].
    apply Z.eqb_eq in Hl.
    destruct (nine_chars cleaned Hl) as (c1 & c2 & c3 & c4 & c5 & c6 & c7 & c8 & c9 & E).
    rewrite E in Hd, Hsum. unfold allDigits in Hd. simpl in Hd.
    repeat (apply andb_prop in Hd as [?Hc Hd]).
    repeat match goal with
    | Hc : isDigit ?c = true |- _ => apply isDigit_value in Hc as [? ?]
    end.
    exists (Z.of_N c1 - 48), (Z.of_N c2 - 48), (Z.of_N c3 - 48),
      (Z.of_N c4 - 48), (Z.of_N c5 - 48), (Z.of_N c6 - 48),
      (Z.of_N c7 - 48), (Z.of_N c8 - 48), (Z.of_N c9 - 48).
    split; [| split].
    + rewrite E. simpl.
      repeat match goal with
      | H : digitChar _ = _ |- _ => rewrite H; clear H
      end.
      reflexivity.
    + repeat (apply List.Forall_cons; [assumption |]). apply List.Forall_nil.
    + unfold checksumOk in Hsum. simpl in Hsum. apply Z.eqb_eq in Hsum.
      exact Hsum.
  - intros (d1 & d2 & d3 & d4 & d5 & d6 & d7 & d8 & d9 & E & Hd & Hsum).
    rewrite E.
    repeat match goal with
    | H : List.Forall _ (_ :: _) |- _ => inversion H; subst; clear H
    end.
    repeat match goal with
    | H : isDecimalDigit ?d |- _ => apply digitChar_isDigit in H as [? ?]
    end.
    unfold allDigits, checksumOk, len. simpl.
    repeat match goal with
    | H : isDigit _ = true |- _ => rewrite H; clear H
    | H : Z.of_N (digitChar _) - 48 = _ |- _ => rewrite H; clear H
    end.
    simpl. apply Z.eqb_eq. exact Hsum.
Qed.

Lemma removeAll_app (p : jschar -> bool) (a b : jsstring) :
  removeAll p (a ++ b) = removeAll p a ++ removeAll p b.
Proof. unfold removeAll. apply List.filter_app. Qed.

Lemma removeAll_digit (c : jschar) (rest : jsstring) :
  isDigit c = true ->
  removeAll isSpaceOrHyphen (c :: rest) = c :: removeAll isSpaceOrHyphen rest.
Proof.
  intros H. unfold removeAll. simpl. rewrite (isDigit_not_stripped c H).
  reflexivity.
Qed.

(** A weight of 1, 3 or 7 is invertible modulo 10: two different digits
    in the same place cannot both make the sum a multiple of 10. *)
Lemma weight_shift (w x y r : Z) :
  w = 1 \/ w = 3 \/ w = 7 ->
  0 <= x <= 9 -> 0 <= y <= 9 -> x <> y ->
  (w * x + r) mod 10 = 0 -> (w * y + r) mod 10 <> 0.
Proof.
  intros Hw Hx Hy Hne H1 H2.
  apply Z.mod_divide in H1; [| lia]. apply Z.mod_divide in H2; [| lia].
  destruct H1 as [k1 E1]. destruct H2 as [k2 E2].
  assert (E : w * (x - y) = 10 * (k1 - k2)) by lia.
  assert (Ht : -9 <= x - y <= 9) by lia.
  destruct Hw as [-> | [-> | ->]]; lia.
Qed.

(** Replacing one digit of nine by another changes the weighted sum by a
    multiple of 1, 3 or 7 that is not a multiple of 10. *)
Lemma altered_digit_invalid (a b : jsstring) (c c' : jschar) :
  isDigit c = true -> isDigit c' = true -> c <> c' ->
  allDigits (a ++ c :: b) && (len (a ++ c :: b) =? 9)
    && checksumOk (a ++ c :: b) = true ->
  allDigits (a ++ c' :: b) && (len (a ++ c' :: b) =? 9)
    && checksumOk (a ++ c' :: b) = false.
Proof.
  intros Hc Hc' Hne H.
  apply andb_prop in H as [H Hsum]. apply andb_prop in H as [Hd Hl].
  apply Z.eqb_eq in Hl. unfold len in Hl. rewrite List.length_app in Hl.
  simpl in Hl.
  apply isDigit_value in Hc as [Hc _]. apply isDigit_value in Hc' as [Hc' _].
  assert (Hv : Z.of_N c - 48 <> Z.of_N c' - 48) by lia.
  apply andb_false_iff. right.
  unfold checksumOk in *. apply Z.eqb_eq in Hsum. apply Z.eqb_neq.
  clear Hd Hne.
  set (x := Z.of_N c - 48) in *. set (y := Z.of_N c' - 48) in *.
  do 9 (destruct a as [| ? a];
        [ do 9 (destruct b as [| ? b];
                [ simpl in Hl;
                  first
                    [ lia
                    | simpl in Hsum |- *; fold x in Hsum; fold y;
                      match type of Hsum with
                      | ?S mod 10 = 0 =>
                          match goal with
                          | |- ?S' mod 10 <> 0 =>
                              first
                                [ replace S' with (3 * y + (S - 3 * x)) by ring;
                                  apply (weight_shift 3 x y (S - 3 * x)); auto;
                                  replace (3 * x + (S - 3 * x)) with S by ring;
                                  exact Hsum
                                | replace S' with (7 * y + (S - 7 * x)) by ring;
                                  apply (weight_shift 7 x y (S - 7 * x)); auto;
                                  replace (7 * x + (S - 7 * x)) with S by ring;
                                  exact Hsum
                                | replace S' with (1 * y + (S - 1 * x)) by ring;
                                  apply (weight_shift 1 x y (S - 1 * x)); auto;
                                  replace (1 * x + (S - 1 * x)) with S by ring;
                                  exact Hsum ]
                          end
                      end ]
                | ]);
          simpl in Hl; lia
        | ]).
  simpl in Hl. lia.
Qed.

(** C7, amended.  [validateRoutingNumber] accepts a string exactly when,
    once white space and hyphens are removed, it is nine digits whose
    ABA weighted sum [3(d1+d4+d7) + 7(d2+d5+d8) + (d3+d6+d9)] is divisible
    by 10, and rejects every value that is not a string; 021000021 is
    accepted; replacing one digit of an accepted string by another digit
    gives a rejected string; and a field that is dispatched to the
    routing-number check with a value that is present (not null,
    undefined or the empty string) gets validation confidence 1.0 when
    the value is accepted and 0.5 when it is not. *)
Theorem routing_number_checksum_and_confidence (rt : Runtime) :
  (forall s, validateRoutingNumber (VStr s) = true
             <-> abaValid (removeAll isSpaceOrHyphen s))
  /\ (forall v, (forall s, v <> VStr s) -> validateRoutingNumber v = false)
  /\ validateRoutingNumber (VStr (str "021000021")) = true
  /\ (forall before after c c',
        isDigit c = true -> isDigit c' = true -> c <> c' ->
        validateRoutingNumber (VStr (before ++ c :: after)) = true ->
        validateRoutingNumber (VStr (before ++ c' :: after)) = false)
  /\ (forall fieldName value,
        isRoutingNumberField fieldName -> isMissing value = false ->
        calculateValidationConfidence rt fieldName value
          = if validateRoutingNumber value then Fin 1.0 else Fin 0.5).
Proof.
  split; [apply validateRoutingNumber_abaValid |].
  split.
  { intros v Hv. destruct v; try reflexivity. exfalso. apply (Hv s). reflexivity. }
  split; [vm_compute; reflexivity |].
  split.
  { intros before after c c' Hc Hc' Hne H.
    rewrite validateRoutingNumber_unfold in H |- *. cbv zeta in H |- *.
    rewrite removeAll_app, (removeAll_digit _ _ Hc) in H.
    rewrite removeAll_app, (removeAll_digit _ _ Hc').
    apply (altered_digit_invalid _ _ c c' Hc Hc' Hne H). }
  intros fieldName value (Hrouting & Hdate & Hssn & Hein & Haccount) Hpresent.
  unfold calculateValidationConfidence.
  rewrite Hpresent, Hdate, Hssn, Hein, Haccount, Hrouting. reflexivity.
Qed.

End RoutingNumbers.


(* ================================================================== *)
(** ** Properties of OllamaClient.chatWithTools *)
(* ================================================================== *)

Section ToolLoop.

Import OllamaClient LoopSpec.

Variable env : Env.
Variable client : OllamaClient.
Variable requestTools : list OllamaTool.
Variable toolHandler : jsstring -> JsValue -> M jsstring.
Variable options : option ChatOptions.

(** The optional write to the usage log returns, whatever the database
    answers. *)
Lemma usage_log_returns (name : jsstring) (toolArgs : JsValue)
  (toolResult : jsstring) (success : bool) (toolDuration : Z) (w : World) :
  exists w',
    (match currentDocumentId client with
     | Some documentId =>
         if documentId =? 0 then ret tt
         else
           tryCatch
             (ToolUsageLogger.log env
                {| ToolUsageLogger.documentId := documentId;
                   ToolUsageLogger.loggedToolName := name;
                   ToolUsageLogger.toolArgs :=
                     match JSON_stringify (rt env) toolArgs with
                     | Some text => VStr text
                     | None => VUndefined
                     end;
                   ToolUsageLogger.toolResult := toolResult;
                   ToolUsageLogger.success := success;
                   ToolUsageLogger.duration := toolDuration |})
             (fun _ => ret tt)
     | None => ret tt
     end) w = (Ok tt, w').
Proof.
  destruct (currentDocumentId client) as [documentId |]; [| eexists; reflexivity].
  destruct (documentId =? 0); [eexists; reflexivity |].
  unfold tryCatch, ToolUsageLogger.log, dbRun, ret.
  match goal with
  | |- context [db_run env w ?q ?p] => destruct (db_run env w q p) as [[] | e]
  end; eexists; reflexivity.
Qed.

(** One tool call always ends with its two [push]es: the handler's
    result, or the error envelope of what the handler threw, is the
    content of the tool-result turn. *)
Lemma runToolCall_returns (m : OllamaMessage) (msgs : list OllamaMessage)
  (call : ToolCall) (args : JsValue) (w : World) :
  parseToolArguments (rt env) (functionArguments call) = Ok args ->
  exists toolResult w',
    runToolCall env client toolHandler m msgs call w
      = (Ok (msgs ++ [m; toolResultTurn toolResult]), w')
    /\ toolResult =
         match fst (toolHandler (functionName call) args (w ++ [EvNow])) with
         | Ok r => r
         | Throw error => createErrorResponse (rt env) error
         end.
Proof.
  intros Hargs. unfold runToolCall, bind at 1, lift. rewrite Hargs.
  unfold bind at 1, now. unfold bind at 1, tryCatch at 1, bind at 1.
  destruct (toolHandler (functionName call) args (w ++ [EvNow]))
    as [[r | error] w1] eqn:Hh; cbn [fst ret].
  - unfold bind at 1. cbn [ret]. unfold bind at 1.
    match goal with
    | |- context [(match currentDocumentId client with _ => _ end) ?w0] =>
        destruct (usage_log_returns (functionName call) args r true
                    (Date_now env w1 - Date_now env w) w0) as [w' Hlog]
    end.
    cbn beta in Hlog |- *. rewrite Hlog.
    exists r, w'. split; reflexivity.
  - unfold bind at 1. cbn [ret]. unfold bind at 1.
    match goal with
    | |- context [(match currentDocumentId client with _ => _ end) ?w0] =>
        destruct (usage_log_returns (functionName call) args
                    (createErrorResponse (rt env) error) false
                    (Date_now env w1 - Date_now env w) w0) as [w' Hlog]
    end.
    cbn beta in Hlog |- *. rewrite Hlog.
    exists (createErrorResponse (rt env) error), w'. split; reflexivity.
Qed.

(** A call whose arguments cannot be read throws before the handler
    is called and before anything is appended. *)
Lemma runToolCall_parse_error (m : OllamaMessage) (msgs : list OllamaMessage)
  (call : ToolCall) (e : JsError) (w : World) :
  parseToolArguments (rt env) (functionArguments call) = Throw e ->
  runToolCall env client toolHandler m msgs call w = (Throw e, w).
Proof.
  intros H. unfold runToolCall, bind at 1, lift. rewrite H. reflexivity.
Qed.

(** The loop over the tool calls of a reply: either every call is run,
    or the calls before the first one whose arguments cannot be read
    are run and the error of that one leaves the loop. *)
Lemma calls_outcome (m : OllamaMessage) (calls : list ToolCall) :
  forall (msgs : list OllamaMessage) (w : World),
  (exists msgs' w',
     forEach calls (runToolCall env client toolHandler m) msgs w = (Ok msgs', w')
     /\ callsRun env client toolHandler m calls msgs w msgs' w')
  \/ (exists before call after msgs' w' e,
        calls = before ++ call :: after
        /\ callsRun env client toolHandler m before msgs w msgs' w'
        /\ parseToolArguments (rt env) (functionArguments call) = Throw e
        /\ forEach calls (runToolCall env client toolHandler m) msgs w
           = (Throw e, w')).
Proof.
  induction calls as [| call calls IH]; intros msgs w.
  - left. exists msgs, w. split; [reflexivity | constructor].
  - destruct (parseToolArguments (rt env) (functionArguments call))
      as [args | e] eqn:Hparse.
    + destruct (runToolCall_returns m msgs call args w Hparse)
        as (toolResult & w1 & Hrun & Hresult).
      cbn [forEach]. unfold bind. rewrite Hrun.
      destruct (IH (msgs ++ [m; toolResultTurn toolResult]) w1)
        as [(msgs' & w' & Hrest & Hcalls)
           | (before & c & after & msgs' & w' & e & -> & Hbefore & He & Hrest)].
      * left. exists msgs', w'. split; [exact Hrest |].
        exact (callsRun_call env client toolHandler m call calls args toolResult
                 msgs msgs' w w1 w' Hparse Hresult Hrun Hcalls).
      * right. exists (call :: before), c, after, msgs', w', e.
        split; [reflexivity |]. split; [| split; [exact He | exact Hrest]].
        exact (callsRun_call env client toolHandler m call before args toolResult
                 msgs msgs' w w1 w' Hparse Hresult Hrun Hbefore).
    + right. exists [], call, calls, msgs, w, e.
      split; [reflexivity |]. split; [constructor |]. split; [exact Hparse |].
      cbn [forEach]. unfold bind.
      rewrite (runToolCall_parse_error m msgs call e w Hparse). reflexivity.
Qed.

Local Abbreviation request := (LoopSpec.request requestTools options).

(** The whole run of the loop with [k] iterations to spend: [n]
    iterations run tool calls, one after the other, and then the loop
    ends as [loopEnd] says. *)
Lemma chatLoop_run (cap : Z) (k : nat) :
  forall (it : Z) (used : bool) (msgs : list OllamaMessage) (w : World),
  exists (n : nat) (msgs' : list OllamaMessage) (w' : World),
    toolRounds env client requestTools toolHandler options n msgs w msgs' w'
    /\ (n <= k)%nat
    /\ loopEnd env client requestTools toolHandler options cap (n <? k)%nat
         (it + Z.of_nat n + 1) (used || (0 <? n)%nat) msgs' w'
         (chatLoop env client requestTools toolHandler options cap k it used
            msgs w).
Proof.
  induction k as [| k IH]; intros it used msgs w.
  - exists 0%nat, msgs, w. split; [constructor |]. split; [lia |]. reflexivity.
  - cbn [chatLoop]. unfold bind at 1, doChat. fold (request msgs).
    destruct (chat env w (request msgs)) as [m | e] eqn:Hchat.
    2:{ exists 0%nat, msgs, w. split; [constructor |]. split; [lia |].
        unfold loopEnd. cbn [Nat.ltb Nat.leb]. cbv zeta.
        right. left. exists e. split; [exact Hchat | reflexivity]. }
    assert (Hreturn :
              hasToolCalls m = false ->
              tool_calls m = None \/ tool_calls m = Some [] ->
              exists (n : nat) msgs' w',
                toolRounds env client requestTools toolHandler options n msgs w
                  msgs' w'
                /\ (n <= S k)%nat
                /\ loopEnd env client requestTools toolHandler options cap
                     (n <? S k)%nat (it + Z.of_nat n + 1)
                     (used || (0 <? n)%nat) msgs' w'
                     (Ok {| response := m; toolUsed := used;
                            iterations := it + 1 |},
                      w ++ [EvChat (request msgs)])).
    { intros Hno _. exists 0%nat, msgs, w.
      split; [constructor |]. split; [lia |].
      unfold loopEnd. cbn [Nat.ltb Nat.leb]. cbv zeta.
      left. exists m. split; [exact Hchat |]. split; [exact Hno |].
      rewrite orb_false_r. cbn [Z.of_nat]. rewrite Z.add_0_r. reflexivity. }
    destruct (tool_calls m) as [[| call calls] |] eqn:Hcalls.
    + apply Hreturn; [unfold hasToolCalls; rewrite Hcalls; reflexivity |].
      right. reflexivity.
    + unfold bind at 1.
      destruct (calls_outcome m (call :: calls) msgs
                  (w ++ [EvChat (request msgs)]))
        as [(msgs1 & w1 & Hrun & Hran)
           | (before & c & after & msgs1 & w1 & e & Hsplit & Hbefore & He & Hrun)];
        rewrite Hrun.
      * destruct (IH (it + 1) true msgs1 w1)
          as (n & msgs' & w' & Hrounds & Hn & Hend).
        exists (S n), msgs', w'. split.
        { apply (toolRounds_more env client requestTools toolHandler options
                   n msgs msgs1 msgs' w w1 w'); [| exact Hrounds].
          exact (toolRound_intro env client requestTools toolHandler options
                   m call calls msgs msgs1 w w1 Hchat Hcalls Hran). }
        split; [lia |].
        replace (S n <? S k)%nat with (n <? k)%nat by reflexivity.
        replace (it + Z.of_nat (S n) + 1) with (it + 1 + Z.of_nat n + 1) by lia.
        replace (used || (0 <? S n)%nat) with (true || (0 <? n)%nat)
          by (cbn; rewrite orb_true_r; reflexivity).
        exact Hend.
      * exists 0%nat, msgs, w. split; [constructor |]. split; [lia |].
        unfold loopEnd. cbn [Nat.ltb Nat.leb]. cbv zeta.
        right. right. exists m, before, c, after, msgs1, w1, e.
        split; [exact Hchat |]. split; [rewrite <- Hsplit; exact Hcalls |].
        split; [exact Hbefore |]. split; [exact He | reflexivity].
    + apply Hreturn; [unfold hasToolCalls; rewrite Hcalls; reflexivity |].
      left. reflexivity.
Qed.

Lemma chatWithTools_default (msgs : list OllamaMessage) :
  defaultCap options ->
  chatWithTools env client msgs requestTools toolHandler options
    = chatLoop env client requestTools toolHandler options 3 3 0 false msgs.
Proof.
  unfold defaultCap, chatWithTools. destruct options as [[cap fmt] |].
  - cbn. intros ->. reflexivity.
  - reflexivity.
Qed.

(** C5, amended.  For every LLM and every tool handler, whatever it
    returns or throws, a call of [chatWithTools] with the default cap
    is a run of [n] iterations, [n] at most 3, in each of which the
    reply carries tool calls and every call is executed by the handler
    and appends the assistant message and a tool-result turn whose
    content is the handler's result, or the JSON error envelope of what
    the handler threw; after them the call ends in one of four ways.
    With [n] below 3: the next reply has no tool calls, and it is
    returned, with [n + 1] iterations and [toolUsed] telling whether
    [n] is positive; or the next request fails, and its error is
    thrown; or the arguments of a tool call of the next reply cannot be
    read, and that error is thrown once the calls before it are run.
    With [n] equal to 3 the max-iterations error is thrown.  So, when
    the LLM answers every request and the arguments of its tool calls
    are objects or well-formed JSON text, the call returns a reply
    without tool calls after 1 to 3 iterations or throws the
    max-iterations error, and it throws that error when every reply
    carries tool calls; a first reply without tool calls is returned at
    once; and argument text that is not JSON leaves the loop with its
    parse error before the handler is called. *)
Theorem chatWithTools_bounded_loop (msgs : list OllamaMessage) (w : World) :
  defaultCap options ->
  let out := chatWithTools env client msgs requestTools toolHandler options w in
  (exists (n : nat) (msgs' : list OllamaMessage) (w' : World),
     toolRounds env client requestTools toolHandler options n msgs w msgs' w'
     /\ (n <= 3)%nat
     /\ loopEnd env client requestTools toolHandler options 3 (n <? 3)%nat
          (Z.of_nat n + 1) (0 <? n)%nat msgs' w' out)
  /\ (llmAlwaysReplies env -> toolArgumentsParse env ->
      match fst out with
      | Ok res =>
          1 <= iterations res <= 3
          /\ hasToolCalls (response res) = false
          /\ toolUsed res = (1 <? iterations res)
          /\ exists w' msgs', chat env w' (request msgs') = Ok (response res)
      | Throw e => e = MAX_ITERATIONS_ERROR 3
      end)
  /\ (llmAlwaysReplies env -> toolArgumentsParse env ->
      (forall w' req m, chat env w' req = Ok m -> hasToolCalls m = true) ->
      fst out = Throw (MAX_ITERATIONS_ERROR 3))
  /\ (forall m, chat env w (request msgs) = Ok m -> hasToolCalls m = false ->
      out = (Ok {| response := m; toolUsed := false; iterations := 1 |},
             w ++ [EvChat (request msgs)]))
  /\ (forall m current call args w1,
      parseToolArguments (rt env) (functionArguments call) = Ok args ->
      exists toolResult w2,
        runToolCall env client toolHandler m current call w1
          = (Ok (current ++ [m; toolResultTurn toolResult]), w2)
        /\ toolResult =
             match fst (toolHandler (functionName call) args (w1 ++ [EvNow])) with
             | Ok r => r
             | Throw error => createErrorResponse (rt env) error
             end)
  /\ (forall m call calls e,
      chat env w (request msgs) = Ok m ->
      tool_calls m = Some (call :: calls) ->
      parseToolArguments (rt env) (functionArguments call) = Throw e ->
      out = (Throw e, w ++ [EvChat (request msgs)])).
Proof.
  intros Hcap out. subst out. rewrite (chatWithTools_default msgs Hcap).
  destruct (chatLoop_run 3 3 0 false msgs w)
    as (n & msgs' & w' & Hrounds & Hn & Hend).
  cbn [orb] in Hend. rewrite Z.add_0_l in Hend.
  assert (Hgood :
            llmAlwaysReplies env -> toolArgumentsParse env ->
            (n < 3)%nat ->
            exists m,
              chat env w' (request msgs') = Ok m
              /\ hasToolCalls m = false
              /\ chatLoop env client requestTools toolHandler options 3 3 0
                   false msgs w
                 = (Ok {| response := m; toolUsed := (0 <? n)%nat;
                          iterations := Z.of_nat n + 1 |},
                    w' ++ [EvChat (request msgs')])).
  { intros Hreplies Hargs Hlt. unfold loopEnd in Hend.
    replace (n <? 3)%nat with true in Hend by (symmetry; apply Nat.ltb_lt; lia).
    cbv zeta in Hend.
    destruct Hend as [(m & Hm & Hno & Hout)
                     | [(e & He & _)
                       | (m & before & c & after & msgs1 & w1 & e
                          & Hm & Hcalls & _ & He & _)]].
    - exists m. split; [exact Hm |]. split; [exact Hno | exact Hout].
    - destruct (Hreplies w' (request msgs')) as [m Hm]. congruence.
    - pose proof (Hargs w' (request msgs') m _ Hm Hcalls) as Hall.
      apply List.Forall_app in Hall as [_ Hall].
      inversion Hall as [| ? ? [args Hparse] _]. congruence. }
  split; [| split; [| split; [| split; [| split]]]].
  - exists n, msgs', w'. split; [exact Hrounds |]. split; [exact Hn | exact Hend].
  - intros Hreplies Hargs.
    destruct (Nat.lt_ge_cases n 3) as [Hlt | Hge].
    + destruct (Hgood Hreplies Hargs Hlt) as (m & Hm & Hno & ->).
      cbn [fst iterations response toolUsed].
      split; [lia |]. split; [exact Hno |]. split.
      * destruct n as [| n]; [reflexivity |].
        cbn [Nat.ltb Nat.leb]. symmetry. apply Z.ltb_lt. lia.
      * exists w', msgs'. exact Hm.
    + unfold loopEnd in Hend.
      replace (n <? 3)%nat with false in Hend
        by (symmetry; apply Nat.ltb_ge; lia).
      rewrite Hend. reflexivity.
  - intros Hreplies Hargs Hall.
    destruct (Nat.lt_ge_cases n 3) as [Hlt | Hge].
    + destruct (Hgood Hreplies Hargs Hlt) as (m & Hm & Hno & _).
      rewrite (Hall _ _ _ Hm) in Hno. discriminate.
    + unfold loopEnd in Hend.
      replace (n <? 3)%nat with false in Hend
        by (symmetry; apply Nat.ltb_ge; lia).
      rewrite Hend. reflexivity.
  - intros m Hm Hno. cbn [chatLoop]. unfold bind, doChat. fold (request msgs).
    rewrite Hm. unfold hasToolCalls in Hno.
    destruct (tool_calls m) as [[| call calls] |]; try discriminate; reflexivity.
  - intros m current call args w1 Hparse.
    exact (runToolCall_returns m current call args w1 Hparse).
  - intros m call calls e Hm Hcalls Hparse.
    cbn [chatLoop]. unfold bind at 1, doChat. fold (request msgs).
    rewrite Hm, Hcalls. cbn [forEach]. unfold bind at 1. unfold bind at 1.
    rewrite (runToolCall_parse_error m msgs call e _ Hparse). reflexivity.
Qed.

End ToolLoop.

Section UnknownTool.

Import OllamaClient LoopSpec.




End UnknownTool.


(* ================================================================== *)
(** ** Properties of ExtractionService.findFieldLocation *)
(* ================================================================== *)

Section FieldLocation.

Import ExtractionService LocationSpec.

Lemma jsstring_eqb_eq (a b : jsstring) : JsString.eqb a b = true <-> a = b.
Proof.
  revert b. induction a as [| x a IH]; intros [| y b]; simpl;
    try (split; [discriminate | discriminate]); [tauto |].
  rewrite andb_true_iff, N.eqb_eq, IH. split.
  - intros [-> ->]. reflexivity.
  - intros E. injection E as -> ->. tauto.
Qed.

(** The state of the inner loop after the words [seen] that follow
    [first]: the text joined so far. *)
Lemma spanText_snoc (first : OcrWord) (seen : list OcrWord) (next : OcrWord) :
  spanText (first :: seen ++ [next])
    = spanText (first :: seen) ++ str " " ++ text next.
Proof.
  unfold spanText, join. cbn [List.map].
  rewrite !List.map_app, List.concat_app. cbn [List.map List.concat].
  rewrite List.app_nil_r, <- !List.app_assoc. reflexivity.
Qed.

(** The inner loop finds nothing exactly when no run that starts with
    the words already joined and ends within [following] is accepted. *)
Lemma spanSearch_None (searchText ns : jsstring) (first : OcrWord) :
  forall (following seen : list OcrWord) (minX minY maxX maxY : number),
  spanSearch searchText ns following (spanText (first :: seen))
    minX minY maxX maxY = None
  <-> (forall k, (1 <= k <= List.length following)%nat ->
         spanAccepted searchText ns
           (spanText (first :: seen ++ List.firstn k following)) = false).
Proof.
  induction following as [| next following IH]; intros seen minX minY maxX maxY.
  - cbn [spanSearch List.length]. split; [intros _ k Hk; lia | reflexivity].
  - cbn [spanSearch]. destruct (bbox next) as [[[bx by_] bw] bh].
    rewrite <- (spanText_snoc first seen next).
    assert (Hacc :
      spanAccepted searchText ns (spanText (first :: seen ++ [next]))
      = (JsString.eqb (normalize (spanText (first :: seen ++ [next]))) ns
         || JsString.eqb
              (removeAll isWhiteSpace (normalize (spanText (first :: seen ++ [next]))))
              (removeAll isWhiteSpace ns)
         || includes (normalize (spanText (first :: seen ++ [next]))) ns
            && (len ns >?
                (if len searchText >? LONG_PHRASE_THRESHOLD
                 then MIN_CONTAINED_MATCH_LENGTH_LONG
                 else MIN_CONTAINED_MATCH_LENGTH_SHORT)))) by reflexivity.
    destruct (JsString.eqb (normalize (spanText (first :: seen ++ [next]))) ns)
      eqn:E1.
    { split; [discriminate |]. intros H.
      specialize (H 1%nat ltac:(cbn [List.length]; lia)).
      cbn [List.firstn] in H. rewrite List.firstn_O, Hacc in H. discriminate. }
    destruct (JsString.eqb
                (removeAll isWhiteSpace (normalize (spanText (first :: seen ++ [next]))))
                (removeAll isWhiteSpace ns)) eqn:E2.
    { split; [discriminate |]. intros H.
      specialize (H 1%nat ltac:(cbn [List.length]; lia)).
      cbn [List.firstn] in H. rewrite List.firstn_O, Hacc in H. discriminate. }
    destruct (includes (normalize (spanText (first :: seen ++ [next]))) ns
              && (len ns >?
                  (if len searchText >? LONG_PHRASE_THRESHOLD
                   then MIN_CONTAINED_MATCH_LENGTH_LONG
                   else MIN_CONTAINED_MATCH_LENGTH_SHORT))) eqn:E3.
    { split; [discriminate |]. intros H.
      specialize (H 1%nat ltac:(cbn [List.length]; lia)).
      cbn [List.firstn] in H. rewrite List.firstn_O, Hacc in H. discriminate. }
    rewrite (IH (seen ++ [next])). split.
    + intros H k Hk. destruct k as [| k]; [lia |].
      cbn [List.firstn]. destruct k as [| k].
      * rewrite List.firstn_O, Hacc. reflexivity.
      * specialize (H (S k) ltac:(cbn [List.length] in Hk; lia)).
        rewrite <- List.app_assoc in H. exact H.
    + intros H k Hk.
      specialize (H (S k) ltac:(cbn [List.length]; lia)).
      cbn [List.firstn] in H. rewrite <- List.app_assoc. exact H.
Qed.

Lemma spanText_single (w : OcrWord) : spanText [w] = text w.
Proof. unfold spanText, join. cbn. apply List.app_nil_r. Qed.

Lemma maxLookahead_pos (searchText : jsstring) : 10 <= maxLookahead searchText <= 20.
Proof. unfold maxLookahead. lia. Qed.

Lemma wordSearch_None (searchText ns : jsstring) (ws : list OcrWord) :
  wordSearch searchText ns ws = None
  <-> (forall word, List.In word ws -> normalize (text word) <> ns)
      /\ noSpan searchText ns ws.
Proof.
  induction ws as [| word rest IH].
  - cbn [wordSearch]. split; [| reflexivity]. intros _. split.
    + intros word [].
    + intros before span after E Hlen _.
      symmetry in E. apply List.app_eq_nil in E as [_ E].
      apply List.app_eq_nil in E as [-> _]. cbn in Hlen. lia.
  - cbn [wordSearch].
    fold (maxLookahead searchText).
    pose proof (maxLookahead_pos searchText) as Hml.
    set (reach := Z.to_nat (maxLookahead searchText - 1)).
    destruct (JsString.eqb (normalize (text word)) ns) eqn:Eexact.
    { split; [discriminate |]. intros [Hno _].
      apply jsstring_eqb_eq in Eexact. exfalso.
      apply (Hno word); [left; reflexivity | exact Eexact]. }
    assert (Hne : normalize (text word) <> ns).
    { intros E. apply jsstring_eqb_eq in E. congruence. }
    destruct (bbox word) as [[[bx by_] bw] bh].
    rewrite <- (spanText_single word).
    pose proof (spanSearch_None searchText ns word (List.firstn reach rest) []
                  bx by_ (add bx bw) (add by_ bh)) as Hspan.
    cbn [app] in Hspan.
    destruct (spanSearch searchText ns (List.firstn reach rest) (spanText [word])
                bx by_ (add bx bw) (add by_ bh)) as [box |] eqn:Espan.
    { split; [discriminate |]. intros [_ Hno]. exfalso.
      assert (Hall : forall k, (1 <= k <= List.length (List.firstn reach rest))%nat ->
                spanAccepted searchText ns
                  (spanText (word :: List.firstn k (List.firstn reach rest))) = false).
      { intros k Hk. rewrite List.length_firstn in Hk.
        rewrite List.firstn_firstn. replace (Nat.min k reach) with k by lia.
        apply (Hno [] (word :: List.firstn k rest) (List.skipn k rest)).
        - cbn [app]. rewrite List.firstn_skipn. reflexivity.
        - cbn [List.length]. rewrite List.length_firstn. lia.
        - cbn [List.length]. rewrite List.length_firstn. lia. }
      apply Hspan in Hall. discriminate. }
    rewrite IH. split.
    + intros [Hwords Hno]. split.
      * intros w' [<- | Hin]; [exact Hne | apply Hwords, Hin].
      * intros before span after E Hlen Hmax.
        destruct before as [| b before].
        -- destruct span as [| s0 span]; [cbn in Hlen; lia |].
           cbn [app] in E. injection E as <- Erest.
           assert (Hk : (1 <= List.length span
                         <= List.length (List.firstn reach rest))%nat).
           { rewrite List.length_firstn. cbn [List.length] in Hlen, Hmax.
             subst rest. rewrite List.length_app. lia. }
           pose proof (proj1 Hspan eq_refl (List.length span) Hk) as Hacc.
           rewrite List.firstn_firstn in Hacc.
           replace (Nat.min (List.length span) reach) with (List.length span)
             in Hacc by (cbn [List.length] in Hmax; lia).
           subst rest. rewrite List.firstn_app, List.firstn_all in Hacc.
           replace (List.length span - List.length span)%nat with 0%nat in Hacc
             by lia.
           rewrite List.firstn_O, List.app_nil_r in Hacc. exact Hacc.
        -- cbn [app] in E. injection E as _ Erest.
           apply (Hno before span after Erest Hlen Hmax).
    + intros [Hwords Hno]. split.
      * intros w' Hin. apply Hwords. right. exact Hin.
      * intros before span after E Hlen Hmax.
        apply (Hno (word :: before) span after); [| exact Hlen | exact Hmax].
        cbn [app]. rewrite E. reflexivity.
Qed.

Lemma partialSearch_None (ns : jsstring) (ws : list OcrWord) :
  partialSearch ns ws = None
  <-> (forall word, List.In word ws ->
         includes (normalize (text word)) ns = false).
Proof.
  unfold partialSearch.
  induction ws as [| word rest IH]; cbn [List.find].
  - split; [intros _ word [] | reflexivity].
  - destruct (includes (normalize (text word)) ns) eqn:E.
    + split; [discriminate |]. intros H.
      specialize (H word (or_introl eq_refl)). congruence.
    + rewrite IH. split.
      * intros H w' [<- | Hin]; [exact E | apply H, Hin].
      * intros H w' Hin. apply H. right. exact Hin.
Qed.


Lemma pageMatches_unfold (searchText ns : jsstring) (p : OcrPage) :
  ns = normalize searchText ->
  pageMatches searchText p
  <-> exactMatch ns p \/ spanMatch searchText ns p \/ substringMatch ns p.
Proof. intros ->. reflexivity. Qed.

Lemma pageSearch_None (searchText : jsstring) (pages : list OcrPage) :
  pageSearch searchText (normalize searchText) pages = NO_LOCATION
  <-> (forall p, List.In p pages -> ~ pageMatches searchText p).
Proof.
  remember (normalize searchText) as ns eqn:Ens.
  induction pages as [| p pages IH]; cbn [pageSearch].
  - split; [intros _ p [] | reflexivity].
  - pose proof (wordSearch_None searchText ns (words p)) as Hword.
    pose proof (pageMatches_unfold searchText ns p Ens) as Hunfold.
    destruct (wordSearch searchText ns (words p)) as [box |].
    + split; [discriminate |]. intros H. exfalso.
      assert (Hp : ~ pageMatches searchText p) by (apply H; left; reflexivity).
      rewrite Hunfold in Hp.
      assert (Hgoal : Some box = None); [| discriminate].
      apply Hword. split.
      * intros word Hin E. apply Hp. left. exists word. split; assumption.
      * intros before span after E Hlen Hmax.
        destruct (spanAccepted searchText ns (spanText span)) eqn:Eacc;
          [| reflexivity].
        exfalso. apply Hp. right. left.
        exists before, span, after. repeat split; assumption.
    + destruct (proj1 Hword eq_refl) as [Hwords Hno].
      pose proof (partialSearch_None ns (words p)) as Hpartial.
      destruct (len ns >? MIN_PARTIAL_MATCH_LENGTH) eqn:Elen.
      * destruct (partialSearch ns (words p)) as [box |].
        -- split; [discriminate |]. intros H. exfalso.
           assert (Hp : ~ pageMatches searchText p) by (apply H; left; reflexivity).
           rewrite Hunfold in Hp.
           assert (Hgoal : Some box = None); [| discriminate].
           apply Hpartial. intros word Hin.
           destruct (includes (normalize (text word)) ns) eqn:Einc; [| reflexivity].
           exfalso. apply Hp. right. right. split.
           ++ apply Z.gtb_lt in Elen. lia.
           ++ exists word. split; assumption.
        -- rewrite IH. split.
           ++ intros H p' [<- | Hin]; [| apply H, Hin].
              rewrite Hunfold.
              intros [(word & Hin & E) | [(before & span & after & E & Hlen & Hmax & Hacc)
                                         | (_ & word & Hin & Hinc)]].
              ** apply (Hwords word Hin E).
              ** rewrite (Hno before span after E Hlen Hmax) in Hacc. discriminate.
              ** rewrite (proj1 Hpartial eq_refl word Hin) in Hinc. discriminate.
           ++ intros H p' Hin. apply H. right. exact Hin.
      * rewrite IH. split.
        -- intros H p' [<- | Hin]; [| apply H, Hin].
           rewrite Hunfold.
           intros [(word & Hin & E) | [(before & span & after & E & Hlen & Hmax & Hacc)
                                      | (Hlong & _)]].
           ++ apply (Hwords word Hin E).
           ++ rewrite (Hno before span after E Hlen Hmax) in Hacc. discriminate.
           ++ rewrite Z.gtb_ltb in Elen. apply Z.ltb_ge in Elen. lia.
        -- intros H p' Hin. apply H. right. exact Hin.
Qed.

Variable rt : Runtime.


End FieldLocation.


(* ================================================================== *)
(** ** Reasoning about computations *)
(* ================================================================== *)

Section Computations.

Context {A B : Type}.

Lemma bind_Ok_inv (m : M A) (k : A -> M B) (w w' : World) (b : B) :
  bind m k w = (Ok b, w') ->
  exists a w1, m w = (Ok a, w1) /\ k a w1 = (Ok b, w').
Proof.
  unfold bind. destruct (m w) as [[a | e] w1]; [eauto | discriminate].
Qed.

Lemma bind_Ok (m : M A) (k : A -> M B) (w w1 : World) (a : A) :
  m w = (Ok a, w1) -> bind m k w = k a w1.
Proof. unfold bind. intros ->. reflexivity. Qed.

Lemma bind_Throw (m : M A) (k : A -> M B) (w w1 : World) (e : JsError) :
  m w = (Throw e, w1) -> bind m k w = (Throw e, w1).
Proof. unfold bind. intros ->. reflexivity. Qed.

Lemma bind_assoc_w {C : Type} (m : M A) (k1 : A -> M B) (k2 : B -> M C)
  (w : World) :
  bind (bind m k1) k2 w = bind m (fun a => bind (k1 a) k2) w.
Proof. unfold bind. destruct (m w) as [[a | e] w1]; reflexivity. Qed.

Lemma bind_ret_w (a : A) (k : A -> M B) (w : World) : bind (ret a) k w = k a w.
Proof. reflexivity. Qed.

End Computations.

Section Appends.

Import WorldSpec.

Context {A : Type} (P : Event -> Prop).

Lemma appends_ret (a : A) : appends P (ret a).
Proof. intros w. exists []. rewrite List.app_nil_r. split; [reflexivity | constructor]. Qed.

Lemma appends_throw (e : JsError) : appends P (@throw A e).
Proof. intros w. exists []. rewrite List.app_nil_r. split; [reflexivity | constructor]. Qed.

Lemma appends_lift (r : result A) : appends P (lift r).
Proof. intros w. exists []. rewrite List.app_nil_r. split; [reflexivity | constructor]. Qed.

Lemma appends_bind {B : Type} (m : M B) (k : B -> M A) :
  appends P m -> (forall b, appends P (k b)) -> appends P (bind m k).
Proof.
  intros Hm Hk w. unfold bind. destruct (Hm w) as (added & E & HP).
  destruct (m w) as [[b | e] w1]; cbn [snd] in E; subst w1.
  - destruct (Hk b (w ++ added)) as (added' & E' & HP').
    exists (added ++ added'). rewrite E', List.app_assoc.
    split; [reflexivity | apply List.Forall_app; split; assumption].
  - exists added. split; [reflexivity | exact HP].
Qed.

Lemma appends_tryCatch (m : M A) (handler : JsError -> M A) :
  appends P m -> (forall e, appends P (handler e)) ->
  appends P (tryCatch m handler).
Proof.
  intros Hm Hh w. unfold tryCatch. destruct (Hm w) as (added & E & HP).
  destruct (m w) as [[a | e] w1]; cbn [snd] in E; subst w1.
  - exists added. split; [reflexivity | exact HP].
  - destruct (Hh e (w ++ added)) as (added' & E' & HP').
    exists (added ++ added'). rewrite E', List.app_assoc.
    split; [reflexivity | apply List.Forall_app; split; assumption].
Qed.

End Appends.

Section AppendsEffects.

Import WorldSpec.

Variable env : Env.
Variable P : Event -> Prop.

Lemma appends_dbGet sql params :
  P (EvDbGet sql params) -> appends P (dbGet env sql params).
Proof. intros H w. exists [EvDbGet sql params]. split; [reflexivity | repeat constructor; exact H]. Qed.

Lemma appends_dbAll sql params :
  P (EvDbAll sql params) -> appends P (dbAll env sql params).
Proof. intros H w. exists [EvDbAll sql params]. split; [reflexivity | repeat constructor; exact H]. Qed.

Lemma appends_dbRun sql params :
  P (EvDbRun sql params) -> appends P (dbRun env sql params).
Proof. intros H w. exists [EvDbRun sql params]. split; [reflexivity | repeat constructor; exact H]. Qed.

Lemma appends_now : P EvNow -> appends P (now env).
Proof. intros H w. exists [EvNow]. split; [reflexivity | repeat constructor; exact H]. Qed.

Lemma appends_doChat request :
  P (EvChat request) -> appends P (doChat env request).
Proof. intros H w. exists [EvChat request]. split; [reflexivity | repeat constructor; exact H]. Qed.

End AppendsEffects.


(* ================================================================== *)
(** ** Properties of ExtractionService.extract *)
(* ================================================================== *)

Section Extraction.

Import ExtractionService WorldSpec.

Lemma lookupProp_setProp (props : list (jsstring * JsValue))
  (k n : jsstring) (v : JsValue) :
  lookupProp (setProp props k v) n
    = if JsString.eqb k n then Some v else lookupProp props n.
Proof.
  induction props as [| [k0 v0] props IH].
  - reflexivity.
  - cbn [setProp]. destruct (JsString.eqb k0 k) eqn:E0.
    + cbn [lookupProp]. apply jsstring_eqb_eq in E0 as ->.
      destruct (JsString.eqb k n); reflexivity.
    + cbn [lookupProp]. rewrite IH.
      destruct (JsString.eqb k0 n) eqn:E1; [| reflexivity].
      apply jsstring_eqb_eq in E1 as <-.
      destruct (JsString.eqb k k0) eqn:E2; [| reflexivity].
      apply jsstring_eqb_eq in E2 as ->.
      assert (JsString.eqb k0 k0 = true) by (apply jsstring_eqb_eq; reflexivity).
      congruence.
Qed.

(** A key that is not among the entries is not an own property of the
    coerced object. *)
Lemma coerced_absent (g : jsstring * JsValue -> JsValue)
  (entries : list (jsstring * JsValue)) (n : jsstring) :
  forall init, lookupProp (TypeCoercionService.ownProperties init) n = None ->
  ~ List.In n (List.map fst entries) ->
  lookupProp
    (TypeCoercionService.ownProperties
       (List.fold_left
          (fun coercedData kv =>
             TypeCoercionService.assignField coercedData (fst kv) (g kv))
          entries init)) n = None.
Proof.
  induction entries as [| [k v] entries IH]; intros init Hinit Hnot.
  - exact Hinit.
  - cbn [List.fold_left]. apply IH.
    + cbn [fst]. unfold TypeCoercionService.assignField. cbv zeta.
      assert (Hset : lookupProp
                       (setProp (TypeCoercionService.ownProperties init) k
                          (g (k, v))) n = None).
      { rewrite lookupProp_setProp.
        destruct (JsString.eqb k n) eqn:E; [| exact Hinit].
        apply jsstring_eqb_eq in E. exfalso. apply Hnot. left. exact E. }
      destruct (JsString.eqb k TypeCoercionService.PROTO_KEY); [| exact Hset].
      destruct (lookupProp (TypeCoercionService.ownProperties init)
                  TypeCoercionService.PROTO_KEY); [exact Hset |].
      destruct (TypeCoercionService.reachesProtoAccessor
                  (TypeCoercionService.prototype init)); [| exact Hset].
      destruct (g (k, v)); assumption.
    + intros Hin. apply Hnot. right. exact Hin.
Qed.

(** Without the key [__proto__] among the entries, the coerced object
    keeps the prototype it starts with. *)
Lemma coerced_prototype (g : jsstring * JsValue -> JsValue)
  (entries : list (jsstring * JsValue)) :
  forall init,
  ~ List.In TypeCoercionService.PROTO_KEY (List.map fst entries) ->
  TypeCoercionService.prototype
    (List.fold_left
       (fun coercedData kv =>
          TypeCoercionService.assignField coercedData (fst kv) (g kv))
       entries init)
  = TypeCoercionService.prototype init.
Proof.
  induction entries as [| [k v] entries IH]; intros init Hnot.
  - reflexivity.
  - cbn [List.fold_left]. rewrite IH.
    + cbn [fst]. unfold TypeCoercionService.assignField. cbv zeta.
      destruct (JsString.eqb k TypeCoercionService.PROTO_KEY) eqn:E;
        [| reflexivity].
      apply jsstring_eqb_eq in E. exfalso. apply Hnot. left. exact E.
    + intros Hin. apply Hnot. right. exact Hin.
Qed.

(** The loop over the field names builds the list of fields in order
    and accumulates their final confidences. *)
Lemma field_loop (F : jsstring -> Field) (names : list jsstring) :
  forall (acc : list Field) (sum : number),
  List.fold_left
    (fun state fieldName =>
       let f := F fieldName in
       (fst state ++ [f], add (snd state) (final_confidence f)))
    names (acc, sum)
  = (acc ++ List.map F names,
     List.fold_left add (List.map final_confidence (List.map F names)) sum).
Proof.
  induction names as [| n names IH]; intros acc sum; cbn [List.fold_left List.map].
  - rewrite List.app_nil_r. reflexivity.
  - cbv zeta. cbn [fst snd]. rewrite IH, <- List.app_assoc. reflexivity.
Qed.

Lemma extractField_name env service ocrText documentType threshold
  fieldKeywords extractedData ocrPages fieldName :
  name (extractField env service ocrText documentType threshold fieldKeywords
          extractedData ocrPages fieldName) = fieldName.
Proof. reflexivity. Qed.

Lemma extractField_absent env service ocrText documentType threshold
  fieldKeywords extractedData ocrPages fieldName :
  TypeCoercionService.readField extractedData fieldName = VUndefined ->
  let f := extractField env service ocrText documentType threshold fieldKeywords
             extractedData ocrPages fieldName in
  value f = VNull /\ llm_confidence f = Fin 0.
Proof.
  intros H. unfold extractField. rewrite H. cbn. split; reflexivity.
Qed.

(** A result of [extract] has one field per field name of the schema,
    in the order of the schema.  When [__proto__] is not a key of the
    parsed LLM output, a field whose name is not a key of it either
    (and names no member of a built-in prototype) has value null and
    llm_confidence 0. *)
Lemma extract_fields_follow_schema
  (env : Env) (service : ExtractionService) (ocrText documentType : jsstring)
  (documentId : Z) (ocrPages : list OcrPage) (w w' : World)
  (r : ExtractionModel) :
  extract env service ocrText documentType documentId ocrPages w = (Ok r, w') ->
  let fieldNames :=
    SchemaStore.getFieldNames (schemaStore service) documentType in
  exists reply parsed entries,
    (exists w0 request, chat env w0 request = Ok reply)
    /\ JSON_parse (rt env) (content reply) = Ok parsed
    /\ TypeCoercionService.Object_entries parsed = Ok entries
    /\ List.length (fields r) = List.length fieldNames
    /\ List.map name (fields r) = fieldNames
    /\ (~ List.In TypeCoercionService.PROTO_KEY (List.map fst entries) ->
        forall f, List.In f (fields r) ->
          isBuiltinMember (name f) = false ->
          ~ List.In (name f) (List.map fst entries) ->
          value f = VNull /\ llm_confidence f = Fin 0).
Proof.
  intros Hrun fieldNames. unfold extract in Hrun.
  destruct (SchemaStore.getSchema (schemaStore service) documentType)
    as [schema |]; [| discriminate].
  apply bind_Ok_inv in Hrun as (threshold & w1 & _ & Hrun).
  apply bind_Ok_inv in Hrun as (learningResult & w2 & _ & Hrun).
  apply bind_Ok_inv in Hrun as (startTime & w3 & _ & Hrun).
  apply bind_Ok_inv in Hrun as (reply & w4 & Hchat & Hrun).
  apply bind_Ok_inv in Hrun as (endTime & w5 & _ & Hrun).
  apply bind_Ok_inv in Hrun as (parsed & w6 & Hparse & Hrun).
  apply bind_Ok_inv in Hrun as (extractedData & w7 & Hcoerce & Hrun).
  fold fieldNames in Hrun.
  rewrite field_loop in Hrun. cbn [app] in Hrun.
  apply bind_Ok_inv in Hrun as (timestamp & w8 & _ & Hrun).
  unfold ret in Hrun. injection Hrun as <- _.
  cbn [fields overall_confidence].
  unfold doChat in Hchat. injection Hchat as Hchat _.
  destruct (JSON_parse (rt env) (content reply)) as [v | e] eqn:Hjson;
    [| discriminate].
  unfold ret in Hparse. injection Hparse as <- _.
  unfold lift in Hcoerce. injection Hcoerce as Hcoerce _.
  unfold TypeCoercionService.coerceAllFields in Hcoerce.
  destruct (TypeCoercionService.Object_entries v) as [entries | e] eqn:Hentries;
    [| discriminate].
  injection Hcoerce as <-.
  exists reply, v, entries.
  split; [eauto |]. split; [exact Hjson |]. split; [exact Hentries |].
  split; [rewrite List.length_map; reflexivity |].
  split.
  { rewrite List.map_map. apply List.map_id. }
  intros Hproto f Hin _ Habsent. apply List.in_map_iff in Hin as (n & <- & _).
  apply extractField_absent. unfold TypeCoercionService.readField.
  rewrite coerced_absent; [| reflexivity | exact Habsent].
  rewrite coerced_prototype by exact Hproto. reflexivity.
Qed.

End Extraction.


(* ================================================================== *)
(** ** The history of a classification: passes *)
(* ================================================================== *)

Section Passes.

Import WorldSpec LoopSpec OllamaClient.

Lemma passCount_app (a b : list Event) :
  passCount (a ++ b) = (passCount a + passCount b)%nat.
Proof. unfold passCount. rewrite List.filter_app, List.length_app. reflexivity. Qed.

Lemma passCount_quiet (added : list Event) :
  List.Forall notPassStart added -> passCount added = 0%nat.
Proof.
  unfold passCount, notPassStart.
  induction 1 as [| ev added Hev _ IH]; [reflexivity |].
  cbn [List.filter]. rewrite Hev. exact IH.
Qed.

Lemma passes_quiet {A : Type} (m : M A) : appends notPassStart m -> passes 0 m.
Proof.
  intros H w. destruct (H w) as (added & E & Hq).
  exists added. split; [exact E | apply passCount_quiet, Hq].
Qed.

Lemma passes_bind {A B : Type} (n : nat) (m : M A) (k : A -> M B) :
  passes n m -> (forall a, passes 0 (k a)) -> passes n (bind m k).
Proof.
  intros Hm Hk w. unfold bind. destruct (Hm w) as (added & E & Hn).
  destruct (m w) as [[a | e] w1]; cbn [snd] in E; subst w1.
  - destruct (Hk a (w ++ added)) as (added' & E' & Hn').
    exists (added ++ added'). rewrite E', List.app_assoc, passCount_app.
    split; [reflexivity | lia].
  - exists added. split; [reflexivity | exact Hn].
Qed.

Variable env : Env.

Lemma getGoldExample_quiet (query : ExampleStore.ExampleQuery) :
  appends notPassStart (ExampleStore.getGoldExample env query).
Proof.
  unfold ExampleStore.getGoldExample. cbv zeta.
  apply appends_bind.
  - apply appends_tryCatch.
    + apply appends_dbGet. reflexivity.
    + intros e. apply appends_throw.
  - intros [r |]; [| apply appends_ret].
    destruct (negb (truthy r)); [apply appends_ret |].
    destruct (ExampleStore.parseGoldExampleFromRow (rt env) r);
      [apply appends_ret | apply appends_throw].
Qed.

Lemma getGoldExampleCounts_quiet :
  appends notPassStart (ExampleStore.getGoldExampleCounts env).
Proof.
  unfold ExampleStore.getGoldExampleCounts.
  apply appends_bind.
  - apply appends_tryCatch.
    + apply appends_dbAll. reflexivity.
    + intros e. apply appends_throw.
  - intros rows. apply appends_ret.
Qed.

Lemma handleGetGoldExample_quiet (args : JsValue) :
  appends notPassStart (ToolRegistry.handleGetGoldExample env args).
Proof.
  unfold ToolRegistry.handleGetGoldExample.
  apply appends_tryCatch; [| intros e; apply appends_ret].
  apply appends_bind; [apply appends_lift |]. intros keywordsArg.
  apply appends_bind; [apply appends_lift |]. intros doc_type.
  apply appends_bind; [apply getGoldExample_quiet |].
  intros [ex |]; [apply appends_lift | apply appends_ret].
Qed.

(** The registry that [new ToolRegistry()] builds holds one tool. *)
Lemma default_registry_lookup (name : jsstring) (d : ToolRegistry.ToolDefinition) :
  ToolRegistry.create env !! name = Some d ->
  ToolRegistry.handler d = ToolRegistry.handleGetGoldExample env.
Proof.
  unfold ToolRegistry.create, ToolRegistry.registerDefaultTools,
    ToolRegistry.register.
  intros H. apply lookup_insert_Some in H as [[_ <-] | [_ H]].
  - reflexivity.
  - rewrite lookup_empty in H. discriminate.
Qed.

Lemma default_handler_quiet (name : jsstring) (args : JsValue) :
  appends notPassStart
    (ToolRegistry.createToolHandler (ToolRegistry.create env) name args).
Proof.
  unfold ToolRegistry.createToolHandler, ToolRegistry.executeTool.
  destruct (ToolRegistry.create env !! name) as [d |] eqn:E.
  - rewrite (default_registry_lookup name d E).
    apply handleGetGoldExample_quiet.
  - apply appends_throw.
Qed.

Lemma retrieveLearningExample_quiet (context : LearningService.LearningContext) :
  appends notPassStart (LearningService.retrieveLearningExample env context).
Proof.
  unfold LearningService.retrieveLearningExample. cbv zeta.
  destruct (LearningService.ctxDocType context) as [[| c docType] |];
    try apply appends_ret.
  apply appends_bind.
  - unfold LearningService.shouldUseLearning.
    match goal with
    | |- context [if ?b then ret false else _] => destruct b
    end; [apply appends_ret |].
    apply appends_bind; [apply getGoldExampleCounts_quiet |].
    intros counts. apply appends_ret.
  - intros shouldLearn. destruct (negb shouldLearn); [apply appends_ret |].
    apply appends_tryCatch; [| intros e; apply appends_ret].
    apply appends_bind; [apply getGoldExample_quiet |].
    intros [ex |]; apply appends_ret.
Qed.

Lemma getThreshold_quiet (type : jsstring) :
  appends notPassStart (Threshold.getThreshold env type).
Proof.
  unfold Threshold.getThreshold.
  apply appends_tryCatch; [| intros e; apply appends_ret].
  cbv zeta. apply appends_bind; [apply appends_dbGet; reflexivity |].
  intros [r |]; [| apply appends_ret].
  destruct (truthy r); [| apply appends_ret].
  apply appends_bind; [apply appends_lift |]. intros v. apply appends_ret.
Qed.

Lemma getThreshold_returns (type : jsstring) (w : World) :
  exists threshold w', Threshold.getThreshold env type w = (Ok threshold, w').
Proof.
  unfold Threshold.getThreshold, tryCatch.
  match goal with
  | |- context [match ?m w with _ => _ end] => destruct (m w) as [[t | e] w1]
  end; eexists; eexists; reflexivity.
Qed.

End Passes.

Section PassesOfTheLoop.

Import WorldSpec LoopSpec OllamaClient.

Variable env : Env.
Variable client : OllamaClient.
Variable requestTools : list OllamaTool.
Variable toolHandler : jsstring -> JsValue -> M jsstring.
Variable options : option ChatOptions.

Hypothesis Hquiet : forall name args, appends notPassStart (toolHandler name args).

Lemma usage_log_quiet (name : jsstring) (toolArgs : JsValue)
  (toolResult : jsstring) (success : bool) (toolDuration : Z) :
  appends notPassStart
    (match currentDocumentId client with
     | Some documentId =>
         if documentId =? 0 then ret tt
         else
           tryCatch
             (ToolUsageLogger.log env
                {| ToolUsageLogger.documentId := documentId;
                   ToolUsageLogger.loggedToolName := name;
                   ToolUsageLogger.toolArgs :=
                     match JSON_stringify (rt env) toolArgs with
                     | Some text => VStr text
                     | None => VUndefined
                     end;
                   ToolUsageLogger.toolResult := toolResult;
                   ToolUsageLogger.success := success;
                   ToolUsageLogger.duration := toolDuration |})
             (fun _ => ret tt)
     | None => ret tt
     end).
Proof.
  destruct (currentDocumentId client) as [documentId |]; [| apply appends_ret].
  destruct (documentId =? 0); [apply appends_ret |].
  apply appends_tryCatch; [| intros e; apply appends_ret].
  unfold ToolUsageLogger.log. apply appends_dbRun. reflexivity.
Qed.

Lemma runToolCall_quiet (m : OllamaMessage) (msgs : list OllamaMessage)
  (call : ToolCall) :
  appends notPassStart (runToolCall env client toolHandler m msgs call).
Proof.
  unfold runToolCall. cbv zeta.
  apply appends_bind; [apply appends_lift |]. intros toolArgs.
  apply appends_bind; [apply appends_now; reflexivity |]. intros toolStartTime.
  apply appends_bind.
  - apply appends_tryCatch.
    + apply appends_bind; [apply Hquiet |]. intros r. apply appends_ret.
    + intros e. apply appends_ret.
  - intros [toolResult success].
    apply appends_bind; [apply appends_now; reflexivity |]. intros toolEndTime.
    apply appends_bind; [apply usage_log_quiet |]. intros _. apply appends_ret.
Qed.

Lemma runToolCall_grows (m : OllamaMessage) (msgs msgs' : list OllamaMessage)
  (call : ToolCall) (w w' : World) :
  runToolCall env client toolHandler m msgs call w = (Ok msgs', w') ->
  (List.length msgs < List.length msgs')%nat.
Proof.
  unfold runToolCall. cbv zeta. intros H.
  apply bind_Ok_inv in H as (toolArgs & w1 & _ & H).
  apply bind_Ok_inv in H as (toolStartTime & w2 & _ & H).
  apply bind_Ok_inv in H as ([toolResult success] & w3 & _ & H).
  apply bind_Ok_inv in H as (toolEndTime & w4 & _ & H).
  apply bind_Ok_inv in H as (u & w5 & _ & H).
  unfold ret in H. injection H as <- _.
  rewrite List.length_app. cbn [List.length]. lia.
Qed.

Lemma tool_calls_quiet (m : OllamaMessage) (calls : list ToolCall) :
  forall msgs, appends notPassStart
                 (forEach calls (runToolCall env client toolHandler m) msgs).
Proof.
  induction calls as [| call calls IH]; intros msgs; cbn [forEach].
  - apply appends_ret.
  - apply appends_bind; [apply runToolCall_quiet | exact IH].
Qed.

Lemma tool_calls_grow (m : OllamaMessage) (calls : list ToolCall) :
  forall msgs msgs' w w',
  forEach calls (runToolCall env client toolHandler m) msgs w = (Ok msgs', w') ->
  (List.length msgs + List.length calls <= List.length msgs')%nat.
Proof.
  induction calls as [| call calls IH]; intros msgs msgs' w w' H; cbn [forEach] in H.
  - unfold ret in H. injection H as <- _. cbn [List.length]. lia.
  - apply bind_Ok_inv in H as (msgs1 & w1 & Hcall & H).
    apply runToolCall_grows in Hcall. apply IH in H. cbn [List.length]. lia.
Qed.

Lemma long_request_quiet (msgs : list OllamaMessage) :
  (3 <= List.length msgs)%nat ->
  notPassStart (EvChat (request requestTools options msgs)).
Proof.
  unfold notPassStart, isPassStart, request. cbn [messages].
  destruct msgs as [| a [| b [| c msgs]]]; cbn [List.length]; intros H;
    try lia; reflexivity.
Qed.

Lemma chatLoop_S (cap : Z) (k : nat) (it : Z) (used : bool)
  (msgs : list OllamaMessage) :
  chatLoop env client requestTools toolHandler options cap (S k) it used msgs
  = bind (doChat env (request requestTools options msgs))
      (fun assistantMessage =>
         match tool_calls assistantMessage with
         | Some (toolCall :: toolCalls) =>
             bind (forEach (toolCall :: toolCalls)
                     (runToolCall env client toolHandler assistantMessage) msgs)
               (fun currentMessages =>
                  chatLoop env client requestTools toolHandler options cap k
                    (it + 1) true currentMessages)
         | _ =>
             ret {| response := assistantMessage;
                    toolUsed := used;
                    iterations := it + 1 |}
         end).
Proof. reflexivity. Qed.

(** After its first request, the loop sends longer ones. *)
Lemma chatLoop_quiet_tail (cap : Z) (k : nat) :
  forall it used msgs, (3 <= List.length msgs)%nat ->
  appends notPassStart
    (chatLoop env client requestTools toolHandler options cap k it used msgs).
Proof.
  induction k as [| k IH]; intros it used msgs Hlen.
  - apply appends_throw.
  - rewrite chatLoop_S. intros w. unfold bind at 1, doChat.
    destruct (chat env w (request requestTools options msgs)) as [m | e].
    + destruct (tool_calls m) as [[| call calls] |].
      * exists [EvChat (request requestTools options msgs)].
        split; [reflexivity |]. repeat constructor. apply long_request_quiet, Hlen.
      * unfold bind at 1.
        destruct (tool_calls_quiet m (call :: calls) msgs
                    (w ++ [EvChat (request requestTools options msgs)]))
          as (added & E & Hq).
        pose proof (tool_calls_grow m (call :: calls) msgs) as Hgrow.
        destruct (forEach (call :: calls) (runToolCall env client toolHandler m)
                    msgs (w ++ [EvChat (request requestTools options msgs)]))
          as [[msgs' | e] w1] eqn:Efor; cbn [snd] in E; subst w1.
        -- specialize (Hgrow msgs' _ _ Efor).
           destruct (IH (it + 1) true msgs' ltac:(lia)
                       ((w ++ [EvChat (request requestTools options msgs)]) ++ added))
             as (added' & E' & Hq').
           exists ([EvChat (request requestTools options msgs)] ++ added ++ added').
           rewrite E', <- !List.app_assoc. split; [reflexivity |].
           apply List.Forall_app. split.
           ++ repeat constructor. apply long_request_quiet, Hlen.
           ++ apply List.Forall_app. split; assumption.
        -- exists ([EvChat (request requestTools options msgs)] ++ added).
           rewrite <- List.app_assoc. split; [reflexivity |].
           apply List.Forall_app. split; [| exact Hq].
           repeat constructor. apply long_request_quiet, Hlen.
      * exists [EvChat (request requestTools options msgs)].
        split; [reflexivity |]. repeat constructor. apply long_request_quiet, Hlen.
    + exists [EvChat (request requestTools options msgs)].
      split; [reflexivity |]. repeat constructor. apply long_request_quiet, Hlen.
Qed.

(** A call of [chatWithTools] that starts from a system prompt and a
    user prompt is one pass, however it ends. *)
Lemma chatWithTools_one_pass (systemPrompt userPrompt : jsstring) :
  defaultCap options ->
  passes 1
    (chatWithTools env client
       [ mkMessage system systemPrompt None; mkMessage user userPrompt None ]
       requestTools toolHandler options).
Proof.
  intros Hcap. rewrite (chatWithTools_default _ _ _ _ _ _ Hcap).
  set (msgs := [ mkMessage system systemPrompt None; mkMessage user userPrompt None ]).
  assert (Hstart : passCount [EvChat (request requestTools options msgs)] = 1%nat)
    by reflexivity.
  intros w. rewrite chatLoop_S. unfold bind at 1, doChat.
  destruct (chat env w (request requestTools options msgs)) as [m | e].
  - destruct (tool_calls m) as [[| call calls] |].
    + exists [EvChat (request requestTools options msgs)]. split; [reflexivity | exact Hstart].
    + unfold bind at 1.
      destruct (tool_calls_quiet m (call :: calls) msgs
                  (w ++ [EvChat (request requestTools options msgs)]))
        as (added & E & Hq).
      pose proof (tool_calls_grow m (call :: calls) msgs) as Hgrow.
      destruct (forEach (call :: calls) (runToolCall env client toolHandler m)
                  msgs (w ++ [EvChat (request requestTools options msgs)]))
        as [[msgs' | e] w1] eqn:Efor; cbn [snd] in E; subst w1.
      * specialize (Hgrow msgs' _ _ Efor). unfold msgs in Hgrow.
        cbn [List.length] in Hgrow.
        destruct (chatLoop_quiet_tail 3 2 (0 + 1) true msgs' ltac:(lia)
                    ((w ++ [EvChat (request requestTools options msgs)]) ++ added))
          as (added' & E' & Hq').
        exists ([EvChat (request requestTools options msgs)] ++ added ++ added').
        rewrite E', <- !List.app_assoc. split; [reflexivity |].
        rewrite !passCount_app, Hstart, (passCount_quiet _ Hq),
          (passCount_quiet _ Hq'). reflexivity.
      * exists ([EvChat (request requestTools options msgs)] ++ added).
        rewrite <- List.app_assoc. split; [reflexivity |].
        rewrite passCount_app, Hstart, (passCount_quiet _ Hq). reflexivity.
    + exists [EvChat (request requestTools options msgs)]. split; [reflexivity | exact Hstart].
  - exists [EvChat (request requestTools options msgs)]. split; [reflexivity | exact Hstart].
Qed.

End PassesOfTheLoop.


(* ================================================================== *)
(** ** Properties of ClassificationService.classify *)
(* ================================================================== *)

Section Classify.

Import WorldSpec LoopSpec ClassifySpec ClassificationService.

Variable env : Env.
Variable client : OllamaClient.OllamaClient.

Local Abbreviation service := (defaultService env client).

Lemma firstPass_one_pass (ocrText : jsstring) :
  passes 1 (firstPass env service ocrText).
Proof.
  unfold firstPass. cbv zeta. apply passes_bind.
  - apply chatWithTools_one_pass; [| reflexivity].
    intros name args. apply default_handler_quiet.
  - intros result. apply passes_quiet.
    apply appends_bind; [apply appends_lift |]. intros parsed.
    apply appends_bind; [apply appends_lift |]. intros predictedType.
    destruct (isDocumentType predictedType); [apply appends_ret |].
    apply appends_bind; [apply appends_lift |]. intros [mapped |].
    + destruct (isDocumentType (VStr mapped)); [apply appends_ret | apply appends_throw].
    + apply appends_throw.
Qed.

Lemma scoreRetry_Some (retryContent ocrText : jsstring) (threshold : number)
  (score : ConfidenceCalculator.ConfidenceBreakdown)
  (retryParsed : JsValue) (retryScore : ConfidenceCalculator.ConfidenceBreakdown) :
  scoreRetry (rt env) retryContent ocrText threshold score
    = Some (retryParsed, retryScore) ->
  JSON_parse (rt env) retryContent = Ok retryParsed
  /\ retryScore = scoreOf (rt env) retryParsed ocrText threshold
  /\ gt (ConfidenceCalculator.final_confidence retryScore)
        (ConfidenceCalculator.final_confidence score) = true.
Proof.
  unfold scoreRetry, scoreOf. intros H.
  destruct (JSON_parse (rt env) retryContent) as [v | e]; [| discriminate].
  unfold ExampleStore.prop.
  destruct (getProp v (str "document_type")) as [retryType | e] eqn:Eprop;
    [| discriminate].
  match type of H with
  | (if ?c then _ else _) = _ => destruct c eqn:Hgt; [| discriminate]
  end.
  injection H as <- <-. rewrite Eprop.
  split; [reflexivity |]. split; [reflexivity | exact Hgt].
Qed.

Lemma prop_assign_same (target : JsValue) (key : string) (v : JsValue)
  (props : list (jsstring * JsValue)) :
  target = VObj props ->
  ExampleStore.prop (assignProp target key v) key = v.
Proof.
  intros ->. unfold ExampleStore.prop, assignProp, getProp.
  rewrite lookupProp_setProp.
  assert (JsString.eqb (str key) (str key) = true) as ->
    by (apply jsstring_eqb_eq; reflexivity).
  reflexivity.
Qed.

Lemma prop_assign_other (target : JsValue) (key other : string) (v : JsValue) :
  JsString.eqb (str key) (str other) = false ->
  ExampleStore.prop (assignProp target key v) other
    = ExampleStore.prop target other.
Proof.
  intros Hne. unfold ExampleStore.prop, assignProp.
  destruct target; try reflexivity.
  unfold getProp. rewrite lookupProp_setProp, Hne. reflexivity.
Qed.

(** The first pass returns a parsed reply whose type is the validated
    one, a member of the enum. *)
Lemma firstPass_type (ocrText : jsstring) (w w1 : World)
  (first : OllamaClient.ChatWithToolsResult) (parsed : JsValue)
  (predictedType : jsstring) :
  firstPass env service ocrText w = (Ok (first, parsed, predictedType), w1) ->
  ExampleStore.prop parsed "document_type" = VStr predictedType
  /\ isDocumentType (VStr predictedType) = true.
Proof.
  unfold firstPass. cbv zeta. intros H.
  apply bind_Ok_inv in H as (result & w2 & _ & H).
  apply bind_Ok_inv in H as (parsed0 & w3 & _ & H).
  apply bind_Ok_inv in H as (typeValue & w4 & Htype & H).
  unfold lift in Htype. injection Htype as Htype _.
  destruct (isDocumentType typeValue) eqn:Hvalid.
  - unfold ret in H. injection H as _ <- <- _.
    unfold ExampleStore.prop. rewrite Htype.
    destruct typeValue; try discriminate. split; [reflexivity | exact Hvalid].
  - apply bind_Ok_inv in H as (mappedType & w5 & Hmap & H).
    destruct mappedType as [mapped |]; [| discriminate].
    destruct (isDocumentType (VStr mapped)) eqn:Hmapped; [| discriminate].
    unfold ret in H. injection H as _ <- <- _.
    split; [| exact Hmapped].
    unfold lift in Hmap. injection Hmap as Hmap _.
    destruct typeValue as [| | | | s | |]; try discriminate.
    destruct parsed0 as [| | | | | | props]; try discriminate.
    rewrite prop_assign_other by reflexivity.
    apply (prop_assign_same _ _ _ props). reflexivity.
Qed.

(** The outcome of a call of [classify]: the events it adds hold one or
    two passes of the tool loop, and a result is the first pass's or,
    after a second pass, the higher-scoring retry's. *)
Lemma classify_outcome
  (ocrText : jsstring) (documentId : Z) (w : World) :
  let out := classify env service ocrText documentId w in
  exists added,
    snd out = w ++ added
    /\ (1 <= passCount added <= 2)%nat
    /\ forall r, fst out = Ok r ->
       exists first parsed predictedType w1 threshold w2,
         firstPass env service ocrText w = (Ok (first, parsed, predictedType), w1)
         /\ Threshold.getThreshold env predictedType w1 = (Ok threshold, w2)
         /\ let score := scoreOf (rt env) parsed ocrText threshold in
            (passCount added = 2%nat ->
             lt (ConfidenceCalculator.final_confidence score)
                LOW_CONFIDENCE_THRESHOLD = true
             /\ OllamaClient.toolUsed first = false)
            /\ (r = resultOf parsed score threshold (OllamaClient.toolUsed first)
                \/ (passCount added = 2%nat
                    /\ exists retryParsed,
                         retryReply env service retryParsed
                         /\ gt (ConfidenceCalculator.final_confidence
                                  (scoreOf (rt env) retryParsed ocrText threshold))
                               (ConfidenceCalculator.final_confidence score) = true
                         /\ r = resultOf retryParsed
                                  (scoreOf (rt env) retryParsed ocrText threshold)
                                  threshold true)).
Proof.
  intros out. subst out. unfold classify, tryCatch, classifyBody.
  destruct (firstPass_one_pass ocrText w) as (a1 & E1 & N1).
  destruct (firstPass env service ocrText w)
    as [[[[first parsed] predictedType] | e] w1] eqn:Efp; cbn [snd] in E1; subst w1.
  2:{ rewrite (bind_Throw _ _ _ _ _ Efp). unfold throw. exists a1. cbn [fst snd].
      split; [reflexivity |]. split; [lia |]. intros r Hr. discriminate. }
  rewrite (bind_Ok _ _ _ _ _ Efp). cbn beta iota.
  destruct (firstPass_type ocrText _ _ _ _ _ Efp) as [Hprop Hvalid].
  destruct (getThreshold_quiet env predictedType (w ++ a1)) as (a2 & E2 & Q2).
  destruct (getThreshold_returns env predictedType (w ++ a1)) as (threshold & w2 & Eth).
  rewrite Eth in E2. cbn [snd] in E2. subst w2.
  rewrite (bind_Ok _ _ _ _ _ Eth).
  assert (Hscore :
    ConfidenceCalculator.calculateClassificationConfidence (rt env) parsed ocrText
      predictedType (Some threshold) = scoreOf (rt env) parsed ocrText threshold).
  { unfold scoreOf. rewrite Hprop. reflexivity. }
  rewrite Hscore. set (score := scoreOf (rt env) parsed ocrText threshold).
  pose proof (passCount_quiet _ Q2) as N2.
  destruct (lt (ConfidenceCalculator.final_confidence score) LOW_CONFIDENCE_THRESHOLD
            && negb (OllamaClient.toolUsed first)) eqn:Hcond.
  2:{ (* no retry *)
      unfold bind, ret. cbn [fst snd]. exists (a1 ++ a2).
      rewrite List.app_assoc. split; [reflexivity |].
      rewrite passCount_app. split; [lia |]. intros r Hr. injection Hr as <-.
      exists first, parsed, predictedType, (w ++ a1), threshold, ((w ++ a1) ++ a2).
      split; [reflexivity |]. split; [exact Eth |]. cbv zeta. fold score.
      split; [intros Htwo; lia | left; reflexivity]. }
  apply andb_prop in Hcond as [Hlow Hnotool].
  apply negb_true_iff in Hnotool.
  rewrite bind_assoc_w.
  match goal with
  | |- context [LearningService.retrieveLearningExample env ?c] =>
      destruct (retrieveLearningExample_quiet env c ((w ++ a1) ++ a2))
        as (a3 & E3 & Q3);
      destruct (LearningService.retrieveLearningExample env c ((w ++ a1) ++ a2))
        as [[learningResult | e] w3] eqn:Elearn
  end; cbn [snd] in E3; subst w3.
  2:{ rewrite (bind_Throw _ _ _ _ _ Elearn).
      exists (a1 ++ a2 ++ a3). cbn [fst snd throw].
      rewrite !List.app_assoc. split; [reflexivity |].
      rewrite !passCount_app, (passCount_quiet _ Q3). split; [lia |].
      intros r Hr. discriminate. }
  pose proof (passCount_quiet _ Q3) as N3.
  rewrite (bind_Ok _ _ _ _ _ Elearn).
  assert (Hkept :
    exists added,
      (((w ++ a1) ++ a2) ++ a3) = w ++ added
      /\ (1 <= passCount added <= 2)%nat
      /\ forall r,
           Ok (resultOf parsed score threshold (OllamaClient.toolUsed first)) = Ok r ->
           exists first0 parsed0 predictedType0 w1 threshold0 w2,
             (Ok (first, parsed, predictedType), w ++ a1)
               = (Ok (first0, parsed0, predictedType0), w1)
             /\ Threshold.getThreshold env predictedType0 w1 = (Ok threshold0, w2)
             /\ let score0 := scoreOf (rt env) parsed0 ocrText threshold0 in
                (passCount added = 2%nat ->
                 lt (ConfidenceCalculator.final_confidence score0)
                    LOW_CONFIDENCE_THRESHOLD = true
                 /\ OllamaClient.toolUsed first0 = false)
                /\ (r = resultOf parsed0 score0 threshold0 (OllamaClient.toolUsed first0)
                    \/ (passCount added = 2%nat
                        /\ exists retryParsed,
                             retryReply env service retryParsed
                             /\ gt (ConfidenceCalculator.final_confidence
                                      (scoreOf (rt env) retryParsed ocrText threshold0))
                                   (ConfidenceCalculator.final_confidence score0) = true
                             /\ r = resultOf retryParsed
                                      (scoreOf (rt env) retryParsed ocrText threshold0)
                                      threshold0 true))).
  { exists (a1 ++ a2 ++ a3). rewrite !List.app_assoc. split; [reflexivity |].
    rewrite !passCount_app. split; [lia |]. intros r Hr. injection Hr as <-.
    exists first, parsed, predictedType, (w ++ a1), threshold, ((w ++ a1) ++ a2).
    split; [reflexivity |]. split; [exact Eth |]. cbv zeta. fold score.
    split; [intros Htwo; lia | left; reflexivity]. }
  destruct (LearningService.exampleFound learningResult);
    [| exact Hkept].
  destruct (LearningService.example learningResult) as [ex |]; [| exact Hkept].
  clear Hkept. rewrite bind_assoc_w.
  match goal with
  | |- context [OllamaClient.chatWithTools env ?c ?msgs ?t ?h ?o] =>
      destruct (chatWithTools_one_pass env c t h o
                  (default_handler_quiet env) SYSTEM_PROMPT
                  (buildLearningUserPrompt
                     (LearningService.prepareLearningPrompt (rt env) ex) ocrText)
                  eq_refl (((w ++ a1) ++ a2) ++ a3)) as (a4 & E4 & N4);
      destruct (OllamaClient.chatWithTools env c msgs t h o (((w ++ a1) ++ a2) ++ a3))
        as [[retry | e] w4] eqn:Eretry
  end; cbn [snd] in E4; subst w4.
  2:{ rewrite (bind_Throw _ _ _ _ _ Eretry).
      exists (a1 ++ a2 ++ a3 ++ a4). cbn [fst snd throw].
      rewrite !List.app_assoc. split; [reflexivity |].
      rewrite !passCount_app. split; [lia |]. intros r Hr. discriminate. }
  rewrite (bind_Ok _ _ _ _ _ Eretry).
  destruct (scoreRetry (rt env) (content (OllamaClient.response retry)) ocrText
              threshold score) as [[retryParsed retryScore] |] eqn:Escore.
  - apply scoreRetry_Some in Escore as (Hparse & -> & Hgt).
    rewrite bind_ret_w. unfold ret. cbn [fst snd].
    exists (a1 ++ a2 ++ a3 ++ a4). rewrite !List.app_assoc.
    split; [reflexivity |]. rewrite !passCount_app. split; [lia |].
    intros r Hr. injection Hr as <-.
    exists first, parsed, predictedType, (w ++ a1), threshold, ((w ++ a1) ++ a2).
    split; [reflexivity |]. split; [exact Eth |]. cbv zeta. fold score.
    split; [intros _; split; assumption |].
    right. split; [lia |]. exists retryParsed.
    split; [| split; [exact Hgt | reflexivity]].
    eexists _, _, retry, _. split; [exact Eretry | exact Hparse].
  - rewrite bind_ret_w. unfold ret. cbn [fst snd].
    exists (a1 ++ a2 ++ a3 ++ a4). rewrite !List.app_assoc.
    split; [reflexivity |]. rewrite !passCount_app. split; [lia |].
    intros r Hr. injection Hr as <-.
    exists first, parsed, predictedType, (w ++ a1), threshold, ((w ++ a1) ++ a2).
    split; [reflexivity |]. split; [exact Eth |]. cbv zeta. fold score.
    split; [intros _; split; assumption | left; reflexivity].
Qed.

(** C4, amended.  A call of [classify] on the service of the repository
    runs one or two passes of the tool loop, that is at most one learning
    retry, whether it returns or throws.  When it returns, the first pass
    gave a parsed reply and a score for the validated type, and:
    a second pass happened only if that score was strictly below 0.7 and
    the first pass used no tool; the result is either the first pass's,
    with [tool_used] as the first pass reports it, or (after a second
    pass) the retry's, whose score is then strictly higher than the first
    pass's, with [tool_used] true.  So [tool_used] is true exactly when
    the first pass used the tool or the retry was adopted. *)
Theorem classify_retries_at_most_once
  (ocrText : jsstring) (documentId : Z) (w : World) :
  let out := classify env service ocrText documentId w in
  exists added,
    snd out = w ++ added
    /\ (1 <= passCount added <= 2)%nat
    /\ forall r, fst out = Ok r ->
       exists first parsed predictedType w1 threshold w2,
         firstPass env service ocrText w = (Ok (first, parsed, predictedType), w1)
         /\ Threshold.getThreshold env predictedType w1 = (Ok threshold, w2)
         /\ let score := scoreOf (rt env) parsed ocrText threshold in
            (passCount added = 2%nat ->
             lt (ConfidenceCalculator.final_confidence score)
                LOW_CONFIDENCE_THRESHOLD = true
             /\ OllamaClient.toolUsed first = false)
            /\ (r = resultOf parsed score threshold (OllamaClient.toolUsed first)
                \/ (passCount added = 2%nat
                    /\ adoptedRetry env service ocrText threshold score r))
            /\ (tool_used r = true
                <-> OllamaClient.toolUsed first = true
                    \/ adoptedRetry env service ocrText threshold score r).
Proof.
  intros out.
  destruct (classify_outcome ocrText documentId w) as (added & Hadded & Hcount & Hres).
  exists added. split; [exact Hadded |]. split; [exact Hcount |].
  intros r Hr.
  destruct (Hres r Hr)
    as (first & parsed & predictedType & w1 & threshold & w2
        & Hfirst & Hthreshold & Htwo & Hcases).
  exists first, parsed, predictedType, w1, threshold, w2.
  split; [exact Hfirst |]. split; [exact Hthreshold |].
  cbv zeta in Htwo, Hcases |- *.
  split; [exact Htwo |]. split; [exact Hcases |].
  split.
  - intros Hused.
    destruct Hcases as [-> | [_ Hadopted]]; [left; exact Hused | right; exact Hadopted].
  - intros [Hused | (retryParsed & _ & _ & ->)]; [| reflexivity].
    destruct Hcases as [-> | (_ & retryParsed & _ & _ & ->)];
      [exact Hused | reflexivity].
Qed.

Lemma clarity_values (text : jsstring) (keywords : list jsstring) :
  let c := ConfidenceCalculator.calculateClarityConfidence text keywords in
  c = Fin 0.4 \/ c = Fin 0.7 \/ c = Fin 1.0.
Proof.
  unfold ConfidenceCalculator.calculateClarityConfidence. cbv zeta.
  destruct (trim text); [left; reflexivity |].
  destruct keywords as [| k keywords]; [right; right; reflexivity |].
  unfold ConfidenceCalculator.mapMatchRatioToClarityConfidence.
  match goal with
  | |- context [if ?a then _ else if ?b then _ else _] => destruct a, b
  end; auto.
Qed.

(** A reply remapped to Government ID with confidence 0.6 scores at
    most 0.6, whatever the text and the threshold. *)
Lemma capped_score (props : list (jsstring * JsValue)) (ocrText : jsstring)
  (threshold : number) :
  lookupProp props (str "document_type") = Some (VStr (str "Government ID")) ->
  lookupProp props (str "confidence") = Some (VNum (Fin 0.6)) ->
  le (ConfidenceCalculator.final_confidence
        (scoreOf (rt env) (VObj props) ocrText threshold)) (Fin 0.6) = true.
Proof.
  intros Htype Hconf.
  unfold scoreOf, ConfidenceCalculator.calculateClassificationConfidence.
  cbv zeta. unfold ConfidenceCalculator.withReasons.
  cbn [ConfidenceCalculator.final_confidence
         ConfidenceCalculator.calculateFinalConfidence
         ConfidenceCalculator.llm ConfidenceCalculator.validation
         ConfidenceCalculator.clarity].
  unfold ConfidenceCalculator.calculateLLMConfidence.
  cbn [truthy getProp]. rewrite Hconf.
  destruct (clarity_values ocrText
              (ConfidenceCalculator.getExpectedKeywords
                 (toStr (rt env) (ExampleStore.prop (VObj props) "document_type"))))
    as [-> | [-> | ->]]; vm_compute; reflexivity.
Qed.

(** What the first pass does with a Driver License reply.  When its
    final reply parses to an object with [document_type]
    "Driver License" and [confidence] 0.9, the first pass remaps the
    type to Government ID through the lexical table and replaces the
    confidence by min(0.9, 0.6) = 0.6, and the score of the remapped
    reply is at most 0.6.  A result of [classify] is then either this
    first-pass result, Government ID with at most 0.6, or the reply of
    an adopted learning retry, which scores strictly higher. *)
Lemma driver_license_remapped_and_capped
  (ocrText : jsstring) (documentId : Z) (w w1 : World)
  (first : OllamaClient.ChatWithToolsResult)
  (props : list (jsstring * JsValue)) :
  OllamaClient.chatWithTools env client
    [ mkMessage system SYSTEM_PROMPT None;
      mkMessage user (buildUserPrompt ocrText) None ]
    (ToolRegistry.getTools (toolRegistry service))
    (ToolRegistry.createToolHandler (toolRegistry service))
    JSON_FORMAT w = (Ok first, w1) ->
  JSON_parse (rt env) (content (OllamaClient.response first)) = Ok (VObj props) ->
  lookupProp props (str "document_type") = Some (VStr (str "Driver License")) ->
  lookupProp props (str "confidence") = Some (VNum (Fin 0.9)) ->
  let remapped :=
    VObj (setProp (setProp props (str "document_type") (VStr (str "Government ID")))
            (str "confidence") (VNum (Fin 0.6))) in
  mapDocumentTypeVariation (VStr (str "Driver License"))
    = Ok (Some (str "Government ID"))
  /\ adjustConfidenceAfterMapping (rt env) (VNum (Fin 0.9)) = Fin 0.6
  /\ firstPass env service ocrText w
     = (Ok (first, remapped, str "Government ID"), w1)
  /\ (forall threshold,
        le (ConfidenceCalculator.final_confidence
              (scoreOf (rt env) remapped ocrText threshold)) (Fin 0.6) = true)
  /\ (forall r,
        fst (classify env service ocrText documentId w) = Ok r ->
        (predicted_type r = VStr (str "Government ID")
         /\ le (confidence r) (Fin 0.6) = true
         /\ tool_used r = OllamaClient.toolUsed first)
        \/ (OllamaClient.toolUsed first = false
            /\ tool_used r = true
            /\ exists retryParsed,
                 retryReply env service retryParsed
                 /\ confidence r
                    = ConfidenceCalculator.final_confidence
                        (scoreOf (rt env) retryParsed ocrText (threshold r))
                 /\ gt (confidence r)
                       (ConfidenceCalculator.final_confidence
                          (scoreOf (rt env) remapped ocrText (threshold r)))
                    = true)).
Proof.
  intros Hchat Hparse Htype Hconf remapped.
  assert (Hmap : mapDocumentTypeVariation (VStr (str "Driver License"))
                 = Ok (Some (str "Government ID"))) by (vm_compute; reflexivity).
  assert (Hadjust : adjustConfidenceAfterMapping (rt env) (VNum (Fin 0.9)) = Fin 0.6)
    by reflexivity.
  assert (Hfirst : firstPass env service ocrText w
                   = (Ok (first, remapped, str "Government ID"), w1)).
  { unfold firstPass. cbv zeta. rewrite (bind_Ok _ _ _ _ _ Hchat).
    unfold parseLLMResponse. rewrite Hparse.
    unfold bind at 1, lift at 1. unfold bind at 1, lift at 1.
    cbn [getProp]. rewrite Htype.
    replace (isDocumentType (VStr (str "Driver License"))) with false
      by (vm_compute; reflexivity).
    unfold bind at 1, lift at 1. rewrite Hmap.
    replace (isDocumentType (VStr (str "Government ID"))) with true
      by (vm_compute; reflexivity).
    unfold ret. f_equal. f_equal. unfold remapped. f_equal.
    unfold assignProp at 2. cbn [assignProp]. f_equal. f_equal. f_equal.
    unfold ExampleStore.prop. cbn [getProp].
    rewrite lookupProp_setProp.
    replace (JsString.eqb (str "document_type") (str "confidence")) with false
      by (vm_compute; reflexivity).
    rewrite Hconf, Hadjust. reflexivity. }
  assert (Hcap : forall threshold,
             le (ConfidenceCalculator.final_confidence
                   (scoreOf (rt env) remapped ocrText threshold)) (Fin 0.6) = true).
  { intros threshold. apply capped_score.
    - rewrite lookupProp_setProp.
      replace (JsString.eqb (str "confidence") (str "document_type")) with false
        by (vm_compute; reflexivity).
      rewrite lookupProp_setProp.
      replace (JsString.eqb (str "document_type") (str "document_type")) with true
        by (vm_compute; reflexivity).
      reflexivity.
    - rewrite lookupProp_setProp.
      replace (JsString.eqb (str "confidence") (str "confidence")) with true
        by (vm_compute; reflexivity).
      reflexivity. }
  split; [exact Hmap |]. split; [exact Hadjust |]. split; [exact Hfirst |].
  split; [exact Hcap |].
  intros r Hr.
  destruct (classify_outcome ocrText documentId w)
    as (added & _ & _ & Hres).
  destruct (Hres r Hr)
    as (first' & parsed' & type' & w1' & t0 & w2 & Hfirst' & _ & Htwo & Hcases).
  rewrite Hfirst in Hfirst'. injection Hfirst' as <- <- <- <-.
  destruct (firstPass_type ocrText _ _ _ _ _ Hfirst) as [Hprop _].
  cbv zeta in Htwo, Hcases.
  destruct Hcases as [-> | (Hcount & retryParsed & Hreply & Hgt & ->)].
  - left. cbn [predicted_type confidence tool_used resultOf].
    split; [exact Hprop |]. split; [apply Hcap | reflexivity].
  - right.
    cbn [predicted_type confidence tool_used resultOf
           ClassificationService.threshold].
    destruct (Htwo Hcount) as [_ Hnotool].
    split; [exact Hnotool |]. split; [reflexivity |]. exists retryParsed.
    split; [exact Hreply |]. split; [reflexivity |]. exact Hgt.
Qed.

End Classify.


(* ================================================================== *)
(** ** The theorems at work on the sample environments *)
(* ================================================================== *)

Section Instances.

Import Samples LoopSpec WorldSpec ClassifySpec.

Lemma generateLowConfidenceReasons_spec_witness :
  let b := ConfidenceCalculator.mkBreakdown (Fin 0.9) (Fin 0.3) (Fin 1.0)
             (Fin 0.27) None in
  lt (ConfidenceCalculator.final_confidence b)
     (Spec.thresholdOrDefault (Some (Fin 0.7))) = true
  /\ ConfidenceCalculator.generateLowConfidenceReasons runtime b (Some (Fin 0.7))
     <> []
  /\ ConfidenceCalculator.generateLowConfidenceReasons runtime b (Some (Fin 0.7))
     = [ConfidenceCalculator.REASON_VALIDATION_FAILED].
Proof.
  intros b. split; [reflexivity |].
  destruct (proj2 (generateLowConfidenceReasons_spec runtime b (Some (Fin 0.7)))
              eq_refl) as [Hne Heq].
  split; [exact Hne |]. rewrite Heq. reflexivity.
Defined.

(** The routing number of the specification passes, and a field named
    [routing_number] that holds it gets confidence 1.0. *)
Lemma routing_number_checksum_and_confidence_witness :
  RoutingSpec.isRoutingNumberField (str "routing_number")
  /\ ValidationService.calculateValidationConfidence runtime
       (str "routing_number") (VStr (str "021000021")) = Fin 1.0
  /\ ValidationService.validateRoutingNumber (VStr (str "021000031")) = false.
Proof.
  destruct (routing_number_checksum_and_confidence runtime)
    as (_ & _ & Hvalid & Haltered & Hconfidence).
  assert (Hfield : RoutingSpec.isRoutingNumberField (str "routing_number"))
    by (repeat split; vm_compute; reflexivity).
  split; [exact Hfield |]. split.
  - rewrite (Hconfidence (str "routing_number") (VStr (str "021000021"))
               Hfield eq_refl), Hvalid.
    reflexivity.
  - change (VStr (str "021000031"))
      with (VStr (str "0210000" ++ 51%N :: str "1")).
    apply (Haltered (str "0210000") (str "1") 50%N 51%N);
      [reflexivity | reflexivity | discriminate | exact Hvalid].
Defined.

(** C7 as stated fails for a value that is present in the output as the
    empty string: it is not a valid routing number, and its confidence
    is 0, not 0.5. *)
Lemma routing_number_empty_value_counterexample :
  RoutingSpec.isRoutingNumberField (str "routing_number")
  /\ ValidationService.validateRoutingNumber (VStr []) = false
  /\ ValidationService.calculateValidationConfidence runtime
       (str "routing_number") (VStr []) = Fin 0
  /\ eqb (Fin 0) (Fin 0.5) = false.
Proof. repeat split; vm_compute; reflexivity. Qed.

Lemma envToolThenAnswer_replies : llmAlwaysReplies envToolThenAnswer.
Proof. intros w request. eexists. reflexivity. Qed.

Lemma envToolThenAnswer_arguments : toolArgumentsParse envToolThenAnswer.
Proof.
  intros w request m calls Hm Hcalls. cbn in Hm.
  destruct (chatCount w =? 0)%nat; injection Hm as <-; cbn in Hcalls.
  - injection Hcalls as <-. repeat constructor. exists (VObj []). reflexivity.
  - discriminate.
Qed.

Lemma chatWithTools_bounded_loop_witness :
  defaultCap None
  /\ llmAlwaysReplies envToolThenAnswer
  /\ toolArgumentsParse envToolThenAnswer
  /\ match fst (OllamaClient.chatWithTools envToolThenAnswer client [] []
                  toolThenAnswerHandler None []) with
     | Ok res =>
         1 <= OllamaClient.iterations res <= 3
         /\ hasToolCalls (OllamaClient.response res) = false
         /\ OllamaClient.toolUsed res = (1 <? OllamaClient.iterations res)
     | Throw e => e = OllamaClient.MAX_ITERATIONS_ERROR 3
     end.
Proof.
  split; [exact I |].
  split; [exact envToolThenAnswer_replies |].
  split; [exact envToolThenAnswer_arguments |].
  pose proof (chatWithTools_bounded_loop envToolThenAnswer client []
                toolThenAnswerHandler None [] [] I) as (_ & H & _).
  specialize (H envToolThenAnswer_replies envToolThenAnswer_arguments).
  destruct (fst (OllamaClient.chatWithTools envToolThenAnswer client [] []
                   toolThenAnswerHandler None [])) as [res | e]; [| exact H].
  destruct H as (Hit & Hno & Hused & _). repeat split; try assumption; apply Hit.
Defined.

(** C5 as stated fails when the arguments of a tool call are a string
    that is not JSON: every reply carries a tool call, yet the call
    throws the syntax error of the first one, not the max-iterations
    error, and no handler runs. *)
Lemma malformed_tool_arguments_counterexample :
  llmAlwaysReplies envMalformed
  /\ (forall w request m,
        chat envMalformed w request = Ok m -> hasToolCalls m = true)
  /\ OllamaClient.chatWithTools envMalformed client [] []
       (ToolRegistry.createToolHandler (ToolRegistry.create envMalformed))
       None []
     = (Throw syntaxError,
        [EvChat (request [] None [])])
  /\ syntaxError <> OllamaClient.MAX_ITERATIONS_ERROR 3.
Proof.
  split; [intros w request; eexists; reflexivity |].
  split; [intros w request m Hm; injection Hm as <-; reflexivity |].
  split; [vm_compute; reflexivity | discriminate].
Qed.


End Instances.


Section ClassificationInstances.

Import Samples LoopSpec WorldSpec ClassifySpec ClassificationService.

(** With the retry adopted, the call runs two passes, and the result
    reports a tool use that the first pass did not make. *)
Lemma classify_retries_at_most_once_witness :
  exists r added first parsed predictedType w1,
    classify envRetryAdopted (defaultService envRetryAdopted client)
      GOVERNMENT_ID_OCR 7 [] = (Ok r, added)
    /\ (1 <= passCount added <= 2)%nat
    /\ firstPass envRetryAdopted (defaultService envRetryAdopted client)
         GOVERNMENT_ID_OCR [] = (Ok (first, parsed, predictedType), w1)
    /\ (tool_used r = true
        <-> OllamaClient.toolUsed first = true
            \/ exists threshold score,
                 adoptedRetry envRetryAdopted
                   (defaultService envRetryAdopted client)
                   GOVERNMENT_ID_OCR threshold score r).
Proof.
  destruct (classify envRetryAdopted (defaultService envRetryAdopted client)
              GOVERNMENT_ID_OCR 7 []) as [[r | e] added] eqn:Hrun;
    [| vm_compute in Hrun; discriminate].
  destruct (classify_retries_at_most_once envRetryAdopted client
              GOVERNMENT_ID_OCR 7 []) as (added' & Hadded & Hcount & Hres).
  rewrite Hrun in Hadded, Hres. cbn [fst snd] in Hadded, Hres.
  cbn [app] in Hadded. subst added'.
  destruct (Hres r eq_refl)
    as (first & parsed & predictedType & w1 & threshold & w2
        & Hfirst & _ & _ & _ & Hused).
  exists r, added, first, parsed, predictedType, w1.
  split; [reflexivity |]. split; [exact Hcount |].
  split; [exact Hfirst |].
  split.
  - intros H. apply Hused in H as [H | H]; [left; exact H | right; eauto].
  - intros [H | (threshold' & score' & retryParsed & _ & _ & Hr)].
    + apply Hused. left. exact H.
    + rewrite Hr. reflexivity.
Defined.

(** C4 as stated fails on [tool_used]: here the first pass uses no tool
    and scores 0.5; the retry executes the retrieval tool, whose result
    goes back to the LLM, and then scores lower, so that it is discarded;
    the result says that no tool was used. *)
Lemma tool_used_after_discarded_retry_counterexample :
  let out := classify envRetryDiscarded (defaultService envRetryDiscarded client)
               GOVERNMENT_ID_OCR 7 [] in
  match fst out with
  | Ok r => tool_used r = false /\ confidence r = Fin (0.5 * 1.0 * 1.0)
  | Throw _ => False
  end
  /\ passCount (snd out) = 2%nat
  /\ List.existsb carriesToolResult (snd out) = true.
Proof. vm_compute. repeat split; reflexivity. Qed.

Local Abbreviation retryService := (defaultService envRetryAdopted client).

Lemma envRetryAdopted_first_pass :
  OllamaClient.chatWithTools envRetryAdopted client
    (firstRequestMessages GOVERNMENT_ID_OCR)
    (ToolRegistry.getTools (toolRegistry retryService))
    (ToolRegistry.createToolHandler (toolRegistry retryService))
    JSON_FORMAT []
  = (Ok {| OllamaClient.response := answer DRIVER_LICENSE_TEXT;
           OllamaClient.toolUsed := false;
           OllamaClient.iterations := 1 |},
     [EvChat (request (ToolRegistry.getTools (toolRegistry retryService))
                JSON_FORMAT (firstRequestMessages GOVERNMENT_ID_OCR))]).
Proof. vm_compute. reflexivity. Qed.

(** The remapping at work: the first pass of the sample call answers
    Driver License with 0.9 and returns Government ID with 0.6. *)
Example first_pass_remaps_driver_license :
  exists remapped,
    fst (firstPass envRetryAdopted retryService GOVERNMENT_ID_OCR [])
      = Ok ({| OllamaClient.response := answer DRIVER_LICENSE_TEXT;
               OllamaClient.toolUsed := false;
               OllamaClient.iterations := 1 |},
            remapped, str "Government ID")
    /\ ExampleStore.prop remapped "confidence" = VNum (Fin 0.6)
    /\ le (ConfidenceCalculator.final_confidence
             (scoreOf runtime remapped GOVERNMENT_ID_OCR (Fin 0.7))) (Fin 0.6)
       = true.
Proof.
  destruct (driver_license_remapped_and_capped envRetryAdopted client
              GOVERNMENT_ID_OCR 7 [] _ _
              [ (str "document_type", VStr (str "Driver License"));
                (str "confidence", VNum (Fin 0.9)) ]
              envRetryAdopted_first_pass eq_refl eq_refl eq_refl)
    as (_ & _ & Hfirst & Hcap & _).
  eexists. split; [rewrite Hfirst; reflexivity |].
  split; [reflexivity | apply Hcap].
Qed.

(** C6.  The claim fails through a slip of the code.  The first pass
    validates the type the LLM answers against the enum, remaps an
    invalid one through the lexical table and caps the confidence of a
    remapped reply at 0.6; the reply of the learning retry goes through
    none of these steps: it is scored as it stands and, when it scores
    higher, emitted as it stands.  Here every reply of the LLM is
    Driver License with 0.9 and a gold example is stored: the first
    pass remaps to Government ID and caps at 0.6, scoring 0.6 with no
    tool used; the retry's reply scores 0.9 and is adopted; the service
    emits the type Driver License, which is not in the enum, with
    confidence 0.9, where the claim says Government ID with at most
    0.6. *)
Theorem retry_reply_skips_remap_and_cap :
  JSON_parse runtime DRIVER_LICENSE_TEXT
    = Ok (classificationReply "Driver License" 0.9)
  /\ (forall w request,
        chat envRetryRepeated w request = Ok (answer DRIVER_LICENSE_TEXT))
  /\ match fst (firstPass envRetryRepeated
                  (defaultService envRetryRepeated client)
                  GOVERNMENT_ID_OCR []) with
     | Ok (first, remapped, predictedType) =>
         predictedType = str "Government ID"
         /\ remapped = classificationReply "Government ID" 0.6
         /\ OllamaClient.toolUsed first = false
         /\ ConfidenceCalculator.final_confidence
              (scoreOf runtime remapped GOVERNMENT_ID_OCR (Fin 0.7))
            = Fin (0.6 * 1.0 * 1.0)
     | Throw _ => False
     end
  /\ match fst (classify envRetryRepeated
                  (defaultService envRetryRepeated client)
                  GOVERNMENT_ID_OCR 7 []) with
     | Ok r =>
         predicted_type r = VStr (str "Driver License")
         /\ isDocumentType (predicted_type r) = false
         /\ confidence r = Fin (0.9 * 1.0 * 1.0)
         /\ le (confidence r) (Fin 0.6) = false
         /\ tool_used r = true
     | Throw _ => False
     end.
Proof.
  split; [vm_compute; reflexivity |].
  split; [intros w request; reflexivity |].
  split; vm_compute; repeat split; reflexivity.
Qed.

(** The same with a retry that answers a valid type: Government ID is
    emitted, with the retry's 0.95. *)
Example retry_adopted_above_cap :
  match fst (classify envRetryAdopted retryService GOVERNMENT_ID_OCR 7 []) with
  | Ok r =>
      predicted_type r = VStr (str "Government ID")
      /\ confidence r = Fin (0.95 * 1.0 * 1.0)
      /\ le (confidence r) (Fin 0.6) = false
      /\ tool_used r = true
  | Throw _ => False
  end.
Proof. vm_compute. repeat split; reflexivity. Qed.

End ClassificationInstances.

Section ExtractionInstances.

Import Samples SampleDocuments ExtractionService LocationSpec.

(** A W-9 of which the LLM finds two fields: five fields come back, in
    the order of the schema, three of them null. *)
Example extract_sample_fields :
  exists r w',
    extract envExtraction extractionService W9_OCR (str "W-9") 7 [] []
      = (Ok r, w')
    /\ List.map name (fields r)
       = List.map str ["legal_name"; "ein_or_ssn"; "business_address";
                       "tax_classification"; "signature_present"]%string
    /\ List.map value (fields r)
       = [VStr (str "Acme LLC"); VNull; VNull; VNull; VBool true].
Proof.
  destruct (extract envExtraction extractionService W9_OCR (str "W-9") 7 [] [])
    as [[r | e] w'] eqn:Hrun; [| vm_compute in Hrun; discriminate].
  exists r, w'. split; [reflexivity |].
  destruct (extract_fields_follow_schema envExtraction extractionService W9_OCR
              (str "W-9") 7 [] [] w' r Hrun)
    as (reply & parsed & entries & _ & _ & _ & _ & Hnames & _).
  split; [rewrite Hnames; vm_compute; reflexivity |].
  vm_compute in Hrun. injection Hrun as <- _. reflexivity.
Qed.

(** C8.  The claim fails through a slip of the code.  [coerceAllFields]
    copies the parsed reply key by key into a fresh object with
    [coercedData[fieldName] = ...], and for the key [__proto__] that
    assignment replaces the prototype of the fresh object instead of
    adding a property.  Here the reply is
    [{"__proto__": {"legal_name": "Acme LLC"}}]: its one key is
    [__proto__], so [legal_name] is absent from the parsed output; yet
    [extractedData["legal_name"]] reads the inherited value, and the
    field comes back with value [Acme LLC] and llm_confidence 0.85
    where the claim says null and 0.  The fields that the prototype
    does not hold are null with llm_confidence 0. *)
Theorem prototype_key_fills_absent_field :
  JSON_parse (rt envPrototypeReply) PROTOTYPE_REPLY_TEXT = Ok prototypeReply
  /\ List.map fst
       match TypeCoercionService.Object_entries prototypeReply with
       | Ok entries => entries
       | Throw _ => []
       end
     = [str "__proto__"]
  /\ TypeCoercionService.coerceAllFields (rt envPrototypeReply)
       SchemaStore.create (str "W-9") prototypeReply
     = Ok {| TypeCoercionService.ownProperties := [];
             TypeCoercionService.prototype :=
               TypeCoercionService.ValuePrototype
                 (VObj [ (str "legal_name", VStr (str "Acme LLC")) ]) |}
  /\ match fst (extract envPrototypeReply extractionService W9_OCR
                  (str "W-9") 7 [] []) with
     | Ok r =>
         List.map name (fields r)
         = List.map str ["legal_name"; "ein_or_ssn"; "business_address";
                         "tax_classification"; "signature_present"]%string
         /\ List.map value (fields r)
            = [VStr (str "Acme LLC"); VNull; VNull; VNull; VNull]
         /\ List.map llm_confidence (fields r)
            = [Fin 0.85; Fin 0; Fin 0; Fin 0; Fin 0]
     | Throw _ => False
     end.
Proof.
  split; [vm_compute; reflexivity |].
  split; [reflexivity |].
  split; [vm_compute; reflexivity |].
  vm_compute. repeat split; reflexivity.
Qed.

(** The last scenario of the specification: the amount is found in the
    run of the four words, whose boxes are united. *)
Example location_of_balance :
  findFieldLocation runtime (VStr (str "1234.56")) [balancePage]
  = {| pageNumber := Some (Fin 1);
       locationBbox := Some (Fin 10, Fin 98, Fin (196 + - (10)), Fin (112 + - (98))) |}.
Proof. vm_compute. reflexivity. Qed.



End ExtractionInstances.


(* ================================================================== *)
(** ** ConfidenceCalculator: the sub-scores and the two entry points *)
(* ================================================================== *)

Section ConfidenceCalculatorCoverage.

Import ConfidenceCalculator Spec.

Lemma clampConfidence_unit (n : number) :
  isNaN n = false -> inUnitInterval (clampConfidence n).
Proof.
  destruct n as [| [|] | q]; intros Hn; try discriminate.
  - split; reflexivity.
  - split; reflexivity.
  - destruct (clampConfidence_Fin q) as (r & -> & Hr).
    pose proof (clampToUnit_range q) as Hrange.
    split; [apply ge_Fin | apply le_Fin]; rewrite Hr; apply Hrange.
Qed.

Lemma clampConfidence_NaN (n : number) :
  isNaN (clampConfidence n) = true -> n = NaN.
Proof.
  destruct n as [| [|] | q]; intros H; try reflexivity; try discriminate.
  destruct (clampConfidence_Fin q) as (r & Hr & _). rewrite Hr in H. discriminate.
Qed.

Lemma calculateLLMConfidence_property (modelOutput : JsValue) :
  (forall n, modelOutput <> VNum n) ->
  calculateLLMConfidence modelOutput =
    if truthy modelOutput then
      match getProp modelOutput (str "confidence") with
      | Ok (VNum n) => clampConfidence n
      | _ => DEFAULT_LLM_CONFIDENCE
      end
    else DEFAULT_LLM_CONFIDENCE.
Proof.
  intros Hn. destruct modelOutput; try reflexivity.
  exfalso. apply (Hn n). reflexivity.
Qed.

Lemma calculateLLMConfidence_unit (modelOutput : JsValue) :
  isNaN (calculateLLMConfidence modelOutput) = false ->
  inUnitInterval (calculateLLMConfidence modelOutput).
Proof.
  assert (Hdefault : inUnitInterval DEFAULT_LLM_CONFIDENCE) by (split; reflexivity).
  assert (Hnumber : forall n, isNaN (clampConfidence n) = false ->
                              inUnitInterval (clampConfidence n)).
  { intros n Hc. apply clampConfidence_unit.
    destruct n; try reflexivity; discriminate. }
  assert (Hcases : (exists n, modelOutput = VNum n) \/ (forall n, modelOutput <> VNum n)).
  { destruct modelOutput; try (right; discriminate). left. eexists. reflexivity. }
  destruct Hcases as [[n ->] | Hother]; [apply Hnumber |].
  rewrite (calculateLLMConfidence_property _ Hother).
  destruct (truthy modelOutput); [| intros _; exact Hdefault].
  destruct (getProp modelOutput (str "confidence")) as [[| | b | n | s | l | p] | e];
    try (intros _; exact Hdefault).
  apply Hnumber.
Qed.

(** X1. The confidence read from a model output is a number of [0,1],
    except that a NaN given as the output or as its [confidence] stays
    NaN; an output that gives no number (no bare number, no numeric
    [confidence] property) counts as 0.8. *)
Theorem calculateLLMConfidence_range (modelOutput : JsValue) :
  let c := calculateLLMConfidence modelOutput in
  (isNaN c = false -> inUnitInterval c)
  /\ (isNaN c = true ->
      modelOutput = VNum NaN
      \/ getProp modelOutput (str "confidence") = Ok (VNum NaN))
  /\ ((forall n, modelOutput <> VNum n) ->
      (forall n, getProp modelOutput (str "confidence") <> Ok (VNum n)) ->
      c = Fin 0.8).
Proof.
  intros c. subst c.
  assert (Hnumber : forall n,
            (isNaN (clampConfidence n) = false -> inUnitInterval (clampConfidence n))
            /\ (isNaN (clampConfidence n) = true -> n = NaN)).
  { intros n. split; [| apply clampConfidence_NaN].
    intros Hc. apply clampConfidence_unit.
    destruct n; try reflexivity; discriminate. }
  assert (Hdefault : inUnitInterval DEFAULT_LLM_CONFIDENCE) by (split; reflexivity).
  assert (Hcases : (exists n, modelOutput = VNum n) \/ (forall n, modelOutput <> VNum n)).
  { destruct modelOutput; try (right; discriminate). left. eexists. reflexivity. }
  destruct Hcases as [[n ->] | Hother].
  - cbn [calculateLLMConfidence]. destruct (Hnumber n) as [Hin Hnan].
    split; [exact Hin |]. split; [intros Hc; left; f_equal; apply Hnan, Hc |].
    intros Hn _. exfalso. apply (Hn n). reflexivity.
  - rewrite (calculateLLMConfidence_property _ Hother).
    destruct (truthy modelOutput);
      [| split; [intros _; exact Hdefault |];
         split; [discriminate | intros; reflexivity]].
    destruct (getProp modelOutput (str "confidence")) as [[| | b | n | s | l | p] | e];
      try (split; [intros _; exact Hdefault |];
           split; [discriminate | intros; reflexivity]).
    destruct (Hnumber n) as [Hin Hnan].
    split; [exact Hin |].
    split; [intros Hc; right; do 2 f_equal; apply Hnan, Hc |].
    intros _ Hn. exfalso. apply (Hn n). reflexivity.
Qed.

Lemma matchRatio_ge (found total : Z) (q : Q) :
  0 < total ->
  ge (calculateMatchRatio found total) (Fin q) = true
  <-> (q * inject_Z total <= inject_Z found)%Q.
Proof.
  intros Hpos. unfold calculateMatchRatio, ofZ, div.
  assert (Hq : (0 < inject_Z total)%Q).
  { unfold Qlt, inject_Z. simpl. lia. }
  assert (Hne : Qeq_bool (inject_Z total) 0 = false).
  { apply not_true_is_false. intros H. apply Qeq_bool_eq in H.
    rewrite H in Hq. apply (Qlt_irrefl _ Hq). }
  rewrite Hne, ge_Fin. split.
  - intros H. apply Qnot_lt_le. intros Hlt.
    apply (Qlt_not_le _ _ (Qlt_shift_div_r _ _ _ Hq Hlt)). exact H.
  - intros H. apply Qle_shift_div_l; assumption.
Qed.

(** X2. The clarity of a classification, for a text and keywords
    written in Basic Latin and Latin-1: 0.4 for a blank text; for a
    text that is not blank, 1.0 when no keyword is expected or every
    expected keyword occurs in it (case-insensitive), 0.7 when at least
    half of them occur, and 0.4 otherwise. *)
Theorem calculateClarityConfidence_buckets
  (text : jsstring) (expectedKeywords : list jsstring) :
  CoverageSpec.latin1 text ->
  List.Forall CoverageSpec.latin1 expectedKeywords ->
  let found :=
    Z.of_nat (List.length
                (List.filter
                   (fun keyword => includes (toLowerCase text) (toLowerCase keyword))
                   expectedKeywords)) in
  let total := Z.of_nat (List.length expectedKeywords) in
  found <= total
  /\ calculateClarityConfidence text expectedKeywords =
       if len (trim text) =? 0 then Fin 0.4
       else if total =? 0 then Fin 1.0
       else if found =? total then Fin 1.0
       else if total <=? 2 * found then Fin 0.7
       else Fin 0.4.
Proof.
  intros _ _ found total.
  assert (Hle : found <= total).
  { unfold found, total. apply Nat2Z.inj_le, List.filter_length_le. }
  split; [exact Hle |].
  unfold calculateClarityConfidence. unfold len.
  destruct (trim text) as [| c rest]; [reflexivity |].
  cbn [List.length]. rewrite Nat2Z.inj_succ.
  replace (Z.succ (Z.of_nat (List.length rest)) =? 0) with false
    by (symmetry; apply Z.eqb_neq; lia).
  assert (Htotal : total = 0 \/ 0 < total) by (unfold total; lia).
  destruct Htotal as [Hzero | Hpos].
  { rewrite Hzero. unfold total in Hzero.
    destruct expectedKeywords; [reflexivity | discriminate]. }
  replace (total =? 0) with false by (symmetry; apply Z.eqb_neq; lia).
  replace (match expectedKeywords with
           | [] => CLARITY_CONFIDENCE_NO_KEYWORDS
           | _ :: _ =>
               mapMatchRatioToClarityConfidence
                 (calculateMatchRatio
                    (Z.of_nat (List.length
                       (List.filter
                          (fun keyword =>
                             includes (toLowerCase text) (toLowerCase keyword))
                          expectedKeywords)))
                    (Z.of_nat (List.length expectedKeywords)))
           end)
    with (mapMatchRatioToClarityConfidence (calculateMatchRatio found total))
    by (unfold total in Hpos; destruct expectedKeywords;
        [cbn in Hpos; lia | reflexivity]).
  unfold mapMatchRatioToClarityConfidence, KEYWORD_MATCH_RATIO_FULL,
    KEYWORD_MATCH_RATIO_PARTIAL.
  assert (Hfull : ge (calculateMatchRatio found total) (Fin 1.0) = true
                  <-> total <= found).
  { rewrite (matchRatio_ge found total 1.0 Hpos).
    unfold Qle, Qmult, inject_Z. simpl. lia. }
  assert (Hhalf : ge (calculateMatchRatio found total) (Fin 0.5) = true
                  <-> total <= 2 * found).
  { rewrite (matchRatio_ge found total 0.5 Hpos).
    unfold Qle, Qmult, inject_Z. simpl. lia. }
  destruct (Z.eqb_spec found total) as [Heq | Hne].
  - replace (ge (calculateMatchRatio found total) (Fin 1.0)) with true;
      [reflexivity |].
    symmetry. apply Hfull. lia.
  - replace (ge (calculateMatchRatio found total) (Fin 1.0)) with false.
    2:{ symmetry. apply not_true_is_false. intros H. apply Hfull in H. lia. }
    destruct (Z.leb_spec total (2 * found)) as [Hhalf' | Hless].
    + replace (ge (calculateMatchRatio found total) (Fin 0.5)) with true;
        [reflexivity |].
      symmetry. apply Hhalf. exact Hhalf'.
    + replace (ge (calculateMatchRatio found total) (Fin 0.5)) with false;
        [reflexivity |].
      symmetry. apply not_true_is_false. intros H. apply Hhalf in H. lia.
Qed.

Variable rt : Runtime.

(** Two of the three keywords occur in the text, one of them in
    another case: the clarity is 0.7. *)
Lemma calculateClarityConfidence_buckets_witness :
  calculateClarityConfidence (str "BANK Statement, March")
    [str "bank"; str "statement"; str "balance"]
  = Fin 0.7.
Proof.
  destruct (calculateClarityConfidence_buckets (str "BANK Statement, March")
              [str "bank"; str "statement"; str "balance"]) as [_ H].
  - apply List.Forall_forall. intros c Hc. vm_compute in Hc.
    repeat (destruct Hc as [<- | Hc]; [reflexivity |]). contradiction.
  - repeat constructor;
      (apply List.Forall_forall; intros c Hc; vm_compute in Hc;
       repeat (destruct Hc as [<- | Hc]; [reflexivity |]); contradiction).
  - rewrite H. vm_compute. reflexivity.
Defined.




(** X4. The score of a field that failed validation: the validation
    factor is 0.3 and the clarity factor the fixed 0.8, so that a
    numeric model confidence gives a final confidence of at most 0.24;
    whenever the threshold is above 0.24, as the default 0.7 is, the
    breakdown carries reasons, the validation failure among them. *)
Theorem calculateFieldConfidence_invalid
  (modelOutput : JsValue) (ocrText fieldName : jsstring)
  (validationErrors : option (list jsstring)) (threshold : option number) :
  let b := calculateFieldConfidence rt modelOutput false ocrText fieldName
             validationErrors threshold in
  validation_confidence b = Fin 0.3
  /\ clarity_confidence b = Fin 0.8
  /\ (isNaN (llm_confidence b) = false -> le (final_confidence b) (Fin 0.24) = true)
  /\ (lt (Fin 0.24) (thresholdOrDefault threshold) = true ->
      exists rs, reasons b = Some rs /\ List.In REASON_VALIDATION_FAILED rs)
  /\ (threshold = None ->
      exists rs, reasons b = Some rs /\ List.In REASON_VALIDATION_FAILED rs).
Proof.
  intros b.
  assert (Hvalidation : validation_confidence b = Fin 0.3).
  { unfold b, calculateFieldConfidence, calculateValidationConfidence.
    destruct validationErrors as [[| e es] |]; reflexivity. }
  assert (Hclarity : clarity_confidence b = Fin 0.8) by reflexivity.
  assert (Hfinal : final_confidence b
                   = clampConfidence
                       (mul (mul (llm_confidence b) (Fin 0.3)) (Fin 0.8))).
  { unfold b, calculateFieldConfidence, calculateValidationConfidence.
    destruct validationErrors as [[| e es] |]; reflexivity. }
  assert (Hfinite : isNaN (llm_confidence b) = false ->
                    exists x, final_confidence b = Fin x /\ (x <= 0.24)%Q).
  { intros Hllm.
    destruct (inUnitInterval_finite _ (calculateLLMConfidence_unit modelOutput Hllm))
      as (l & El & Hl).
    rewrite Hfinal.
    change (llm_confidence b) with (calculateLLMConfidence modelOutput).
    rewrite El.
    assert (Hv : (0 <= 0.3 <= 1)%Q) by lra.
    assert (Hc : (0 <= 0.8 <= 1)%Q) by lra.
    destruct (final_confidence_of_unit_scores l 0.3 0.8 None Hl Hv Hc)
      as (_ & Hp & _).
    cbn [calculateFinalConfidence final_confidence llm validation clarity] in Hp.
    destruct (clampConfidence (mul (mul (Fin l) (Fin 0.3)) (Fin 0.8)))
      as [| n | r]; try contradiction.
    cbn [sameValue] in Hp. exists r. split; [reflexivity |]. rewrite Hp. nra. }
  assert (Hcap : isNaN (llm_confidence b) = false ->
                 le (final_confidence b) (Fin 0.24) = true).
  { intros Hllm. destruct (Hfinite Hllm) as (x & -> & Hx). apply le_Fin. exact Hx. }
  assert (Hreasons : lt (Fin 0.24) (thresholdOrDefault threshold) = true ->
            exists rs, reasons b = Some rs /\ List.In REASON_VALIDATION_FAILED rs).
  { intros Hthreshold.
    assert (Hbelow : ge (final_confidence b) (thresholdOrDefault threshold) = false).
    { destruct (isNaN (llm_confidence b)) eqn:Hllm.
      - rewrite Hfinal. destruct (llm_confidence b); try discriminate.
        destruct (thresholdOrDefault threshold) as [| [|] | t]; reflexivity.
      - destruct (Hfinite eq_refl) as (x & -> & Hx).
        destruct (thresholdOrDefault threshold) as [| [|] | t];
          try reflexivity; try discriminate.
        apply lt_Fin in Hthreshold.
        apply not_true_is_false. intros H. apply ge_Fin in H. lra. }
    pose (bd := calculateFinalConfidence
                  (mkFactors (calculateLLMConfidence modelOutput)
                     (calculateValidationConfidence false validationErrors)
                     FIELD_CLARITY_CONFIDENCE None)).
    assert (Hb : reasons b = nonEmpty (generateLowConfidenceReasons rt bd threshold))
      by reflexivity.
    rewrite Hb, (reasons_below rt bd threshold Hbelow). unfold bd.
    cbn [validation_confidence calculateFinalConfidence validation].
    replace (calculateValidationConfidence false validationErrors) with (Fin 0.3)
      by (destruct validationErrors as [[| e es] |]; reflexivity).
    change (validationReasons (Fin 0.3)) with [REASON_VALIDATION_FAILED].
    match goal with
    | |- context [llmReasons rt ?x ++ _ ++ clarityReasons ?y] =>
        destruct (llmReasons rt x) as [| r1 rs1]
    end.
    - cbn [app nonEmpty]. eexists. split; [reflexivity | left; reflexivity].
    - cbn [app nonEmpty]. eexists. split; [reflexivity |].
      right. apply List.in_or_app. right. left. reflexivity. }
  split; [exact Hvalidation |]. split; [exact Hclarity |].
  split; [exact Hcap |]. split; [exact Hreasons |].
  intros ->. apply Hreasons. reflexivity.
Qed.

End ConfidenceCalculatorCoverage.


(* ================================================================== *)
(** ** TypeCoercionService: what the coercions keep *)
(* ================================================================== *)

Section CoercionCoverage.

Import TypeCoercionService RoutingSpec CoverageSpec.

(** X5. [coerceToNumber] never yields NaN: the result is null or a
    number that is not NaN.  A number that is not NaN is returned as it
    is, and a value that is neither a number nor a string gives null. *)
Theorem coerceToNumber_never_NaN (value : JsValue) :
  (coerceToNumber value = VNull
   \/ exists n, coerceToNumber value = VNum n /\ isNaN n = false)
  /\ (forall n, value = VNum n -> isNaN n = false -> coerceToNumber value = VNum n)
  /\ ((forall n, value <> VNum n) -> (forall s, value <> VStr s) ->
      coerceToNumber value = VNull).
Proof.
  split; [| split].
  - destruct value as [| | b | n | s | items | props]; try (left; reflexivity).
    + cbn [coerceToNumber]. destruct (isNaN n) eqn:E; [left; reflexivity |].
      right. exists n. split; [reflexivity | exact E].
    + unfold coerceToNumber. destruct (trim s) as [| c rest]; [left; reflexivity |].
      cbv zeta.
      match goal with
      | |- context [if isNaN ?p then VNull else VNum (if ?neg then _ else _)] =>
          destruct (isNaN p) eqn:E; [left; reflexivity |];
          right; exists (if neg then JsNumber.neg p else p);
          split; [reflexivity |]; destruct neg; [| exact E];
          destruct p; try discriminate; reflexivity
      end.
  - intros n -> Hn. cbn [coerceToNumber]. rewrite Hn. reflexivity.
  - intros Hn Hs. destruct value; try reflexivity.
    + exfalso. apply (Hn n). reflexivity.
    + exfalso. apply (Hs s). reflexivity.
Qed.

(** *** Plain integers *)

Lemma digit_bounds (c : jschar) : isDigit c = true -> (48 <= c <= 57)%N.
Proof.
  unfold isDigit. intros H. apply andb_prop in H as [H1 H2].
  apply N.leb_le in H1. apply N.leb_le in H2. lia.
Qed.

(* The tests of a character class on a character whose range is known *)
Ltac decide_class c :=
  repeat match goal with
  | |- context [N.eqb c ?k] =>
      replace (N.eqb c k) with false by (symmetry; apply N.eqb_neq; lia)
  | |- context [N.eqb ?k c] =>
      replace (N.eqb k c) with false by (symmetry; apply N.eqb_neq; lia)
  | |- context [N.leb ?k c] =>
      first [ replace (N.leb k c) with false by (symmetry; apply N.leb_gt; lia)
            | replace (N.leb k c) with true by (symmetry; apply N.leb_le; lia) ]
  | |- context [N.leb c ?k] =>
      first [ replace (N.leb c k) with false by (symmetry; apply N.leb_gt; lia)
            | replace (N.leb c k) with true by (symmetry; apply N.leb_le; lia) ]
  end.

Lemma digit_plain (c : jschar) : isDigit c = true -> plainChar c.
Proof.
  intros H. pose proof (digit_bounds c H) as Hb.
  unfold plainChar, isCurrencyOrSpace, isWhiteSpace, COMMA, PERIOD.
  split; [decide_class c; reflexivity | split; lia].
Qed.

Lemma plain_not_white (c : jschar) : plainChar c -> isWhiteSpace c = false.
Proof.
  intros [H _]. unfold isCurrencyOrSpace in H.
  apply orb_false_elim in H as [_ H]. exact H.
Qed.

Lemma trimStart_plain (s : jsstring) : List.Forall plainChar s -> trimStart s = s.
Proof.
  intros H. destruct H as [| c s Hc _]; [reflexivity |].
  cbn [trimStart]. rewrite (plain_not_white c Hc). reflexivity.
Qed.

Lemma trim_plain (s : jsstring) : List.Forall plainChar s -> trim s = s.
Proof.
  intros H. unfold trim, trimEnd. rewrite (trimStart_plain s H).
  rewrite trimStart_plain; [apply List.rev_involutive |].
  apply List.Forall_rev. exact H.
Qed.

Lemma plain_without (s : jsstring) (c : jschar) :
  List.Forall plainChar s -> c = COMMA \/ c = PERIOD -> includesChar s c = false.
Proof.
  intros H Hc. unfold includesChar. induction H as [| x s Hx _ IH]; [reflexivity |].
  cbn [List.existsb]. rewrite IH, orb_false_r.
  apply N.eqb_neq. destruct Hx as (_ & Hcomma & Hperiod).
  destruct Hc as [-> | ->]; congruence.
Qed.

Lemma removeAll_plain (s : jsstring) :
  List.Forall plainChar s -> removeAll isCurrencyOrSpace s = s.
Proof.
  intros H. unfold removeAll. induction H as [| x s Hx _ IH]; [reflexivity |].
  cbn [List.filter]. rewrite (proj1 Hx), IH. reflexivity.
Qed.

(** On a text without white space, currency symbols, commas and
    periods only the sign handling and [parseFloat] are left. *)
Lemma coerceToNumber_plain (c : N) (rest : list N) :
  List.Forall plainChar (c :: rest) ->
  coerceToNumber (VStr (c :: rest)) =
    let cleaned := c :: rest in
    let isNegative :=
      startsWith cleaned (str "-") || startsWith cleaned (str "(") in
    let cleaned :=
      if startsWith cleaned (str "(") && endsWith cleaned (str ")")
      then substring cleaned 1 (len cleaned - 1)
      else cleaned in
    let cleaned :=
      match cleaned with
      | 45%N :: t => t
      | _ => cleaned
      end in
    let parsed := parseFloat cleaned in
    if isNaN parsed then VNull
    else VNum (if isNegative then neg parsed else parsed).
Proof.
  intros H. unfold coerceToNumber. rewrite (trim_plain _ H). cbv zeta.
  rewrite (plain_without _ COMMA H (or_introl eq_refl)),
    (plain_without _ PERIOD H (or_intror eq_refl)).
  cbn [andb negb]. rewrite (removeAll_plain _ H). reflexivity.
Qed.

Lemma spanDigits_digits (s : jsstring) : digitString s -> spanDigits s = (s, []).
Proof.
  induction 1 as [| x s Hx _ IH]; [reflexivity |].
  cbn [spanDigits]. rewrite Hx, IH. reflexivity.
Qed.

(** A character that is not the minus sign is not taken for one. *)
Lemma no_minus (c : N) (rest : list N) :
  c <> 45%N ->
  match c :: rest with
  | 45%N :: t => t
  | _ => c :: rest
  end = c :: rest.
Proof.
  intros Hc. destruct c as [| p]; [reflexivity |].
  do 7 (try (destruct p as [p | p |]; try reflexivity)).
  exfalso. apply Hc. reflexivity.
Qed.

Lemma no_sign (c : N) (rest : list N) :
  c <> 45%N -> c <> 43%N ->
  match c :: rest with
  | 45%N :: t => (true, t)
  | 43%N :: t => (false, t)
  | _ => (false, c :: rest)
  end = (false, c :: rest).
Proof.
  intros Hminus Hplus. destruct c as [| p]; [reflexivity |].
  do 7 (try (destruct p as [p | p |]; try reflexivity));
    exfalso; first [apply Hminus; reflexivity | apply Hplus; reflexivity].
Qed.

Lemma Qred_integer (m : Z) : Qred (inject_Z m * Qpower 10 0) = inject_Z m.
Proof.
  replace (inject_Z m * Qpower 10 0)%Q with (inject_Z m).
  - apply Qcanon.Qred_identity. cbn. apply Z.gcd_1_r.
  - unfold inject_Z, Qmult. cbn. rewrite Z.mul_1_r. reflexivity.
Qed.

Lemma digitsValue_text (digits : list Z) :
  List.Forall isDecimalDigit digits ->
  digitString (digitsText digits)
  /\ digitsValue (digitsText digits) = decimalValue digits.
Proof.
  intros H. split.
  - induction H as [| d ds Hd _ IH]; constructor;
      [apply (digitChar_isDigit d Hd) | exact IH].
  - unfold digitsValue, decimalValue, digitsText. generalize 0.
    induction H as [| d ds Hd _ IH]; intros acc; [reflexivity |].
    cbn [List.map List.fold_left].
    rewrite (proj2 (digitChar_isDigit d Hd)). apply IH.
Qed.

(** [parseFloat] reads a run of digits as the integer it writes. *)
Lemma parseFloat_digits (c : N) (rest : list N) :
  digitString (c :: rest) ->
  parseFloat (c :: rest) = Fin (inject_Z (digitsValue (c :: rest))).
Proof.
  intros H. pose proof (List.Forall_inv H) as Hc. cbn beta in Hc.
  pose proof (digit_bounds c Hc) as Hb.
  assert (Hplain : List.Forall plainChar (c :: rest)).
  { eapply List.Forall_impl; [| exact H]. apply digit_plain. }
  unfold parseFloat. rewrite (trimStart_plain _ Hplain).
  rewrite no_sign by lia.
  replace (startsWith (c :: rest) (str "Infinity")) with false.
  2:{ change (str "Infinity") with (73%N :: str "nfinity"). cbn [startsWith].
      replace (N.eqb 73 c) with false by (symmetry; apply N.eqb_neq; lia).
      reflexivity. }
  rewrite (spanDigits_digits _ H). cbn iota beta.
  rewrite List.app_nil_r. cbn [parseExponent len List.length Z.of_nat Z.sub Z.opp].
  rewrite Qred_integer. reflexivity.
Qed.

Lemma substring_inner (x y : N) (s : list N) :
  substring (x :: s ++ [y]) 1 (len (x :: s ++ [y]) - 1) = s.
Proof.
  unfold substring, clampIndex, len. cbn [List.length].
  rewrite List.length_app. cbn [List.length].
  replace (Z.to_nat (Z.min (Z.max 0 1)
             (Z.of_nat (S (List.length s + 1))))) with 1%nat by lia.
  replace (Z.to_nat (Z.min (Z.max 0 (Z.of_nat (S (List.length s + 1)) - 1))
             (Z.of_nat (S (List.length s + 1))))) with (S (List.length s)) by lia.
  replace (Nat.min 1 (S (List.length s))) with 1%nat by lia.
  replace (Nat.max 1 (S (List.length s)) - 1)%nat with (List.length s) by lia.
  change (List.skipn 1 (x :: s ++ [y])) with (s ++ [y]).
  apply take_app_length.
Qed.

Lemma coerceToNumber_digit_string (c : N) (rest : list N) :
  digitString (c :: rest) ->
  let value := digitsValue (c :: rest) in
  coerceToNumber (VStr (c :: rest)) = VNum (Fin (inject_Z value))
  /\ coerceToNumber (VStr (45%N :: c :: rest)) = VNum (Fin (inject_Z (- value)))
  /\ coerceToNumber (VStr (40%N :: (c :: rest) ++ [41%N]))
     = VNum (Fin (inject_Z (- value))).
Proof.
  intros Hstring value.
  pose proof (List.Forall_inv Hstring) as Hc. cbn beta in Hc.
  pose proof (digit_bounds c Hc) as Hb.
  assert (Hplain : List.Forall plainChar (c :: rest)).
  { eapply List.Forall_impl; [| exact Hstring]. apply digit_plain. }
  assert (Hminus : plainChar 45%N) by (repeat split; discriminate).
  assert (Hopen : plainChar 40%N) by (repeat split; discriminate).
  assert (Hclose : plainChar 41%N) by (repeat split; discriminate).
  pose proof (parseFloat_digits c rest Hstring) as Hparse. fold value in Hparse.
  split; [| split].
  - rewrite (coerceToNumber_plain c rest Hplain). cbv zeta.
    change (str "-") with [45%N]. change (str "(") with [40%N].
    cbn [startsWith].
    replace (N.eqb 45 c) with false by (symmetry; apply N.eqb_neq; lia).
    replace (N.eqb 40 c) with false by (symmetry; apply N.eqb_neq; lia).
    cbn [orb andb]. rewrite no_minus by lia. rewrite Hparse. reflexivity.
  - etransitivity;
      [apply (coerceToNumber_plain 45%N (c :: rest)); constructor; assumption |].
    cbv zeta. change (str "-") with [45%N]. change (str "(") with [40%N].
    cbn [startsWith N.eqb Pos.eqb orb andb]. rewrite Hparse. reflexivity.
  - etransitivity.
    { apply (coerceToNumber_plain 40%N ((c :: rest) ++ [41%N])).
      constructor; [exact Hopen |]. apply List.Forall_app. split; [exact Hplain |].
      constructor; [exact Hclose | constructor]. }
    cbv zeta. change (str "-") with [45%N]. change (str "(") with [40%N].
    change (str ")") with [41%N].
    replace (endsWith (40%N :: (c :: rest) ++ [41%N]) [41%N]) with true.
    2:{ unfold endsWith. cbn [List.rev]. rewrite List.rev_app_distr.
        cbn [List.rev app startsWith N.eqb Pos.eqb andb].
        match goal with
        | |- _ = startsWith ?l [] => destruct l; reflexivity
        end. }
    cbn [startsWith N.eqb Pos.eqb orb andb].
    match goal with
    | |- context [startsWith ?l []] =>
        replace (startsWith l []) with true by (destruct l; reflexivity)
    end.
    cbn [andb]. rewrite substring_inner. rewrite no_minus by lia.
    rewrite Hparse. reflexivity.
Qed.

(** X6. A run of decimal digits that writes an integer of at most 2^53
    (so one that binary64 holds exactly) coerces to that integer, and
    with a leading minus sign, or between parentheses, to its negative:
    [coerceToNumber("1200") = 1200], [coerceToNumber("-1200") = -1200],
    [coerceToNumber("(1200)") = -1200]. *)
Theorem coerceToNumber_integers (digits : list Z) :
  List.Forall isDecimalDigit digits -> digits <> [] ->
  decimalValue digits <= 2 ^ 53 ->
  coerceToNumber (VStr (digitsText digits))
    = VNum (Fin (inject_Z (decimalValue digits)))
  /\ coerceToNumber (VStr (str "-" ++ digitsText digits))
     = VNum (Fin (inject_Z (- decimalValue digits)))
  /\ coerceToNumber (VStr (str "(" ++ digitsText digits ++ str ")"))
     = VNum (Fin (inject_Z (- decimalValue digits))).
Proof.
  intros Hdigits Hne _.
  destruct (digitsValue_text digits Hdigits) as [Hstring Hvalue].
  rewrite <- Hvalue.
  destruct digits as [| d ds]; [contradiction |].
  exact (coerceToNumber_digit_string (digitChar d) (digitsText ds) Hstring).
Qed.

Lemma coerceToNumber_integers_witness :
  coerceToNumber (VStr (str "1200")) = VNum (Fin (inject_Z 1200))
  /\ coerceToNumber (VStr (str "-1200")) = VNum (Fin (inject_Z (- 1200)))
  /\ coerceToNumber (VStr (str "(1200)")) = VNum (Fin (inject_Z (- 1200))).
Proof.
  apply (coerceToNumber_integers [1; 2; 0; 0]).
  - repeat constructor; unfold isDecimalDigit; lia.
  - discriminate.
  - vm_compute. discriminate.
Defined.

(** *** Booleans and arrays *)

(** X7. [coerceToBoolean] yields a boolean or null and is idempotent;
    a number is false exactly when it is zero, so that NaN counts as
    true. *)
Theorem coerceToBoolean_idempotent (value : JsValue) :
  (coerceToBoolean value = VNull \/ exists b, coerceToBoolean value = VBool b)
  /\ coerceToBoolean (coerceToBoolean value) = coerceToBoolean value
  /\ (forall n, value = VNum n ->
      (coerceToBoolean value = VBool false <-> exists q, n = Fin q /\ (q == 0)%Q)
      /\ (coerceToBoolean value = VBool true <-> ~ exists q, n = Fin q /\ (q == 0)%Q)).
Proof.
  assert (Hshape : coerceToBoolean value = VNull
                   \/ exists b, coerceToBoolean value = VBool b).
  { destruct value as [| | b | n | s | items | props]; try (left; reflexivity).
    - right. exists b. reflexivity.
    - right. eexists. reflexivity.
    - unfold coerceToBoolean.
      destruct (_ || _ || _); [right; eexists; reflexivity |].
      destruct (_ || _ || _); [right; eexists; reflexivity | left; reflexivity]. }
  split; [exact Hshape |]. split.
  - destruct Hshape as [-> | [b ->]]; reflexivity.
  - intros n ->. cbn [coerceToBoolean].
    assert (Hzero : eqb n (Fin 0) = true <-> exists q, n = Fin q /\ (q == 0)%Q).
    { unfold eqb. destruct n as [| [|] | q]; cbn [compare].
      - split; [discriminate | intros (q & H & _); discriminate].
      - split; [discriminate | intros (q & H & _); discriminate].
      - split; [discriminate | intros (q & H & _); discriminate].
      - destruct (Qcompare_spec q 0) as [E | L | G].
        + split; [intros _; exists q; split; [reflexivity | exact E] | reflexivity].
        + split; [discriminate |]. intros (q' & H & E). injection H as <-.
          rewrite E in L. exfalso. apply (Qlt_irrefl _ L).
        + split; [discriminate |]. intros (q' & H & E). injection H as <-.
          rewrite E in G. exfalso. apply (Qlt_irrefl _ G). }
    destruct (eqb n (Fin 0)); cbn [negb]; split.
    + split; [intros _; apply Hzero; reflexivity | reflexivity].
    + split; [discriminate |]. intros H. exfalso. apply H, Hzero. reflexivity.
    + split; [discriminate |]. intros H. apply Hzero in H. discriminate.
    + split; [| reflexivity]. intros _ H. apply Hzero in H. discriminate.
Qed.

Variable rt : Runtime.

(** *** [split] and [join] *)

Lemma split_nonempty (s : jsstring) (c : jschar) : split s c <> [].
Proof.
  destruct s as [| x s]; [discriminate |]. cbn [split].
  destruct (split s c); [discriminate |]. destruct (N.eqb x c); discriminate.
Qed.

Lemma join_split (s : jsstring) (c : jschar) : join [c] (split s c) = s.
Proof.
  induction s as [| x s IH]; [reflexivity |]. cbn [split].
  destruct (split s c) as [| piece pieces] eqn:E.
  - exfalso. apply (split_nonempty s c E).
  - destruct (N.eqb x c) eqn:Ex.
    + apply N.eqb_eq in Ex as ->. cbn [join List.map List.concat app] in IH |- *.
      rewrite IH. reflexivity.
    + cbn [join app] in IH |- *. rewrite IH. reflexivity.
Qed.

Lemma split_pieces_clean (s : jsstring) (c : jschar) :
  List.Forall (fun p => ~ List.In c p) (split s c).
Proof.
  induction s as [| x s IH]; [repeat constructor; intros [] |].
  cbn [split]. destruct (split s c) as [| piece pieces] eqn:E.
  - exfalso. apply (split_nonempty s c E).
  - destruct (N.eqb x c) eqn:Ex.
    + constructor; [intros [] | exact IH].
    + apply N.eqb_neq in Ex. inversion IH as [| ? ? Hpiece Hpieces]; subst.
      constructor; [| exact Hpieces].
      intros [H | H]; [congruence | exact (Hpiece H)].
Qed.

(** The separator [coerceToArray] cuts a text at: the first of its
    list that occurs in the text. *)
Lemma first_separator (text : jsstring) (candidates : list jschar) :
  (List.find (includesChar text) candidates = None
   /\ forall sep, List.In sep candidates -> ~ List.In sep text)
  \/ exists before sep after,
       List.find (includesChar text) candidates = Some sep
       /\ candidates = before ++ sep :: after
       /\ (forall c, List.In c before -> ~ List.In c text)
       /\ List.In sep text.
Proof.
  assert (Hinc : forall c, includesChar text c = true <-> List.In c text).
  { intros c. unfold includesChar. rewrite List.existsb_exists. split.
    - intros (x & Hin & E). apply N.eqb_eq in E. subst x. exact Hin.
    - intros Hin. exists c. split; [exact Hin | apply N.eqb_refl]. }
  induction candidates as [| c candidates IH].
  - left. split; [reflexivity | intros sep []].
  - cbn [List.find]. destruct (includesChar text c) eqn:E.
    + right. exists [], c, candidates.
      split; [reflexivity |]. split; [reflexivity |].
      split; [intros x [] | apply Hinc, E].
    + assert (Hc : ~ List.In c text).
      { intros Hin. apply Hinc in Hin. congruence. }
      destruct IH as [[Hfind Hnone] | (before & sep & after & Hfind & -> & Hb & Hin)].
      * left. split; [exact Hfind |].
        intros sep [<- | Hsep]; [exact Hc | apply Hnone, Hsep].
      * right. exists (c :: before), sep, after.
        split; [exact Hfind |]. split; [reflexivity |].
        split; [| exact Hin].
        intros x [<- | Hx]; [exact Hc | apply Hb, Hx].
Qed.

(** X8. [coerceToArray] passes an array through and gives null for
    what is neither an array nor a string; a string always becomes an
    array: the empty one when the string is blank, and, when its
    trimmed text does not open a JSON array, the non-empty trimmed
    pieces of that text: the text is cut at every occurrence of the
    first of the separators comma, semicolon, bar and line feed that
    occurs in it (so the pieces joined by that separator give the text
    back, and none contains it), each piece is trimmed, and the empty
    ones are dropped; a text without separator is the one piece.
    Coercing twice is coercing once. *)
Theorem coerceToArray_shape (value : JsValue) :
  (coerceToArray rt value = VNull
   <-> (forall items, value <> VArr items) /\ (forall s, value <> VStr s))
  /\ (forall items, value = VArr items -> coerceToArray rt value = VArr items)
  /\ (forall s, value = VStr s ->
      exists items,
        coerceToArray rt value = VArr items
        /\ (trim s = [] -> items = [])
        /\ (trim s <> [] -> startsWith (trim s) (str "[") = false ->
            ((forall sep, List.In sep separators -> ~ List.In sep (trim s))
             /\ items = [VStr (trim s)])
            \/ exists before sep after pieces,
                 separators = before ++ sep :: after
                 /\ (forall c, List.In c before -> ~ List.In c (trim s))
                 /\ List.In sep (trim s)
                 /\ join [sep] pieces = trim s
                 /\ List.Forall (fun piece => ~ List.In sep piece) pieces
                 /\ items
                    = List.map VStr
                        (List.filter
                           (fun piece => negb (JsString.eqb piece []))
                           (List.map trim pieces))))
  /\ coerceToArray rt (coerceToArray rt value) = coerceToArray rt value.
Proof.
  assert (Hfilter : forall l : list jsstring,
            List.filter (fun piece => 0 <? len piece) l
            = List.filter (fun piece => negb (JsString.eqb piece [])) l).
  { intros l. apply List.filter_ext. intros [| x piece]; [reflexivity |].
    unfold len. cbn [List.length JsString.eqb negb].
    apply Z.ltb_lt. lia. }
  assert (Hstring : forall s,
            exists items,
              coerceToArray rt (VStr s) = VArr items
              /\ (trim s = [] -> items = [])
              /\ (trim s <> [] -> startsWith (trim s) (str "[") = false ->
                  ((forall sep, List.In sep separators ->
                      ~ List.In sep (trim s))
                   /\ items = [VStr (trim s)])
                  \/ exists before sep after pieces,
                       separators = before ++ sep :: after
                       /\ (forall c, List.In c before -> ~ List.In c (trim s))
                       /\ List.In sep (trim s)
                       /\ join [sep] pieces = trim s
                       /\ List.Forall (fun piece => ~ List.In sep piece) pieces
                       /\ items
                          = List.map VStr
                              (List.filter
                                 (fun piece => negb (JsString.eqb piece []))
                                 (List.map trim pieces)))).
  { intros s. unfold coerceToArray.
    destruct (trim s) as [| c cleaned] eqn:Htrim.
    { exists []. split; [reflexivity |]. split; [reflexivity |].
      intros H. contradiction H. reflexivity. }
    destruct (startsWith (c :: cleaned) (str "[")) eqn:Hopen.
    - destruct (JSON_parse rt (c :: cleaned)) as [[| | b | n | t | parsed | props] | e];
        try (destruct (List.find (includesChar (c :: cleaned)) separators);
             eexists; (split; [reflexivity |]);
             (split; [discriminate | intros _; discriminate])).
    - destruct (first_separator (c :: cleaned) separators)
        as [[Hfind Hnone] | (before & sep & after & Hfind & Hsplit & Hbefore & Hin)];
        rewrite Hfind.
      + eexists. split; [reflexivity |]. split; [discriminate |]. intros _ _.
        left. split; [exact Hnone | reflexivity].
      + eexists. split; [reflexivity |]. split; [discriminate |]. intros _ _.
        right. exists before, sep, after, (split (c :: cleaned) sep).
        split; [exact Hsplit |]. split; [exact Hbefore |].
        split; [exact Hin |]. split; [apply join_split |].
        split; [apply split_pieces_clean |].
        rewrite Hfilter. reflexivity. }
  split; [| split; [| split]].
  - split.
    + intros H. split.
      * intros items ->. discriminate.
      * intros s ->. destruct (Hstring s) as (items & Hitems & _). congruence.
    + intros [Harr Hstr]. destruct value; try reflexivity.
      * exfalso. apply (Hstr s). reflexivity.
      * exfalso. apply (Harr items). reflexivity.
  - intros items ->. reflexivity.
  - intros s ->. apply Hstring.
  - destruct value as [| | b | n | s | items | props]; try reflexivity.
    destruct (Hstring s) as (items & -> & _). reflexivity.
Qed.

(** *** All fields at once *)

Lemma keys_setProp_fresh (acc : list (jsstring * JsValue)) (k : jsstring)
  (v : JsValue) :
  ~ List.In k (List.map fst acc) -> setProp acc k v = acc ++ [(k, v)].
Proof.
  induction acc as [| [k0 v0] acc IH]; intros Hfresh; [reflexivity |].
  cbn [setProp]. destruct (JsString.eqb k0 k) eqn:E.
  - apply jsstring_eqb_eq in E. exfalso. apply Hfresh. left. exact E.
  - cbn [app]. f_equal. apply IH. intros Hin. apply Hfresh. right. exact Hin.
Qed.

(** What the accessor [__proto__] makes of the value assigned *)
Lemma assign_proto_key (data : CoercedData) (v : JsValue) :
  lookupProp (ownProperties data) PROTO_KEY = None ->
  prototype data = ObjectPrototype ->
  assignField data PROTO_KEY v
  = {| ownProperties := ownProperties data;
       prototype :=
         match v with
         | VObj _ | VArr _ => ValuePrototype v
         | VNull => NullPrototype
         | _ => ObjectPrototype
         end |}.
Proof.
  intros Hown Hproto. unfold assignField. cbv zeta.
  replace (JsString.eqb PROTO_KEY PROTO_KEY) with true by reflexivity.
  rewrite Hown, Hproto. cbn [reachesProtoAccessor].
  destruct data as [own proto]. cbn [ownProperties prototype] in *. subst proto.
  destruct v; reflexivity.
Qed.

Lemma lookupProp_absent (props : list (jsstring * JsValue)) (k : jsstring) :
  ~ List.In k (List.map fst props) -> lookupProp props k = None.
Proof.
  induction props as [| [k0 v0] props IH]; intros Hnot; [reflexivity |].
  cbn [lookupProp]. destruct (JsString.eqb k0 k) eqn:E.
  - apply jsstring_eqb_eq in E. exfalso. apply Hnot. left. exact E.
  - apply IH. intros Hin. apply Hnot. right. exact Hin.
Qed.

Lemma assign_all (g : jsstring -> JsValue -> JsValue)
  (entries : list (jsstring * JsValue)) :
  forall acc : CoercedData,
  List.NoDup (List.map fst (ownProperties acc ++ entries)) ->
  ~ List.In PROTO_KEY (List.map fst (ownProperties acc)) ->
  prototype acc = ObjectPrototype
  \/ ~ List.In PROTO_KEY (List.map fst entries) ->
  let data :=
    List.fold_left
      (fun coercedData kv => assignField coercedData (fst kv) (g (fst kv) (snd kv)))
      entries acc in
  ownProperties data
  = ownProperties acc
    ++ List.map (fun kv => (fst kv, g (fst kv) (snd kv)))
         (List.filter (fun kv => negb (JsString.eqb (fst kv) PROTO_KEY)) entries)
  /\ prototype data
     = match lookupProp entries PROTO_KEY with
       | Some v =>
           match g PROTO_KEY v with
           | VObj _ | VArr _ => ValuePrototype (g PROTO_KEY v)
           | VNull => NullPrototype
           | _ => ObjectPrototype
           end
       | None => prototype acc
       end.
Proof.
  induction entries as [| [k v] entries IH]; intros acc Hnodup Hown Hproto.
  - cbn. rewrite List.app_nil_r. split; reflexivity.
  - cbn [List.fold_left fst snd].
    assert (Hfresh : ~ List.In k (List.map fst (ownProperties acc))).
    { rewrite List.map_app in Hnodup. cbn [List.map fst] in Hnodup.
      apply List.NoDup_remove_2 in Hnodup. intros Hin. apply Hnodup.
      apply List.in_or_app. left. exact Hin. }
    assert (Hrest : ~ List.In k (List.map fst entries)).
    { rewrite List.map_app in Hnodup. cbn [List.map fst] in Hnodup.
      apply List.NoDup_remove_2 in Hnodup. intros Hin. apply Hnodup.
      apply List.in_or_app. right. exact Hin. }
    assert (Hnodup' : List.NoDup (List.map fst (ownProperties acc)
                                  ++ List.map fst entries)).
    { rewrite List.map_app in Hnodup. cbn [List.map fst] in Hnodup.
      apply List.NoDup_remove_1 in Hnodup. exact Hnodup. }
    cbn [List.filter lookupProp fst].
    destruct (JsString.eqb k PROTO_KEY) eqn:Ekey.
    + apply jsstring_eqb_eq in Ekey. subst k.
      destruct Hproto as [Hproto | Hproto];
        [| exfalso; apply Hproto; left; reflexivity].
      rewrite (assign_proto_key acc (g PROTO_KEY v)
                 (lookupProp_absent _ _ Hown) Hproto).
      cbn [negb].
      match goal with
      | |- context [List.fold_left ?f entries ?a] =>
          destruct (IH a) as [IHown IHproto]
      end.
      * cbn [ownProperties]. rewrite List.map_app. exact Hnodup'.
      * exact Hown.
      * right. exact Hrest.
      * cbn [ownProperties prototype] in IHown, IHproto.
        split; [exact IHown |].
        rewrite IHproto, (lookupProp_absent _ _ Hrest). reflexivity.
    + assert (Hassign : assignField acc k (g k v)
                        = {| ownProperties := ownProperties acc ++ [(k, g k v)];
                             prototype := prototype acc |}).
      { unfold assignField. cbv zeta. rewrite Ekey.
        rewrite (keys_setProp_fresh _ k _ Hfresh). reflexivity. }
      rewrite Hassign. cbn [negb List.map fst snd].
      assert (Hne : k <> PROTO_KEY).
      { intros ->. assert (JsString.eqb PROTO_KEY PROTO_KEY = true) by reflexivity.
        congruence. }
      match goal with
      | |- context [List.fold_left ?f entries ?a] =>
          destruct (IH a) as [IHown IHproto]
      end.
      * cbn [ownProperties]. rewrite <- List.app_assoc.
        rewrite List.map_app in Hnodup |- *. exact Hnodup.
      * cbn [ownProperties]. rewrite List.map_app. intros Hin.
        apply List.in_app_or in Hin as [Hin | [Hin | []]];
          [exact (Hown Hin) | exact (Hne Hin)].
      * cbn [prototype]. destruct Hproto as [Hproto | Hproto];
          [left; exact Hproto |].
        right. intros Hin. apply Hproto. right. exact Hin.
      * cbn [ownProperties prototype] in IHown, IHproto.
        split; [rewrite IHown, <- List.app_assoc; reflexivity | exact IHproto].
Qed.

(** X9. Coercing the fields of an object (its keys pairwise different,
    as [JSON.parse] gives them) keeps every key but [__proto__], in
    the order of the object, each with the coerced value of its field.
    The key [__proto__] never becomes a property of the result: its
    coerced value is made the prototype of the result when it is an
    object, an array or null, and is dropped otherwise; without that
    key the result inherits from [Object.prototype] as it did.  When
    the document type has no schema, the values are kept as they
    were. *)
Theorem coerceAllFields_keeps_keys
  (store : SchemaStore.SchemaStore) (documentType : jsstring)
  (props : list (jsstring * JsValue)) :
  List.NoDup (List.map fst props) ->
  let coerced kv :=
    (fst kv, coerceFieldValue rt store documentType (fst kv) (snd kv)) in
  let ordinary :=
    List.filter (fun kv => negb (JsString.eqb (fst kv) PROTO_KEY)) props in
  exists data,
    coerceAllFields rt store documentType (VObj props) = Ok data
    /\ ownProperties data = List.map coerced ordinary
    /\ prototype data
       = match lookupProp props PROTO_KEY with
         | Some v =>
             match coerceFieldValue rt store documentType PROTO_KEY v with
             | VObj _ | VArr _ =>
                 ValuePrototype
                   (coerceFieldValue rt store documentType PROTO_KEY v)
             | VNull => NullPrototype
             | _ => ObjectPrototype
             end
         | None => ObjectPrototype
         end
    /\ (~ List.In PROTO_KEY (List.map fst props) ->
        data = {| ownProperties := List.map coerced props;
                  prototype := ObjectPrototype |})
    /\ (SchemaStore.getSchema store documentType = None ->
        ownProperties data = ordinary).
Proof.
  intros Hnodup coerced ordinary.
  destruct (assign_all (coerceFieldValue rt store documentType) props
              EMPTY_OBJECT) as [Hown Hproto].
  { exact Hnodup. }
  { intros []. }
  { left. reflexivity. }
  cbn [EMPTY_OBJECT ownProperties prototype app] in Hown, Hproto.
  eexists. split; [unfold coerceAllFields; cbn [Object_entries]; reflexivity |].
  split; [exact Hown |]. split; [exact Hproto |]. split.
  - intros Hnone.
    match goal with
    | |- ?d = _ => destruct d as [own proto] eqn:Hd
    end.
    cbn [ownProperties prototype] in Hown, Hproto.
    rewrite (lookupProp_absent _ _ Hnone) in Hproto. subst own proto.
    f_equal. f_equal. unfold ordinary.
    clear -Hnone. induction props as [| [k v] props IH]; [reflexivity |].
    cbn [List.filter fst].
    destruct (JsString.eqb k PROTO_KEY) eqn:E.
    + apply jsstring_eqb_eq in E. exfalso. apply Hnone. left. exact E.
    + cbn [negb]. f_equal. apply IH. intros Hin. apply Hnone. right. exact Hin.
  - intros Hnone. rewrite Hown.
    transitivity (List.map (fun kv => kv) ordinary); [| apply List.map_id].
    apply List.map_ext.
    intros [k v]. unfold coerced. cbn [fst snd]. unfold coerceFieldValue.
    rewrite Hnone. destruct v; reflexivity.
Qed.

End CoercionCoverage.

(** A bank statement whose reply also carries the key [__proto__]: the
    balance is coerced to a number, the key is not kept, and its value
    is the prototype of the result. *)
Lemma coerceAllFields_keeps_keys_witness :
  exists data,
    TypeCoercionService.coerceAllFields Samples.runtime SchemaStore.create
      (str "Bank Statement")
      (VObj [ (str "ending_balance", VStr (str "1,234.56"));
              (str "__proto__", VObj [ (str "comment", VNull) ]);
              (str "account_holder_name", VStr (str "Jane Doe")) ])
    = Ok data
    /\ TypeCoercionService.ownProperties data
       = [ (str "ending_balance", VNum (Fin (Qred 1234.56)));
           (str "account_holder_name", VStr (str "Jane Doe")) ]
    /\ TypeCoercionService.prototype data
       = TypeCoercionService.ValuePrototype (VObj [ (str "comment", VNull) ]).
Proof.
  destruct (coerceAllFields_keeps_keys Samples.runtime SchemaStore.create
              (str "Bank Statement")
              [ (str "ending_balance", VStr (str "1,234.56"));
                (str "__proto__", VObj [ (str "comment", VNull) ]);
                (str "account_holder_name", VStr (str "Jane Doe")) ])
    as (data & Hdata & Hown & Hproto & _).
  - repeat constructor; cbn; intuition discriminate.
  - exists data. split; [exact Hdata |].
    split; [rewrite Hown; vm_compute; reflexivity |].
    rewrite Hproto. vm_compute. reflexivity.
Defined.


(* ================================================================== *)
(** ** ValidationService and SchemaStore *)
(* ================================================================== *)

Section ValidationCoverage.

Import ValidationService CoverageSpec.

Variable rt : Runtime.

(** X10. The confidence of a field value by its name is one of 0, 0.5,
    0.7, 0.8, 0.9 and 1.0, and it is 0 exactly when the value is null,
    undefined or the empty string, whatever the name of the field. *)
Theorem calculateValidationConfidence_values
  (fieldName : jsstring) (value : JsValue) :
  let c := calculateValidationConfidence rt fieldName value in
  List.In c [Fin 0; Fin 0.5; Fin 0.7; Fin 0.8; Fin 0.9; Fin 1.0]
  /\ (c = Fin 0 <-> isMissing value = true).
Proof.
  intros c. subst c. unfold calculateValidationConfidence,
    VALIDATION_CONFIDENCE_ZERO, VALIDATION_CONFIDENCE_MODERATE,
    VALIDATION_CONFIDENCE_GOOD, VALIDATION_CONFIDENCE_STRING,
    VALIDATION_CONFIDENCE_NUMBER, VALIDATION_CONFIDENCE_PERFECT.
  destruct (isMissing value) eqn:Hmissing.
  { split; [left; reflexivity | split; reflexivity]. }
  assert (Hne : forall x, List.In x [Fin 0.5; Fin 0.7; Fin 0.8; Fin 0.9; Fin 1.0] ->
                List.In x [Fin 0; Fin 0.5; Fin 0.7; Fin 0.8; Fin 0.9; Fin 1.0]
                /\ (x = Fin 0 <-> false = true)).
  { intros x Hx. split; [right; exact Hx |].
    split; [| discriminate]. intros ->.
    cbn in Hx. repeat (destruct Hx as [Hx | Hx]; [discriminate |]). contradiction. }
  apply Hne. cbn [List.In].
  repeat match goal with
  | |- context [if ?b then _ else _] => destruct b
  end; try tauto.
  destruct value as [| | b | n | [| ch s] | items | props]; tauto.
Qed.

Variable env : Env.
Variable store : SchemaStore.SchemaStore.

(** X11. A field passes validation exactly when its document type has
    a schema, the schema has the field, and the field's schema accepts
    the value.  A result that passed has no error and the confidence the
    field-name heuristic gives; a result that did not pass has
    confidence 0 and an error message, and its status is [failed]. *)
Theorem validateField_outcomes (documentType fieldName : jsstring)
  (value : JsValue) :
  let r := validateField env store documentType fieldName value in
  (passed r = true
   <-> exists schema fieldSchema,
         SchemaStore.getSchema store documentType = Some schema
         /\ shapeLookup schema fieldName = Some fieldSchema
         /\ safeParse env fieldSchema value = Ok ParseSuccess)
  /\ (passed r = true ->
      error r = None
      /\ confidence r = calculateValidationConfidence (Effects.rt env) fieldName value)
  /\ (passed r = false ->
      confidence r = Fin 0
      /\ (exists message, error r = Some message)
      /\ getValidationStatus r = failed_status).
Proof.
  intros r. subst r. unfold validateField.
  destruct (SchemaStore.getSchema store documentType) as [schema |] eqn:Hschema.
  2:{ cbn. split; [split; [discriminate | intros (s & f & H & _); discriminate] |].
      split; [discriminate |]. intros _. split; [reflexivity |].
      split; [eexists; reflexivity | reflexivity]. }
  destruct (shapeLookup schema fieldName) as [fieldSchema |] eqn:Hfield.
  2:{ cbn. split; [split; [discriminate |
                           intros (s & f & H & H' & _); injection H as <-;
                           congruence] |].
      split; [discriminate |]. intros _. split; [reflexivity |].
      split; [eexists; reflexivity | reflexivity]. }
  destruct (safeParse env fieldSchema value) as [[| firstMessage] | e] eqn:Hparse.
  - cbn. split.
    + split; [intros _; exists schema, fieldSchema; repeat split; assumption
             | reflexivity].
    + split; [intros _; split; reflexivity | discriminate].
  - cbn. split.
    + split; [discriminate |].
      intros (s & f & Hs & Hf & Hok). injection Hs as <-. congruence.
    + split; [discriminate |]. intros _. split; [reflexivity |].
      split; [eexists; reflexivity | reflexivity].
  - cbn. split.
    + split; [discriminate |].
      intros (s & f & Hs & Hf & Hok). injection Hs as <-. congruence.
    + split; [discriminate |]. intros _. split; [reflexivity |].
      split; [eexists; reflexivity | reflexivity].
Qed.

Lemma filter_none {A : Type} (f : A -> bool) (l : list A) :
  (forall x, List.In x l -> f x = false) -> List.filter f l = [].
Proof.
  induction l as [| x l IH]; intros H; [reflexivity |].
  cbn [List.filter]. rewrite (H x (or_introl eq_refl)).
  apply IH. intros y Hy. apply H. right. exact Hy.
Qed.

(** The loop of [validateDocument] collects, in order, one error line
    for every field that does not pass. *)
Lemma validateDocument_loop (documentType : jsstring)
  (entries : list (jsstring * JsValue)) :
  forall (errs : list jsstring) (results : list (jsstring * ValidationResult)),
  fst (List.fold_left
         (fun state kv =>
            let fieldName := fst kv in
            let result := validateField env store documentType fieldName (snd kv) in
            let fieldResults := setResult (snd state) fieldName result in
            if negb (passed result)
            then (fst state
                  ++ [fieldName ++ str ": "
                      ++ match error result with
                         | Some message => message
                         | None => str "undefined"
                         end],
                  fieldResults)
            else (fst state, fieldResults))
         entries (errs, results))
  = errs
    ++ List.map
         (fun kv =>
            fst kv ++ str ": "
            ++ match error (validateField env store documentType (fst kv) (snd kv)) with
               | Some message => message
               | None => str "undefined"
               end)
         (List.filter
            (fun kv =>
               negb (passed (validateField env store documentType (fst kv) (snd kv))))
            entries).
Proof.
  induction entries as [| [k v] entries IH]; intros errs results.
  - cbn. rewrite List.app_nil_r. reflexivity.
  - cbn [List.fold_left List.filter fst snd]. cbv zeta.
    destruct (negb (passed (validateField env store documentType k v))).
    + rewrite IH. cbn [List.map fst snd]. rewrite <- List.app_assoc. reflexivity.
    + apply IH.
Qed.

(** X12. A document is valid exactly when every field given passes
    [validateField]; the errors are, in the order of the fields, one
    line [name: message] for each field that does not pass.  For a
    document type without schema the document is invalid, with one
    error and no field result. *)
Theorem validateDocument_collects_failures (documentType : jsstring)
  (props : list (jsstring * JsValue)) :
  (SchemaStore.getSchema store documentType = None ->
   validateDocument env store documentType (VObj props)
     = Ok {| valid := false;
             errors := [str "Unknown document type: " ++ documentType];
             fieldResults := [] |})
  /\ (forall schema, SchemaStore.getSchema store documentType = Some schema ->
      exists d,
        validateDocument env store documentType (VObj props) = Ok d
        /\ errors d
           = List.map
               (fun kv =>
                  fst kv ++ str ": "
                  ++ match error (validateField env store documentType
                                    (fst kv) (snd kv)) with
                     | Some message => message
                     | None => str "undefined"
                     end)
               (List.filter
                  (fun kv =>
                     negb (passed (validateField env store documentType
                                     (fst kv) (snd kv))))
                  props)
        /\ (valid d = true
            <-> forall k v, List.In (k, v) props ->
                  passed (validateField env store documentType k v) = true)).
Proof.
  split.
  - intros Hnone. unfold validateDocument. rewrite Hnone. reflexivity.
  - intros schema Hschema. unfold validateDocument. rewrite Hschema.
    cbn [TypeCoercionService.Object_entries].
    match goal with
    | |- context [List.fold_left ?f props ([], [])] =>
        destruct (List.fold_left f props ([], [])) as [errs results] eqn:Hfold
    end.
    assert (Hloop :
      errs = List.map
               (fun kv =>
                  fst kv ++ str ": "
                  ++ match error (validateField env store documentType
                                    (fst kv) (snd kv)) with
                     | Some message => message
                     | None => str "undefined"
                     end)
               (List.filter
                  (fun kv =>
                     negb (passed (validateField env store documentType
                                     (fst kv) (snd kv))))
                  props)).
    { pose proof (validateDocument_loop documentType props [] []) as H.
      cbn [app] in H. etransitivity; [| exact H].
      change errs with (fst (errs, results)). f_equal. symmetry. exact Hfold. }
    eexists. split; [reflexivity |]. cbn [errors valid].
    split; [exact Hloop |].
    rewrite Hloop. split.
    + intros Hvalid k v Hin.
      destruct (passed (validateField env store documentType k v)) eqn:Hp;
        [reflexivity |].
      assert (Hf : List.In (k, v)
                     (List.filter
                        (fun kv =>
                           negb (passed (validateField env store documentType
                                           (fst kv) (snd kv))))
                        props)).
      { apply List.filter_In. split; [exact Hin |]. cbn [fst snd]. rewrite Hp.
        reflexivity. }
      destruct (List.filter _ props); [contradiction | discriminate].
    + intros Hall.
      replace (List.filter
                 (fun kv =>
                    negb (passed (validateField env store documentType
                                    (fst kv) (snd kv))))
                 props) with (@nil (jsstring * JsValue)); [reflexivity |].
      symmetry. apply filter_none.
      intros [k v] Hin. cbn [fst snd]. rewrite (Hall k v Hin). reflexivity.
Qed.

(** X13. [hasField] holds exactly for the fields of the schema of the
    document type, the ones [getFieldNames] lists; a name for which it
    does not hold, and which names no member of [Object.prototype], is
    rejected by [validateField] as an unknown field, or for want of a
    schema as an unknown document type; and [getSupportedTypes] lists
    exactly the document types that have a schema. *)
Theorem hasField_is_schema_field (documentType fieldName : jsstring)
  (value : JsValue) :
  (SchemaStore.hasField store documentType fieldName = true
   <-> exists schema fieldSchema,
         SchemaStore.getSchema store documentType = Some schema
         /\ shapeLookup schema fieldName = Some fieldSchema)
  /\ (SchemaStore.hasField store documentType fieldName = true
      <-> List.In fieldName (SchemaStore.getFieldNames store documentType))
  /\ (SchemaStore.hasField store documentType fieldName = false ->
      ~ List.In fieldName OBJECT_PROTOTYPE_MEMBERS ->
      exists message,
        validateField env store documentType fieldName value
          = mkValidation false (Some message) (Fin 0)
        /\ (message = str "Unknown document type: " ++ documentType
            \/ message = str "Unknown field: " ++ fieldName))
  /\ (List.In documentType (SchemaStore.getSupportedTypes store)
      <-> exists schema, SchemaStore.getSchema store documentType = Some schema).
Proof.
  assert (Hin : SchemaStore.hasField store documentType fieldName = true
                <-> List.In fieldName (SchemaStore.getFieldNames store documentType)).
  { unfold SchemaStore.hasField. cbv zeta. rewrite List.existsb_exists. split.
    - intros (x & Hx & E). apply jsstring_eqb_eq in E as ->. exact Hx.
    - intros H. exists fieldName. split; [exact H |].
      apply jsstring_eqb_eq. reflexivity. }
  assert (Hlookup : forall schema,
            List.In fieldName (List.map fst schema)
            <-> exists fieldSchema, shapeLookup schema fieldName = Some fieldSchema).
  { intros schema. unfold shapeLookup.
    induction schema as [| [k d] schema IH]; cbn [List.map List.find fst List.In].
    - split; [contradiction | intros [f H]; discriminate].
    - destruct (JsString.eqb k fieldName) eqn:E.
      + apply jsstring_eqb_eq in E.
        split; [intros _; eexists; reflexivity | intros _; left; exact E].
      + split.
        * intros [H | H]; [apply jsstring_eqb_eq in H; congruence |].
          apply IH. exact H.
        * intros H. right. apply IH. exact H. }
  assert (Hschema : SchemaStore.hasField store documentType fieldName = true
            <-> exists schema fieldSchema,
                  SchemaStore.getSchema store documentType = Some schema
                  /\ shapeLookup schema fieldName = Some fieldSchema).
  { rewrite Hin. unfold SchemaStore.getFieldNames.
    destruct (SchemaStore.getSchema store documentType) as [schema |].
    - rewrite Hlookup. split.
      + intros [f Hf]. exists schema, f. split; [reflexivity | exact Hf].
      + intros (s & f & Hs & Hf). injection Hs as <-. exists f. exact Hf.
    - split; [contradiction | intros (s & f & Hs & _); discriminate]. }
  split; [exact Hschema |]. split; [exact Hin |]. split.
  - intros Hno _. unfold validateField.
    destruct (SchemaStore.getSchema store documentType) as [schema |] eqn:Hs.
    + destruct (shapeLookup schema fieldName) as [fieldSchema |] eqn:Hf.
      * assert (SchemaStore.hasField store documentType fieldName = true)
          by (apply Hschema; exists schema, fieldSchema; split; [reflexivity | assumption]).
        congruence.
      * eexists. split; [reflexivity | right; reflexivity].
    + eexists. split; [reflexivity | left; reflexivity].
  - unfold SchemaStore.getSupportedTypes, SchemaStore.getSchema.
    rewrite List.in_map_iff. split.
    + intros ([k schema] & <- & Hk). exists schema.
      apply elem_of_map_to_list. apply list_elem_of_In. exact Hk.
    + intros [schema Hs]. exists (documentType, schema). split; [reflexivity |].
      apply list_elem_of_In. apply elem_of_map_to_list. exact Hs.
Qed.

End ValidationCoverage.

Section PatternCoverage.

Import ValidationService CoverageSpec.

(** *** [split] and [join] *)

Lemma split_piece (p : jsstring) (c : jschar) :
  ~ List.In c p ->
  split p c = [p] /\ forall r, split (p ++ c :: r) c = p :: split r c.
Proof.
  induction p as [| x p IH]; intros Hp.
  - split; [reflexivity |]. intros r. cbn [app split].
    destruct (split r c) as [| piece pieces] eqn:E;
      [exfalso; apply (split_nonempty r c E) |].
    rewrite N.eqb_refl. reflexivity.
  - assert (Hx : N.eqb x c = false).
    { apply N.eqb_neq. intros ->. apply Hp. left. reflexivity. }
    destruct IH as [IH1 IH2]; [intros H; apply Hp; right; exact H |].
    split.
    + cbn [split]. rewrite IH1, Hx. reflexivity.
    + intros r. cbn [app split]. rewrite IH2, Hx. reflexivity.
Qed.

Lemma split_join (parts : list jsstring) (c : jschar) :
  parts <> [] -> List.Forall (fun p => ~ List.In c p) parts ->
  split (join [c] parts) c = parts.
Proof.
  intros Hne H. induction H as [| p parts Hp Hparts IH]; [contradiction |].
  destruct (split_piece p c Hp) as [H1 H2].
  destruct parts as [| q parts].
  - cbn [join List.map List.concat]. rewrite List.app_nil_r. exact H1.
  - change (join [c] (p :: q :: parts)) with (p ++ c :: join [c] (q :: parts)).
    rewrite H2, IH; [reflexivity | discriminate].
Qed.

Lemma allDigits_digitString (s : jsstring) :
  allDigits s = true <-> digitString s.
Proof.
  unfold allDigits, digitString. rewrite List.forallb_forall, List.Forall_forall.
  reflexivity.
Qed.

Lemma digitString_no_hyphen (s : jsstring) : digitString s -> ~ List.In 45%N s.
Proof.
  intros H Hin. unfold digitString in H. rewrite List.Forall_forall in H.
  specialize (H _ Hin). discriminate.
Qed.

(** The groups of digits a pattern asks for, separated by hyphens *)
Lemma digitGroups_spec (sizes : list Z) (s : jsstring) :
  sizes <> [] ->
  digitGroups sizes s = true
  <-> exists parts,
        s = join [45%N] parts
        /\ List.Forall2 (fun p n => digitString p /\ len p = n) parts sizes.
Proof.
  intros Hne. unfold digitGroups. cbv zeta.
  assert (Hgroups : forall parts sizes',
            (List.length parts =? List.length sizes')%nat
            && List.forallb (fun ps => allDigits (fst ps) && (len (fst ps) =? snd ps))
                 (List.combine parts sizes') = true
            <-> List.Forall2 (fun p n => digitString p /\ len p = n) parts sizes').
  { induction parts as [| p parts IH]; intros [| n sizes'];
      cbn [List.length List.combine List.forallb fst snd Nat.eqb andb].
    - split; [constructor | reflexivity].
    - split; [discriminate | intros H; inversion H].
    - split; [discriminate | intros H; inversion H].
    - specialize (IH sizes'). split.
      + intros H. apply andb_prop in H as [Hlen H].
        apply andb_prop in H as [Hp H]. apply andb_prop in Hp as [Hd Hn].
        constructor.
        * split; [apply allDigits_digitString, Hd | apply Z.eqb_eq, Hn].
        * apply IH. apply andb_true_intro. split; assumption.
      + intros H. inversion H as [| ? ? ? ? [Hd Hn] Hrest]; subst.
        apply IH in Hrest. apply andb_prop in Hrest as [Hlen Hall].
        apply andb_true_intro. split; [exact Hlen |].
        apply andb_true_intro. split; [| exact Hall].
        apply andb_true_intro.
        split; [apply allDigits_digitString, Hd | apply Z.eqb_refl]. }
  rewrite Hgroups. split.
  - intros H. exists (split s 45%N). split; [symmetry; apply join_split | exact H].
  - intros (parts & -> & H). rewrite split_join; [exact H | |].
    + intros ->. inversion H. subst. contradiction.
    + clear Hne. induction H as [| p n parts sizes' [Hd _] _ IH]; constructor;
        [apply digitString_no_hyphen, Hd | exact IH].
Qed.

(** X14. [validateTaxId] accepts exactly the strings of the three
    shapes [ddd-dd-dddd], [dd-ddddddd] and [ddddddddd], and nothing
    that is not a string. *)
Theorem validateTaxId_shapes (value : JsValue) :
  validateTaxId value = true <-> exists s, value = VStr s /\ taxIdText s.
Proof.
  assert (Hssn : forall s,
            digitGroups [3; 2; 4] s = true
            <-> exists a b c,
                  s = a ++ str "-" ++ b ++ str "-" ++ c
                  /\ digitString a /\ len a = 3 /\ digitString b /\ len b = 2
                  /\ digitString c /\ len c = 4).
  { intros s. rewrite digitGroups_spec by discriminate. split.
    - intros (parts & -> & H).
      inversion H as [| a ? parts1 ? [Ha La] H1]; subst.
      inversion H1 as [| b ? parts2 ? [Hb Lb] H2]; subst.
      inversion H2 as [| c ? parts3 ? [Hc Lc] H3]; subst.
      inversion H3; subst.
      exists a, b, c. cbn [join List.map List.concat].
      rewrite List.app_nil_r, <- !List.app_assoc. repeat split; assumption.
    - intros (a & b & c & -> & Ha & La & Hb & Lb & Hc & Lc).
      exists [a; b; c]. cbn [join List.map List.concat].
      rewrite List.app_nil_r, <- !List.app_assoc.
      split; [reflexivity |]. repeat constructor; assumption. }
  assert (Hein : forall s,
            digitGroups [2; 7] s = true
            <-> exists a b,
                  s = a ++ str "-" ++ b
                  /\ digitString a /\ len a = 2 /\ digitString b /\ len b = 7).
  { intros s. rewrite digitGroups_spec by discriminate. split.
    - intros (parts & -> & H).
      inversion H as [| a ? parts1 ? [Ha La] H1]; subst.
      inversion H1 as [| b ? parts2 ? [Hb Lb] H2]; subst.
      inversion H2; subst.
      exists a, b. cbn [join List.map List.concat].
      rewrite List.app_nil_r. repeat split; assumption.
    - intros (a & b & -> & Ha & La & Hb & Lb).
      exists [a; b]. cbn [join List.map List.concat].
      rewrite List.app_nil_r.
      split; [reflexivity |]. repeat constructor; assumption. }
  assert (Hplain : forall s,
            digitGroups [9] s = true <-> digitString s /\ len s = 9).
  { intros s. rewrite digitGroups_spec by discriminate. split.
    - intros (parts & -> & H).
      inversion H as [| a ? parts1 ? [Ha La] H1]; subst. inversion H1; subst.
      cbn [join List.map List.concat]. rewrite List.app_nil_r. split; assumption.
    - intros [Hd Hl]. exists [s]. cbn [join List.map List.concat].
      rewrite List.app_nil_r. split; [reflexivity |]. repeat constructor; assumption. }
  destruct value as [| | b | n | s | items | props];
    try (split; [discriminate | intros (s & H & _); discriminate]).
  cbn [validateTaxId]. unfold taxIdText. split.
  - intros H. exists s. split; [reflexivity |].
    destruct (digitGroups [3; 2; 4] s) eqn:E1; [left; apply Hssn, E1 |].
    destruct (digitGroups [2; 7] s) eqn:E2; [right; left; apply Hein, E2 |].
    right; right. apply Hplain, H.
  - intros (s' & Hs & H). injection Hs as <-.
    destruct H as [H | [H | H]].
    + apply Hssn in H. rewrite H. reflexivity.
    + apply Hein in H. rewrite H. destruct (digitGroups [3; 2; 4] s); reflexivity.
    + apply Hplain in H. rewrite H.
      destruct (digitGroups [3; 2; 4] s), (digitGroups [2; 7] s); reflexivity.
Qed.

(** *** Account numbers *)

Lemma dropStars_repeat (stars : nat) (rest : jsstring) :
  dropStars (List.repeat 42%N stars ++ rest) = dropStars rest.
Proof. induction stars as [| k IH]; [reflexivity | exact IH]. Qed.

Lemma dropStars_split (s : jsstring) :
  exists stars,
    s = List.repeat 42%N stars ++ dropStars s
    /\ len s - len (dropStars s) = Z.of_nat stars.
Proof.
  induction s as [| c s IH]; [exists 0%nat; split; reflexivity |].
  destruct (N.eq_dec c 42%N) as [-> | Hc].
  - destruct IH as (k & Hk & Hlen). exists (S k). cbn [dropStars List.repeat app].
    split; [f_equal; exact Hk |]. unfold len in *. cbn [List.length]. lia.
  - exists 0%nat.
    assert (Hdrop : dropStars (c :: s) = c :: s).
    { destruct c as [| p]; [reflexivity |].
      do 7 (try (destruct p as [p | p |]; try reflexivity)).
      exfalso. apply Hc. reflexivity. }
    rewrite Hdrop. split; [reflexivity | lia].
Qed.

Lemma dropStars_digits (s : jsstring) : digitString s -> dropStars s = s.
Proof.
  intros H. destruct H as [| c s Hc _]; [reflexivity |].
  assert (Hb : (48 <= c <= 57)%N).
  { unfold isDigit in Hc. apply andb_prop in Hc as [H1 H2].
    apply N.leb_le in H1. apply N.leb_le in H2. lia. }
  destruct c as [| p]; [reflexivity |].
  do 7 (try (destruct p as [p | p |]; try reflexivity)).
  lia.
Qed.

(** X15. [validateAccountNumber] accepts a string exactly when, once
    white space and hyphens are removed, it is four or more asterisks
    followed by four digits, or 8 to 17 digits; it accepts nothing that
    is not a string. *)
Theorem validateAccountNumber_shapes (value : JsValue) :
  validateAccountNumber value = true
  <-> exists s, value = VStr s /\ accountNumberText (removeAll isSpaceOrHyphen s).
Proof.
  destruct value as [| | b | n | s | items | props];
    try (split; [discriminate | intros (s & H & _); discriminate]).
  cbn [validateAccountNumber]. cbv zeta.
  set (cleaned := removeAll isSpaceOrHyphen s).
  assert (Hmasked :
    (4 <=? len cleaned - len (dropStars cleaned))
    && (len (dropStars cleaned) =? 4) && allDigits (dropStars cleaned) = true
    <-> exists stars digits,
          cleaned = List.repeat 42%N stars ++ digits
          /\ (4 <= stars)%nat /\ digitString digits /\ len digits = 4).
  { split.
    - intros H. apply andb_prop in H as [H Hd]. apply andb_prop in H as [Hk Hl].
      apply Z.leb_le in Hk. apply Z.eqb_eq in Hl.
      destruct (dropStars_split cleaned) as (stars & Hsplit & Hstars).
      exists stars, (dropStars cleaned).
      split; [exact Hsplit |]. split; [lia |].
      split; [apply allDigits_digitString, Hd | exact Hl].
    - intros (stars & digits & Hc & Hk & Hd & Hl).
      assert (Hdrop : dropStars cleaned = digits).
      { rewrite Hc, dropStars_repeat. apply dropStars_digits, Hd. }
      rewrite Hdrop.
      assert (Hlen : len cleaned = Z.of_nat stars + len digits).
      { rewrite Hc. unfold len. rewrite List.length_app, List.repeat_length. lia. }
      apply andb_true_intro. split; [apply andb_true_intro; split |].
      + apply Z.leb_le. lia.
      + apply Z.eqb_eq. exact Hl.
      + apply allDigits_digitString, Hd. }
  assert (Hplain :
    allDigits cleaned && (8 <=? len cleaned) && (len cleaned <=? 17) = true
    <-> digitString cleaned /\ 8 <= len cleaned <= 17).
  { rewrite !andb_true_iff, allDigits_digitString, !Z.leb_le. tauto. }
  unfold accountNumberText. split.
  - intros H. exists s. split; [reflexivity |]. fold cleaned.
    destruct ((4 <=? len cleaned - len (dropStars cleaned))
              && (len (dropStars cleaned) =? 4) && allDigits (dropStars cleaned))
      eqn:E; [left; apply Hmasked; reflexivity | right; apply Hplain, H].
  - intros (s' & Hs & H). injection Hs as <-. fold cleaned in H.
    destruct H as [H | H].
    + apply Hmasked in H. rewrite H. reflexivity.
    + apply Hplain in H. rewrite H.
      destruct ((4 <=? len cleaned - len (dropStars cleaned))
                && (len (dropStars cleaned) =? 4) && allDigits (dropStars cleaned));
        reflexivity.
Qed.

(** *** E-mail addresses *)

Lemma no_white_Forall (s : jsstring) :
  List.existsb isWhiteSpace s = false
  <-> List.Forall (fun c => isWhiteSpace c = false) s.
Proof.
  induction s as [| c s IH]; cbn [List.existsb].
  - split; [constructor | reflexivity].
  - rewrite orb_false_iff, IH. split.
    + intros [Hc Hs]. constructor; assumption.
    + intros H. inversion H; subst. split; assumption.
Qed.

(** The test on the domain: a period with text on both sides *)
Lemma inner_period (domain : jsstring) :
  List.existsb (N.eqb 46) (List.removelast (List.tl domain)) = true
  <-> exists d1 d2, domain = d1 ++ 46%N :: d2 /\ d1 <> [] /\ d2 <> [].
Proof.
  split.
  - intros H. apply List.existsb_exists in H as (c & Hin & Hc).
    apply N.eqb_eq in Hc as <-.
    destruct domain as [| x t]; [contradiction |]. cbn [List.tl] in Hin.
    destruct t as [| y t'] using List.rev_ind; [contradiction |].
    rewrite List.removelast_last in Hin.
    apply List.in_split in Hin as (u & v & ->).
    exists (x :: u), (v ++ [y]).
    split; [cbn [app]; rewrite <- List.app_assoc; reflexivity |].
    split; [discriminate |]. intros H. apply List.app_eq_nil in H as [_ H].
    discriminate.
  - intros (d1 & d2 & -> & H1 & H2).
    destruct d1 as [| x u]; [contradiction |].
    destruct d2 as [| z v] using List.rev_ind; [contradiction |].
    cbn [app List.tl].
    replace (u ++ 46%N :: v ++ [z]) with ((u ++ 46%N :: v) ++ [z])
      by (rewrite <- List.app_assoc; reflexivity).
    rewrite List.removelast_last. apply List.existsb_exists.
    exists 46%N. split; [| reflexivity].
    apply List.in_or_app. right. left. reflexivity.
Qed.

(** X16. [validateEmail] accepts exactly the strings [local@domain.tld]
    whose three parts are non-empty and hold neither white space nor
    [@] (the domain and the last part may hold further periods); it
    accepts nothing that is not a string. *)
Theorem validateEmail_shape (value : JsValue) :
  validateEmail value = true <-> exists s, value = VStr s /\ emailText s.
Proof.
  destruct value as [| | b | n | s | items | props];
    try (split; [discriminate | intros (s & H & _); discriminate]).
  cbn [validateEmail]. unfold emailText. split.
  - intros H. apply andb_prop in H as [Hwhite H].
    apply negb_true_iff, no_white_Forall in Hwhite.
    pose proof (join_split s 64%N) as Hjoin.
    pose proof (split_pieces_clean s 64%N) as Hclean.
    destruct (split s 64%N) as [| l [| d [| x parts]]]; try discriminate.
    apply andb_prop in H as [Hl Hd].
    apply inner_period in Hd as (d1 & d2 & -> & H1 & H2).
    cbn [join List.map List.concat] in Hjoin. rewrite List.app_nil_r in Hjoin.
    symmetry in Hjoin. subst s.
    eexists. split; [reflexivity |]. exists l, d1, d2.
    split; [reflexivity |].
    split; [intros ->; discriminate |]. split; [exact H1 |]. split; [exact H2 |].
    inversion Hclean as [| ? ? Hcl Hrest]; subst.
    inversion Hrest as [| ? ? Hcd _]; subst.
    apply List.Forall_app in Hwhite as [Wl Wd].
    apply List.Forall_app in Wd as [_ Wd].
    apply List.Forall_app in Wd as [W1 W2].
    inversion W2 as [| ? ? _ W2']; subst.
    apply List.Forall_forall. intros c Hin. split.
    + apply List.in_app_or in Hin as [Hin | Hin];
        [exact (proj1 (List.Forall_forall _ _) Wl c Hin) |].
      apply List.in_app_or in Hin as [Hin | Hin];
        [exact (proj1 (List.Forall_forall _ _) W1 c Hin)
        | exact (proj1 (List.Forall_forall _ _) W2' c Hin)].
    + intros ->. apply List.in_app_or in Hin as [Hin | Hin]; [exact (Hcl Hin) |].
      apply Hcd. apply List.in_app_or in Hin as [Hin | Hin].
      * apply List.in_or_app. left. exact Hin.
      * apply List.in_or_app. right. right. exact Hin.
  - intros (s' & Hs & l & d1 & d2 & Hs' & Hl & H1 & H2 & Hall).
    change (l ++ str "@" ++ d1 ++ str "." ++ d2)
      with (l ++ [64%N] ++ d1 ++ [46%N] ++ d2) in Hs'.
    subst s'. injection Hs as ->.
    apply List.Forall_app in Hall as [Al Ad].
    apply List.Forall_app in Ad as [A1 A2].
    assert (Hclean : forall p, List.Forall addressChar p -> ~ List.In 64%N p).
    { intros p Hp Hin. apply (proj1 (List.Forall_forall _ _) Hp) in Hin as [_ Hne].
      apply Hne. reflexivity. }
    assert (Hwhite : forall p, List.Forall addressChar p ->
                     List.Forall (fun c => isWhiteSpace c = false) p).
    { intros p Hp. eapply List.Forall_impl; [| exact Hp]. intros c [Hc _]. exact Hc. }
    apply andb_true_intro. split.
    + apply negb_true_iff, no_white_Forall.
      apply List.Forall_app. split; [apply Hwhite, Al |].
      constructor; [reflexivity |].
      apply List.Forall_app. split; [apply Hwhite, A1 |].
      constructor; [reflexivity | apply Hwhite, A2].
    + change ([64%N] ++ d1 ++ [46%N] ++ d2) with (64%N :: d1 ++ 46%N :: d2).
      destruct (split_piece l 64%N (Hclean l Al)) as [_ Hsplit].
      rewrite Hsplit.
      assert (Hdomain : ~ List.In 64%N (d1 ++ 46%N :: d2)).
      { intros Hin. apply List.in_app_or in Hin as [Hin | [Hin | Hin]];
          [exact (Hclean d1 A1 Hin) | discriminate | exact (Hclean d2 A2 Hin)]. }
      rewrite (proj1 (split_piece _ 64%N Hdomain)).
      apply andb_true_intro. split.
      * destruct l; [contradiction | reflexivity].
      * apply inner_period. exists d1, d2. split; [reflexivity |]. split; assumption.
Qed.

End PatternCoverage.

Section SchemaTables.

Import SchemaStore.

Lemma supported_schemas (documentType : jsstring) (schema : ZodObject) :
  getSchema create documentType = Some schema ->
  List.In (documentType, schema)
    [ (str "Unknown", UnknownDocumentSchema);
      (str "Articles of Incorporation", ArticlesOfIncorporationSchema);
      (str "Certificate of Insurance", CertificateOfInsuranceSchema);
      (str "W-9", W9Schema);
      (str "Government ID", GovernmentIDSchema);
      (str "Bank Statement", BankStatementSchema) ].
Proof.
  unfold getSchema, create, schemas, initializeSchemas. intros H.
  repeat (apply lookup_insert_Some in H as [[<- <-] | [_ H]];
          [cbn [List.In]; tauto |]).
  rewrite lookup_empty in H. discriminate.
Qed.

(** X17. In the store the constructor builds, every document type that
    has a schema has keywords for exactly the fields of the schema, in
    the order of the schema, and none of the keyword lists is empty. *)
Theorem every_schema_field_has_keywords
  (documentType : jsstring) (schema : ZodObject) :
  getSchema create documentType = Some schema ->
  exists keywords,
    getFieldKeywords create documentType = Some keywords
    /\ List.map fst keywords = getFieldNames create documentType
    /\ List.Forall (fun kv => snd kv <> []) keywords.
Proof.
  intros H. unfold getFieldNames. rewrite H.
  apply supported_schemas in H. cbn [List.In] in H.
  repeat (destruct H as [H | H];
          [injection H as <- <-; eexists;
           split; [vm_compute; reflexivity |];
           split; [vm_compute; reflexivity |];
           repeat constructor; discriminate |]).
  contradiction.
Qed.

Lemma every_schema_field_has_keywords_witness :
  exists keywords,
    getFieldKeywords create (str "W-9") = Some keywords
    /\ List.map fst keywords = getFieldNames create (str "W-9")
    /\ List.Forall (fun kv => snd kv <> []) keywords.
Proof.
  apply (every_schema_field_has_keywords (str "W-9") W9Schema).
  vm_compute. reflexivity.
Defined.

End SchemaTables.


(* ================================================================== *)
(** ** Thresholds and the classification result *)
(* ================================================================== *)

Section ThresholdCoverage.

Import Threshold ClassificationService.

Variable env : Env.

(** X18. [getThreshold] never throws and asks the settings table once,
    for the key of the document type: it answers 0.7 when the query
    fails or finds no row, and otherwise what [parseFloat] reads in the
    stored value. *)
Theorem getThreshold_default_on_failure (type : jsstring) (w : World) :
  let sql := str "SELECT value FROM settings WHERE key = ?" in
  let params := [VStr (buildThresholdKey type)] in
  exists t,
    getThreshold env type w = (Ok t, w ++ [EvDbGet sql params])
    /\ match db_get env w sql params with
       | Ok (Some row) =>
           if truthy row
           then t = parseFloat (toStr (rt env) (ExampleStore.prop row "value"))
           else t = Fin 0.7
       | Ok None | Throw _ => t = Fin 0.7
       end.
Proof.
  intros sql params. unfold getThreshold, tryCatch, bind, dbGet.
  fold sql. fold params.
  destruct (db_get env w sql params) as [[row |] | e].
  - destruct (truthy row) eqn:Htruthy.
    + unfold lift, ExampleStore.prop.
      destruct row; try discriminate; cbn [getProp]; eexists; split; reflexivity.
    + eexists. split; reflexivity.
  - eexists. split; reflexivity.
  - eexists. split; reflexivity.
Qed.

(** X19. [setThreshold] rejects, without touching the database, a
    threshold below 0.5 or above 1.0, so also an infinite one; a
    threshold from 0.5 to 1.0 is written, in one statement, under the
    very key [getThreshold] reads for the same document type.  A
    threshold that is not a number passes the range test and is
    written as well. *)
Theorem setThreshold_range_and_key (type : jsstring) (threshold : number)
  (w : World) :
  let params := [VStr (buildThresholdKey type);
                 VStr (numToString (rt env) threshold)] in
  let stored :=
    setThreshold env type threshold w
    = (db_run env w INSERT_SETTING_QUERY params,
       w ++ [EvDbRun INSERT_SETTING_QUERY params]) in
  let rejected :=
    setThreshold env type threshold w
    = (Throw (Error (str "Threshold must be between 0.5 and 1.0")), w) in
  match threshold with
  | Fin q =>
      ((q < 0.5 \/ 1 < q)%Q -> rejected) /\ ((0.5 <= q <= 1)%Q -> stored)
  | Inf _ => rejected
  | NaN => stored
  end.
Proof.
  intros params stored rejected. subst params stored rejected.
  unfold setThreshold, MIN_THRESHOLD, MAX_THRESHOLD.
  destruct threshold as [| [|] | q]; try reflexivity.
  unfold gt, lt. cbn [compare].
  destruct (Qcompare_spec q 0.5) as [E | E | E];
    destruct (Qcompare_spec 1.0 q) as [E' | E' | E'];
    cbn [orb]; (split; [intros [H | H] | intros [H H']]);
    try reflexivity; exfalso; try rewrite E in *; try rewrite <- E' in *; lra.
Qed.

End ThresholdCoverage.

Section ClassificationCoverage.

Import WorldSpec LoopSpec ClassifySpec ClassificationService.

Variable env : Env.
Variable client : OllamaClient.OllamaClient.

Local Abbreviation service := (defaultService env client).




(** X21. Whatever goes wrong inside [classify], the caller sees one
    kind of error: an [Error] whose message is [Classification failed: ]
    followed by the message of what was thrown inside. *)
Theorem classify_wraps_errors
  (classifier : ClassificationService) (ocrText : jsstring) (documentId : Z)
  (w w' : World) (e : JsError) :
  classify env classifier ocrText documentId w = (Throw e, w') ->
  exists cause,
    classifyBody env classifier ocrText documentId w = (Throw cause, w')
    /\ e = Error (str "Classification failed: " ++ errMessage cause).
Proof.
  unfold classify, tryCatch, throw. intros H.
  destruct (classifyBody env classifier ocrText documentId w) as [[r | cause] w0].
  - discriminate.
  - injection H as <- <-. exists cause. split; reflexivity.
Qed.

(** X22. What a result of [classify] on the service of the repository
    holds together: [confidence] is the final confidence of the
    breakdown it reports, [requires_review] tells whether that
    confidence is below the threshold it reports, and a result that
    reports no tool use names a document type of the enum. *)
Theorem classify_result_is_consistent
  (ocrText : jsstring) (documentId : Z) (w w' : World)
  (r : ClassificationModel) :
  classify env service ocrText documentId w = (Ok r, w') ->
  confidence r = final_confidence r
  /\ requires_review r = lt (confidence r) (threshold r)
  /\ (tool_used r = false -> isDocumentType (predicted_type r) = true).
Proof.
  intros Hrun.
  destruct (classify_outcome env client ocrText documentId w)
    as (added & _ & _ & Hres).
  rewrite Hrun in Hres. cbn [fst] in Hres.
  destruct (Hres r eq_refl)
    as (first & parsed & predictedType & w1 & t0 & w2 & Hfirst & _ & _ & Hcases).
  destruct (firstPass_type env client ocrText _ _ _ _ _ Hfirst) as [Hprop Hvalid].
  cbv zeta in Hcases.
  destruct Hcases as [-> | (_ & retryParsed & _ & _ & ->)];
    cbn [confidence final_confidence requires_review
           ClassificationService.threshold tool_used predicted_type resultOf].
  - split; [reflexivity |]. split; [reflexivity |].
    intros _. rewrite Hprop. exact Hvalid.
  - split; [reflexivity |]. split; [reflexivity |].
    discriminate.
Qed.

End ClassificationCoverage.

Section ClassificationCoverageInstances.

Import Samples WorldSpec ClassifySpec ClassificationService.

Local Abbreviation adoptingService := (defaultService envRetryAdopted client).
Local Abbreviation malformedService := (defaultService envMalformed client).


(** A tool call whose arguments are not JSON: the syntax error of the
    loop reaches the caller wrapped. *)
Lemma classify_wraps_errors_witness :
  let out := classify envMalformed malformedService GOVERNMENT_ID_OCR 7 [] in
  fst out
    = Throw (Error (str "Classification failed: Unexpected token in JSON"))
  /\ exists cause,
       classifyBody envMalformed malformedService GOVERNMENT_ID_OCR 7 []
         = (Throw cause, snd out)
       /\ Error (str "Classification failed: Unexpected token in JSON")
          = Error (str "Classification failed: " ++ errMessage cause).
Proof.
  split; [vm_compute; reflexivity |].
  apply (classify_wraps_errors envMalformed malformedService
           GOVERNMENT_ID_OCR 7 []).
  vm_compute. reflexivity.
Defined.

(** The sample call with an adopted retry. *)
Lemma classify_result_is_consistent_witness :
  exists r,
    fst (classify envRetryAdopted adoptingService GOVERNMENT_ID_OCR 7 []) = Ok r
    /\ confidence r = final_confidence r
    /\ requires_review r = lt (confidence r) (threshold r)
    /\ (tool_used r = false -> isDocumentType (predicted_type r) = true).
Proof.
  destruct (classify envRetryAdopted adoptingService GOVERNMENT_ID_OCR 7 [])
    as [[r | e] w'] eqn:Hrun; [| vm_compute in Hrun; discriminate].
  exists r. split; [reflexivity |].
  exact (classify_result_is_consistent envRetryAdopted client
           GOVERNMENT_ID_OCR 7 [] w' r Hrun).
Defined.

End ClassificationCoverageInstances.


(* ================================================================== *)
(** ** The tool loop with a chosen cap, and the tool registry *)
(* ================================================================== *)

Section ToolLoopCoverage.

Import OllamaClient LoopSpec.

Variable env : Env.
Variable client : OllamaClient.
Variable requestTools : list OllamaTool.
Variable toolHandler : jsstring -> JsValue -> M jsstring.

(** What a returned result says, for any LLM and any handler. *)
Lemma chatLoop_result_bounds (options : option ChatOptions) (cap : Z) (k : nat) :
  forall (it : Z) (used : bool) (msgs : list OllamaMessage) (w : World),
  match fst (chatLoop env client requestTools toolHandler options cap k it used
               msgs w) with
  | Ok res =>
      it + 1 <= iterations res <= it + Z.of_nat k
      /\ hasToolCalls (response res) = false
      /\ toolUsed res = used || (it + 1 <? iterations res)
  | Throw _ => True
  end.
Proof.
  induction k as [| k IH]; intros it used msgs w.
  - exact I.
  - cbn [chatLoop]. unfold bind at 1, doChat.
    destruct (chat env w _) as [m | e]; [| exact I].
    destruct (tool_calls m) as [[| call calls] |] eqn:Hcalls.
    + cbn [fst ret iterations response toolUsed]. unfold hasToolCalls.
      rewrite Hcalls, Z.ltb_irrefl, orb_false_r. repeat split; lia.
    + unfold bind at 1.
      destruct (forEach (call :: calls) _ msgs _) as [[msgs' | e] w']; [| exact I].
      specialize (IH (it + 1) true msgs' w').
      destruct (fst (chatLoop env client requestTools toolHandler options cap k
                       (it + 1) true msgs' w')) as [res | e]; [| exact I].
      destruct IH as (Hit & Hresp & Hused).
      split; [lia |]. split; [exact Hresp |].
      rewrite Hused. cbn [orb]. symmetry.
      apply orb_true_iff. right. apply Z.ltb_lt. lia.
    + cbn [fst ret iterations response toolUsed]. unfold hasToolCalls.
      rewrite Hcalls, Z.ltb_irrefl, orb_false_r. repeat split; lia.
Qed.

(** X23. [chatWithTools] honours the cap it is given, for any LLM and
    any tool handler: with a cap of zero or less it throws the
    max-iterations error without sending a request; when the first
    request fails, the call ends with that failure after that one
    request; and a result that is returned took between one iteration
    and the cap, its reply has no tool calls, and [toolUsed] tells
    whether it took more than one iteration. *)
Theorem chatWithTools_respects_cap (cap : Z) (fmt : option jsstring)
  (msgs : list OllamaMessage) (w : World) :
  let options := Some {| maxIterations := Some cap; optFormat := fmt |} in
  let out := chatWithTools env client msgs requestTools toolHandler options w in
  (cap <= 0 -> out = (Throw (MAX_ITERATIONS_ERROR cap), w))
  /\ (forall e,
        0 < cap ->
        chat env w (request requestTools options msgs) = Throw e ->
        out = (Throw e, w ++ [EvChat (request requestTools options msgs)]))
  /\ match fst out with
     | Ok res =>
         1 <= iterations res <= cap
         /\ hasToolCalls (response res) = false
         /\ toolUsed res = (1 <? iterations res)
     | Throw _ => True
     end.
Proof.
  intros options out. subst out. unfold chatWithTools. cbn [options].
  split; [| split].
  - intros Hcap. replace (Z.to_nat cap) with 0%nat by lia. reflexivity.
  - intros e Hcap Hchat.
    destruct (Z.to_nat cap) as [| k] eqn:Hk; [lia |].
    cbn [chatLoop]. unfold bind at 1, doChat.
    fold (request requestTools options msgs). rewrite Hchat. reflexivity.
  - pose proof (chatLoop_result_bounds options cap (Z.to_nat cap) 0 false msgs w)
      as H.
    fold options.
    destruct (fst (chatLoop env client requestTools toolHandler options cap
                     (Z.to_nat cap) 0 false msgs w)) as [res | e]; [| exact I].
    destruct H as (Hit & Hresp & Hused).
    split; [lia |]. split; assumption.
Qed.

End ToolLoopCoverage.

Section ToolRegistryCoverage.

Import ToolRegistry.

Variable env : Env.

(** The handler of the retrieval tool catches whatever happens inside. *)
Lemma handleGetGoldExample_returns (args : JsValue) (w : World) :
  exists text w', handleGetGoldExample env args w = (Ok text, w').
Proof.
  unfold handleGetGoldExample, tryCatch.
  match goal with
  | |- context [match ?body w with _ => _ end] =>
      destruct (body w) as [[text | e] w']
  end; eexists _, _; reflexivity.
Qed.

(** X24. The registry a service starts with offers the one tool
    [get_gold_example].  Executing any other name throws
    [Tool not found] and touches nothing; executing [get_gold_example]
    never throws, whatever the arguments and the database do: it
    returns a text, which is the [Failed to retrieve example] answer
    when the arguments are [null] or [undefined] (no query is made
    then) and when the query of the example store fails. *)
Theorem default_registry_execution (name : jsstring) (args : JsValue) (w : World) :
  getTools (create env) = [GET_GOLD_EXAMPLE_TOOL]
  /\ (name <> str "get_gold_example" ->
      executeTool (create env) name args w
        = (Throw (Error (str "Tool not found: " ++ name)), w))
  /\ (exists text w',
        executeTool (create env) (str "get_gold_example") args w = (Ok text, w'))
  /\ (args = VNull \/ args = VUndefined ->
      executeTool (create env) (str "get_gold_example") args w
        = (Ok (buildErrorResponse (rt env)), w))
  /\ (forall keywords docType e w',
        getProp args (str "keywords") = Ok keywords ->
        getProp args (str "doc_type") = Ok docType ->
        ExampleStore.getGoldExample env
          {| ExampleStore.queryDocType := docType;
             ExampleStore.queryKeywords := Some (sanitizeKeywords (rt env) keywords);
             ExampleStore.queryLimit := Some ExampleStore.DEFAULT_EXAMPLE_LIMIT |} w
          = (Throw e, w') ->
        executeTool (create env) (str "get_gold_example") args w
          = (Ok (buildErrorResponse (rt env)), w')).
Proof.
  assert (Hget : forall a w0,
             executeTool (create env) (str "get_gold_example") a w0
               = handleGetGoldExample env a w0).
  { intros a w0. unfold executeTool, create, registerDefaultTools, register.
    cbn [tool toolName GET_GOLD_EXAMPLE_TOOL].
    rewrite lookup_insert_eq. reflexivity. }
  split; [| split; [| split; [| split]]].
  - unfold getTools, create, registerDefaultTools, register.
    rewrite insert_empty, map_to_list_singleton. reflexivity.
  - intros Hname. unfold executeTool, create, registerDefaultTools, register.
    cbn [tool toolName GET_GOLD_EXAMPLE_TOOL].
    rewrite lookup_insert_ne by (intros H; apply Hname; symmetry; exact H).
    rewrite lookup_empty. reflexivity.
  - rewrite Hget. apply handleGetGoldExample_returns.
  - intros [-> | ->]; rewrite Hget; reflexivity.
  - intros keywords docType e w' Hk Hd Hquery. rewrite Hget.
    unfold handleGetGoldExample, tryCatch.
    unfold bind at 1, lift at 1. rewrite Hk.
    unfold bind at 1, lift at 1. rewrite Hd.
    unfold bind at 1. rewrite Hquery. reflexivity.
Qed.

(** X25. Registering and executing round-trip: after [register], the
    name of the registered tool runs its handler, every other name
    behaves as before, and the tools on offer are the registered one
    and those of the other names. *)
Theorem register_then_execute
  (tools : gmap jsstring ToolDefinition) (definition : ToolDefinition)
  (name : jsstring) (args : JsValue) (offered : OllamaTool) :
  let registered := register tools definition in
  executeTool registered (toolName (tool definition)) args
    = handler definition args
  /\ (name <> toolName (tool definition) ->
      executeTool registered name args = executeTool tools name args)
  /\ (In offered (getTools registered)
      <-> offered = tool definition
          \/ exists other previous,
               other <> toolName (tool definition)
               /\ tools !! other = Some previous
               /\ tool previous = offered).
Proof.
  intros registered. subst registered. unfold register, executeTool.
  split; [| split].
  - rewrite lookup_insert_eq. reflexivity.
  - intros Hname. rewrite lookup_insert_ne by congruence. reflexivity.
  - unfold getTools. rewrite List.in_map_iff. split.
    + intros ([key d] & <- & Hin). apply list_elem_of_In in Hin.
      apply elem_of_map_to_list in Hin.
      apply lookup_insert_Some in Hin as [[_ <-] | [Hne Hold]].
      * left. reflexivity.
      * right. exists key, d. repeat split; [congruence | exact Hold].
    + intros [-> | (other & previous & Hne & Hold & <-)].
      * exists (toolName (tool definition), definition). split; [reflexivity |].
        apply list_elem_of_In, elem_of_map_to_list. apply lookup_insert_eq.
      * exists (other, previous). split; [reflexivity |].
        apply list_elem_of_In, elem_of_map_to_list.
        rewrite lookup_insert_ne by congruence. exact Hold.
Qed.

End ToolRegistryCoverage.


(* ================================================================== *)
(** ** The example store and the learning service *)
(* ================================================================== *)

Section LearningCoverage.

Import ExampleStore LearningService CoverageSpec.

Variable env : Env.





Lemma buildCountsRecord_lookup (rows : list JsValue) (docType : jsstring) :
  forall counts,
    lookupProp
      (List.fold_left
         (fun counts row =>
            setProp counts (toStr (rt env) (prop row "docType")) (prop row "count"))
         rows counts)
      docType
    = match lastCount (rt env) rows docType with
      | Some count => Some count
      | None => lookupProp counts docType
      end.
Proof.
  induction rows as [| row rows IH]; intros counts; [reflexivity |].
  cbn [List.fold_left lastCount]. rewrite IH.
  destruct (lastCount (rt env) rows docType) as [count |]; [reflexivity |].
  rewrite lookupProp_setProp.
  destruct (JsString.eqb (toStr (rt env) (prop row "docType")) docType);
    reflexivity.
Qed.

(** X27. [shouldUseLearning] answers [false] without asking the
    database when the confidence reaches the threshold (0.7 when none
    is given).  Otherwise, and so also for a confidence that is not a
    number, it asks for the counts once and answers whether the count
    of the document type is above zero, where the count of a type is
    that of its last row and a type without a row counts zero; a
    failure of the query is rethrown as
    [Failed to get gold example counts: ...]. *)
Theorem shouldUseLearning_decision (confidence : number) (docType : jsstring)
  (threshold : option number) (w : World) :
  let limit := match threshold with Some t => t | None => Fin 0.7 end in
  let asked := w ++ [EvDbAll GOLD_EXAMPLE_COUNTS_QUERY [VNum (Fin 1)]] in
  (ge confidence limit = true ->
   shouldUseLearning env confidence docType threshold w = (Ok false, w))
  /\ (ge confidence limit = false ->
      match db_all env w GOLD_EXAMPLE_COUNTS_QUERY [VNum (Fin 1)] with
      | Ok rows =>
          shouldUseLearning env confidence docType threshold w
          = (Ok match lastCount (rt env) rows docType with
                | Some count =>
                    truthy count && gt (toNumber (rt env) count) (Fin 0)
                | None => false
                end,
             asked)
      | Throw err =>
          shouldUseLearning env confidence docType threshold w
          = (Throw (Error (str "Failed to get gold example counts: "
                           ++ errMessage err)),
             asked)
      end).
Proof.
  intros limit asked. unfold shouldUseLearning, DEFAULT_CONFIDENCE_THRESHOLD.
  cbv zeta. fold limit. split.
  - intros ->. reflexivity.
  - intros ->. unfold bind, getGoldExampleCounts, bind, tryCatch, dbAll, throw, ret.
    fold asked. change [IS_GOLD_FLAG] with [VNum (Fin 1)].
    destruct (db_all env w GOLD_EXAMPLE_COUNTS_QUERY [VNum (Fin 1)])
      as [rows | err]; [| reflexivity].
    f_equal. f_equal. unfold buildCountsRecord.
    rewrite buildCountsRecord_lookup. cbn [lookupProp].
    destruct (lastCount (rt env) rows docType) as [count |]; [| reflexivity].
    destruct (truthy count); reflexivity.
Qed.

Lemma shouldUseLearning_decision_aux (confidence : number) (docType : jsstring)
  (w : World) :
  if ge confidence (Fin 0.7)
  then shouldUseLearning env confidence docType None w = (Ok false, w)
  else
    match db_all env w GOLD_EXAMPLE_COUNTS_QUERY [VNum (Fin 1)] with
    | Ok rows =>
        exists b,
          shouldUseLearning env confidence docType None w
          = (Ok b, w ++ [EvDbAll GOLD_EXAMPLE_COUNTS_QUERY [VNum (Fin 1)]])
    | Throw err =>
        shouldUseLearning env confidence docType None w
        = (Throw (Error (str "Failed to get gold example counts: "
                         ++ errMessage err)),
           w ++ [EvDbAll GOLD_EXAMPLE_COUNTS_QUERY [VNum (Fin 1)]])
    end.
Proof.
  unfold shouldUseLearning, DEFAULT_CONFIDENCE_THRESHOLD.
  destruct (ge confidence (Fin 0.7)); [reflexivity |].
  unfold bind, getGoldExampleCounts, bind, tryCatch, dbAll, throw, ret.
  change [IS_GOLD_FLAG] with [VNum (Fin 1)].
  destruct (db_all env w GOLD_EXAMPLE_COUNTS_QUERY [VNum (Fin 1)])
    as [rows | err]; [eexists |]; reflexivity.
Qed.

(** X28. [retrieveLearningExample] answers the default result (nothing
    found, no tool used) without touching the database when no
    document type is given or the confidence (0 when none is given)
    reaches 0.7.  The only error it lets through is a failure of the
    counts query, so that a failure while the example is fetched or
    read still gives a result; and a result says [exampleFound] exactly
    when it carries an example, and it carries a suggestion exactly
    then. *)
Theorem retrieveLearningExample_outcomes (context : LearningContext) (w : World) :
  let confidence :=
    match ctxConfidence context with Some c => c | None => Fin 0 end in
  let out := retrieveLearningExample env context w in
  (ctxDocType context = None \/ ctxDocType context = Some []
   \/ ge confidence (Fin 0.7) = true ->
   out = (Ok DEFAULT_LEARNING_RESULT, w))
  /\ match fst out with
     | Ok r =>
         (exampleFound r = true <-> exists ex, example r = Some ex)
         /\ (improvementSuggestion r <> None <-> exampleFound r = true)
         /\ (exampleFound r = true ->
             LearningService.toolUsed r
             = match useToolCalling context with Some b => b | None => true end)
     | Throw e =>
         exists err,
           db_all env w GOLD_EXAMPLE_COUNTS_QUERY [VNum (Fin 1)] = Throw err
           /\ e = Error (str "Failed to get gold example counts: "
                         ++ errMessage err)
     end.
Proof.
  intros confidence out. subst out.
  unfold retrieveLearningExample, DEFAULT_CONFIDENCE, DEFAULT_USE_TOOL_CALLING.
  cbv zeta. fold confidence.
  assert (Hdefault :
            (exampleFound DEFAULT_LEARNING_RESULT = true
             <-> exists ex, example DEFAULT_LEARNING_RESULT = Some ex)
            /\ (improvementSuggestion DEFAULT_LEARNING_RESULT <> None
                <-> exampleFound DEFAULT_LEARNING_RESULT = true)
            /\ (exampleFound DEFAULT_LEARNING_RESULT = true ->
                LearningService.toolUsed DEFAULT_LEARNING_RESULT
                = match useToolCalling context with
                  | Some b => b
                  | None => true
                  end)).
  { cbn. split; [split; [discriminate | intros [ex H]; discriminate] |].
    split; [split; [intros H; contradiction H; reflexivity | discriminate] |].
    discriminate. }
  destruct (ctxDocType context) as [[| c docType] |].
  - split; [reflexivity | exact Hdefault].
  - pose proof (shouldUseLearning_decision_aux confidence (c :: docType) w) as H.
    destruct (ge confidence (Fin 0.7)) eqn:Hge.
    + unfold bind. rewrite H. cbn [negb fst]. split; [reflexivity | exact Hdefault].
    + split; [intros [H0 | [H0 | H0]]; discriminate |].
      unfold bind at 1.
      destruct (db_all env w GOLD_EXAMPLE_COUNTS_QUERY [VNum (Fin 1)])
        as [rows | err] eqn:Hall.
      * destruct H as [b ->].
        destruct b; cbn [negb]; [| exact Hdefault].
        unfold tryCatch, bind, ret.
        match goal with
        | |- context [getGoldExample env ?q ?w0] =>
            destruct (getGoldExample env q w0) as [[[ex |] | e] w1]
        end; cbn [fst exampleFound example improvementSuggestion
                    LearningService.toolUsed].
        -- split; [split; [intros _; eexists; reflexivity | reflexivity] |].
           split; [split; [reflexivity | discriminate] | reflexivity].
        -- split; [split; [discriminate | intros [ex H]; discriminate] |].
           split; [split; [intros H; contradiction H; reflexivity | discriminate] |].
           discriminate.
        -- split; [split; [discriminate | intros [ex H]; discriminate] |].
           split; [split; [intros H; contradiction H; reflexivity | discriminate] |].
           discriminate.
      * rewrite H. cbn [fst]. exists err. split; reflexivity.
  - split; [reflexivity | exact Hdefault].
Qed.

End LearningCoverage.


(* ================================================================== *)
(** ** The fields of an extraction *)
(* ================================================================== *)

Section ExtractionCoverage.

Import ValidationService ExtractionService LocationSpec.

Variable env : Env.
Variable service : ExtractionService.

Lemma extraction_llm_unit (value : JsValue) :
  exists l, calculateLLMConfidence value = Fin l /\ (0 <= l <= 0.95)%Q
    /\ (value = VNull \/ value = VUndefined -> l = 0%Q).
Proof.
  unfold calculateLLMConfidence.
  destruct value as [| | b | n | s | items | props];
    try (eexists; split; [reflexivity |]; split; [lra |];
         intros [H | H]; (discriminate H || reflexivity)).
  - cbv zeta.
    destruct (len (trim s) =? 0); [| destruct (len (trim s) <? 2);
                                     [| destruct (len (trim s) <? 5)]];
      (eexists; split; [reflexivity |]; split; [lra |];
       intros [H | H]; discriminate H).
  - destruct items;
      (eexists; split; [reflexivity |]; split; [lra |];
       intros [H | H]; discriminate H).
Qed.

Lemma extraction_clarity_unit (ocrText : jsstring) (keywords : list jsstring) :
  exists c, calculateClarityConfidence ocrText keywords = Fin c
    /\ (0.3 <= c <= 0.95)%Q.
Proof.
  unfold calculateClarityConfidence.
  destruct keywords as [| k keywords]; [eexists; split; [reflexivity | lra] |].
  cbv zeta.
  repeat match goal with
  | |- context [if ?b then _ else _] => destruct b
  end; (eexists; split; [reflexivity | lra]).
Qed.

Lemma validation_confidence_unit (documentType fieldName : jsstring)
  (value : JsValue) :
  let r := validateField env (schemaStore service) documentType fieldName value in
  exists v, confidence r = Fin v /\ (0 <= v <= 1)%Q /\ (passed r = false -> v = 0%Q).
Proof.
  intros r. subst r. unfold validateField.
  destruct (SchemaStore.getSchema (schemaStore service) documentType)
    as [schema |]; [| exists 0%Q; cbn; repeat split; lra].
  destruct (shapeLookup schema fieldName) as [fieldSchema |];
    [| exists 0%Q; cbn; repeat split; lra].
  destruct (safeParse env fieldSchema value) as [[| firstMessage] | e];
    [| exists 0%Q; cbn; repeat split; lra ..].
  cbn [confidence passed].
  unfold calculateValidationConfidence, VALIDATION_CONFIDENCE_ZERO,
    VALIDATION_CONFIDENCE_MODERATE, VALIDATION_CONFIDENCE_GOOD,
    VALIDATION_CONFIDENCE_STRING, VALIDATION_CONFIDENCE_NUMBER,
    VALIDATION_CONFIDENCE_PERFECT.
  repeat match goal with
  | |- context [if ?b then _ else _] => destruct b
  end;
    try (eexists; split; [reflexivity |]; split; [lra | discriminate]).
  destruct value as [| | b | n | [| c s] | items | props];
    (eexists; split; [reflexivity |]; split; [lra | discriminate]).
Qed.

(** X29. The scores of an extracted field whose name is not that of a
    member of a built-in prototype.  The three factors are numbers: the
    LLM factor between 0 and 0.95, the validation factor between 0 and
    1, the clarity factor between 0.3 and 0.95.  The final confidence
    is their product as the code computes it: a number within the
    rounding of five operations (the two multiplications, and three
    binary64 literals) of the rational product, which is at most
    0.9025; it exceeds none of the factors.  The status is [failed]
    exactly when the value does not pass [validateField], and [passed]
    otherwise; a field that fails has validation factor 0 and final
    confidence 0; and a field that reads as null or undefined has value
    null, LLM factor 0 and final confidence 0. *)
Theorem extractField_scores
  (ocrText documentType : jsstring) (threshold : number)
  (fieldKeywords : option (list (jsstring * list jsstring)))
  (extractedData : TypeCoercionService.CoercedData) (ocrPages : list OcrPage)
  (fieldName : jsstring) :
  isBuiltinMember fieldName = false ->
  let given := TypeCoercionService.readField extractedData fieldName in
  let checked :=
    validateField env (schemaStore service) documentType fieldName given in
  let f :=
    extractField env service ocrText documentType threshold fieldKeywords
      extractedData ocrPages fieldName in
  exists l v c qf : Q,
    llm_confidence f = Fin l
    /\ validation_confidence f = Fin v
    /\ clarity_confidence f = Fin c
    /\ final_confidence f = Fin qf
    /\ Spec.withinRounding 5 (l * v * c) qf
    /\ (0 <= l <= 0.95)%Q /\ (0 <= v <= 1)%Q /\ (0.3 <= c <= 0.95)%Q
    /\ (0 <= l * v * c <= 0.9025)%Q
    /\ (0 <= qf)%Q /\ (qf <= l)%Q /\ (qf <= v)%Q /\ (qf <= c)%Q
    /\ (validation_status f = failed_status <-> passed checked = false)
    /\ (validation_status f = passed_status <-> passed checked = true)
    /\ (passed checked = false -> v = 0%Q /\ (qf == 0)%Q)
    /\ (given = VNull \/ given = VUndefined ->
        value f = VNull /\ l = 0%Q /\ (qf == 0)%Q).
Proof.
  intros _ given checked f.
  destruct (extraction_llm_unit given) as (l & Hl & Hlr & Hl0).
  destruct (validation_confidence_unit documentType fieldName given)
    as (v & Hv & Hvr & Hv0).
  fold checked in Hv, Hv0.
  set (keywords :=
         match fieldKeywords with
         | Some table =>
             match List.find (fun kv => JsString.eqb (fst kv) fieldName) table with
             | Some kv => snd kv
             | None => []
             end
         | None => []
         end).
  destruct (extraction_clarity_unit ocrText keywords) as (c & Hc & Hcr).
  exists l, v, c, (l * v * c)%Q.
  assert (Hfl : llm_confidence f = Fin l) by exact Hl.
  assert (Hfv : validation_confidence f = Fin v) by exact Hv.
  assert (Hfc : clarity_confidence f = Fin c) by exact Hc.
  assert (Hff : final_confidence f
                = mul (mul (llm_confidence f) (validation_confidence f))
                    (clarity_confidence f)) by reflexivity.
  assert (Hstatus : validation_status f = getValidationStatus checked)
    by reflexivity.
  assert (Hvalue : value f = match given with VUndefined => VNull | _ => given end)
    by reflexivity.
  assert (H0 : (0 <= l * v)%Q) by nra.
  assert (H1 : (l * v <= 0.95)%Q) by nra.
  assert (H2 : (l * v <= l)%Q) by nra.
  assert (H3 : (l * v <= v)%Q) by nra.
  split; [exact Hfl |]. split; [exact Hfv |]. split; [exact Hfc |].
  split; [rewrite Hff, Hfl, Hfv, Hfc; reflexivity |].
  split.
  { unfold Spec.withinRounding, Spec.BINARY64_EPSILON, Spec.BINARY64_TINY.
    assert (Hd : (l * v * c - l * v * c == 0)%Q) by ring.
    rewrite Hd. change (Qabs 0) with 0%Q.
    pose proof (Qabs_nonneg (l * v * c)) as Habs.
    apply Qmult_le_0_compat; [discriminate |].
    apply Qle_trans with (Qabs (l * v * c) * (1 # 2 ^ 52) + 0)%Q.
    - rewrite Qplus_0_r. apply Qmult_le_0_compat; [exact Habs | discriminate].
    - apply Qplus_le_r. discriminate. }
  split; [exact Hlr |]. split; [exact Hvr |]. split; [exact Hcr |].
  split; [split; nra |].
  split; [nra |]. split; [nra |]. split; [nra |]. split; [nra |].
  split; [| split; [| split]].
  - rewrite Hstatus. unfold getValidationStatus.
    destruct (passed checked);
      destruct (ge (confidence checked) HIGH_CONFIDENCE_THRESHOLD);
      cbn; split; intros; try discriminate; reflexivity.
  - rewrite Hstatus. unfold getValidationStatus.
    destruct (passed checked);
      destruct (ge (confidence checked) HIGH_CONFIDENCE_THRESHOLD);
      cbn; split; intros; try discriminate; reflexivity.
  - intros Hfailed. rewrite (Hv0 Hfailed). split; [reflexivity | ring].
  - intros Hnull. rewrite (Hl0 Hnull). split; [| split; [reflexivity | ring]].
    rewrite Hvalue. destruct Hnull as [-> | ->]; reflexivity.
Qed.

End ExtractionCoverage.

Section FirstMatchingPage.

Import ExtractionService LocationSpec.

Lemma bounded_search (f : nat -> bool) (n : nat) :
  (forall k, (1 <= k <= n)%nat -> f k = false)
  \/ (exists k, (1 <= k <= n)%nat /\ f k = true).
Proof.
  induction n as [| n [IH | (k & Hk & Hf)]].
  - left. intros k Hk. lia.
  - destruct (f (S n)) eqn:E.
    + right. exists (S n). split; [lia | exact E].
    + left. intros k Hk.
      destruct (Nat.eq_dec k (S n)) as [-> | Hne]; [exact E | apply IH; lia].
  - right. exists k. split; [lia | exact Hf].
Qed.

(** A word search that finds a box has a word or a run of words to show. *)
Lemma wordSearch_Some (searchText ns : jsstring) (ws : list OcrWord)
  (box : BBox) :
  wordSearch searchText ns ws = Some box ->
  (exists word, List.In word ws /\ normalize (text word) = ns)
  \/ (exists before span after,
        ws = before ++ span ++ after
        /\ (2 <= List.length span)%nat
        /\ Z.of_nat (List.length span) <= maxLookahead searchText
        /\ spanAccepted searchText ns (spanText span) = true).
Proof.
  revert box. induction ws as [| word rest IH]; intros box; [discriminate |].
  cbn [wordSearch]. fold (maxLookahead searchText).
  pose proof (maxLookahead_pos searchText) as Hml.
  set (reach := Z.to_nat (maxLookahead searchText - 1)).
  destruct (JsString.eqb (normalize (text word)) ns) eqn:Eexact.
  { intros _. left. exists word. split; [left; reflexivity |].
    apply jsstring_eqb_eq. exact Eexact. }
  destruct (bbox word) as [[[bx by_] bw] bh].
  rewrite <- (spanText_single word).
  pose proof (spanSearch_None searchText ns word (List.firstn reach rest) []
                bx by_ (add bx bw) (add by_ bh)) as Hspan.
  cbn [app] in Hspan.
  destruct (spanSearch searchText ns (List.firstn reach rest) (spanText [word])
              bx by_ (add bx bw) (add by_ bh)) as [found |] eqn:Espan.
  - intros _. right.
    destruct (bounded_search
                (fun k => spanAccepted searchText ns
                            (spanText (word :: List.firstn k (List.firstn reach rest))))
                (List.length (List.firstn reach rest)))
      as [Hnone | (k & Hk & Hacc)].
    + apply Hspan in Hnone. discriminate.
    + rewrite List.length_firstn in Hk.
      rewrite List.firstn_firstn in Hacc.
      replace (Nat.min k reach) with k in Hacc by lia.
      exists [], (word :: List.firstn k rest), (List.skipn k rest).
      split; [cbn [app]; rewrite List.firstn_skipn; reflexivity |].
      cbn [List.length]. rewrite List.length_firstn.
      split; [lia |]. split; [lia | exact Hacc].
  - intros Hrest.
    destruct (IH box Hrest)
      as [(w' & Hin & E) | (before & span & after & E & Hlen & Hmax & Hacc)].
    + left. exists w'. split; [right; exact Hin | exact E].
    + right. exists (word :: before), span, after.
      split; [cbn [app]; rewrite E; reflexivity |].
      split; [exact Hlen |]. split; [exact Hmax | exact Hacc].
Qed.

Lemma pageSearch_first (searchText : jsstring) (pages : list OcrPage)
  (n : number) (box : BBox) :
  pageSearch searchText (normalize searchText) pages
    = {| pageNumber := Some n; locationBbox := Some box |} ->
  exists before p after,
    pages = before ++ p :: after
    /\ page p = n
    /\ pageMatches searchText p
    /\ (forall q, List.In q before -> ~ pageMatches searchText q).
Proof.
  induction pages as [| p pages IH]; [discriminate |].
  intros Hfound.
  pose proof (pageSearch_None searchText [p]) as Hone.
  cbn [pageSearch] in Hfound, Hone.
  destruct (wordSearch searchText (normalize searchText) (words p))
    as [found |] eqn:Eword.
  { injection Hfound as <- _. exists [], p, pages.
    split; [reflexivity |]. split; [reflexivity |].
    split; [| intros q []].
    destruct (wordSearch_Some _ _ _ _ Eword)
      as [(word & Hin & E) | (before & span & after & E & Hlen & Hmax & Hacc)].
    - left. exists word. split; assumption.
    - right. left. exists before, span, after. repeat split; assumption. }
  destruct (len (normalize searchText) >? MIN_PARTIAL_MATCH_LENGTH) eqn:Elen.
  - destruct (partialSearch (normalize searchText) (words p)) as [found |] eqn:Epart.
    + injection Hfound as <- _. exists [], p, pages.
      split; [reflexivity |]. split; [reflexivity |].
      split; [| intros q []].
      right. right. split; [apply Z.gtb_lt in Elen; lia |].
      unfold partialSearch in Epart.
      destruct (List.find
                  (fun word => includes (normalize (text word)) (normalize searchText))
                  (words p)) as [word |] eqn:Efind; [| discriminate].
      apply List.find_some in Efind as [Hin Hinc].
      exists word. split; assumption.
    + destruct (IH Hfound) as (before & p' & after & -> & Hpage & Hmatch & Hbefore).
      exists (p :: before), p', after.
      split; [reflexivity |]. split; [exact Hpage |]. split; [exact Hmatch |].
      intros q [<- | Hin]; [| apply Hbefore, Hin].
      apply (proj1 Hone eq_refl). left. reflexivity.
  - destruct (IH Hfound) as (before & p' & after & -> & Hpage & Hmatch & Hbefore).
    exists (p :: before), p', after.
    split; [reflexivity |]. split; [exact Hpage |]. split; [exact Hmatch |].
    intros q [<- | Hin]; [| apply Hbefore, Hin].
    apply (proj1 Hone eq_refl). left. reflexivity.
Qed.

(** X30. A location that [findFieldLocation] returns is on the first
    page that matches: the value has a search text of two characters
    or more, the page number returned is that of a page on which the
    text matches (a word, a run of words or part of a word), and no
    page before it matches. *)
Theorem findFieldLocation_first_matching_page
  (rt : Runtime) (value : JsValue) (pages : list OcrPage)
  (n : number) (box : BBox) :
  findFieldLocation rt value pages
    = {| pageNumber := Some n; locationBbox := Some box |} ->
  exists searchText before p after,
    searchTextOf rt value = Some searchText
    /\ 2 <= len searchText
    /\ pages = before ++ p :: after
    /\ page p = n
    /\ pageMatches searchText p
    /\ (forall q, List.In q before -> ~ pageMatches searchText q).
Proof.
  unfold findFieldLocation. intros Hfound.
  destruct pages as [| p0 pages]; [discriminate |].
  destruct (searchTextOf rt value) as [searchText |]; [| discriminate].
  unfold MIN_SEARCHABLE_TEXT_LENGTH in Hfound.
  destruct (len searchText <? 2) eqn:Elen; [discriminate |].
  apply Z.ltb_ge in Elen.
  destruct (pageSearch_first searchText (p0 :: pages) n box Hfound)
    as (before & p & after & Hpages & Hpage & Hmatch & Hbefore).
  exists searchText, before, p, after.
  split; [reflexivity |]. split; [exact Elen |]. split; [exact Hpages |].
  split; [exact Hpage |]. split; [exact Hmatch | exact Hbefore].
Qed.

End FirstMatchingPage.

Section LocationInstances.

Import Samples SampleDocuments ValidationService ExtractionService LocationSpec.

(** The legal name of the sample W-9: a long string that passes
    validation, on a text that holds half of the keywords of the
    field. *)
Lemma extractField_scores_witness :
  let data :=
    {| TypeCoercionService.ownProperties :=
         [ (str "legal_name", VStr (str "Acme LLC")) ];
       TypeCoercionService.prototype := TypeCoercionService.ObjectPrototype |} in
  let given := TypeCoercionService.readField data (str "legal_name") in
  let checked :=
    validateField envExtraction (schemaStore extractionService) (str "W-9")
      (str "legal_name") given in
  let f :=
    extractField envExtraction extractionService W9_OCR (str "W-9") (Fin 0.7)
      (SchemaStore.getFieldKeywords SchemaStore.create (str "W-9"))
      data [] (str "legal_name") in
  isBuiltinMember (str "legal_name") = false
  /\ llm_confidence f = Fin 0.85
  /\ exists l v c qf : Q,
       llm_confidence f = Fin l
       /\ validation_confidence f = Fin v
       /\ clarity_confidence f = Fin c
       /\ final_confidence f = Fin qf
       /\ Spec.withinRounding 5 (l * v * c) qf
       /\ (0 <= l <= 0.95)%Q /\ (0 <= v <= 1)%Q /\ (0.3 <= c <= 0.95)%Q
       /\ (0 <= l * v * c <= 0.9025)%Q
       /\ (0 <= qf)%Q /\ (qf <= l)%Q /\ (qf <= v)%Q /\ (qf <= c)%Q
       /\ (validation_status f = failed_status <-> passed checked = false)
       /\ (validation_status f = passed_status <-> passed checked = true)
       /\ (passed checked = false -> v = 0%Q /\ (qf == 0)%Q)
       /\ (given = VNull \/ given = VUndefined ->
           value f = VNull /\ l = 0%Q /\ (qf == 0)%Q).
Proof.
  split; [reflexivity |]. split; [reflexivity |].
  apply (extractField_scores envExtraction extractionService W9_OCR (str "W-9")
           (Fin 0.7)
           (SchemaStore.getFieldKeywords SchemaStore.create (str "W-9"))
           {| TypeCoercionService.ownProperties :=
                [ (str "legal_name", VStr (str "Acme LLC")) ];
              TypeCoercionService.prototype :=
                TypeCoercionService.ObjectPrototype |}
           [] (str "legal_name")).
  reflexivity.
Defined.

(** The amount is not on the first sample page and is on the second. *)
Lemma findFieldLocation_first_matching_page_witness :
  exists searchText before p after,
    searchTextOf runtime (VStr (str "1234.56")) = Some searchText
    /\ 2 <= len searchText
    /\ [colonPage; balancePage] = before ++ p :: after
    /\ page p = Fin 1
    /\ pageMatches searchText p
    /\ (forall q, List.In q before -> ~ pageMatches searchText q).
Proof.
  apply (findFieldLocation_first_matching_page runtime (VStr (str "1234.56"))
           [colonPage; balancePage] (Fin 1)
           (Fin 10, Fin 98, Fin (196 + - (10)), Fin (112 + - (98)))).
  vm_compute. reflexivity.
Defined.

End LocationInstances.
